(** * dotnetserde: NRBF and Data Contract decoders, shallow embedding

    The development follows the layout of the Python package:
    - [Py]        : the few Python built-ins the code relies on
                    (exceptions, [str] methods, [int()], [int.bit_length]);
    - [Binary]    : [dotnetserde.binary] — stream reads, the length-prefixed
                    string reader, record handlers and the decode context;
    - [Cli]       : [dotnetserde.cli] — namespaces, types, type instances,
                    values, stringification, the built-ins;
    - [Bridge]    : [dotnetserde.binary.bridge] — lowering of NRBF records;
    - [Xsd]       : [dotnetserde.datacontract.xsdatatypes];
    - [DataContract] : [dotnetserde.datacontract.handlers].

    Python [str] objects are represented by Rocq strings, [bytes] by lists
    of integers in [0, 256), Python [int] by [Z], dictionaries by [gmap]. *)

From Stdlib Require Import ZArith Ascii String List Lia Bool.
From stdpp Require Import gmap strings list fin_maps pretty sorting.

Local Open Scope Z_scope.
#[local] Set Warnings "-register-all".

(* ===================================================================== *)
(** ** Python built-ins                                                   *)
(* ===================================================================== *)
Module Py.

(** Exceptions raised by the package (and the built-in ones it lets
    escape).  [RecursionError] is what CPython raises when the call stack
    is exhausted; the fuel of the recursive models plays that role. *)
Inductive exn : Type :=
  | UnexpectedEOF (expected_length actual_length : Z)
  | VersionMismatch (major_version minor_version : Z)
  | InvalidStreamError (message : string)
  | UnknownRecord (code : Z)
  | UnresolvableLibraryId (library_id : Z)
  | BridgeError (message : string)
  | InvalidDataContractPayload (message : string)
  | ValueError (message : string)
  | KeyError (message : string)
  | IndexError
  | TypeError (message : string)
  | UnicodeDecodeError
  | OverflowError
  | AssertionError
  | AttributeError
  | NotImplementedError
  | RecursionError.

(** Outcome of a call: a returned value or a raised exception. *)
Inductive result (A : Type) : Type :=
  | Ok (a : A)
  | Raise (e : exn).
Arguments Ok {A} a.
Arguments Raise {A} e.

(** Sequencing: an exception raised by the first call skips the rest. *)
#[global] Instance result_ret : MRet result := @Ok.
#[global] Instance result_bind : MBind result := fun A B k m =>
  match m with
  | Ok a => k a
  | Raise e => Raise e
  end.
#[global] Instance result_throw : MThrow exn result := @Raise.

Definition is_ok {A} (m : result A) : bool :=
  match m with Ok _ => true | Raise _ => false end.

(** Code that also updates objects it shares: the state is passed along. *)
Definition M (S A : Type) : Type := S -> result (A * S).

#[global] Instance M_ret {S} : MRet (M S) := fun A a s => Ok (a, s).
#[global] Instance M_bind {S} : MBind (M S) := fun A B k m s =>
  match m s with
  | Ok (a, s') => k a s'
  | Raise e => Raise e
  end.

Definition raise {S A} (e : exn) : M S A := fun _ => Raise e.
Definition get {S} : M S S := fun s => Ok (s, s).
Definition put {S} (s : S) : M S unit := fun _ => Ok (tt, s).
Definition modify {S} (g : S -> S) : M S unit := fun s => Ok (tt, g s).
Definition lift {S A} (r : result A) : M S A := fun s =>
  match r with
  | Ok a => Ok (a, s)
  | Raise e => Raise e
  end.

(** [[g(x) for x in l]] with the calls made from left to right. *)
Fixpoint mapM {S A B} (g : A -> M S B) (l : list A) : M S (list B) :=
  match l with
  | [] => mret []
  | x :: l' => y ← g x; ys ← mapM g l'; mret (y :: ys)
  end.

(** *** [dict] with insertion order: [d.get(k)] and [d[k] = v] *)
Fixpoint dict_get {K V} `{EqDecision K} (k : K) (d : list (K * V)) : option V :=
  match d with
  | [] => None
  | (k', v) :: d' => if decide (k' = k) then Some v else dict_get k d'
  end.

Fixpoint dict_set {K V} `{EqDecision K} (k : K) (v : V) (d : list (K * V))
    : list (K * V) :=
  match d with
  | [] => [(k, v)]
  | (k', v') :: d' =>
      if decide (k' = k) then (k', v) :: d' else (k', v') :: dict_set k v d'
  end.

(** [dict(pairs)]: later pairs overwrite earlier ones with the same key. *)
Definition dict_of_pairs {K V} `{EqDecision K} (l : list (K * V)) : list (K * V) :=
  fold_left (fun d kv => dict_set (fst kv) (snd kv) d) l [].

(** [sorted(l, key=...)] once the keys are known: a stable insertion sort. *)
Fixpoint insert_by_key {A} (k : nat) (x : A) (l : list (nat * A)) : list (nat * A) :=
  match l with
  | [] => [(k, x)]
  | (k', y) :: l' =>
      if (k <? k')%nat then (k, x) :: l else (k', y) :: insert_by_key k x l'
  end.

Definition sorted_by_key {A} (l : list (nat * A)) : list A :=
  map snd (fold_left (fun acc kx => insert_by_key (fst kx) (snd kx) acc) l []).

(** *** [str] methods

    A Python [str] is represented by the Rocq string of its characters.
    The methods below act on the ASCII range, which is where the package
    looks: separators, digits, the letters of "true" and "false".  (No
    character outside ASCII lower-cases to one of those letters.) *)

Definition lower_char (c : ascii) : ascii :=
  let n := nat_of_ascii c in
  if (65 <=? n)%nat && (n <=? 90)%nat then ascii_of_nat (n + 32) else c.

(** [s.lower()]. *)
Fixpoint lower (s : string) : string :=
  match s with
  | EmptyString => EmptyString
  | String c s' => String (lower_char c) (lower s')
  end.

(** Characters [str.strip()] and [int()] treat as white space. *)
Definition is_space (c : ascii) : bool :=
  let n := nat_of_ascii c in
  ((9 <=? n)%nat && (n <=? 13)%nat) || ((28 <=? n)%nat && (n <=? 32)%nat).

Fixpoint lstrip (s : string) : string :=
  match s with
  | String c s' => if is_space c then lstrip s' else s
  | EmptyString => EmptyString
  end.

Fixpoint rstrip (s : string) : string :=
  match s with
  | EmptyString => EmptyString
  | String c s' =>
      match rstrip s' with
      | EmptyString => if is_space c then EmptyString else String c EmptyString
      | r => String c r
      end
  end.

(** [s.strip()]. *)
Definition strip (s : string) : string := rstrip (lstrip s).

(** [s.partition(sep)] for a one-character separator: the part before the
    first occurrence, the separator itself (empty when absent), the rest. *)
Fixpoint partition (sep : ascii) (s : string) : string * string * string :=
  match s with
  | EmptyString => (EmptyString, EmptyString, EmptyString)
  | String c s' =>
      if Ascii.eqb c sep then (EmptyString, String sep EmptyString, s')
      else
        let '(a, m, b) := partition sep s' in
        match m with
        | EmptyString => (s, EmptyString, EmptyString)
        | _ => (String c a, m, b)
        end
  end.

(** [s.rpartition(sep)]: split at the last occurrence; when the separator
    is absent the whole string is the third component. *)
Fixpoint rpartition (sep : ascii) (s : string) : string * string * string :=
  match s with
  | EmptyString => (EmptyString, EmptyString, EmptyString)
  | String c s' =>
      let '(a, m, b) := rpartition sep s' in
      match m with
      | EmptyString =>
          if Ascii.eqb c sep then (EmptyString, String sep EmptyString, s')
          else (EmptyString, EmptyString, s)
      | _ => (String c a, m, b)
      end
  end.

(** [s.split(sep)] for a one-character separator. *)
Fixpoint split (sep : ascii) (s : string) : list string :=
  match s with
  | EmptyString => [EmptyString]
  | String c s' =>
      if Ascii.eqb c sep then EmptyString :: split sep s'
      else
        match split sep s' with
        | [] => [String c EmptyString]
        | w :: ws => String c w :: ws
        end
  end.

(** [sep.join(parts)]. *)
Fixpoint join (sep : string) (parts : list string) : string :=
  match parts with
  | [] => EmptyString
  | [p] => p
  | p :: ps => p +:+ sep +:+ join sep ps
  end.

(** Truthiness of a [str]: non-empty. *)
Definition nonempty (s : string) : bool :=
  match s with EmptyString => false | _ => true end.

(** *** [bytes.decode("utf-8")]

    The decoded text keeps its UTF-8 bytes as the characters of the Rocq
    string; decoding is the well-formedness check of the byte sequence. *)

Definition in_range (lo hi x : Z) : bool := (lo <=? x) && (x <=? hi).

Fixpoint utf8_valid (b : list Z) : bool :=
  match b with
  | [] => true
  | x :: b1 =>
      if in_range 0 127 x then utf8_valid b1
      else
        match b1 with
        | [] => false
        | y :: b2 =>
            if in_range 194 223 x then in_range 128 191 y && utf8_valid b2
            else
              match b2 with
              | [] => false
              | z :: b3 =>
                  if in_range 224 239 x then
                    (if x =? 224 then in_range 160 191 y
                     else if x =? 237 then in_range 128 159 y
                     else in_range 128 191 y)
                    && in_range 128 191 z && utf8_valid b3
                  else
                    match b3 with
                    | [] => false
                    | w :: b4 =>
                        in_range 240 244 x
                        && (if x =? 240 then in_range 144 191 y
                            else if x =? 244 then in_range 128 143 y
                            else in_range 128 191 y)
                        && in_range 128 191 z && in_range 128 191 w
                        && utf8_valid b4
                    end
              end
        end
  end.

Definition string_of_bytes (b : list Z) : string :=
  string_of_list_ascii (map (fun x => ascii_of_nat (Z.to_nat x)) b).

Definition bytes_of_string (s : string) : list Z :=
  map (fun c => Z.of_nat (nat_of_ascii c)) (list_ascii_of_string s).

Definition utf8_decode (b : list Z) : result string :=
  if utf8_valid b then Ok (string_of_bytes b) else Raise UnicodeDecodeError.

(** *** [int(s)]

    Base-10 parsing as CPython does it: surrounding white space is
    dropped, one sign is allowed, single underscores may separate digits.
    Anything else is a [ValueError]. *)

Definition digit_of (c : ascii) : option Z :=
  let n := nat_of_ascii c in
  if (48 <=? n)%nat && (n <=? 57)%nat then Some (Z.of_nat (n - 48)) else None.

(** [digits acc prev_digit s]: [prev_digit] tells whether the previous
    character was a digit (an underscore must stand between two digits). *)
Fixpoint digits (acc : Z) (prev_digit : bool) (s : string) : option Z :=
  match s with
  | EmptyString => if prev_digit then Some acc else None
  | String c s' =>
      match digit_of c with
      | Some d => digits (10 * acc + d) true s'
      | None =>
          if Ascii.eqb c "_"%char && prev_digit then
            match s' with
            | String c' _ =>
                match digit_of c' with
                | Some _ => digits acc false s'
                | None => None
                end
            | EmptyString => None
            end
          else None
      end
  end.

Definition int_of_str (s : string) : result Z :=
  let body := strip s in
  let '(sign, rest) :=
    match body with
    | String "-"%char r => (-1, r)
    | String "+"%char r => (1, r)
    | _ => (1, body)
    end in
  match rest with
  | EmptyString => Raise (ValueError "invalid literal for int()")
  | _ =>
      match digits 0 false rest with
      | Some v => Ok (sign * v)
      | None => Raise (ValueError "invalid literal for int()")
      end
  end.

(** [n.bit_length()]: the number of bits of [abs n], zero for zero. *)
Definition bit_length (n : Z) : Z :=
  if n =? 0 then 0 else Z.log2 (Z.abs n) + 1.

End Py.
Export Py.


(* ===================================================================== *)
(** ** dotnetserde.binary: byte streams and primitive readers             *)
(* ===================================================================== *)
Module Binary.

(** A [typing.BinaryIO] positioned somewhere in its data: the bytes that
    are still unread. *)
Definition stream := list Z.

(** [read(f, n)]: [f.read(n)] then the short-read check.  A negative [n]
    makes [f.read] return everything up to the end of the stream, which is
    never shorter than [n]. *)
Definition read (f : stream) (n : Z) : result (list Z * stream) :=
  if n <? 0 then Ok (f, [])
  else
    let b := take (Z.to_nat n) f in
    if Z.of_nat (length b) <? n
    then Raise (UnexpectedEOF n (Z.of_nat (length b)))
    else Ok (b, drop (Z.to_nat n) f).

(** [b[0]] of a one-byte read. *)
Definition byte0 (b : list Z) : Z := nth 0 b 0.

(** *** [struct.unpack] with the ["<"] (little-endian, packed) formats *)

Fixpoint unsigned_le (b : list Z) : Z :=
  match b with
  | [] => 0
  | x :: b' => x + 256 * unsigned_le b'
  end.

Definition signed_le (b : list Z) : Z :=
  let bits := 8 * Z.of_nat (length b) in
  let u := unsigned_le b in
  if u <? 2 ^ (bits - 1) then u else u - 2 ^ bits.

(** ["<l"], ["<h"], ["<q"], ["<b"]: signed; ["<L"], ["<H"], ["<Q"], ["<B"]:
    unsigned.  The width is the length of the bytes read for the field. *)
Definition unpack_l (b : list Z) : Z := signed_le (take 4 b).
Definition unpack_h (b : list Z) : Z := signed_le (take 2 b).
Definition unpack_q (b : list Z) : Z := signed_le (take 8 b).
Definition unpack_b (b : list Z) : Z := signed_le (take 1 b).
Definition unpack_L (b : list Z) : Z := unsigned_le (take 4 b).
Definition unpack_H (b : list Z) : Z := unsigned_le (take 2 b).
Definition unpack_Q (b : list Z) : Z := unsigned_le (take 8 b).

(** [f"<{n}l"]: [n] consecutive signed 32-bit integers. *)
Fixpoint unpack_ls (n : nat) (b : list Z) : list Z :=
  match n with
  | O => []
  | S n' => unpack_l b :: unpack_ls n' (drop 4 b)
  end.

(** [struct.pack("<l", v)], used to write streams down in examples. *)
Definition pack_l (v : Z) : list Z :=
  let u := v mod 4294967296 in
  [u mod 256; (u / 256) mod 256; (u / 65536) mod 256; (u / 16777216) mod 256].

(** [int(struct.unpack("<d", b)[0])] and [int(struct.unpack("<f", b)[0])]:
    the float an IEEE-754 bit pattern denotes, truncated towards zero.
    [int()] of an infinity is an [OverflowError], of a NaN a [ValueError]. *)
Definition int_of_ieee (ebits fbits : Z) (u : Z) : result Z :=
  let frac := u mod 2 ^ fbits in
  let e := (u / 2 ^ fbits) mod 2 ^ ebits in
  let neg := 0 <? u / 2 ^ (fbits + ebits) in
  if e =? 2 ^ ebits - 1 then
    if frac =? 0 then Raise OverflowError
    else Raise (ValueError "cannot convert float NaN to integer")
  else
    let m := if e =? 0 then frac else frac + 2 ^ fbits in
    let sh := (if e =? 0 then 1 else e) - (2 ^ (ebits - 1) - 1) - fbits in
    let mag := if 0 <=? sh then m * 2 ^ sh else m / 2 ^ (- sh) in
    Ok (if neg then - mag else mag).

Definition int_of_double (b : list Z) : result Z := int_of_ieee 11 52 (unpack_Q b).
Definition int_of_single (b : list Z) : result Z := int_of_ieee 8 23 (unpack_L b).

(** *** [dotnetserde.binary.models] *)

Module BinaryType.
Inductive t := PRIMITIVE | STRING | OBJECT | SYSTEM_CLASS | CLASS
             | OBJECT_ARRAY | STRING_ARRAY | PRIMITIVE_ARRAY.
(** [BinaryType(v)]; [None] stands for the [ValueError] of the enum. *)
Definition of_Z (v : Z) : option t :=
  match v with
  | 0 => Some PRIMITIVE | 1 => Some STRING | 2 => Some OBJECT
  | 3 => Some SYSTEM_CLASS | 4 => Some CLASS | 5 => Some OBJECT_ARRAY
  | 6 => Some STRING_ARRAY | 7 => Some PRIMITIVE_ARRAY
  | _ => None
  end.
End BinaryType.

Module PrimitiveType.
Inductive t := BOOLEAN | BYTE | CHAR | DECIMAL | DOUBLE | INT16 | INT32
             | INT64 | SBYTE | SINGLE | TIMESPAN | DATETIME | UINT16
             | UINT32 | UINT64 | NULL | STRING.
Definition of_Z (v : Z) : option t :=
  match v with
  | 1 => Some BOOLEAN | 2 => Some BYTE | 3 => Some CHAR | 5 => Some DECIMAL
  | 6 => Some DOUBLE | 7 => Some INT16 | 8 => Some INT32 | 9 => Some INT64
  | 10 => Some SBYTE | 11 => Some SINGLE | 12 => Some TIMESPAN
  | 13 => Some DATETIME | 14 => Some UINT16 | 15 => Some UINT32
  | 16 => Some UINT64 | 17 => Some NULL | 18 => Some STRING
  | _ => None
  end.
#[global] Instance eq_dec : EqDecision t.
Proof. solve_decision. Defined.
End PrimitiveType.

Module BinaryArrayType.
Inductive t := SINGLE | JAGGED | RECTANGULAR | SINGLE_OFFSET
             | JAGGED_OFFSET | RECTANGULAR_OFFSET.
Definition of_Z (v : Z) : option t :=
  match v with
  | 0 => Some SINGLE | 1 => Some JAGGED | 2 => Some RECTANGULAR
  | 3 => Some SINGLE_OFFSET | 4 => Some JAGGED_OFFSET
  | 5 => Some RECTANGULAR_OFFSET
  | _ => None
  end.
Definition is_offset (k : t) : bool :=
  match k with
  | SINGLE_OFFSET | JAGGED_OFFSET | RECTANGULAR_OFFSET => true
  | _ => false
  end.
#[global] Instance eq_dec : EqDecision t.
Proof. solve_decision. Defined.
End BinaryArrayType.

Module ClassTypeInfo.
Record t := mk { name : string; library_id : Z }.
End ClassTypeInfo.

(** [TypeInfo.additional_info]:
    [Union[PrimitiveType, ClassTypeInfo, str, None]]. *)
Inductive additional_info :=
  | APrimitive (p : PrimitiveType.t)
  | AClassTypeInfo (c : ClassTypeInfo.t)
  | AStr (s : string)
  | ANone.

Module TypeInfo.
Record t := mk { binary_type : BinaryType.t; additional_info : additional_info }.
End TypeInfo.

Module MemberInfo.
Record t := mk { name : string; type_info : TypeInfo.t }.
End MemberInfo.

Module ClassInfo.
Record t := mk {
  object_id : Z;
  name : string;
  members : list MemberInfo.t;
  library_id : option Z }.
End ClassInfo.

Module ArrayInfo.
Record t := mk {
  object_id : Z;
  shape : list Z;
  lower_bounds : list Z;
  type : option BinaryArrayType.t;
  type_info : option TypeInfo.t }.
End ArrayInfo.

Module LibraryInfo.
Record t := mk {
  name : string;
  version : string;
  culture : string;
  public_key_token : option string }.
End LibraryInfo.

(** [datetime.tzinfo] of a decoded [DateTime]: naive, UTC, or whatever the
    injected [timezone_localizer] attached. *)
Inductive tzinfo := Naive | Utc | Localized.

Module DateTime.
Record t := mk {
  ordinal : Z;  (* proleptic Gregorian ordinal of the date *)
  hour : Z; minute : Z; second : Z; microsecond : Z;
  tz : tzinfo }.
End DateTime.

(** [Instance] and [Array] objects are mutable and shared between the
    object table and the value lists that hold them, so they live in a
    heap and are referred to by address. *)
Definition addr := nat.

(** What a member or element slot can hold ([typing.Any] in the source). *)
Inductive value :=
  | VNone
  | VBool (b : bool)
  | VInt (z : Z)
  | VStr (s : string)
  | VTimedelta (ticks : Z)   (* timedelta(microseconds = ticks / 10.0) *)
  | VDatetime (d : DateTime.t)
  | VObjectReference (object_id : Z)
  | VObj (a : addr).

Inductive obj :=
  | Instance (class_info : ClassInfo.t) (values : option (list value))
  | Array (array_info : ArrayInfo.t) (values : option (list value)).

(** [value.values = ...] on the object at an address. *)
Definition set_values (vs : list value) (o : obj) : obj :=
  match o with
  | Instance ci _ => Instance ci (Some vs)
  | Array ai _ => Array ai (Some vs)
  end.

(** *** [dotnetserde.binary.deserialization._DeserializationContext] *)

Module DeserializationContext.
Record t := mk {
  root_id : option Z;
  header_id : option Z;
  major_version : option Z;
  minor_version : option Z;
  library_id_name_mappings : gmap Z string;
  objects : gmap Z value;
  heap : list obj }.

(** [__init__] *)
Definition init : t := mk None None None None ∅ ∅ [].

Definition set_header (root_id header_id major_version minor_version : Z)
    (ctx : t) : t :=
  mk (Some root_id) (Some header_id) (Some major_version) (Some minor_version)
     (library_id_name_mappings ctx) (objects ctx) (heap ctx).

Definition add_library_id_name_mapping (id_ : Z) (name : string) (ctx : t) : t :=
  mk (root_id ctx) (header_id ctx) (major_version ctx) (minor_version ctx)
     (<[id_ := name]> (library_id_name_mappings ctx)) (objects ctx) (heap ctx).

Definition library_id_resolvable (id_ : Z) (ctx : t) : bool :=
  bool_decide (is_Some (library_id_name_mappings ctx !! id_)).

Definition add_object (id_ : Z) (instance : value) (ctx : t) : t :=
  mk (root_id ctx) (header_id ctx) (major_version ctx) (minor_version ctx)
     (library_id_name_mappings ctx) (<[id_ := instance]> (objects ctx)) (heap ctx).

Definition fetch_object (id_ : Z) (ctx : t) : result value :=
  match objects ctx !! id_ with
  | Some v => Ok v
  | None => Raise (KeyError "object id")
  end.

(** Construction of a new [Instance] or [Array] object. *)
Definition alloc (o : obj) (ctx : t) : addr * t :=
  (length (heap ctx),
   mk (root_id ctx) (header_id ctx) (major_version ctx) (minor_version ctx)
      (library_id_name_mappings ctx) (objects ctx) (heap ctx ++ [o])).

(** Attribute assignment on the object at [a]. *)
Definition update (a : addr) (g : obj -> obj) (ctx : t) : t :=
  mk (root_id ctx) (header_id ctx) (major_version ctx) (minor_version ctx)
     (library_id_name_mappings ctx) (objects ctx)
     (match heap ctx !! a with
      | Some o => <[a := g o]> (heap ctx)
      | None => heap ctx
      end).
End DeserializationContext.
Section LengthPrefixedString.

(** [bytes.decode(self.encoding)], the reader's constructor argument. *)
Variable decode : list Z -> result string.

(** The common tail of every exit of the reader:
    [b = read(f, l); return b.decode(self.encoding)]. *)
Definition read_and_decode (f : stream) (l : Z) : result (string * stream) :=
  '(b, f) ← read f l;
  s ← decode b;
  Ok (s, f).

(** [_LengthPrefixedStringReader.__call__]. *)
Definition _LengthPrefixedStringReader (f : stream) : result (string * stream) :=
  '(b, f) ← read f 1;
  let l := byte0 b in
  if l <=? 127 then read_and_decode f l
  else
  '(b, f) ← read f 1;
  let ll := byte0 b in
  let l := Z.lor (Z.land l 127) (Z.land ll 127 * 128) in
  if ll <=? 127 then read_and_decode f l
  else
  '(b, f) ← read f 1;
  let ll := byte0 b in
  let l := Z.lor (Z.land l 127) (Z.land ll 127 * 16384) in
  if ll <=? 127 then read_and_decode f l
  else
  '(b, f) ← read f 1;
  let ll := byte0 b in
  let l := Z.lor (Z.land l 127) (Z.land ll 127 * 2097152) in
  if ll <=? 127 then read_and_decode f l
  else
  '(b, f) ← read f 1;
  let ll := byte0 b in
  let l := Z.lor (Z.land l 127) (Z.land ll 127 * 268435456) in
  if ll <=? 127 then read_and_decode f l
  else Raise (InvalidStreamError "invalid length prefix").

End LengthPrefixedString.

(** *** Record handlers ([dotnetserde.binary.handlers])

    A handler's [deserialize(ctx, f)] returns [(iterator or None, continue)];
    it may update the context and advances the stream.  Every iterator the
    package builds is drained on the spot ([list(...)] or the dispatch
    loop), so it is represented by the list of what it yields. *)
Definition handler_result : Type :=
  option (list value) * bool * DeserializationContext.t * stream.
Definition handler : Type :=
  DeserializationContext.t -> stream -> result handler_result.

Import DeserializationContext.

Section Handlers.

Variable decode : list Z -> result string.
(** [utils.localize_timezone], injected into the primitive reader. *)
Variable timezone_localizer : DateTime.t -> DateTime.t.
(** The [member_record_handlers] mapping the element reader is built
    with ([dict.get]: [None] for an unknown code). *)
Variable member_record_handlers : Z -> option handler.

Definition length_prefixed_string_reader := _LengthPrefixedStringReader decode.

Fixpoint read_strings (n : nat) (f : stream) : result (list string * stream) :=
  match n with
  | O => Ok ([], f)
  | S n' =>
      '(s, f) ← length_prefixed_string_reader f;
      '(ss, f) ← read_strings n' f;
      Ok (s :: ss, f)
  end.

(** [_ClassInfoReader.__call__] *)
Definition _ClassInfoReader (f : stream)
    : result (Z * string * list string * stream) :=
  '(b, f) ← read f 4;
  let object_id := unpack_l b in
  '(name, f) ← length_prefixed_string_reader f;
  '(b, f) ← read f 4;
  let member_count := unpack_l b in
  '(member_names, f) ← read_strings (Z.to_nat member_count) f;
  Ok (object_id, name, member_names, f).

(** [_ClassTypeInfoReader.__call__] *)
Definition _ClassTypeInfoReader (ctx : DeserializationContext.t) (f : stream)
    : result (ClassTypeInfo.t * stream) :=
  '(typename, f) ← length_prefixed_string_reader f;
  '(b, f) ← read f 4;
  let library_id := unpack_l b in
  Ok (ClassTypeInfo.mk typename library_id, f).

(** [read_primitive] / [read_primitive_array] of the additional-info
    readers. *)
Definition read_primitive_type (f : stream) : result (additional_info * stream) :=
  '(b, f) ← read f 1;
  match PrimitiveType.of_Z (byte0 b) with
  | Some p => Ok (APrimitive p, f)
  | None => Raise (InvalidStreamError "unknown primitive type")
  end.

(** [_MemberTypeInfoReader.read_additional_info] (the same table is
    repeated in [BinaryArrayHandler]). *)
Definition read_additional_info (ctx : DeserializationContext.t)
    (binary_type : BinaryType.t) (f : stream) : result (additional_info * stream) :=
  match binary_type with
  | BinaryType.PRIMITIVE => read_primitive_type f
  | BinaryType.STRING => Ok (ANone, f)
  | BinaryType.OBJECT => Ok (ANone, f)
  | BinaryType.SYSTEM_CLASS =>
      '(s, f) ← length_prefixed_string_reader f; Ok (AStr s, f)
  | BinaryType.CLASS =>
      '(c, f) ← _ClassTypeInfoReader ctx f; Ok (AClassTypeInfo c, f)
  | BinaryType.OBJECT_ARRAY => Ok (ANone, f)
  | BinaryType.STRING_ARRAY => Ok (ANone, f)
  | BinaryType.PRIMITIVE_ARRAY => read_primitive_type f
  end.

(** The loop of [_MemberTypeInfoReader.__call__] over
    [zip(member_names, b)]. *)
Fixpoint read_member_infos (ctx : DeserializationContext.t)
    (member_names : list string) (b : list Z) (f : stream)
    : result (list MemberInfo.t * stream) :=
  match member_names, b with
  | name :: member_names', binary_type_value :: b' =>
      match BinaryType.of_Z binary_type_value with
      | None => Raise (InvalidStreamError "unknown binary type")
      | Some binary_type =>
          '(additional, f) ← read_additional_info ctx binary_type f;
          '(members, f) ← read_member_infos ctx member_names' b' f;
          Ok (MemberInfo.mk name (TypeInfo.mk binary_type additional) :: members, f)
      end
  | _, _ => Ok ([], f)
  end.

(** [_MemberTypeInfoReader.__call__] *)
Definition _MemberTypeInfoReader (ctx : DeserializationContext.t)
    (member_names : list string) (f : stream)
    : result (list MemberInfo.t * stream) :=
  '(b, f) ← read f (Z.of_nat (length member_names));
  read_member_infos ctx member_names b f.

(** [_UntypedPrimitiveValueReader.read_datetime] *)
Definition read_datetime (f : stream) : result (list value * stream) :=
  '(b, f) ← read f 8;
  let ticks := unpack_Q b in
  let kind := Z.shiftr ticks 62 in
  let ticks := Z.land ticks 4611686018427387903 in
  let microsecond := (ticks mod 10000000) / 10 in
  let ticks := ticks / 10000000 in
  let second := ticks mod 60 in
  let ticks := ticks / 60 in
  let minute := ticks mod 60 in
  let ticks := ticks / 60 in
  let hour := ticks mod 24 in
  let ticks := ticks / 24 in
  (* datetime.date.fromordinal: the ordinal must not pass date.max *)
  if 3652059 <? ticks + 1 then Raise (ValueError "ordinal out of range")
  else
    let dt := DateTime.mk (ticks + 1) hour minute second microsecond Naive in
    if kind =? 0 then Ok ([VDatetime dt], f)
    else if kind =? 1 then
      Ok ([VDatetime (DateTime.mk (ticks + 1) hour minute second microsecond Utc)], f)
    else if kind =? 2 then Ok ([VDatetime (timezone_localizer dt)], f)
    else Raise (InvalidStreamError "unknown datetime kind").

(** [_UntypedPrimitiveValueReader.__call__]: the [readers] table and the
    [read_*] methods; each yields exactly one value. *)
Definition _UntypedPrimitiveValueReader (primitive_type : PrimitiveType.t)
    (f : stream) : result (list value * stream) :=
  match primitive_type with
  | PrimitiveType.BOOLEAN =>
      '(b, f) ← read f 1; Ok ([VBool (negb (byte0 b =? 0))], f)
  | PrimitiveType.BYTE =>
      '(b, f) ← read f 1; Ok ([VInt (byte0 b)], f)
  | PrimitiveType.CHAR =>
      '(b, f) ← read f 2; Ok ([VInt (unpack_h b)], f)
  | PrimitiveType.DECIMAL => Raise NotImplementedError
  | PrimitiveType.DOUBLE =>
      '(b, f) ← read f 8; v ← int_of_double b; Ok ([VInt v], f)
  | PrimitiveType.INT16 =>
      '(b, f) ← read f 2; Ok ([VInt (unpack_h b)], f)
  | PrimitiveType.INT32 =>
      '(b, f) ← read f 4; Ok ([VInt (unpack_l b)], f)
  | PrimitiveType.INT64 =>
      '(b, f) ← read f 8; Ok ([VInt (unpack_q b)], f)
  | PrimitiveType.SBYTE =>
      '(b, f) ← read f 1; Ok ([VInt (unpack_b b)], f)
  | PrimitiveType.SINGLE =>
      '(b, f) ← read f 4; v ← int_of_single b; Ok ([VInt v], f)
  | PrimitiveType.TIMESPAN =>
      '(b, f) ← read f 8; Ok ([VTimedelta (unpack_q b)], f)
  | PrimitiveType.DATETIME => read_datetime f
  | PrimitiveType.UINT16 =>
      '(b, f) ← read f 2; Ok ([VInt (unpack_H b)], f)
  | PrimitiveType.UINT32 =>
      '(b, f) ← read f 4; Ok ([VInt (unpack_L b)], f)
  | PrimitiveType.UINT64 =>
      '(b, f) ← read f 8; Ok ([VInt (unpack_Q b)], f)
  | PrimitiveType.NULL => Raise NotImplementedError
  | PrimitiveType.STRING =>
      '(s, f) ← length_prefixed_string_reader f; Ok ([VStr s], f)
  end.

(** [read_array_info] *)
Definition read_array_info (f : stream) : result (ArrayInfo.t * stream) :=
  '(b, f) ← read f 8;
  let object_id := unpack_l b in
  let length := unpack_l (drop 4 b) in
  Ok (ArrayInfo.mk object_id [length] [0] None None, f).

(** **** [_ElementValueReader] *)

(** [read_member_reference]; [read_string] and [read_object] have the
    same body. *)
Definition read_member_reference (ctx : DeserializationContext.t) (f : stream)
    : result (list value * DeserializationContext.t * stream) :=
  '(b, f) ← read f 1;
  match member_record_handlers (byte0 b) with
  | None => Raise (UnknownRecord (byte0 b))
  | Some handler =>
      '(i, continue_, ctx, f) ← handler ctx f;
      if negb continue_ then Raise AssertionError
      else match i with
           | None => Raise AssertionError
           | Some i => Ok (i, ctx, f)
           end
  end.

(** [read_primitive]: [while c > 0], one primitive per turn. *)
Fixpoint read_primitive_loop (primitive_type : PrimitiveType.t) (c : nat)
    (f : stream) : result (list value * stream) :=
  match c with
  | O => Ok ([], f)
  | S c' =>
      '(elements, f) ← _UntypedPrimitiveValueReader primitive_type f;
      '(rest, f) ← read_primitive_loop primitive_type c' f;
      Ok (elements ++ rest, f)
  end.

Definition read_primitive (ctx : DeserializationContext.t)
    (type_info : TypeInfo.t) (n : Z) (f : stream)
    : result (list value * DeserializationContext.t * stream) :=
  if n <=? 0 then Ok ([], ctx, f)
  else
    match TypeInfo.additional_info type_info with
    | APrimitive primitive_type =>
        '(vs, f) ← read_primitive_loop primitive_type (Z.to_nat n) f;
        Ok (vs, ctx, f)
    | _ => Raise (KeyError "primitive type")
    end.

(** [read_system_class] / [read_class]: [while c > 0], one member record
    per turn, [c] lowered by the number of values the record produced.
    Every turn consumes at least the record's code byte, so the number of
    turns is bounded by the length of the stream; [turns] carries that
    bound. *)
Fixpoint read_class_loop (turns : nat) (c : Z)
    (ctx : DeserializationContext.t) (f : stream)
    : result (list value * DeserializationContext.t * stream) :=
  if c <=? 0 then Ok ([], ctx, f)
  else
    match turns with
    | O => Raise RecursionError
    | S turns' =>
        '(elements, ctx, f) ← read_member_reference ctx f;
        '(rest, ctx, f) ←
           read_class_loop turns' (c - Z.of_nat (length elements)) ctx f;
        Ok (elements ++ rest, ctx, f)
    end.

Definition read_class (ctx : DeserializationContext.t)
    (type_info : TypeInfo.t) (n : Z) (f : stream)
    : result (list value * DeserializationContext.t * stream) :=
  read_class_loop (S (length f)) n ctx f.

(** [_ElementValueReader.__call__]: the [readers] table applied to each
    [(type_info, n)] in turn. *)
Fixpoint _ElementValueReader (ctx : DeserializationContext.t)
    (elements : list (TypeInfo.t * Z)) (f : stream)
    : result (list value * DeserializationContext.t * stream) :=
  match elements with
  | [] => Ok ([], ctx, f)
  | (type_info, n) :: elements' =>
      '(vs, ctx, f) ←
         match TypeInfo.binary_type type_info with
         | BinaryType.PRIMITIVE => read_primitive ctx type_info n f
         | BinaryType.STRING => read_member_reference ctx f
         | BinaryType.OBJECT => read_member_reference ctx f
         | BinaryType.SYSTEM_CLASS => read_class ctx type_info n f
         | BinaryType.CLASS => read_class ctx type_info n f
         | BinaryType.OBJECT_ARRAY => Raise NotImplementedError
         | BinaryType.STRING_ARRAY => Raise NotImplementedError
         | BinaryType.PRIMITIVE_ARRAY => Raise NotImplementedError
         end;
      '(rest, ctx, f) ← _ElementValueReader ctx elements' f;
      Ok (vs ++ rest, ctx, f)
  end.

(** [((member.type_info, 1) for member in class_info.members)] *)
Definition member_elements (class_info : ClassInfo.t) : list (TypeInfo.t * Z) :=
  map (fun member => (MemberInfo.type_info member, 1)) (ClassInfo.members class_info).

Definition element_value_reader := _ElementValueReader.

(** **** The record handlers, by [CODE] *)

(** [SerializedStreamHandler.deserialize] (code 0) *)
Definition SerializedStreamHandler : handler := fun ctx f =>
  '(b, f) ← read f 16;
  let root_id := unpack_l b in
  let header_id := unpack_l (drop 4 b) in
  let major_version := unpack_l (drop 8 b) in
  let minor_version := unpack_l (drop 12 b) in
  if negb (major_version =? 1) && negb (minor_version =? 0)
  then Raise (VersionMismatch major_version minor_version)
  else
    let ctx := set_header root_id header_id major_version minor_version ctx in
    Ok (None, true, ctx, f).

(** [ClassWithIdHandler.deserialize] (code 1) *)
Definition ClassWithIdHandler : handler := fun ctx f =>
  '(b, f) ← read f 8;
  let object_id := unpack_l b in
  let metadata_id := unpack_l (drop 4 b) in
  that_object ← fetch_object metadata_id ctx;
  match that_object with
  | VObj that_addr =>
      match heap ctx !! that_addr with
      | Some (Instance that_class_info _) =>
          '(values, ctx, f) ←
             element_value_reader ctx (member_elements that_class_info) f;
          let '(value, ctx) := alloc (Instance that_class_info (Some values)) ctx in
          let ctx := add_object object_id that_object ctx in
          Ok (Some [VObj value], true, ctx, f)
      | _ => Raise AssertionError
      end
  | _ => Raise AssertionError
  end.

(** Codes 2, 3, 8, 16, 17, 21, 22: [raise NotImplementedError()] *)
Definition SystemClassWithMembersHandler : handler :=
  fun _ _ => Raise NotImplementedError.
Definition ClassWithMembersHandler : handler :=
  fun _ _ => Raise NotImplementedError.
Definition MemberPrimitiveTypedHandler : handler :=
  fun _ _ => Raise NotImplementedError.
Definition ArraySingleObjectHandler : handler :=
  fun _ _ => Raise NotImplementedError.
Definition ArraySingleStringHandler : handler :=
  fun _ _ => Raise NotImplementedError.
Definition MethodCallHandler : handler :=
  fun _ _ => Raise NotImplementedError.
Definition MethodReturnHandler : handler :=
  fun _ _ => Raise NotImplementedError.

(** The common end of codes 4, 5, 7 and 15: the object is created with
    no values, registered, and only then filled. *)
Definition register_then_fill (object_id : Z) (o : obj)
    (elements : list (TypeInfo.t * Z)) (ctx : DeserializationContext.t)
    (f : stream) : result handler_result :=
  let '(value, ctx) := alloc o ctx in
  let ctx := add_object object_id (VObj value) ctx in
  '(values, ctx, f) ← element_value_reader ctx elements f;
  let ctx := update value (set_values values) ctx in
  Ok (Some [VObj value], true, ctx, f).

(** [SystemClassWithMembersAndTypesHandler.deserialize] (code 4) *)
Definition SystemClassWithMembersAndTypesHandler : handler := fun ctx f =>
  '(object_id, name, member_names, f) ← _ClassInfoReader f;
  '(members, f) ← _MemberTypeInfoReader ctx member_names f;
  let class_info := ClassInfo.mk object_id name members None in
  register_then_fill object_id (Instance class_info None)
    (member_elements class_info) ctx f.

(** [ClassWithMembersAndTypesHandler.deserialize] (code 5) *)
Definition ClassWithMembersAndTypesHandler : handler := fun ctx f =>
  '(object_id, name, member_names, f) ← _ClassInfoReader f;
  '(members, f) ← _MemberTypeInfoReader ctx member_names f;
  '(b, f) ← read f 4;
  let library_id := unpack_l b in
  if negb (library_id_resolvable library_id ctx)
  then Raise (UnresolvableLibraryId library_id)
  else
    let class_info := ClassInfo.mk object_id name members (Some library_id) in
    register_then_fill object_id (Instance class_info None)
      (member_elements class_info) ctx f.

(** [BinaryObjectStringHandler.deserialize] (code 6) *)
Definition BinaryObjectStringHandler : handler := fun ctx f =>
  '(b, f) ← read f 4;
  let object_id := unpack_l b in
  '(value, f) ← length_prefixed_string_reader f;
  let ctx := add_object object_id (VStr value) ctx in
  Ok (Some [VStr value], true, ctx, f).

(** [functools.reduce(operator.mul, lengths)]: no initial value, so an
    empty sequence is a [TypeError]. *)
Definition reduce_mul (lengths : list Z) : result Z :=
  match lengths with
  | [] => Raise (TypeError "reduce() of empty iterable with no initial value")
  | x :: xs => Ok (fold_left Z.mul xs x)
  end.

(** [BinaryArrayHandler.deserialize] (code 7) *)
Definition BinaryArrayHandler : handler := fun ctx f =>
  '(b, f) ← read f 9;
  let object_id := unpack_l b in
  let binary_array_type_value := nth 4 b 0 in
  let rank := unpack_l (drop 5 b) in
  match BinaryArrayType.of_Z binary_array_type_value with
  | None => Raise (InvalidStreamError "unknown binary array type")
  | Some binary_array_type =>
      if rank <? 0
      then Raise (InvalidStreamError "rank must be a non-negative integer")
      else
        '(lengths, lower_bounds, f) ←
           (if BinaryArrayType.is_offset binary_array_type then
              '(b, f) ← read f (4 * rank * 2);
              let lengths_and_lower_bounds := unpack_ls (Z.to_nat (rank * 2)) b in
              Ok (take (Z.to_nat rank) lengths_and_lower_bounds,
                  drop (Z.to_nat rank) lengths_and_lower_bounds, f)
            else
              '(b, f) ← read f (4 * rank);
              let lengths_and_lower_bounds := unpack_ls (Z.to_nat rank) b in
              Ok (take (Z.to_nat rank) lengths_and_lower_bounds,
                  replicate (Z.to_nat rank) 0, f));
        '(b, f) ← read f 1;
        match BinaryType.of_Z (byte0 b) with
        | None => Raise (InvalidStreamError "unknown binary type")
        | Some binary_type =>
            '(additional, f) ← read_additional_info ctx binary_type f;
            let type_info := TypeInfo.mk binary_type additional in
            let array_info :=
              ArrayInfo.mk object_id lengths lower_bounds
                (Some binary_array_type) (Some type_info) in
            let '(value, ctx) := alloc (Array array_info None) ctx in
            let ctx := add_object object_id (VObj value) ctx in
            n ← reduce_mul lengths;
            '(values, ctx, f) ← element_value_reader ctx [(type_info, n)] f;
            let ctx := update value (set_values values) ctx in
            Ok (Some [VObj value], true, ctx, f)
        end
  end.

(** [MemberReferenceHandler.deserialize] (code 9) *)
Definition MemberReferenceHandler : handler := fun ctx f =>
  '(b, f) ← read f 4;
  Ok (Some [VObjectReference (unpack_l b)], true, ctx, f).

(** [ObjectNullHandler.deserialize] (code 10) *)
Definition ObjectNullHandler : handler := fun ctx f =>
  Ok (Some [VNone], true, ctx, f).

(** [MessageEndHandler.deserialize] (code 11) *)
Definition MessageEndHandler : handler := fun ctx f =>
  Ok (None, false, ctx, f).

(** [BinaryLibraryHandler.deserialize] (code 12) *)
Definition BinaryLibraryHandler : handler := fun ctx f =>
  '(b, f) ← read f 4;
  let library_id := unpack_l b in
  '(library_name, f) ← length_prefixed_string_reader f;
  Ok (None, true, add_library_id_name_mapping library_id library_name ctx, f).

(** [ObjectNullMultiple256Handler.deserialize] (code 13):
    [itertools.repeat(None, b[0])] *)
Definition ObjectNullMultiple256Handler : handler := fun ctx f =>
  '(b, f) ← read f 1;
  Ok (Some (replicate (Z.to_nat (byte0 b)) VNone), true, ctx, f).

(** [ObjectNullMultipleHandler.deserialize] (code 14); a negative count
    repeats nothing. *)
Definition ObjectNullMultipleHandler : handler := fun ctx f =>
  '(b, f) ← read f 4;
  Ok (Some (replicate (Z.to_nat (unpack_l b)) VNone), true, ctx, f).

(** [ArraySinglePrimitiveHandler.deserialize] (code 15) *)
Definition ArraySinglePrimitiveHandler : handler := fun ctx f =>
  '(array_info, f) ← read_array_info f;
  '(b, f) ← read f 1;
  match PrimitiveType.of_Z (byte0 b) with
  | None => Raise (InvalidStreamError "unknown primitive type")
  | Some primitive_type =>
      let type_info := TypeInfo.mk BinaryType.PRIMITIVE (APrimitive primitive_type) in
      let array_info :=
        ArrayInfo.mk (ArrayInfo.object_id array_info) (ArrayInfo.shape array_info)
          (ArrayInfo.lower_bounds array_info)
          (Some BinaryArrayType.SINGLE) (Some type_info) in
      register_then_fill (ArrayInfo.object_id array_info) (Array array_info None)
        [(type_info, nth 0 (ArrayInfo.shape array_info) 0)] ctx f
  end.

(** [{handler.CODE: handler}] over [MEMBER_RECORD_HANDLERS]. *)
Definition MEMBER_RECORD_HANDLERS (code : Z) : option handler :=
  match code with
  | 8 => Some MemberPrimitiveTypedHandler
  | 1 => Some ClassWithIdHandler
  | 2 => Some SystemClassWithMembersHandler
  | 3 => Some ClassWithMembersHandler
  | 4 => Some SystemClassWithMembersAndTypesHandler
  | 5 => Some ClassWithMembersAndTypesHandler
  | 6 => Some BinaryObjectStringHandler
  | 9 => Some MemberReferenceHandler
  | 10 => Some ObjectNullHandler
  | 13 => Some ObjectNullMultiple256Handler
  | 14 => Some ObjectNullMultipleHandler
  | _ => None
  end.

(** [{handler.CODE: handler}] over [TOPLEVEL_HANDLERS]. *)
Definition TOPLEVEL_HANDLERS (code : Z) : option handler :=
  match code with
  | 0 => Some SerializedStreamHandler
  | 1 => Some ClassWithIdHandler
  | 2 => Some SystemClassWithMembersHandler
  | 3 => Some ClassWithMembersHandler
  | 4 => Some SystemClassWithMembersAndTypesHandler
  | 5 => Some ClassWithMembersAndTypesHandler
  | 6 => Some BinaryObjectStringHandler
  | 7 => Some BinaryArrayHandler
  | 11 => Some MessageEndHandler
  | 12 => Some BinaryLibraryHandler
  | 15 => Some ArraySinglePrimitiveHandler
  | 16 => Some ArraySingleObjectHandler
  | 17 => Some ArraySingleStringHandler
  | 21 => Some MethodCallHandler
  | 22 => Some MethodReturnHandler
  | _ => None
  end.

End Handlers.

(** *** [dotnetserde.binary.instances]: tying the handlers together

    [build_deserializer] creates the [member_record_handlers] dictionary
    empty, hands it to the element reader, and fills it afterwards with
    handlers that hold that same reader: records nest through this loop.
    [depth] bounds the nesting; running out of it is CPython's
    [RecursionError]. *)
Section Instances.

Variable decode : list Z -> result string.
Variable timezone_localizer : DateTime.t -> DateTime.t.

Fixpoint member_record_handlers (depth : nat) : Z -> option handler :=
  match depth with
  | O => fun _ => Some (fun _ _ => Raise RecursionError)
  | S depth' =>
      MEMBER_RECORD_HANDLERS decode timezone_localizer
        (member_record_handlers depth')
  end.

Definition code_to_handler_map (depth : nat) : Z -> option handler :=
  TOPLEVEL_HANDLERS decode timezone_localizer (member_record_handlers depth).

(** [Deserializer.__call__]: the dispatch loop.  Each turn consumes the
    code byte, so [turns] need not exceed the length of the stream. *)
Fixpoint Deserializer_loop (depth turns : nat)
    (ctx : DeserializationContext.t) (f : stream)
    : result DeserializationContext.t :=
  match turns with
  | O => Raise RecursionError
  | S turns' =>
      let code_bin := take 1 f in
      let f := drop 1 f in
      if (length code_bin <? 1)%nat
      then Raise (UnexpectedEOF 1 (Z.of_nat (length code_bin)))
      else
        let code := byte0 code_bin in
        match code_to_handler_map depth code with
        | None => Raise (UnknownRecord code)
        | Some handler =>
            '(i, continue_, ctx, f) ← handler ctx f;
            if continue_ : bool then Deserializer_loop depth turns' ctx f
            else Ok ctx
        end
  end.

Definition Deserializer (depth : nat) (f : stream)
    : result DeserializationContext.t :=
  Deserializer_loop depth (S (length f)) DeserializationContext.init f.

End Instances.

End Binary.


(* ===================================================================== *)
(** ** dotnetserde.cli: the type model                                    *)
(* ===================================================================== *)
Module Cli.

(** [CLINamespace] (a frozen dataclass). *)
Inductive CLINamespace :=
  | Namespace (name : string) (namespace : option CLINamespace).

(** [CLINamespace.__str__] *)
Fixpoint CLINamespace_str (self : CLINamespace) : string :=
  match self with
  | Namespace name namespace =>
      let outer_namespace :=
        match namespace with
        | Some ns => CLINamespace_str ns
        | None => EmptyString
        end in
      (if nonempty outer_namespace then outer_namespace +:+ "." else EmptyString)
      +:+ name
  end.

(** [CLITypeParam] (a frozen dataclass: equal when the names are). *)
Record CLITypeParam := TypeParam { param_name : option string }.

#[global] Instance CLITypeParam_eq_dec : EqDecision CLITypeParam.
Proof. solve_decision. Defined.

(** The only [member_handler] the package defines is the one of
    [KeyValuePair]: [lambda type_instance, member_values:
    tuple(member_values)]. *)
Inductive member_handler := TupleOfMembers.

(** Types, type expressions and type instances.  [CLIType] and
    [CLITypeInstance] objects are compared and hashed by identity in the
    source ([id(self)], [==] without [__eq__]); each carries the identity
    it was created with.  A [CLITypeInstance] refers to its mutable
    [CLITypeResolutionContext] by the context's identity.
    The [Bound...] wrappers of the source add the ordinal, which is the
    position in the list, and a back pointer to the owning type. *)
Inductive CLIType :=
  | mkCLIType
      (id : nat)
      (name : string)
      (namespace : CLINamespace)
      (parameters : list CLITypeParam)
      (resolved_parameters : list (option CLITypeResolvable))
      (default_parameters : list (option CLITypeResolvable))
      (intrinsic : bool)
      (members : list CLITypeMember)
      (derived_from : option CLIType)
      (member_handler_ : option member_handler)
with CLITypeResolvable :=
  | Binding (ref : CLITypeParam)               (* CLITypeBinding *)
  | OfInstance (ti : CLITypeInstance)
  | OfType (t : CLIType)
with CLITypeInstance :=
  | mkCLITypeInstance
      (id : nat)
      (ctx : nat)
      (derived_from : CLIType)
      (builtin_name : option string)
      (member_handler_ : option member_handler)
with CLITypeMember :=
  | Member (name : string) (type : CLITypeResolvable).

Module CLIType_.
Definition id (t : CLIType) := let 'mkCLIType x _ _ _ _ _ _ _ _ _ := t in x.
Definition name (t : CLIType) := let 'mkCLIType _ x _ _ _ _ _ _ _ _ := t in x.
Definition namespace (t : CLIType) := let 'mkCLIType _ _ x _ _ _ _ _ _ _ := t in x.
Definition parameters (t : CLIType) := let 'mkCLIType _ _ _ x _ _ _ _ _ _ := t in x.
Definition resolved_parameters (t : CLIType) :=
  let 'mkCLIType _ _ _ _ x _ _ _ _ _ := t in x.
Definition default_parameters (t : CLIType) :=
  let 'mkCLIType _ _ _ _ _ x _ _ _ _ := t in x.
Definition intrinsic (t : CLIType) := let 'mkCLIType _ _ _ _ _ _ x _ _ _ := t in x.
Definition members (t : CLIType) := let 'mkCLIType _ _ _ _ _ _ _ x _ _ := t in x.
Definition derived_from (t : CLIType) := let 'mkCLIType _ _ _ _ _ _ _ _ x _ := t in x.
Definition member_handler (t : CLIType) :=
  let 'mkCLIType _ _ _ _ _ _ _ _ _ x := t in x.
(** The [origin] property. *)
Definition origin (t : CLIType) : CLIType :=
  match derived_from t with Some d => d | None => t end.
End CLIType_.

Module CLITypeInstance_.
Definition id (ti : CLITypeInstance) := let 'mkCLITypeInstance x _ _ _ _ := ti in x.
Definition ctx (ti : CLITypeInstance) := let 'mkCLITypeInstance _ x _ _ _ := ti in x.
Definition derived_from (ti : CLITypeInstance) :=
  let 'mkCLITypeInstance _ _ x _ _ := ti in x.
Definition builtin_name (ti : CLITypeInstance) :=
  let 'mkCLITypeInstance _ _ _ x _ := ti in x.
Definition member_handler (ti : CLITypeInstance) :=
  let 'mkCLITypeInstance _ _ _ _ x := ti in x.
End CLITypeInstance_.

Module CLITypeMember_.
Definition name (m : CLITypeMember) := let 'Member x _ := m in x.
Definition type (m : CLITypeMember) := let 'Member _ x := m in x.
End CLITypeMember_.

(** [a is b] / [a == b] on [CLIType] and on [CLITypeInstance] objects. *)
Definition same_type (a b : CLIType) : bool := (CLIType_.id a =? CLIType_.id b)%nat.
Definition same_instance (a b : CLITypeInstance) : bool :=
  (CLITypeInstance_.id a =? CLITypeInstance_.id b)%nat.

(** [CLITypeResolutionContext] (a mutable dataclass of three dicts). *)
Module CLITypeResolutionContext.
Record t := mk {
  resolved : gmap nat CLITypeInstance;        (* keyed by id(type) *)
  refs : gmap (option string) CLITypeInstance; (* keyed by CLITypeParam *)
  reprs : gmap nat string }.                   (* keyed by id(type) *)
Definition empty : t := mk ∅ ∅ ∅.
End CLITypeResolutionContext.

(** The objects the type model allocates while it runs: a counter for
    fresh identities and the resolution contexts, by identity. *)
Module World.
Record t := mk {
  next_id : nat;
  ctxs : gmap nat CLITypeResolutionContext.t }.
End World.

Import CLITypeResolutionContext.

(** Computations of the type model. *)
Definition St := M World.t.

(** A new object: its identity. *)
Definition fresh : St nat := fun w =>
  Ok (World.next_id w, World.mk (S (World.next_id w)) (World.ctxs w)).

Definition get_ctx (c : nat) : St CLITypeResolutionContext.t := fun w =>
  Ok (default CLITypeResolutionContext.empty (World.ctxs w !! c), w).

Definition set_ctx (c : nat) (x : CLITypeResolutionContext.t) : St unit :=
  modify (fun w => World.mk (World.next_id w) (<[c := x]> (World.ctxs w))).

(** [CLITypeResolutionContext()] *)
Definition new_ctx : St nat :=
  c ← fresh; _ ← set_ctx c CLITypeResolutionContext.empty; mret c.

(** *** [CLIType.__init__] *)

(** [parameters]: a collection of parameters or a mapping to what they
    are resolved to; [default_parameters]: a collection or a mapping. *)
Inductive parameters_arg :=
  | ParamSeq (l : list CLITypeParam)
  | ParamMap (m : list (CLITypeParam * option CLITypeResolvable)).

Inductive default_parameters_arg :=
  | DefaultSeq (l : list (option CLITypeResolvable))
  | DefaultMap (m : list (CLITypeParam * CLITypeResolvable)).

Definition is_some {A} (o : option A) : bool :=
  match o with Some _ => true | None => false end.

(** [any(a is not None and b is not None for a, b in zip(xs, ys))] *)
Fixpoint shadowed {A B} (xs : list (option A)) (ys : list (option B)) : bool :=
  match xs, ys with
  | a :: xs', b :: ys' => (is_some a && is_some b) || shadowed xs' ys'
  | _, _ => false
  end.

Definition CLIType_init (name : string) (namespace : CLINamespace)
    (parameters : parameters_arg) (default_parameters : default_parameters_arg)
    (resolved_parameters : option (list (option CLITypeResolvable)))
    (intrinsic : bool) (members : list CLITypeMember)
    (derived_from : option CLIType) (member_handler : option member_handler)
    : St CLIType :=
  '(_parameters, _resolved_parameters) ←
     match parameters with
     | ParamMap m =>
         match resolved_parameters with
         | Some (_ :: _) =>
             raise (ValueError "cannot specify both 'parameters' and 'resolved_parameters'")
         | _ => mret (map fst m, map snd m)
         end
     | ParamSeq l =>
         match resolved_parameters with
         | Some r =>
             if negb (length l =? length r)%nat
             then raise (ValueError "element counts must be the same")
             else mret (l, r)
         | None => mret (l, replicate (length l) None)
         end
     end;
  _default_parameters ←
     match default_parameters with
     | DefaultMap m => mret (map (fun p => dict_get p m) _parameters)
     | DefaultSeq d =>
         if (length _parameters <? length d)%nat
         then raise (ValueError "element counts for 'default_parameters' is greater")
         else mret (d ++ replicate (length _parameters - length d) None)
     end;
  if shadowed (take (length _parameters) _resolved_parameters) _default_parameters
  then raise (ValueError "default parameter shall shadow the bound parameter")
  else
    i ← fresh;
    mret (mkCLIType i name namespace _parameters _resolved_parameters
            _default_parameters intrinsic members derived_from member_handler).

(** [CLIType.replace]: [None] for an argument left at [NOTHING].  (The
    source passes [self.default_parameters] on whatever is given.) *)
Definition CLIType_replace (self : CLIType)
    (name : option string) (namespace : option CLINamespace)
    (parameters : option parameters_arg)
    (resolved_parameters : option (option (list (option CLITypeResolvable))))
    (intrinsic : option bool) (members : option (list CLITypeMember))
    (derived_from : option (option CLIType))
    (member_handler : option (option member_handler)) : St CLIType :=
  CLIType_init
    (default (CLIType_.name self) name)
    (default (CLIType_.namespace self) namespace)
    (default (ParamSeq (CLIType_.parameters self)) parameters)
    (DefaultSeq (CLIType_.default_parameters self))
    (default (Some (CLIType_.resolved_parameters self)) resolved_parameters)
    (default (CLIType_.intrinsic self) intrinsic)
    (default (CLIType_.members self) members)
    (default (CLIType_.derived_from self) derived_from)
    (default (CLIType_.member_handler self) member_handler).

(** *** [CLIType.partial] *)

(** The argument of [partial] and [instantiate]: a collection of type
    expressions, by position, or a mapping from parameters. *)
Inductive partial_arg :=
  | BySeq (l : list CLITypeResolvable)
  | ByMap (m : list (CLITypeParam * CLITypeResolvable)).

(** One slot of the merge: [p if resolvable is None else (resolvable if p
    is None else raise ...)]. *)
Definition merge_slot (resolvable p : option CLITypeResolvable)
    : result (option CLITypeResolvable) :=
  match resolvable with
  | None => Ok p
  | Some r =>
      match p with
      | None => Ok (Some r)
      | Some _ => Raise (ValueError "already has a value")
      end
  end.

Fixpoint merge_by_map (params : list CLITypeParam)
    (resolved : list (option CLITypeResolvable))
    (m : list (CLITypeParam * CLITypeResolvable))
    : result (list (option CLITypeResolvable)) :=
  match params, resolved with
  | bound_param :: params', resolvable :: resolved' =>
      x ← merge_slot resolvable (dict_get bound_param m);
      xs ← merge_by_map params' resolved' m;
      Ok (x :: xs)
  | _, _ => Ok []
  end.

(** [itertools.zip_longest(self.parameters, self.resolved_parameters,
    parameters, fillvalue=None)], the first component dropped. *)
Fixpoint merge_by_seq (n : nat) (resolved : list (option CLITypeResolvable))
    (l : list CLITypeResolvable) : result (list (option CLITypeResolvable)) :=
  match n with
  | O => Ok []
  | S n' =>
      x ← merge_slot (mjoin (head resolved)) (head l);
      xs ← merge_by_seq n' (tail resolved) (tail l);
      Ok (x :: xs)
  end.

Definition CLIType_partial (self : CLIType) (parameters : partial_arg) : St CLIType :=
  new_resolved_parameters ←
    match parameters with
    | ByMap m =>
        lift (merge_by_map (CLIType_.parameters self)
                (CLIType_.resolved_parameters self) m)
    | BySeq l =>
        if (length (CLIType_.parameters self) <? length l)%nat
        then raise (ValueError "expected at most that many parameters")
        else
          lift (merge_by_seq
                  (max (length (CLIType_.parameters self))
                     (max (length (CLIType_.resolved_parameters self)) (length l)))
                  (CLIType_.resolved_parameters self) l)
    end;
  CLIType_replace self None None None (Some (Some new_resolved_parameters))
    None (Some (CLIType_.members self)) (Some (Some self)) None.

(** *** [resolve] *)

(** [CLITypeInstance.__init__]: a new instance object. *)
Definition CLITypeInstance_init (ctx : nat) (derived_from : CLIType)
    (builtin_name : option string) (member_handler : option member_handler)
    : St CLITypeInstance :=
  i ← fresh;
  mret (mkCLITypeInstance i ctx derived_from builtin_name
          (match member_handler with
           | Some h => Some h
           | None => CLIType_.member_handler derived_from
           end)).

(** [CLITypeBinding.resolve]; [p.resolve(ctx)] of the instance found is
    the instance. *)
Definition CLITypeBinding_resolve (ref : CLITypeParam) (ctx : nat)
    : St CLITypeInstance :=
  c ← get_ctx ctx;
  match refs c !! param_name ref with
  | None => raise (ValueError "type parameter is unbound")
  | Some p => mret p
  end.

(** [resolvable.resolve(ctx)] by the class of [resolvable]; [resolve_type]
    is [CLIType.resolve]. *)
Definition resolve_with (resolve_type : CLIType -> nat -> St CLITypeInstance)
    (resolvable : CLITypeResolvable) (ctx : nat) : St CLITypeInstance :=
  match resolvable with
  | Binding ref => CLITypeBinding_resolve ref ctx
  | OfInstance ti => mret ti
  | OfType t => resolve_type t ctx
  end.

(** The loop of [CLIType.resolve] over [zip(self.parameters,
    self.resolved_parameters)]. *)
Fixpoint resolve_parameters (resolve_type : CLIType -> nat -> St CLITypeInstance)
    (params : list CLITypeParam) (resolved : list (option CLITypeResolvable))
    (ctx : nat) : St unit :=
  match params, resolved with
  | param :: params', resolvable :: resolved' =>
      match resolvable with
      | None => raise (ValueError "has unresolved parameters")
      | Some resolvable =>
          r ← resolve_with resolve_type resolvable ctx;
          c ← get_ctx ctx;
          _ ← set_ctx ctx (mk (CLITypeResolutionContext.resolved c)
                             (<[param_name param := r]> (refs c)) (reprs c));
          resolve_parameters resolve_type params' resolved' ctx
      end
  | _, _ => mret tt
  end.

(** [CLIType.resolve]; [depth] bounds the nesting of the calls. *)
Fixpoint CLIType_resolve (depth : nat) (self : CLIType) (ctx : nat)
    : St CLITypeInstance :=
  match depth with
  | O => raise RecursionError
  | S depth' =>
      c ← get_ctx ctx;
      match CLITypeResolutionContext.resolved c !! CLIType_.id self with
      | Some resolved => mret resolved
      | None =>
          _ ← resolve_parameters (CLIType_resolve depth')
                (CLIType_.parameters self) (CLIType_.resolved_parameters self) ctx;
          resolved ← CLITypeInstance_init ctx self None None;
          c ← get_ctx ctx;
          _ ← set_ctx ctx
                (mk (<[CLIType_.id self := resolved]> (CLITypeResolutionContext.resolved c))
                    (refs c) (reprs c));
          mret resolved
      end
  end.

Definition CLITypeResolvable_resolve (depth : nat) :=
  resolve_with (CLIType_resolve depth).

(** [CLIType.instantiate] *)
Definition CLIType_instantiate (depth : nat) (self : CLIType)
    (parameters : partial_arg) : St CLITypeInstance :=
  t ← CLIType_partial self parameters;
  ctx ← new_ctx;
  CLIType_resolve depth t ctx.

(** *** [stringify] *)

(** [p.stringify(ctx)] by the class of [p]: a binding prints what it
    resolves to, an instance prints its type in the instance's own
    context, a type prints itself in [ctx]. *)
Definition stringify_with (stringify_type : CLIType -> nat -> St string)
    (p : CLITypeResolvable) (ctx : nat) : St string :=
  match p with
  | Binding ref =>
      ti ← CLITypeBinding_resolve ref ctx;
      stringify_type (CLITypeInstance_.derived_from ti) (CLITypeInstance_.ctx ti)
  | OfInstance ti =>
      stringify_type (CLITypeInstance_.derived_from ti) (CLITypeInstance_.ctx ti)
  | OfType t => stringify_type t ctx
  end.

Definition set_repr (ctx : nat) (i : nat) (s : string) : St unit :=
  c ← get_ctx ctx;
  set_ctx ctx (mk (resolved c) (refs c) (<[i := s]> (reprs c))).

(** [CLIType.stringify] *)
Fixpoint CLIType_stringify (depth : nat) (self : CLIType) (ctx : nat) : St string :=
  match depth with
  | O => raise RecursionError
  | S depth' =>
      c ← get_ctx ctx;
      match reprs c !! CLIType_.id self with
      | Some s => mret s
      | None =>
          _ ← set_repr ctx (CLIType_.id self) "...";
          param_list ←
            match CLIType_.parameters self with
            | _ :: _ =>
                ps ← mapM (fun p : option CLITypeResolvable =>
                             match p with
                             | Some p => stringify_with (CLIType_stringify depth') p ctx
                             | None => mret "?"
                             end)
                          (CLIType_.resolved_parameters self);
                mret ("<" +:+ join ", " ps +:+ ">")
            | [] => mret EmptyString
            end;
          let namespace := CLINamespace_str (CLIType_.namespace self) in
          let namespace :=
            if nonempty namespace then namespace +:+ "." else namespace in
          let s := namespace +:+ CLIType_.name self +:+ param_list in
          _ ← set_repr ctx (CLIType_.id self) s;
          mret s
      end
  end.

Definition CLITypeResolvable_stringify (depth : nat) :=
  stringify_with (CLIType_stringify depth).

(** [CLIType.__str__] *)
Definition CLIType_str (depth : nat) (self : CLIType) : St string :=
  ctx ← new_ctx; CLIType_stringify depth self ctx.

(** [CLITypeInstance.__str__] and [CLITypeInstance.stringify] (which
    does not look at the context it is given). *)
Definition CLITypeInstance_str (depth : nat) (self : CLITypeInstance) : St string :=
  CLIType_stringify depth (CLITypeInstance_.derived_from self)
    (CLITypeInstance_.ctx self).

(** *** Values ([CLIValue] and what a [CLIBasicValue] can carry) *)

Inductive CLIValue :=
  | CLIBasicValue (type_instance : CLITypeInstance) (value : any)
  | CLINullValue (type_instance : CLITypeInstance)
  | CLICompositeObject (type_instance : CLITypeInstance)
      (members : list (option CLIValue))  (* a slot may hold [None] *)
(** [typing.Any]: the Python objects that reach the value model. *)
with any :=
  | PyNone
  | PyBool (b : bool)
  | PyInt (z : Z)
  | PyFloat (bits : Z)
  | PyStr (s : string)
  | PyDecimal (digits : string)
  | PyDatetime (d : Binary.DateTime.t)
  | PyTimedelta (ticks : Z)
  | PyBytes (b : list Z)
  | PyList (items : list any)
  | PyTuple (items : list any)
  | PyValue (v : CLIValue).

Definition CLIValue_type_instance (v : CLIValue) : CLITypeInstance :=
  match v with
  | CLIBasicValue ti _ | CLINullValue ti | CLICompositeObject ti _ => ti
  end.

(** A member or item slot as a Python object. *)
Definition slot_any (o : option CLIValue) : any :=
  match o with
  | Some v => PyValue v
  | None => PyNone
  end.

(** [CLICompositeObject(...)] with its [__post_init__] check. *)
Definition CLICompositeObject_init (type_instance : CLITypeInstance)
    (members : list (option CLIValue)) : result CLIValue :=
  if negb (length members =?
           length (CLIType_.members (CLITypeInstance_.derived_from type_instance)))%nat
  then Raise (ValueError "given values does not match to the member count")
  else Ok (CLICompositeObject type_instance members).

(** [CLIType.__getitem__] with a name: the first member so named, with
    its ordinal. *)
Fixpoint find_member (name : string) (ordinal : nat) (members : list CLITypeMember)
    : option (nat * CLITypeMember) :=
  match members with
  | [] => None
  | m :: members' =>
      if String.eqb (CLITypeMember_.name m) name then Some (ordinal, m)
      else find_member name (S ordinal) members'
  end.

(** [CLITypeInstance.__getitem__] with an index, through the member
    view: the [CLITypeInstanceMember] at that ordinal, whose type is the
    member's type resolved in the instance's context.  The result is the
    member's ordinal and that resolved type. *)
Definition CLITypeInstance_getitem_index (depth : nat) (self : CLITypeInstance)
    (index : nat) : St (nat * CLITypeInstance) :=
  match CLIType_.members (CLITypeInstance_.derived_from self) !! index with
  | None => raise IndexError
  | Some m =>
      type ← CLITypeResolvable_resolve depth (CLITypeMember_.type m)
               (CLITypeInstance_.ctx self);
      mret (index, type)
  end.

(** [CLITypeInstance.__getitem__] with a name: the bound member is looked
    up by name on the type, then fetched by its ordinal as above. *)
Definition CLITypeInstance_getitem_name (depth : nat) (self : CLITypeInstance)
    (name : string) : St (nat * CLITypeInstance) :=
  match find_member name 0 (CLIType_.members (CLITypeInstance_.derived_from self)) with
  | None => raise (KeyError "has no member")
  | Some (ordinal, _) => CLITypeInstance_getitem_index depth self ordinal
  end.

(** [self[name].ordinal] *)
Definition CLITypeInstance_member_ordinal (depth : nat) (self : CLITypeInstance)
    (name : string) : St nat :=
  m ← CLITypeInstance_getitem_name depth self name; mret (fst m).

(** [CLITypeInstance.instantiate(value, member_values, member_dict)] *)
Definition CLITypeInstance_instantiate (depth : nat) (self : CLITypeInstance)
    (value : any) (member_values : option (list (option CLIValue)))
    (member_dict : option (list (string * option CLIValue))) : St CLIValue :=
  let derived_from := CLITypeInstance_.derived_from self in
  member_values ←
    match member_values with
    | None =>
        match CLIType_.members derived_from, member_dict with
        | _ :: _, Some member_dict =>
            keyed ← mapM (fun pair : string * option CLIValue =>
                            k ← CLITypeInstance_member_ordinal depth self (fst pair);
                            mret (k, snd pair))
                         member_dict;
            mret (Some (sorted_by_key keyed))
        | _, _ => mret None
        end
    | Some member_values =>
        match member_dict with
        | Some _ =>
            raise (ValueError "cannot specify member_values and member_dict at the same time")
        | None => mret (Some member_values)
        end
    end;
  if CLIType_.intrinsic derived_from then
    match member_values with
    | Some (m :: ms) =>
        match CLITypeInstance_.member_handler self with
        | None => raise (ValueError "is an intrinsic type and no member_handler is provided")
        | Some TupleOfMembers =>
            mret (CLIBasicValue self (PyTuple (map slot_any (m :: ms))))
        end
    | _ => mret (CLIBasicValue self value)
    end
  else
    match member_values, CLIType_.members derived_from with
    | None, _ :: _ =>
        raise (ValueError "either member_values or member_dict must be specified")
    | _, _ => lift (CLICompositeObject_init self (default [] member_values))
    end.

(** *** Built-in types ([dotnetserde.cli.builtins] and the module-level
    types of [dotnetserde.cli.models]) *)

Definition ROOT_NAMESPACE := Namespace "" None.
Definition INTERNAL_NAMESPACE := Namespace "__internal__" None.
Definition SYSTEM_NAMESPACE := Namespace "System" (Some ROOT_NAMESPACE).
Definition SYSTEM_COLLECTIONS_NAMESPACE := Namespace "Collections" (Some SYSTEM_NAMESPACE).
Definition SYSTEM_COLLECTIONS_GENERIC_NAMESPACE :=
  Namespace "Generic" (Some SYSTEM_COLLECTIONS_NAMESPACE).

(** [CLIType(name, namespace, intrinsic=True)]: the module-level types
    are created when the package is imported; their identities are the
    first ones. *)
Definition intrinsic_type (i : nat) (name : string) (namespace : CLINamespace) : CLIType :=
  mkCLIType i name namespace [] [] [] true [] None None.

Definition ARRAY_TYPE : CLIType :=
  mkCLIType 0 "Array" INTERNAL_NAMESPACE [TypeParam (Some "T")] [None] [None]
    true [] None None.
Definition SYSTEM_BOOLEAN := intrinsic_type 1 "Boolean" SYSTEM_NAMESPACE.
Definition SYSTEM_CHAR := intrinsic_type 2 "Char" SYSTEM_NAMESPACE.
Definition SYSTEM_STRING := intrinsic_type 3 "String" SYSTEM_NAMESPACE.
Definition SYSTEM_SINGLE := intrinsic_type 4 "Single" SYSTEM_NAMESPACE.
Definition SYSTEM_DOUBLE := intrinsic_type 5 "Double" SYSTEM_NAMESPACE.
Definition SYSTEM_SBYTE := intrinsic_type 6 "SByte" SYSTEM_NAMESPACE.
Definition SYSTEM_INT16 := intrinsic_type 7 "Int16" SYSTEM_NAMESPACE.
Definition SYSTEM_INT32 := intrinsic_type 8 "Int32" SYSTEM_NAMESPACE.
Definition SYSTEM_INT64 := intrinsic_type 9 "Int64" SYSTEM_NAMESPACE.
Definition SYSTEM_UINT64 := intrinsic_type 10 "UInt64" SYSTEM_NAMESPACE.
Definition SYSTEM_INTPTR := intrinsic_type 11 "IntPtr" SYSTEM_NAMESPACE.
Definition SYSTEM_UINTPTR := intrinsic_type 12 "UIntPtr" SYSTEM_NAMESPACE.
Definition SYSTEM_BYTE := intrinsic_type 13 "Byte" SYSTEM_NAMESPACE.
Definition SYSTEM_UINT16 := intrinsic_type 14 "UInt16" SYSTEM_NAMESPACE.
Definition SYSTEM_UINT32 := intrinsic_type 15 "UInt32" SYSTEM_NAMESPACE.
Definition SYSTEM_OBJECT := intrinsic_type 16 "Object" SYSTEM_NAMESPACE.
Definition SYSTEM_COLLECTIONS_ARRAYLIST :=
  intrinsic_type 17 "ArrayList" SYSTEM_COLLECTIONS_NAMESPACE.
Definition SYSTEM_COLLECTIONS_DICTIONARY :=
  intrinsic_type 18 "Dictionary" SYSTEM_COLLECTIONS_NAMESPACE.
Definition SYSTEM_COLLECTIONS_GENERIC_LIST : CLIType :=
  mkCLIType 19 "List" SYSTEM_COLLECTIONS_GENERIC_NAMESPACE
    [TypeParam (Some "T")] [None] [None] true [] None None.
Definition TKey := TypeParam (Some "TKey").
Definition TValue := TypeParam (Some "TValue").
Definition SYSTEM_COLLECTIONS_GENERIC_DICTIONARY : CLIType :=
  mkCLIType 20 "Dictionary" SYSTEM_COLLECTIONS_GENERIC_NAMESPACE
    [TKey; TValue] [None; None] [None; None] true [] None None.
Definition SYSTEM_COLLECTIONS_GENERIC_KEYVALUEPAIR : CLIType :=
  mkCLIType 21 "KeyValuePair" SYSTEM_COLLECTIONS_GENERIC_NAMESPACE
    [TKey; TValue] [None; None] [None; None] true
    [Member "Key" (Binding TKey); Member "Value" (Binding TValue)]
    None (Some TupleOfMembers).
Definition SYSTEM_DATETIME := intrinsic_type 22 "DateTime" SYSTEM_NAMESPACE.
Definition SYSTEM_TIMESPAN := intrinsic_type 23 "TimeSpan" SYSTEM_NAMESPACE.
Definition SYSTEM_DECIMAL := intrinsic_type 24 "Decimal" SYSTEM_NAMESPACE.

(** The world once the package is imported: no context yet, the next
    identity after those of the module-level types. *)
Definition initial_world : World.t := World.mk 32 ∅.

(** [array_of] *)
Definition array_of (depth : nat) (type_instance : CLITypeInstance) : St CLITypeInstance :=
  CLIType_instantiate depth ARRAY_TYPE (BySeq [OfInstance type_instance]).

Module Builtins.
Record t := mk {
  ctx : nat;
  SYSTEM_BOOLEAN : CLITypeInstance;
  SYSTEM_CHAR : CLITypeInstance;
  SYSTEM_STRING : CLITypeInstance;
  SYSTEM_SINGLE : CLITypeInstance;
  SYSTEM_DOUBLE : CLITypeInstance;
  SYSTEM_SBYTE : CLITypeInstance;
  SYSTEM_INT16 : CLITypeInstance;
  SYSTEM_INT32 : CLITypeInstance;
  SYSTEM_INT64 : CLITypeInstance;
  SYSTEM_INTPTR : CLITypeInstance;
  SYSTEM_UINTPTR : CLITypeInstance;
  SYSTEM_BYTE : CLITypeInstance;
  SYSTEM_UINT16 : CLITypeInstance;
  SYSTEM_UINT32 : CLITypeInstance;
  SYSTEM_UINT64 : CLITypeInstance;
  SYSTEM_OBJECT : CLITypeInstance;
  SYSTEM_COLLECTIONS_ARRAYLIST : CLITypeInstance;
  SYSTEM_COLLECTIONS_DICTIONARY : CLITypeInstance;
  SYSTEM_DATETIME : CLITypeInstance;
  SYSTEM_DECIMAL : CLITypeInstance;
  SYSTEM_TIMESPAN : CLITypeInstance;
  SYSTEM_BYTE_ARRAY : CLITypeInstance }.

(** [Builtins.__init__(ctx)] *)
Definition init (depth : nat) (ctx : nat) : St t :=
  boolean ← CLITypeInstance_init ctx Cli.SYSTEM_BOOLEAN (Some "bool") None;
  char ← CLITypeInstance_init ctx Cli.SYSTEM_CHAR (Some "char") None;
  string_ ← CLITypeInstance_init ctx Cli.SYSTEM_STRING (Some "string") None;
  single ← CLITypeInstance_init ctx Cli.SYSTEM_SINGLE (Some "float") None;
  double ← CLITypeInstance_init ctx Cli.SYSTEM_DOUBLE (Some "double") None;
  sbyte ← CLITypeInstance_init ctx Cli.SYSTEM_SBYTE (Some "int8") None;
  int16 ← CLITypeInstance_init ctx Cli.SYSTEM_INT16 (Some "int16") None;
  int32 ← CLITypeInstance_init ctx Cli.SYSTEM_INT32 (Some "int32") None;
  int64 ← CLITypeInstance_init ctx Cli.SYSTEM_INT64 (Some "int64") None;
  intptr ← CLITypeInstance_init ctx Cli.SYSTEM_INTPTR (Some "IntPtr") None;
  uintptr ← CLITypeInstance_init ctx Cli.SYSTEM_UINTPTR (Some "UIntPtr") None;
  byte ← CLITypeInstance_init ctx Cli.SYSTEM_BYTE (Some "byte") None;
  uint16 ← CLITypeInstance_init ctx Cli.SYSTEM_UINT16 (Some "uint16") None;
  uint32 ← CLITypeInstance_init ctx Cli.SYSTEM_UINT32 (Some "uint32") None;
  uint64 ← CLITypeInstance_init ctx Cli.SYSTEM_UINT64 (Some "uint64") None;
  object ← CLITypeInstance_init ctx Cli.SYSTEM_OBJECT (Some "object") None;
  arraylist ← CLITypeInstance_init ctx Cli.SYSTEM_COLLECTIONS_ARRAYLIST None None;
  dictionary ← CLITypeInstance_init ctx Cli.SYSTEM_COLLECTIONS_DICTIONARY None None;
  datetime ← CLITypeInstance_init ctx Cli.SYSTEM_DATETIME None None;
  decimal ← CLITypeInstance_init ctx Cli.SYSTEM_DECIMAL None None;
  timespan ← CLITypeInstance_init ctx Cli.SYSTEM_TIMESPAN None None;
  byte_array ← array_of depth byte;
  mret (mk ctx boolean char string_ single double sbyte int16 int32 int64
          intptr uintptr byte uint16 uint32 uint64 object arraylist
          dictionary datetime decimal timespan byte_array).

(** [Builtins.from_python_value].  [isinstance(v, int)] holds for a
    [bool] as well: [bool] is a subclass of [int]. *)
Definition from_python_value (depth : nat) (self : t) (v : any) : St CLIValue :=
  match v with
  | PyNone => CLITypeInstance_instantiate depth (SYSTEM_OBJECT self) PyNone None None
  | PyBool _ | PyInt _ =>
      CLITypeInstance_instantiate depth (SYSTEM_INT32 self) v None None
  | PyFloat _ => CLITypeInstance_instantiate depth (SYSTEM_DOUBLE self) v None None
  | PyStr _ => CLITypeInstance_instantiate depth (SYSTEM_STRING self) v None None
  | PyDecimal _ => CLITypeInstance_instantiate depth (SYSTEM_DECIMAL self) v None None
  | PyDatetime _ => CLITypeInstance_instantiate depth (SYSTEM_DATETIME self) v None None
  | PyTimedelta _ => CLITypeInstance_instantiate depth (SYSTEM_TIMESPAN self) v None None
  | PyBytes _ => CLITypeInstance_instantiate depth (SYSTEM_BYTE_ARRAY self) v None None
  | _ => raise (TypeError "is not a supported type")
  end.
End Builtins.

End Cli.

(* ===================================================================== *)
(** ** dotnetserde.binary.bridge                                          *)
(* ===================================================================== *)
Module Bridge.

Import Binary Cli.

(** *** The class-name mini-language *)

(** The intermediate form: string leaves and nested lists. *)
Inductive iform :=
  | IStr (s : string)
  | IList (l : list iform).

(** A token sequence as Python indexes it: a list as it is, a [str] as
    the sequence of its one-character strings. *)
Definition as_seq (x : iform) : list iform :=
  match x with
  | IList l => l
  | IStr s => map (fun c => IStr (String c EmptyString)) (list_ascii_of_string s)
  end.

Module PropertiesRepr.
Record t := mk { items : list string; mappings : list (string * string) }.
End PropertiesRepr.

(** The loop of [parse_properties]. *)
Fixpoint parse_properties_loop (csv : list iform) (items_part : bool)
    (items : list string) (mappings : list (string * string))
    : result PropertiesRepr.t :=
  match csv with
  | [] => Ok (PropertiesRepr.mk items mappings)
  | IList _ :: _ => Raise (BridgeError "invalid property representation")
  | IStr c :: csv' =>
      let '(k, s, v) := partition "="%char (strip c) in
      let '(items_part, items) :=
        if items_part then
          if nonempty s then (false, items) else (true, items ++ [c])
        else (false, items) in
      if negb items_part then
        if negb (nonempty s) then Raise (BridgeError "invalid property representation")
        else parse_properties_loop csv' items_part items (dict_set k v mappings)
      else parse_properties_loop csv' items_part items mappings
  end.

Definition parse_properties (csv : list iform) : result PropertiesRepr.t :=
  parse_properties_loop csv true [] [].

Definition build_library_info_from_property_dict (repr_ : PropertiesRepr.t)
    : result LibraryInfo.t :=
  match last (PropertiesRepr.items repr_) with
  | None => Raise IndexError
  | Some name =>
      match dict_get "Version" (PropertiesRepr.mappings repr_) with
      | None => Raise (KeyError "Version")
      | Some version =>
          match dict_get "Culture" (PropertiesRepr.mappings repr_) with
          | None => Raise (KeyError "Culture")
          | Some culture =>
              Ok (LibraryInfo.mk name version culture
                    (dict_get "PublicKeyToken" (PropertiesRepr.mappings repr_)))
          end
      end
  end.

Definition build_concrete_class_info_from_property_dict (repr_ : PropertiesRepr.t)
    : result (string * option LibraryInfo.t) :=
  match PropertiesRepr.items repr_ with
  | [item] =>
      match PropertiesRepr.mappings repr_ with
      | _ :: _ => Raise (BridgeError "invalid property representation")
      | [] => Ok (item, None)
      end
  | [item; lib] =>
      library ← build_library_info_from_property_dict
                  (PropertiesRepr.mk [lib] (PropertiesRepr.mappings repr_));
      Ok (item, Some library)
  | _ => Raise (BridgeError "invalid property representation")
  end.

Inductive ClassNameToken :=
  | TERMINAL | LITERAL | WHITESPACE | COMMA | LBRACKET | RBRACKET.

Definition token : Type := ClassNameToken * nat * string.

Definition is_blank (c : ascii) : bool :=
  Ascii.eqb c " "%char || Ascii.eqb c "009"%char.

Definition delimiter (c : ascii) : option ClassNameToken :=
  if Ascii.eqb c ","%char then Some COMMA
  else if Ascii.eqb c "["%char then Some LBRACKET
  else if Ascii.eqb c "]"%char then Some RBRACKET
  else None.

(** A finished run of blanks or of other characters.  Only a run that is
    exactly one blank compares equal to [" "] or ["\t"]; any other run is
    a literal. *)
Definition flush (run : option (nat * string)) : list token :=
  match run with
  | None => []
  | Some (col, c) =>
      if String.eqb c " " || String.eqb c (String "009"%char EmptyString)
      then [(WHITESPACE, col, c)]
      else [(LITERAL, col, c)]
  end.

(** [tokenize_class_name]: the matches of
    [[ \t]+|[\[\],]|[^\[\], \t]+] from left to right, then the terminal. *)
Fixpoint tokenize_scan (col : nat) (blank_run : bool) (run : option (nat * string))
    (value : string) : list token :=
  match value with
  | EmptyString => flush run ++ [(TERMINAL, col, EmptyString)]
  | String c value' =>
      match delimiter c with
      | Some k =>
          flush run ++ (k, col, String c EmptyString)
            :: tokenize_scan (S col) false None value'
      | None =>
          match run with
          | Some (start, text) =>
              if Bool.eqb (is_blank c) blank_run
              then tokenize_scan (S col) blank_run
                     (Some (start, text +:+ String c EmptyString)) value'
              else flush run ++
                   tokenize_scan (S col) (is_blank c)
                     (Some (col, String c EmptyString)) value'
          | None =>
              tokenize_scan (S col) (is_blank c)
                (Some (col, String c EmptyString)) value'
          end
      end
  end.

Definition tokenize_class_name (value : string) : list token :=
  tokenize_scan 0 false None value.

(** The two states of [_parse_class_name_into_intermediate_form]. *)
Inductive dispatch := state_0 | state_1.

(** What the state functions share: the list being filled, the stack of
    the enclosing lists, and the push-back buffer. *)
Definition parser_state : Type := list iform * list (list iform) * list token.

Definition run_state_0 (t : token) (st : parser_state)
    : result (option dispatch * parser_state) :=
  let '(tokens, stack, buf) := st in
  match fst (fst t) with
  | WHITESPACE => Ok (Some state_0, st)
  | COMMA => Raise (BridgeError "unexpected token")
  | LBRACKET => Ok (Some state_0, ([], stack ++ [tokens], buf))
  | RBRACKET =>
      match last stack with
      | None => Raise (BridgeError "unexpected token")
      | Some outer =>
          Ok (Some state_1,
              (outer ++ [IList tokens], removelast stack, buf))
      end
  | LITERAL => Ok (Some state_1, (tokens ++ [IStr (snd t)], stack, buf))
  | TERMINAL =>
      match stack with
      | _ :: _ => Raise (BridgeError "unclosed bracket")
      | [] => Ok (None, st)
      end
  end.

Definition run_state_1 (t : token) (st : parser_state)
    : result (option dispatch * parser_state) :=
  let '(tokens, stack, buf) := st in
  match fst (fst t) with
  | WHITESPACE => Ok (Some state_1, st)
  | COMMA => Ok (Some state_0, st)
  | LBRACKET | RBRACKET => Ok (Some state_0, (tokens, stack, buf ++ [t]))
  | TERMINAL => Ok (None, st)
  | LITERAL => Raise (BridgeError "unexpected token")
  end.

(** The [while dispatch is not None] loop; a token is taken from the
    push-back buffer when it holds one, from the tokenizer otherwise. *)
Fixpoint intermediate_loop (turns : nat) (d : option dispatch)
    (st : parser_state) (i : list token) : result (list iform) :=
  match d with
  | None => Ok (fst (fst st))
  | Some d =>
      match turns with
      | O => Raise RecursionError
      | S turns' =>
          let '(tokens, stack, buf) := st in
          let next :=
            match last buf with
            | Some t => Some (t, (tokens, stack, removelast buf), i)
            | None =>
                match i with
                | t :: i' => Some (t, st, i')
                | [] => None
                end
            end in
          match next with
          | None => Ok tokens
          | Some (t, st, i) =>
              '(d, st) ← match d with
                         | state_0 => run_state_0 t st
                         | state_1 => run_state_1 t st
                         end;
              intermediate_loop turns' d st i
          end
      end
  end.

Definition _parse_class_name_into_intermediate_form (value : string)
    : result (list iform) :=
  let i := tokenize_class_name value in
  intermediate_loop (2 * length i + 2) (Some state_0) ([], [], []) i.

(** [ParametrizedClassInfo] (frozen, compared by value). *)
Inductive ParametrizedClassInfo :=
  | PCI (name : string) (parameters : list ParametrizedClassInfo)
        (library : option LibraryInfo.t).

Module ParametrizedClassInfo_.
Definition name (p : ParametrizedClassInfo) := let 'PCI x _ _ := p in x.
Definition parameters (p : ParametrizedClassInfo) := let 'PCI _ x _ := p in x.
Definition library (p : ParametrizedClassInfo) := let 'PCI _ _ x := p in x.
End ParametrizedClassInfo_.

#[global] Instance LibraryInfo_eq_dec : EqDecision LibraryInfo.t.
Proof. solve_decision. Defined.

(** [==] on [ParametrizedClassInfo]. *)
Fixpoint ParametrizedClassInfo_eqb (a b : ParametrizedClassInfo) : bool :=
  match a, b with
  | PCI n1 ps1 l1, PCI n2 ps2 l2 =>
      String.eqb n1 n2
      && (fix all2 (xs ys : list ParametrizedClassInfo) : bool :=
            match xs, ys with
            | [], [] => true
            | x :: xs', y :: ys' => ParametrizedClassInfo_eqb x y && all2 xs' ys'
            | _, _ => false
            end) ps1 ps2
      && bool_decide (l1 = l2)
  end.

Definition _parse_class_name_with_arity (token : string) : result (string * Z) :=
  let '(name, sep, _arity) := partition "`"%char token in
  if nonempty sep then
    match int_of_str _arity with
    | Ok arity => Ok (name, arity)
    | Raise _ => Raise (BridgeError "invalid arity")
    end
  else Ok (name, 0).

(** [_parse_class_name_inner] followed by
    [_convert_into_parametrized_class_info] on its result. *)
Fixpoint _parse_class_name_inner (depth : nat) (tokens : list iform) (i : nat)
    : result (nat * ParametrizedClassInfo) :=
  match depth with
  | O => Raise RecursionError
  | S depth' =>
      match tokens !! i with
      | None => Raise (BridgeError "unexpected end of tokens")
      | Some token =>
          '(name, arity, library) ←
             match token with
             | IStr token =>
                 '(name, arity) ← _parse_class_name_with_arity token;
                 Ok (name, arity, None)
             | IList token =>
                 props ← parse_properties token;
                 '(name_and_arity, library) ←
                    build_concrete_class_info_from_property_dict props;
                 '(name, arity) ← _parse_class_name_with_arity name_and_arity;
                 Ok (name, arity, library)
             end;
          let i := S i in
          if 0 <? arity then
            match tokens !! i with
            | None => Raise (BridgeError "unexpected end of tokens")
            | Some inner =>
                let inner_tokens := as_seq inner in
                let i := S i in
                parameters ←
                  (fix params (turns : nat) (j : nat) (acc : list ParametrizedClassInfo)
                      : result (list ParametrizedClassInfo) :=
                     if negb (Z.of_nat (length acc) <? arity) then
                       if (j <? length inner_tokens)%nat
                       then Raise (BridgeError "redundant token")
                       else Ok acc
                     else
                       match turns with
                       | O => Raise RecursionError
                       | S turns' =>
                           if (length inner_tokens <=? j)%nat
                           then Raise (BridgeError "unexpected end of tokens")
                           else
                             '(j, param_type) ←
                                _parse_class_name_inner depth' inner_tokens j;
                             params turns' j (acc ++ [param_type])
                       end) (S (length inner_tokens)) 0%nat [];
                Ok (i, PCI name parameters library)
            end
          else Ok (i, PCI name [] library)
      end
  end.

Fixpoint iform_depth (x : iform) : nat :=
  match x with
  | IStr _ => 1
  | IList l => S (fold_right (fun y acc => max (iform_depth y) acc) 0%nat l)
  end.

Definition parse_class_name (value : string) : result ParametrizedClassInfo :=
  tokens ← _parse_class_name_into_intermediate_form value;
  '(_, info) ← _parse_class_name_inner (S (iform_depth (IList tokens))) tokens 0;
  Ok info.

Definition split_into_namespace_and_name (qualified_name : string)
    : result (string * string) :=
  let '(namespace_or_name, sep, name) := rpartition "."%char qualified_name in
  if negb (nonempty sep) then
    if String.eqb namespace_or_name "" then
      Raise (BridgeError "invalid qualified type name")
    else Ok (EmptyString, namespace_or_name)
  else
    if String.eqb name "" then
      Raise (BridgeError "invalid qualified type name")
    else Ok (namespace_or_name, name).

(** *** The [Bridge] object *)

Definition type_key : Type := string * option LibraryInfo.t * nat.

Module State.
Record t := mk {
  result_ : DeserializationContext.t;
  world : World.t;
  _builtins : Builtins.t;
  _p_class_to_cli_type_mappings : list (type_key * CLIType);
  _p_class_to_cli_type_instance_mappings :
    list (ParametrizedClassInfo * CLITypeInstance);
  _array_types : gmap nat CLITypeInstance;   (* keyed by (id(elem_type), 0) *)
  _namespaces : gmap string CLINamespace;
  _objects : gmap Z CLIValue }.
End State.
Import State.

(** Methods of the bridge. *)
Definition B := M State.t.

(** A call into the type model. *)
Definition cli {A} (m : Cli.St A) : B A := fun st =>
  match m (world st) with
  | Ok (a, w) =>
      Ok (a, mk (result_ st) w (_builtins st) (_p_class_to_cli_type_mappings st)
                (_p_class_to_cli_type_instance_mappings st) (_array_types st)
                (_namespaces st) (_objects st))
  | Raise e => Raise e
  end.

Definition set_type_mappings (m : list (type_key * CLIType)) : B unit :=
  modify (fun st => mk (result_ st) (world st) (_builtins st) m
                       (_p_class_to_cli_type_instance_mappings st) (_array_types st)
                       (_namespaces st) (_objects st)).

Definition set_instance_mappings
    (m : list (ParametrizedClassInfo * CLITypeInstance)) : B unit :=
  modify (fun st => mk (result_ st) (world st) (_builtins st)
                       (_p_class_to_cli_type_mappings st) m (_array_types st)
                       (_namespaces st) (_objects st)).

Definition set_array_types (m : gmap nat CLITypeInstance) : B unit :=
  modify (fun st => mk (result_ st) (world st) (_builtins st)
                       (_p_class_to_cli_type_mappings st)
                       (_p_class_to_cli_type_instance_mappings st) m
                       (_namespaces st) (_objects st)).

Definition set_namespaces (m : gmap string CLINamespace) : B unit :=
  modify (fun st => mk (result_ st) (world st) (_builtins st)
                       (_p_class_to_cli_type_mappings st)
                       (_p_class_to_cli_type_instance_mappings st) (_array_types st)
                       m (_objects st)).

Definition set_objects (m : gmap Z CLIValue) : B unit :=
  modify (fun st => mk (result_ st) (world st) (_builtins st)
                       (_p_class_to_cli_type_mappings st)
                       (_p_class_to_cli_type_instance_mappings st) (_array_types st)
                       (_namespaces st) m).

(** The dictionary keyed by [ParametrizedClassInfo]. *)
Fixpoint instance_mappings_get (k : ParametrizedClassInfo)
    (d : list (ParametrizedClassInfo * CLITypeInstance)) : option CLITypeInstance :=
  match d with
  | [] => None
  | (k', v) :: d' =>
      if ParametrizedClassInfo_eqb k' k then Some v else instance_mappings_get k d'
  end.

Fixpoint instance_mappings_set (k : ParametrizedClassInfo) (v : CLITypeInstance)
    (d : list (ParametrizedClassInfo * CLITypeInstance))
    : list (ParametrizedClassInfo * CLITypeInstance) :=
  match d with
  | [] => [(k, v)]
  | (k', v') :: d' =>
      if ParametrizedClassInfo_eqb k' k then (k', v) :: d'
      else (k', v') :: instance_mappings_set k v d'
  end.

(** [Bridge._lookup_namespace].  ([rpartition] never gives [None] for the
    separator, so the parent is always looked up.) *)
Fixpoint _lookup_namespace (depth : nat) (namespace : string) : B CLINamespace :=
  match depth with
  | O => raise RecursionError
  | S depth' =>
      st ← get;
      match _namespaces st !! namespace with
      | Some retval => mret retval
      | None =>
          let '(parent, sep, name) := rpartition "."%char namespace in
          outer ← _lookup_namespace depth' parent;
          let retval := Namespace name (Some outer) in
          st ← get;
          _ ← set_namespaces (<[namespace := retval]> (_namespaces st));
          mret retval
      end
  end.

(** [CLITypeParam(f"T{n + 1}")] for [n] in [range(count)]. *)
Fixpoint synthetic_parameters (n count : nat) : list CLITypeParam :=
  match count with
  | O => []
  | S count' =>
      TypeParam (Some ("T" +:+ pretty (S n))) :: synthetic_parameters (S n) count'
  end.

Definition primitive_type_builtin (b : Builtins.t) (p : PrimitiveType.t)
    : CLITypeInstance :=
  match p with
  | PrimitiveType.BOOLEAN => Builtins.SYSTEM_BOOLEAN b
  | PrimitiveType.BYTE => Builtins.SYSTEM_BYTE b
  | PrimitiveType.CHAR => Builtins.SYSTEM_CHAR b
  | PrimitiveType.DATETIME => Builtins.SYSTEM_DATETIME b
  | PrimitiveType.DECIMAL => Builtins.SYSTEM_DECIMAL b
  | PrimitiveType.DOUBLE => Builtins.SYSTEM_DOUBLE b
  | PrimitiveType.INT16 => Builtins.SYSTEM_INT16 b
  | PrimitiveType.INT32 => Builtins.SYSTEM_INT32 b
  | PrimitiveType.INT64 => Builtins.SYSTEM_INT64 b
  | PrimitiveType.NULL => Builtins.SYSTEM_OBJECT b
  | PrimitiveType.SBYTE => Builtins.SYSTEM_SBYTE b
  | PrimitiveType.SINGLE => Builtins.SYSTEM_SINGLE b
  | PrimitiveType.STRING => Builtins.SYSTEM_STRING b
  | PrimitiveType.TIMESPAN => Builtins.SYSTEM_TIMESPAN b
  | PrimitiveType.UINT16 => Builtins.SYSTEM_UINT16 b
  | PrimitiveType.UINT32 => Builtins.SYSTEM_UINT32 b
  | PrimitiveType.UINT64 => Builtins.SYSTEM_UINT64 b
  end.

(** The library of a class: [library_id_name_mappings[library_id]] parsed
    as a property list. *)
Definition library_info_of (library_id : Z) : B LibraryInfo.t :=
  st ← get;
  match DeserializationContext.library_id_name_mappings (result_ st) !! library_id with
  | None => raise (KeyError "library id")
  | Some library_name =>
      lift (repr_ ← parse_properties (map IStr (split ","%char library_name));
            build_library_info_from_property_dict repr_)
  end.

(** [parse_class_name(name)] with the library merged in, as both
    [_get_cli_type_instance_for_class_info] and
    [_get_cli_type_instance_for_class_type_info] do. *)
Definition class_name_with_library (name : string) (library_info : option LibraryInfo.t)
    : result ParametrizedClassInfo :=
  p_class_info ← parse_class_name name;
  match library_info with
  | Some library_info =>
      match ParametrizedClassInfo_.library p_class_info with
      | Some _ => Raise (BridgeError "invalid class info")
      | None =>
          Ok (PCI (ParametrizedClassInfo_.name p_class_info)
                (ParametrizedClassInfo_.parameters p_class_info) (Some library_info))
      end
  | None => Ok p_class_info
  end.

Section Types.

(** The depth that is left for the type model's own recursions. *)
Variable depth : nat.
(** [self._get_cli_type_instance_for_parametrized_class_info], one
    level down. *)
Variable parametrized :
  ParametrizedClassInfo -> list MemberInfo.t -> B CLITypeInstance.

(** [Bridge._get_cli_type_instance_for_class_type_info] *)
Definition _get_cli_type_instance_for_class_type_info (info : ClassTypeInfo.t)
    : B CLITypeInstance :=
  library_info ← library_info_of (ClassTypeInfo.library_id info);
  p_class_info ← lift (class_name_with_library (ClassTypeInfo.name info)
                         (Some library_info));
  parametrized p_class_info [].

(** [Bridge._get_cli_type_instance_for_type_info] *)
Definition _get_cli_type_instance_for_type_info (info : TypeInfo.t)
    : B CLITypeInstance :=
  st ← get;
  match TypeInfo.binary_type info, TypeInfo.additional_info info with
  | BinaryType.PRIMITIVE, APrimitive prim_type =>
      mret (primitive_type_builtin (_builtins st) prim_type)
  | BinaryType.PRIMITIVE, _ => raise (KeyError "primitive type")
  | BinaryType.STRING, _ => mret (Builtins.SYSTEM_STRING (_builtins st))
  | BinaryType.CLASS, AClassTypeInfo class_type_info =>
      _get_cli_type_instance_for_class_type_info class_type_info
  | BinaryType.CLASS, _ => raise AttributeError
  | BinaryType.SYSTEM_CLASS, AStr name =>
      p_class_info ← lift (parse_class_name name);
      parametrized p_class_info []
  | BinaryType.SYSTEM_CLASS, _ => raise (TypeError "expected string")
  | BinaryType.OBJECT, _ => mret (Builtins.SYSTEM_OBJECT (_builtins st))
  | _, _ => raise NotImplementedError
  end.

(** [Bridge._build_cli_type_members] *)
Definition _build_cli_type_members (members : list MemberInfo.t)
    : B (list CLITypeMember) :=
  mapM (fun mi : MemberInfo.t =>
          ti ← _get_cli_type_instance_for_type_info (MemberInfo.type_info mi);
          mret (Member (MemberInfo.name mi) (OfInstance ti)))
       members.

(** [[param.derived_from for param, resolvable in zip(t.parameters,
    t.resolved_parameters) if resolvable is None]] *)
Fixpoint unknown_parameters_of (params : list CLITypeParam)
    (resolved : list (option CLITypeResolvable)) : list CLITypeParam :=
  match params, resolved with
  | param :: params', resolvable :: resolved' =>
      match resolvable with
      | None => param :: unknown_parameters_of params' resolved'
      | Some _ => unknown_parameters_of params' resolved'
      end
  | _, _ => []
  end.

(** The body of
    [Bridge._get_cli_type_instance_for_parametrized_class_info]. *)
Definition parametrized_body (p_class_info : ParametrizedClassInfo)
    (members : list MemberInfo.t) : B CLITypeInstance :=
  st ← get;
  match instance_mappings_get p_class_info
          (_p_class_to_cli_type_instance_mappings st) with
  | Some ti => mret ti
  | None =>
      let t_key : type_key :=
        (ParametrizedClassInfo_.name p_class_info,
         ParametrizedClassInfo_.library p_class_info,
         length (ParametrizedClassInfo_.parameters p_class_info)) in
      t ←
        match dict_get t_key (_p_class_to_cli_type_mappings st) with
        | None =>
            '(namespace, name) ←
               lift (split_into_namespace_and_name
                       (ParametrizedClassInfo_.name p_class_info));
            ns ← _lookup_namespace (S (String.length namespace)) namespace;
            ms ← _build_cli_type_members members;
            t ← cli (CLIType_init name ns
                       (ParamMap
                          (map (fun p => (p, None))
                             (synthetic_parameters 0
                                (length (ParametrizedClassInfo_.parameters p_class_info)))))
                       (DefaultSeq []) None false ms None None);
            st ← get;
            _ ← set_type_mappings (dict_set t_key t (_p_class_to_cli_type_mappings st));
            mret t
        | Some t =>
            match CLIType_.intrinsic t, CLIType_.members t, members with
            | false, [], _ :: _ =>
                ms ← _build_cli_type_members members;
                t ← cli (CLIType_replace t None None None None None (Some ms) None None);
                st ← get;
                _ ← set_type_mappings
                      (dict_set t_key t (_p_class_to_cli_type_mappings st));
                mret t
            | _, _, _ => mret t
            end
        end;
      let unknown_parameters :=
        unknown_parameters_of (CLIType_.parameters t) (CLIType_.resolved_parameters t) in
      if negb (length unknown_parameters =?
               length (ParametrizedClassInfo_.parameters p_class_info))%nat
      then raise (BridgeError "invalid number of type parameters")
      else
        args ← mapM (fun param_type => parametrized param_type [])
                 (ParametrizedClassInfo_.parameters p_class_info);
        ti ← cli (CLIType_instantiate depth t
                    (ByMap (dict_of_pairs
                              (zip unknown_parameters (map OfInstance args)))));
        st ← get;
        _ ← set_instance_mappings
              (instance_mappings_set p_class_info ti
                 (_p_class_to_cli_type_instance_mappings st));
        mret ti
  end.

End Types.

(** [Bridge._get_cli_type_instance_for_parametrized_class_info] *)
Fixpoint _get_cli_type_instance_for_parametrized_class_info (depth : nat)
    (p_class_info : ParametrizedClassInfo) (members : list MemberInfo.t)
    : B CLITypeInstance :=
  match depth with
  | O => raise RecursionError
  | S depth' =>
      parametrized_body depth'
        (_get_cli_type_instance_for_parametrized_class_info depth')
        p_class_info members
  end.

(** [Bridge._get_cli_type_instance_for_class_info] *)
Definition _get_cli_type_instance_for_class_info (depth : nat) (info : ClassInfo.t)
    : B CLITypeInstance :=
  library_info ←
    match ClassInfo.library_id info with
    | Some library_id => l ← library_info_of library_id; mret (Some l)
    | None => mret None
    end;
  p_class_info ← lift (class_name_with_library (ClassInfo.name info) library_info);
  _get_cli_type_instance_for_parametrized_class_info depth p_class_info
    (ClassInfo.members info).

(** [Bridge._get_array_type] *)
Definition _get_array_type (depth : nat) (elem_type : CLITypeInstance) (depth_ : Z)
    : B CLITypeInstance :=
  st ← get;
  let at_key := CLITypeInstance_.id elem_type in
  match _array_types st !! at_key with
  | Some ti => mret ti
  | None =>
      ti ← cli (CLIType_instantiate depth ARRAY_TYPE (BySeq [OfInstance elem_type]));
      st ← get;
      _ ← set_array_types (<[at_key := ti]> (_array_types st));
      mret ti
  end.

(** [Bridge._get_cli_type_instance_for_array_info] *)
Definition _get_cli_type_instance_for_array_info (depth : nat) (info : ArrayInfo.t)
    : B CLITypeInstance :=
  if negb (bool_decide (ArrayInfo.type info = Some BinaryArrayType.SINGLE))
  then raise NotImplementedError
  else if negb (length (ArrayInfo.shape info) =? 1)%nat
  then raise NotImplementedError
  else
    match ArrayInfo.type_info info with
    | None => raise AssertionError
    | Some type_info =>
        elem_type ←
          _get_cli_type_instance_for_type_info
            (_get_cli_type_instance_for_parametrized_class_info depth) type_info;
        _get_array_type depth elem_type 0
    end.

(** *** Lowering of values *)

(** The Python object a slot of the intermediate model holds, as the
    value model sees it. *)
Definition to_any (v : value) : any :=
  match v with
  | VNone => PyNone
  | VBool b => PyBool b
  | VInt z => PyInt z
  | VStr s => PyStr s
  | VTimedelta t => PyTimedelta t
  | VDatetime d => PyDatetime d
  | VObjectReference _ | VObj _ => PyNone (* handled before the coercion *)
  end.

(** [seq[:stop]] on a list. *)
Definition slice_to {A} (stop : Z) (l : list A) : list A :=
  if 0 <=? stop then take (Z.to_nat stop) l
  else take (Z.to_nat (Z.of_nat (length l) + stop)) l.

(** [value[:len_]]: [len_] is whatever the second member slot holds. *)
Definition py_slice (x : any) (len_ : value) : result any :=
  stop ← match len_ with
         | VInt n => Ok (Some n)
         | VBool b => Ok (Some (if b then 1 else 0))
         | VNone => Ok None
         | _ => Raise (TypeError "slice indices must be integers or None")
         end;
  let cut {A} (l : list A) : list A :=
    match stop with Some n => slice_to n l | None => l end in
  match x with
  | PyList l => Ok (PyList (cut l))
  | PyTuple l => Ok (PyTuple (cut l))
  | PyBytes l => Ok (PyBytes (cut l))
  | PyStr s => Ok (PyStr (string_of_list_ascii (cut (list_ascii_of_string s))))
  | _ => Raise (TypeError "object is not subscriptable")
  end.

(** [len(x)] *)
Definition py_len (x : any) : result nat :=
  match x with
  | PyList l | PyTuple l => Ok (length l)
  | PyBytes l => Ok (length l)
  | PyStr s => Ok (String.length s)
  | _ => Raise (TypeError "object has no len()")
  end.

(** [isinstance(value, CLIBasicValue) and
    value.type_instance.derived_from.origin == ARRAY_TYPE] *)
Definition is_array_value (value : CLIValue) : bool :=
  match value with
  | CLIBasicValue ti _ =>
      same_type (CLIType_.origin (CLITypeInstance_.derived_from ti)) ARRAY_TYPE
  | _ => false
  end.

Definition basic_payload (value : CLIValue) : any :=
  match value with
  | CLIBasicValue _ x => x
  | _ => PyNone
  end.

(** The loop of [_convert_dictionary_value] over the entries array. *)
Fixpoint compact_pairs (items : list any) : result (list any) :=
  match items with
  | [] => Ok []
  | PyNone :: items' => compact_pairs items'
  | PyValue (CLIBasicValue _ x) :: items' =>
      n ← py_len x;
      if negb (n =? 2)%nat then Raise AssertionError
      else rest ← compact_pairs items'; Ok (x :: rest)
  | _ :: _ => Raise AttributeError
  end.

Section Values.

Variable depth : nat.
(** [self._convert_value], one level down. *)
Variable _convert_value_rec : value -> B CLIValue.

(** [Bridge._get_value_for_object_id] *)
Definition _get_value_for_object_id (object_id : Z) : B CLIValue :=
  st ← get;
  match _objects st !! object_id with
  | Some v => mret v
  | None =>
      match DeserializationContext.objects (result_ st) !! object_id with
      | None => raise (KeyError "object id")
      | Some o => _convert_value_rec o
      end
  end.

(** [Bridge._convert_array_list_value] *)
Definition _convert_array_list_value (ti : CLITypeInstance) (values : list value)
    : B CLIValue :=
  match values !! 0%nat with
  | None => raise IndexError
  | Some v0 =>
      value ← _convert_value_rec v0;
      match values !! 1%nat with
      | None => raise IndexError
      | Some len_ =>
          if negb (is_array_value value)
          then raise (BridgeError "the value of the first member must be an array")
          else
            x ← lift (py_slice (basic_payload value) len_);
            cli (CLITypeInstance_instantiate depth ti x None None)
      end
  end.

(** [Bridge._convert_dictionary_value] *)
Definition _convert_dictionary_value (ti : CLITypeInstance) (values : list value)
    : B CLIValue :=
  match values !! 3%nat with
  | None => raise IndexError
  | Some v3 =>
      value ← _convert_value_rec v3;
      if negb (is_array_value value)
      then raise (BridgeError "the value of the first member must be an array")
      else
        match basic_payload value with
        | PyList items =>
            _value ← lift (compact_pairs items);
            cli (CLITypeInstance_instantiate depth ti (PyList _value) None None)
        | _ => raise (TypeError "object is not iterable")
        end
  end.

(** [Bridge._convert_key_value_pair_value] *)
Definition _convert_key_value_pair_value (ti : CLITypeInstance) (values : list value)
    : B CLIValue :=
  _values ← mapM _convert_value_rec values;
  if negb (length _values =? 2)%nat
  then raise (BridgeError "value must have a two element sequence")
  else cli (CLITypeInstance_instantiate depth ti (PyTuple (map PyValue _values))
              None None).

(** The [Instance] branch of [_convert_value], up to the value. *)
Definition convert_instance (class_info : ClassInfo.t)
    (values : option (list value)) : B CLIValue :=
  ti ← _get_cli_type_instance_for_class_info depth class_info;
  st ← get;
  if CLIType_.intrinsic (CLITypeInstance_.derived_from ti) then
    match values with
    | None => raise (BridgeError "{ti} must have a value")
    | Some values =>
        let origin := CLIType_.origin (CLITypeInstance_.derived_from ti) in
        if same_instance ti (Builtins.SYSTEM_COLLECTIONS_ARRAYLIST (_builtins st))
        then _convert_array_list_value ti values
        else if same_type origin SYSTEM_COLLECTIONS_GENERIC_LIST
        then _convert_array_list_value ti values
        else if same_type origin SYSTEM_COLLECTIONS_GENERIC_DICTIONARY
        then _convert_dictionary_value ti values
        else if same_type origin SYSTEM_COLLECTIONS_GENERIC_KEYVALUEPAIR
        then _convert_key_value_pair_value ti values
        else raise NotImplementedError
    end
  else
    member_dict ←
      match values with
      | Some values =>
          pairs ← mapM (fun p : MemberInfo.t * value =>
                          c ← _convert_value_rec (snd p);
                          mret (MemberInfo.name (fst p), Some c))
                       (zip (ClassInfo.members class_info) values);
          mret (Some (dict_of_pairs pairs))
      | None => mret None
      end;
    cli (CLITypeInstance_instantiate depth ti PyNone None member_dict).

(** The [Array] branch of [_convert_value], up to the value. *)
Definition convert_array (array_info : ArrayInfo.t)
    (values : option (list value)) : B CLIValue :=
  ti ← _get_cli_type_instance_for_array_info depth array_info;
  let shape0 := nth 0 (ArrayInfo.shape array_info) 0 in
  _values ←
    match values with
    | Some values =>
        if negb (Z.of_nat (length values) =? shape0)
        then raise (BridgeError "array element count does not match with the shape")
        else mapM _convert_value_rec values
    | None =>
        e ← _convert_value_rec VNone;
        mret (replicate (Z.to_nat shape0) e)
    end;
  cli (CLITypeInstance_instantiate depth ti (PyList (map PyValue _values)) None None).

(** The body of [Bridge._convert_value].  A converted [Instance] or
    [Array] is recorded under its object id once its value is built. *)
Definition convert_body (v : value) : B CLIValue :=
  st ← get;
  match v with
  | VObj a =>
      match DeserializationContext.heap (result_ st) !! a with
      | Some (Instance class_info values) =>
          value ← convert_instance class_info values;
          st ← get;
          _ ← set_objects (<[ClassInfo.object_id class_info := value]> (_objects st));
          mret value
      | Some (Array array_info values) =>
          value ← convert_array array_info values;
          st ← get;
          _ ← set_objects (<[ArrayInfo.object_id array_info := value]> (_objects st));
          mret value
      | None => raise AssertionError
      end
  | VObjectReference object_id => _get_value_for_object_id object_id
  | _ => cli (Builtins.from_python_value depth (_builtins st) (to_any v))
  end.

End Values.

(** [Bridge._convert_value]; [depth] is the call depth that is left. *)
Fixpoint _convert_value (depth : nat) (v : value) : B CLIValue :=
  match depth with
  | O => raise RecursionError
  | S depth' => convert_body depth' (_convert_value depth') v
  end.

(** [Bridge.__init__] *)
Definition init (depth : nat) (result_ : DeserializationContext.t) : result State.t :=
  match (ctx ← new_ctx; Builtins.init depth ctx) initial_world with
  | Raise e => Raise e
  | Ok (builtins, w) =>
      Ok (State.mk result_ w builtins
            [(("System.Collections.Generic.List", None, 1%nat),
              SYSTEM_COLLECTIONS_GENERIC_LIST);
             (("System.Collections.Generic.Dictionary", None, 2%nat),
              SYSTEM_COLLECTIONS_GENERIC_DICTIONARY);
             (("System.Collections.Generic.KeyValuePair", None, 2%nat),
              SYSTEM_COLLECTIONS_GENERIC_KEYVALUEPAIR)]
            [(PCI "System.Collections.ArrayList" [] None,
              Builtins.SYSTEM_COLLECTIONS_ARRAYLIST builtins);
             (PCI "System.Collections.Dictionary" [] None,
              Builtins.SYSTEM_COLLECTIONS_DICTIONARY builtins);
             (PCI "System.Object" [] None, Builtins.SYSTEM_OBJECT builtins);
             (PCI "System.String" [] None, Builtins.SYSTEM_STRING builtins)]
            ∅
            (<["" := ROOT_NAMESPACE]>
               (<["System" := SYSTEM_NAMESPACE]>
                  (<["System.Collections" := SYSTEM_COLLECTIONS_NAMESPACE]>
                     (<["System.Collections.Generic" :=
                          SYSTEM_COLLECTIONS_GENERIC_NAMESPACE]> ∅))))
            ∅)
  end.

(** [Bridge.__call__] *)
Definition call (depth : nat) : B CLIValue :=
  st ← get;
  match DeserializationContext.root_id (result_ st) with
  | None => raise (BridgeError "root_id is not specified by DeserializationContext")
  | Some root_id =>
      match DeserializationContext.objects (result_ st) !! root_id with
      | None => raise (KeyError "object id")
      | Some o => _convert_value depth o
      end
  end.

(** [Bridge(result)()] *)
Definition bridge (depth : nat) (result_ : DeserializationContext.t)
    : result (CLIValue * State.t) :=
  st ← init depth result_;
  call depth st.

End Bridge.

(* ===================================================================== *)
(** ** dotnetserde.datacontract.xsdatatypes                               *)
(* ===================================================================== *)
Module Xsd.

Import Cli.

(** [BooleanSerializer.deserialize] *)
Definition BooleanSerializer_deserialize (cli_type : CLITypeInstance)
    (value : string) : result CLIValue :=
  let value := lower value in
  if String.eqb value "true" || String.eqb value "1" then
    Ok (CLIBasicValue cli_type (PyBool true))
  else if String.eqb value "false" || String.eqb value "false" then
    Ok (CLIBasicValue cli_type (PyBool false))
  else Raise (ValueError value).

(** [LongSerializer.deserialize] *)
Definition LongSerializer_deserialize (cli_type_int32 cli_type_int64 : CLITypeInstance)
    (value : string) : result CLIValue :=
  _value ← int_of_str value;
  let bl :=
    if 0 <? _value then bit_length _value + 1
    else bit_length (_value + 1) + 1 in
  let cli_type := if bl <=? 32 then cli_type_int32 else cli_type_int64 in
  Ok (CLIBasicValue cli_type (PyInt _value)).

(** [StringSerializer.deserialize] *)
Definition StringSerializer_deserialize (cli_type : CLITypeInstance)
    (value : string) : result CLIValue :=
  Ok (CLIBasicValue cli_type (PyStr value)).

Section Serializers.

(** Parsers the package takes from elsewhere: [iso8601.parse_date],
    [base64.b64decode], [float] and [decimal.Decimal]. *)
Variable parse_date : string -> result Binary.DateTime.t.
Variable b64decode : string -> result (list Z).
Variable float_of_str : string -> result Z.
Variable decimal_of_str : string -> result string.

Variable builtins : Builtins.t.

(** [XSDataSerializer.deserialize] over [SERIALIZERS], each serializer
    built with [builtins]. *)
Definition XSDataSerializer_deserialize (type_ : string) (value : string)
    : result CLIValue :=
  if String.eqb type_ "dateTime" then
    d ← parse_date value;
    Ok (CLIBasicValue (Builtins.SYSTEM_DATETIME builtins) (PyDatetime d))
  else if String.eqb type_ "base64Binary" then
    b ← b64decode value;
    Ok (CLIBasicValue (Builtins.SYSTEM_BYTE_ARRAY builtins) (PyBytes b))
  else if String.eqb type_ "long" then
    LongSerializer_deserialize (Builtins.SYSTEM_INT32 builtins)
      (Builtins.SYSTEM_INT64 builtins) value
  else if String.eqb type_ "double" then
    x ← float_of_str value;
    Ok (CLIBasicValue (Builtins.SYSTEM_DOUBLE builtins) (PyFloat x))
  else if String.eqb type_ "decimal" then
    x ← decimal_of_str value;
    Ok (CLIBasicValue (Builtins.SYSTEM_DECIMAL builtins) (PyDecimal x))
  else if String.eqb type_ "bool" then
    BooleanSerializer_deserialize (Builtins.SYSTEM_BOOLEAN builtins) value
  else if String.eqb type_ "string" then
    StringSerializer_deserialize (Builtins.SYSTEM_STRING builtins) value
  else Raise (KeyError type_).

End Serializers.

End Xsd.

(* ===================================================================== *)
(** ** dotnetserde.datacontract: descriptors and the SAX handler stack    *)
(* ===================================================================== *)
Module DataContract.

Import Cli.

Definition DC_NAMESPACE_PREFIX := "http://schemas.datacontract.org/2004/07/".
Definition DC_NAMESPACE_ARRAY := "http://schemas.microsoft.com/2003/10/Serialization/Arrays".
Definition XMLSCHEMA_NAMESPACE := "http://www.w3.org/2001/XMLSchema".
Definition XMLSCHEMA_INSTANCE_NAMESPACE := "http://www.w3.org/2001/XMLSchema-instance".

(** *** [dotnetserde.datacontract.models] *)
Inductive TypeDescriptorBase :=
  | BasicTypeDescriptor (cli_type : option CLITypeInstance)
  | CompositeTypeDescriptor (cli_type : option CLITypeInstance)
      (members : list MemberDescriptor)
  | ArrayTypeDescriptor (cli_type : option CLITypeInstance)
      (item_cli_type : option CLITypeInstance)
      (item_descriptor : option TypeDescriptorBase)
  | DictionaryTypeDescriptor (cli_type : option CLITypeInstance)
      (key_cli_type value_cli_type : option CLITypeInstance)
  | SingletonTypeDescriptor (cli_type : option CLITypeInstance)
with MemberDescriptor :=
  | mkMemberDescriptor (name : string) (namespace : option string)
      (type_descriptor : TypeDescriptorBase) (member_name : option string).

Module TypeDescriptor_.
Definition cli_type (d : TypeDescriptorBase) : option CLITypeInstance :=
  match d with
  | BasicTypeDescriptor c | CompositeTypeDescriptor c _
  | ArrayTypeDescriptor c _ _ | DictionaryTypeDescriptor c _ _
  | SingletonTypeDescriptor c => c
  end.
(** [dataclasses.replace(d, cli_type=c)] *)
Definition replace_cli_type (d : TypeDescriptorBase) (c : option CLITypeInstance)
    : TypeDescriptorBase :=
  match d with
  | BasicTypeDescriptor _ => BasicTypeDescriptor c
  | CompositeTypeDescriptor _ ms => CompositeTypeDescriptor c ms
  | ArrayTypeDescriptor _ i d' => ArrayTypeDescriptor c i d'
  | DictionaryTypeDescriptor _ k v => DictionaryTypeDescriptor c k v
  | SingletonTypeDescriptor _ => SingletonTypeDescriptor c
  end.
End TypeDescriptor_.

Module MemberDescriptor_.
Definition name (m : MemberDescriptor) := let 'mkMemberDescriptor x _ _ _ := m in x.
Definition namespace (m : MemberDescriptor) := let 'mkMemberDescriptor _ x _ _ := m in x.
Definition type_descriptor (m : MemberDescriptor) :=
  let 'mkMemberDescriptor _ _ x _ := m in x.
Definition member_name (m : MemberDescriptor) :=
  let 'mkMemberDescriptor _ _ _ x := m in x.
(** [member.member_name or member.name] *)
Definition effective_name (m : MemberDescriptor) : string :=
  match member_name m with
  | Some n => if nonempty n then n else name m
  | None => name m
  end.
End MemberDescriptor_.

(** [name_to_member_map[key]]: of the members that share a name the last
    one is the one the dictionary keeps. *)
Fixpoint name_to_member_map (members : list MemberDescriptor) (key : string)
    : option MemberDescriptor :=
  match members with
  | [] => None
  | m :: members' =>
      match name_to_member_map members' key with
      | Some m' => Some m'
      | None => if String.eqb (MemberDescriptor_.name m) key then Some m else None
      end
  end.

(** *** The handlers

    The parser's current content handler, with the handlers it will
    return to ([outer]) inside it.  Every handler the package creates has
    an outer handler except the sentinel.  What a handler pushes upwards
    is a value or [None]. *)
Definition xmlns_map := gmap (option string) string.

Inductive Handler :=
  | SentinelHandler (_xmlns : xmlns_map) (result : option CLIValue)
  | CompositeObjectHandler (outer : Handler) (_xmlns : xmlns_map)
      (descriptor : TypeDescriptorBase) (_member : option MemberDescriptor)
      (_member_value_dict : list (nat * option CLIValue))
  | ArrayObjectHandler (outer : Handler) (_xmlns : xmlns_map)
      (descriptor : TypeDescriptorBase) (_anonymous_member : MemberDescriptor)
      (_items : list (option CLIValue))
  | DictionaryObjectHandler (outer : Handler) (_xmlns : xmlns_map)
      (descriptor : TypeDescriptorBase) (_anonymous_member : MemberDescriptor)
      (_items : list (option CLIValue))
  | SingletonObjectHandler (outer : Handler) (_xmlns : xmlns_map)
      (descriptor : TypeDescriptorBase) (_anonymous_member : MemberDescriptor)
  | BasicObjectHandler (outer : Handler) (_xmlns : xmlns_map)
      (type_ : string) (_chunks : list string)
  | NilObjectHandler (outer : Handler) (_xmlns : xmlns_map)
  | MemberHandler (outer : Handler) (_xmlns : xmlns_map)
      (descriptor : MemberDescriptor).

Definition xmlns_of (h : Handler) : xmlns_map :=
  match h with
  | SentinelHandler x _ | CompositeObjectHandler _ x _ _ _
  | ArrayObjectHandler _ x _ _ _ | DictionaryObjectHandler _ x _ _ _
  | SingletonObjectHandler _ x _ _ | BasicObjectHandler _ x _ _
  | NilObjectHandler _ x | MemberHandler _ x _ => x
  end.

Definition outer_of (h : Handler) : option Handler :=
  match h with
  | SentinelHandler _ _ => None
  | CompositeObjectHandler o _ _ _ _ | ArrayObjectHandler o _ _ _ _
  | DictionaryObjectHandler o _ _ _ _ | SingletonObjectHandler o _ _ _
  | BasicObjectHandler o _ _ _ | NilObjectHandler o _ | MemberHandler o _ _ => Some o
  end.

(** The [_namespace] property: the descriptor's namespace on a
    [MemberHandler] that has one, the outer handler's otherwise. *)
Fixpoint _namespace (h : Handler) : option string :=
  match h with
  | SentinelHandler _ _ => None
  | MemberHandler o _ d =>
      match MemberDescriptor_.namespace d with
      | Some ns => Some ns
      | None => _namespace o
      end
  | CompositeObjectHandler o _ _ _ _ | ArrayObjectHandler o _ _ _ _
  | DictionaryObjectHandler o _ _ _ _ | SingletonObjectHandler o _ _ _
  | BasicObjectHandler o _ _ _ | NilObjectHandler o _ => _namespace o
  end.

(** [BaseHandler.startPrefixMapping] *)
Definition startPrefixMapping (h : Handler) (prefix : option string) (uri : string)
    : Handler :=
  let x := <[prefix := uri]> (xmlns_of h) in
  match h with
  | SentinelHandler _ r => SentinelHandler x r
  | CompositeObjectHandler o _ d m v => CompositeObjectHandler o x d m v
  | ArrayObjectHandler o _ d a i => ArrayObjectHandler o x d a i
  | DictionaryObjectHandler o _ d a i => DictionaryObjectHandler o x d a i
  | SingletonObjectHandler o _ d a => SingletonObjectHandler o x d a
  | BasicObjectHandler o _ t c => BasicObjectHandler o x t c
  | NilObjectHandler o _ => NilObjectHandler o x
  | MemberHandler o _ d => MemberHandler o x d
  end.

Section Handlers.

Variable depth : nat.
Variable builtins : Builtins.t.
(** [ctx.xs_deserialize] *)
Variable xs_deserialize : string -> string -> result CLIValue.

(** [push_value] by the class of the handler: the sentinel keeps the
    value, a composite files it under the ordinal of the member being
    read, an array or dictionary appends it, every other handler hands
    it to its outer handler. *)
Fixpoint push_value (h : Handler) (value : option CLIValue) : St Handler :=
  match h with
  | SentinelHandler x _ => mret (SentinelHandler x value)
  | CompositeObjectHandler o x d _member vd =>
      match _member with
      | None => mret h
      | Some member =>
          match TypeDescriptor_.cli_type d with
          | None => raise AssertionError
          | Some cli_type =>
              m ← CLITypeInstance_getitem_name depth cli_type
                    (MemberDescriptor_.effective_name member);
              mret (CompositeObjectHandler o x d _member (dict_set (fst m) value vd))
          end
      end
  | ArrayObjectHandler o x d a items =>
      mret (ArrayObjectHandler o x d a (items ++ [value]))
  | DictionaryObjectHandler o x d a items =>
      mret (DictionaryObjectHandler o x d a (items ++ [value]))
  | SingletonObjectHandler o x d a =>
      o' ← push_value o value; mret (SingletonObjectHandler o' x d a)
  | BasicObjectHandler o x t c =>
      o' ← push_value o value; mret (BasicObjectHandler o' x t c)
  | NilObjectHandler o x =>
      o' ← push_value o value; mret (NilObjectHandler o' x)
  | MemberHandler o x d =>
      o' ← push_value o value; mret (MemberHandler o' x d)
  end.

(** [isinstance(h, (CompositeObjectHandler, ArrayObjectHandler,
    SingletonObjectHandler))] together with [h.descriptor.cli_type]. *)
Definition container_cli_type (h : Handler) : option (option CLITypeInstance) :=
  match h with
  | CompositeObjectHandler _ _ d _ _ | ArrayObjectHandler _ _ d _ _
  | SingletonObjectHandler _ _ d _ => Some (TypeDescriptor_.cli_type d)
  | _ => None
  end.

(** *** [dotnetserde.datacontract.deserialization._DeserializationContext] *)

Definition BUILTIN_TYPE_TO_TYPE_DESCRIPTOR_MAP (name : string)
    : option TypeDescriptorBase :=
  if String.eqb name "IntPtr" then
    Some (SingletonTypeDescriptor (Some (Builtins.SYSTEM_INT64 builtins)))
  else if String.eqb name "UIntPtr" then
    Some (SingletonTypeDescriptor (Some (Builtins.SYSTEM_UINT64 builtins)))
  else if String.eqb name "SByte" then
    Some (BasicTypeDescriptor (Some (Builtins.SYSTEM_SBYTE builtins)))
  else if String.eqb name "Int16" then
    Some (BasicTypeDescriptor (Some (Builtins.SYSTEM_INT16 builtins)))
  else if String.eqb name "Int32" then
    Some (BasicTypeDescriptor (Some (Builtins.SYSTEM_INT32 builtins)))
  else if String.eqb name "Int64" then
    Some (BasicTypeDescriptor (Some (Builtins.SYSTEM_INT64 builtins)))
  else if String.eqb name "Byte" then
    Some (BasicTypeDescriptor (Some (Builtins.SYSTEM_BYTE builtins)))
  else if String.eqb name "Uint16" then
    Some (BasicTypeDescriptor (Some (Builtins.SYSTEM_UINT16 builtins)))
  else if String.eqb name "Uint32" then
    Some (BasicTypeDescriptor (Some (Builtins.SYSTEM_UINT32 builtins)))
  else if String.eqb name "Uint64" then
    Some (BasicTypeDescriptor (Some (Builtins.SYSTEM_UINT64 builtins)))
  else if String.eqb name "Single" then
    Some (BasicTypeDescriptor (Some (Builtins.SYSTEM_SINGLE builtins)))
  else if String.eqb name "Double" then
    Some (BasicTypeDescriptor (Some (Builtins.SYSTEM_DOUBLE builtins)))
  else if String.eqb name "String" then
    Some (BasicTypeDescriptor (Some (Builtins.SYSTEM_STRING builtins)))
  else if String.eqb name "DateTime" then
    Some (BasicTypeDescriptor (Some (Builtins.SYSTEM_DATETIME builtins)))
  else if String.eqb name "TimeSpan" then
    Some (BasicTypeDescriptor (Some (Builtins.SYSTEM_TIMESPAN builtins)))
  else None.

(** [type_descriptor_from_cli_type] *)
Definition type_descriptor_from_cli_type (cli_type : CLITypeInstance)
    : St TypeDescriptorBase :=
  let derived_from := CLITypeInstance_.derived_from cli_type in
  let namespace := CLINamespace_str (CLIType_.namespace derived_from) in
  let name := CLIType_.name derived_from in
  let composite := CompositeTypeDescriptor (Some cli_type) [] in
  if String.eqb namespace "System.Collections" && String.eqb name "ArrayList" then
    mret (ArrayTypeDescriptor (Some cli_type)
            (Some (Builtins.SYSTEM_OBJECT builtins)) None)
  else if String.eqb namespace "System.Collections.Generic" && String.eqb name "List" then
    match CLIType_.parameters derived_from with
    | [] => raise IndexError
    | first_ref :: _ =>
        c ← get_ctx (CLITypeInstance_.ctx cli_type);
        match CLITypeResolutionContext.refs c !! param_name first_ref with
        | None => raise (KeyError "type parameter")
        | Some item => mret (ArrayTypeDescriptor (Some cli_type) (Some item) None)
        end
    end
  else if String.eqb namespace "System" then
    mret (default composite (BUILTIN_TYPE_TO_TYPE_DESCRIPTOR_MAP name))
  else mret composite.

(** [name in (...)] *)
Definition name_in (name : string) (names : list string) : bool :=
  existsb (String.eqb name) names.

(** [xs_type_from_cli_type] *)
Definition xs_type_from_cli_type (cli_type : CLITypeInstance) : result string :=
  let derived_from := CLITypeInstance_.derived_from cli_type in
  let namespace := CLINamespace_str (CLIType_.namespace derived_from) in
  let name := CLIType_.name derived_from in
  if String.eqb namespace "System" then
    if name_in name ["SByte"; "Int16"; "Int32"; "Int64"; "Byte"; "Uint16";
                     "Uint32"; "Uint64"]
    then Ok "long"
    else if String.eqb name "String" then Ok "string"
    else if String.eqb name "DateTime" then Ok "dateTime"
    else if String.eqb name "Boolean" then Ok "bool"
    else if name_in name ["Double"; "Single"] then Ok "double"
    else Raise NotImplementedError
  else Raise NotImplementedError.

(** *** The handlers' constructors *)

(** [BaseHandler.__init__]: the prefix map is copied from the outer
    handler. *)
Definition inherited_xmlns (outer : Handler) : xmlns_map := xmlns_of outer.

(** [CompositeObjectHandler.__init__] *)
Definition CompositeObjectHandler_init (outer : Handler)
    (descriptor : TypeDescriptorBase) : Handler :=
  CompositeObjectHandler outer (inherited_xmlns outer) descriptor None [].

(** [ArrayObjectHandler.__init__] *)
Definition ArrayObjectHandler_init (outer : Handler)
    (descriptor : TypeDescriptorBase) : St Handler :=
  match descriptor with
  | ArrayTypeDescriptor cli_type item_cli_type item_descriptor =>
      item_cli_type ←
        match item_cli_type with
        | Some c => mret c
        | None =>
            match cli_type with
            | None => raise AssertionError
            | Some container_cli_type =>
                let derived_from := CLITypeInstance_.derived_from container_cli_type in
                if negb (length (CLIType_.parameters derived_from) =? 1)%nat
                then raise AssertionError
                else
                  match CLIType_.resolved_parameters derived_from with
                  | [] => raise IndexError
                  | None :: _ => raise AssertionError
                  | Some _item_cli_type :: _ =>
                      CLITypeResolvable_resolve depth _item_cli_type
                        (CLITypeInstance_.ctx container_cli_type)
                  end
            end
        end;
      item_descriptor ←
        match item_descriptor with
        | Some item_descriptor =>
            match TypeDescriptor_.cli_type item_descriptor with
            | None =>
                mret (TypeDescriptor_.replace_cli_type item_descriptor
                        (Some item_cli_type))
            | Some _ => mret item_descriptor
            end
        | None => type_descriptor_from_cli_type item_cli_type
        end;
      mret (ArrayObjectHandler outer (inherited_xmlns outer) descriptor
              (mkMemberDescriptor "*" None item_descriptor None) [])
  | _ => raise AssertionError
  end.

(** [DictionaryObjectHandler.__init__] *)
Definition DictionaryObjectHandler_init (outer : Handler)
    (descriptor : TypeDescriptorBase) : St Handler :=
  match descriptor with
  | DictionaryTypeDescriptor cli_type key_cli_type value_cli_type =>
      '(key_cli_type, value_cli_type) ←
        match key_cli_type with
        | Some k => mret (k, value_cli_type)
        | None =>
            match value_cli_type, cli_type with
            | Some _, _ => raise AssertionError
            | None, None => raise AssertionError
            | None, Some container_cli_type =>
                let derived_from := CLITypeInstance_.derived_from container_cli_type in
                if negb (length (CLIType_.parameters derived_from) =? 2)%nat
                then raise AssertionError
                else
                  match CLIType_.resolved_parameters derived_from with
                  | [_key_cli_type; _value_cli_type] =>
                      match _key_cli_type, _value_cli_type with
                      | Some _key_cli_type, Some _value_cli_type =>
                          k ← CLITypeResolvable_resolve depth _key_cli_type
                                (CLITypeInstance_.ctx container_cli_type);
                          v ← CLITypeResolvable_resolve depth _value_cli_type
                                (CLITypeInstance_.ctx container_cli_type);
                          mret (k, Some v)
                      | _, _ => raise AssertionError
                      end
                  | _ => raise (ValueError "cannot unpack")
                  end
            end
        end;
      match value_cli_type with
      | None => raise AssertionError
      | Some value_cli_type =>
          pair_type ← CLIType_instantiate depth SYSTEM_COLLECTIONS_GENERIC_KEYVALUEPAIR
                        (BySeq [OfInstance key_cli_type; OfInstance value_cli_type]);
          key_descriptor ← type_descriptor_from_cli_type key_cli_type;
          value_descriptor ← type_descriptor_from_cli_type value_cli_type;
          mret (DictionaryObjectHandler outer (inherited_xmlns outer) descriptor
                  (mkMemberDescriptor "*" None
                     (CompositeTypeDescriptor (Some pair_type)
                        [mkMemberDescriptor "Key" None key_descriptor None;
                         mkMemberDescriptor "Value" None value_descriptor None])
                     None)
                  [])
      end
  | _ => raise AssertionError
  end.

(** [SingletonObjectHandler.__init__] *)
Definition SingletonObjectHandler_init (outer : Handler)
    (descriptor : TypeDescriptorBase) : St Handler :=
  match TypeDescriptor_.cli_type descriptor with
  | None => raise AssertionError
  | Some cli_type =>
      item_descriptor ← type_descriptor_from_cli_type cli_type;
      mret (SingletonObjectHandler outer (inherited_xmlns outer) descriptor
              (mkMemberDescriptor "*" None item_descriptor None))
  end.

(** [BasicObjectHandler.__init__] *)
Definition BasicObjectHandler_init (outer : Handler) (type_ : string) : Handler :=
  BasicObjectHandler outer (inherited_xmlns outer) type_ [].

(** [NilObjectHandler(outer, ctx)] *)
Definition NilObjectHandler_init (outer : Handler) : Handler :=
  NilObjectHandler outer (inherited_xmlns outer).

(** [MemberHandler.__init__] *)
Definition MemberHandler_init (outer : Handler) (descriptor : MemberDescriptor)
    : Handler :=
  MemberHandler outer (inherited_xmlns outer) descriptor.

(** *** The SAX callbacks *)

Definition qualified_name : Type := option string * string.
Definition attributes : Type := list (qualified_name * string).

(** Truth value of a [CLIValue] in a condition: the value classes
    define neither [__bool__] nor [__len__], so every instance is true,
    whatever it carries. *)
Definition truthy (v : CLIValue) : bool := true.

(** [MemberHandler.startElementNS] *)
Definition MemberHandler_startElementNS (outer : Handler) (_xmlns : xmlns_map)
    (descriptor : MemberDescriptor) (name : qualified_name)
    (qname : option string) (attrs : attributes) : St Handler :=
  let self := MemberHandler outer _xmlns descriptor in
  nil ←
    match dict_get (Some XMLSCHEMA_INSTANCE_NAMESPACE, "nil") attrs with
    | None => mret false
    | Some xsin => v ← lift (xs_deserialize "bool" xsin); mret (truthy v)
    end;
  if nil : bool then mret (NilObjectHandler_init outer)
  else
    match dict_get (Some XMLSCHEMA_INSTANCE_NAMESPACE, "type") attrs with
    | Some xsit =>
        let '(namespace_prefix, _, type_) := partition ":"%char xsit in
        match _xmlns !! Some namespace_prefix with
        | None => raise (KeyError namespace_prefix)
        | Some ns =>
            if negb (String.eqb ns XMLSCHEMA_NAMESPACE)
            then raise (InvalidDataContractPayload
                          "XMLSchema instance attribute refers to unexpected namespace")
            else mret (BasicObjectHandler_init outer type_)
        end
    | None =>
        match MemberDescriptor_.type_descriptor descriptor with
        | CompositeTypeDescriptor _ _ as type_descriptor =>
            match _namespace self with
            | Some ns =>
                if negb (bool_decide (fst name = Some ns))
                then raise (InvalidDataContractPayload
                              "the object's namespace must be under the descriptor's")
                else mret tt
            | None => mret tt
            end;;
            (if negb (String.eqb (MemberDescriptor_.name descriptor) "*")
                && negb (String.eqb (snd name) (MemberDescriptor_.name descriptor))
             then raise (InvalidDataContractPayload "the object's tag name must match")
             else mret tt);;
            mret (CompositeObjectHandler_init outer type_descriptor)
        | ArrayTypeDescriptor _ _ _ as type_descriptor =>
            ArrayObjectHandler_init outer type_descriptor
        | DictionaryTypeDescriptor _ _ _ as type_descriptor =>
            DictionaryObjectHandler_init outer type_descriptor
        | SingletonTypeDescriptor _ as type_descriptor =>
            SingletonObjectHandler_init outer type_descriptor
        | BasicTypeDescriptor cli_type =>
            match cli_type with
            | None => raise AssertionError
            | Some cli_type =>
                type_ ← lift (xs_type_from_cli_type cli_type);
                mret (BasicObjectHandler_init outer type_)
            end
        end
    end.

(** [CompositeObjectHandler.startElementNS] *)
Definition CompositeObjectHandler_startElementNS (outer : Handler)
    (_xmlns : xmlns_map) (descriptor : TypeDescriptorBase)
    (_member : option MemberDescriptor)
    (_member_value_dict : list (nat * option CLIValue))
    (name : qualified_name) (qname : option string) (attrs : attributes)
    : St Handler :=
  match descriptor with
  | CompositeTypeDescriptor (Some cli_type) members =>
      match name_to_member_map members (snd name) with
      | None => raise (KeyError (snd name))
      | Some member =>
          let member_name := MemberDescriptor_.effective_name member in
          member ←
            match TypeDescriptor_.cli_type (MemberDescriptor_.type_descriptor member) with
            | Some _ => mret member
            | None =>
                m ← CLITypeInstance_getitem_name depth cli_type member_name;
                mret (mkMemberDescriptor
                        (MemberDescriptor_.name member)
                        (MemberDescriptor_.namespace member)
                        (TypeDescriptor_.replace_cli_type
                           (MemberDescriptor_.type_descriptor member) (Some (snd m)))
                        (MemberDescriptor_.member_name member))
            end;
          let self :=
            CompositeObjectHandler outer _xmlns descriptor (Some member)
              _member_value_dict in
          MemberHandler_startElementNS self (inherited_xmlns self) member
            name qname attrs
      end
  | CompositeTypeDescriptor None _ => raise AssertionError
  | _ => raise AttributeError
  end.

(** [BasicObjectHandler.startElemenNS]: the method the class defines.
    Its name is not the one the parser calls. *)
Definition BasicObjectHandler_startElemenNS (self : Handler)
    (name : qualified_name) (qname : option string) (attrs : attributes)
    : St Handler :=
  raise (InvalidDataContractPayload "basic object may not contain nested elements").

(** [handler.startElementNS(name, qname, attrs)] by the class of the
    current handler.  A class that does not define the method inherits
    [xml.sax.handler.ContentHandler.startElementNS], which does
    nothing. *)
Definition startElementNS (h : Handler) (name : qualified_name)
    (qname : option string) (attrs : attributes) : St Handler :=
  match h with
  | MemberHandler o x d => MemberHandler_startElementNS o x d name qname attrs
  | CompositeObjectHandler o x d m vd =>
      CompositeObjectHandler_startElementNS o x d m vd name qname attrs
  | ArrayObjectHandler _ _ _ a _ | DictionaryObjectHandler _ _ _ a _
  | SingletonObjectHandler _ _ _ a =>
      MemberHandler_startElementNS h (inherited_xmlns h) a name qname attrs
  | SentinelHandler _ _ | BasicObjectHandler _ _ _ _ | NilObjectHandler _ _ =>
      mret h
  end.

(** [handler.characters(content)] *)
Definition characters (h : Handler) (content : string) : St Handler :=
  match h with
  | BasicObjectHandler o x t chunks => mret (BasicObjectHandler o x t (chunks ++ [content]))
  | NilObjectHandler _ _ =>
      raise (InvalidDataContractPayload "a nil object cannot have a content")
  | _ => mret h
  end.

(** The values of [_member_value_dict] sorted by
    [_cli_type[pair[0]].ordinal]. *)
Definition sorted_member_values (cli_type : CLITypeInstance)
    (d : list (nat * option CLIValue)) : St (list (option CLIValue)) :=
  keyed ← mapM (fun pair : nat * option CLIValue =>
                  m ← CLITypeInstance_getitem_index depth cli_type (fst pair);
                  mret (fst m, snd pair))
               d;
  mret (sorted_by_key keyed).

(** [handler.endElementNS(name, qname)] by the class of the current
    handler; the result is the handler the parser continues with. *)
Definition endElementNS (h : Handler) (name : qualified_name)
    (qname : option string) : St Handler :=
  match h with
  | SentinelHandler _ _ => mret h
  | CompositeObjectHandler o _ d _ vd =>
      match TypeDescriptor_.cli_type d with
      | None => raise AssertionError
      | Some cli_type =>
          member_values ← sorted_member_values cli_type vd;
          v ← CLITypeInstance_instantiate depth cli_type PyNone
                (Some member_values) None;
          push_value o (Some v)
      end
  | ArrayObjectHandler o _ d _ items | DictionaryObjectHandler o _ d _ items =>
      match TypeDescriptor_.cli_type d with
      | None => raise AssertionError
      | Some cli_type =>
          v ← CLITypeInstance_instantiate depth cli_type
                (PyList (map slot_any items)) None None;
          push_value o (Some v)
      end
  | SingletonObjectHandler o _ _ _ => mret o
  | BasicObjectHandler o _ type_ chunks =>
      match container_cli_type o with
      | Some None => raise AssertionError
      | _ =>
          value ←
            match chunks with
            | [] => mret None
            | _ :: _ =>
                v ← lift (xs_deserialize type_ (join "" chunks)); mret (Some v)
            end;
          push_value o value
      end
  | NilObjectHandler o _ =>
      match container_cli_type o with
      | Some (Some cli_type) => push_value o (Some (CLIBasicValue cli_type PyNone))
      | _ => raise AssertionError
      end
  | MemberHandler o _ _ => mret o
  end.

(** *** [dotnetserde.datacontract.deserialization.Deserializer]

    The namespace-aware SAX reader is outside the package; what it
    delivers is the sequence of callbacks. *)
Inductive sax_event :=
  | StartPrefixMapping (prefix : option string) (uri : string)
  | EndPrefixMapping (prefix : option string)
  | StartElementNS (name : qualified_name) (qname : option string)
      (attrs : attributes)
  | EndElementNS (name : qualified_name) (qname : option string)
  | Characters (content : string).

Definition deliver (h : Handler) (e : sax_event) : St Handler :=
  match e with
  | StartPrefixMapping prefix uri => mret (startPrefixMapping h prefix uri)
  | EndPrefixMapping _ => mret h
  | StartElementNS name qname attrs => startElementNS h name qname attrs
  | EndElementNS name qname => endElementNS h name qname
  | Characters content => characters h content
  end.

Fixpoint parse (h : Handler) (events : list sax_event) : St Handler :=
  match events with
  | [] => mret h
  | e :: events' => h' ← deliver h e; parse h' events'
  end.

(** The sentinel at the bottom of the handler stack. *)
Fixpoint sentinel_result (h : Handler) : option CLIValue :=
  match h with
  | SentinelHandler _ r => r
  | CompositeObjectHandler o _ _ _ _ | ArrayObjectHandler o _ _ _ _
  | DictionaryObjectHandler o _ _ _ _ | SingletonObjectHandler o _ _ _
  | BasicObjectHandler o _ _ _ | NilObjectHandler o _ | MemberHandler o _ _ =>
      sentinel_result o
  end.

(** [Deserializer.__call__] *)
Definition Deserializer (events : list sax_event) (descriptor : MemberDescriptor)
    : St (option CLIValue) :=
  let sentinel := SentinelHandler ∅ None in
  h ← parse (MemberHandler_init sentinel descriptor) events;
  mret (sentinel_result h).

End Handlers.

End DataContract.

(* ===================================================================== *)
(** * Properties                                                          *)
(* ===================================================================== *)

Import Binary Cli.

(** ** The length prefix of a string *)

(** The encoding the format prescribes for a length: base 128, least
    significant group first, the high bit set on every byte but the last.
    (The package only decodes; this is the writer's side of the format.) *)
Fixpoint leb128 (groups : nat) (n : Z) : list Z :=
  match groups with
  | O => []
  | S groups' =>
      if n <? 128 then [n] else (n mod 128 + 128) :: leb128 groups' (n / 128)
  end.

Definition encode_length_prefix (n : Z) : list Z := leb128 5 n.

(** A payload of [n] bytes, all the letter [a]. *)
Definition payload (n : Z) : list Z := replicate (Z.to_nat n) 97.

Lemma read_app (b rest : list Z) :
  read (b ++ rest) (Z.of_nat (length b)) = Ok (b, rest).
Proof.
  unfold read.
  destruct (Z.of_nat (length b) <? 0) eqn:E; [apply Z.ltb_lt in E; lia|].
  rewrite Nat2Z.id, take_app_length, drop_app_length.
  rewrite Z.ltb_irrefl. reflexivity.
Qed.

Lemma read_cons (x : Z) (f : list Z) : read (x :: f) 1 = Ok ([x], f).
Proof. apply (read_app [x] f). Qed.








(** X2: an encoding whose first five bytes all carry the continuation
    bit asks for a sixth byte; the reader refuses it. *)
Lemma length_prefix_sixth_byte_rejected (b1 b2 b3 b4 b5 : Z) (rest : list Z) :
  127 < b1 -> 127 < b2 -> 127 < b3 -> 127 < b4 -> 127 < b5 ->
  _LengthPrefixedStringReader utf8_decode (b1 :: b2 :: b3 :: b4 :: b5 :: rest)
  = Raise (InvalidStreamError "invalid length prefix").
Proof.
  intros H1 H2 H3 H4 H5. unfold _LengthPrefixedStringReader, byte0.
  assert (G : forall b, 127 < b -> (b <=? 127) = false)
    by (intros b Hb; apply Z.leb_gt; lia).
  do 5 (rewrite read_cons;
        cbn -[read_and_decode Z.leb Z.land Z.lor Z.mul read]).
  rewrite (G b1 H1), (G b2 H2), (G b3 H3), (G b4 H4), (G b5 H5).
  reflexivity.
Qed.

Lemma length_prefix_sixth_byte_rejected_witness :
  _LengthPrefixedStringReader utf8_decode [128; 128; 128; 128; 128; 1]
  = Raise (InvalidStreamError "invalid length prefix").
Proof. apply (length_prefix_sixth_byte_rejected 128 128 128 128 128 [1]); lia. Defined.

(** C2 (code defect): the length-prefix round trip fails from the third
    7-bit group on.  The reader masks the length it has already put
    together with [0x7F] before adding the next group, so the second group
    is lost: the three-byte prefix of 16512 ([80 81 01]) is read as 16384,
    and of the 16512 bytes that follow only 16384 are taken as the
    string. *)
Theorem length_prefix_third_group_loses_bits :
  encode_length_prefix 16512 = [128; 129; 1]
  /\ _LengthPrefixedStringReader utf8_decode
       (encode_length_prefix 16512 ++ payload 16512)
     = Ok (string_of_bytes (payload 16384), payload 128).
Proof. split; vm_compute; reflexivity. Qed.

(** ** The stream header *)

(** C4 (code defect): the header handler raises [VersionMismatch] only
    when the major version differs from 1 and the minor version differs
    from 0 at the same time.  A header that announces version 2.0 is
    accepted and stored; so is 1.7.  For every stream that holds the
    sixteen header bytes the handler's outcome is the one stated. *)
Theorem header_version_check_is_a_conjunction :
  SerializedStreamHandler DeserializationContext.init
    (pack_l 1 ++ pack_l (-1) ++ pack_l 2 ++ pack_l 0)
  = Ok (None, true,
        DeserializationContext.set_header 1 (-1) 2 0 DeserializationContext.init, [])
  /\ SerializedStreamHandler DeserializationContext.init
       (pack_l 1 ++ pack_l (-1) ++ pack_l 1 ++ pack_l 7)
     = Ok (None, true,
           DeserializationContext.set_header 1 (-1) 1 7 DeserializationContext.init, [])
  /\ SerializedStreamHandler DeserializationContext.init
       (pack_l 1 ++ pack_l (-1) ++ pack_l 2 ++ pack_l 1)
     = Raise (VersionMismatch 2 1)
  /\ forall (ctx : DeserializationContext.t) (f : stream),
       match read f 16 with
       | Raise e => SerializedStreamHandler ctx f = Raise e
       | Ok (b, f') =>
           let major_version := unpack_l (drop 8 b) in
           let minor_version := unpack_l (drop 12 b) in
           SerializedStreamHandler ctx f =
             if negb (major_version =? 1) && negb (minor_version =? 0)
             then Raise (VersionMismatch major_version minor_version)
             else Ok (None, true,
                      DeserializationContext.set_header (unpack_l b)
                        (unpack_l (drop 4 b)) major_version minor_version ctx,
                      f')
       end.
Proof.
  repeat split; try (vm_compute; reflexivity).
  intros ctx f. unfold SerializedStreamHandler.
  destruct (read f 16) as [[b f']|e]; reflexivity.
Qed.

(** ** XSD lexical forms *)

Import Xsd.

(** The first [Builtins] object of a run: the one [Bridge.__init__] and
    the tests' fixtures create, in a fresh context. *)
Definition run {A} (m : St A) : result A :=
  match m initial_world with
  | Ok (a, _) => Ok a
  | Raise e => Raise e
  end.

Definition BUILTINS : Builtins.t :=
  ltac:(let r := eval vm_compute in (run (ctx ← new_ctx; Builtins.init 1 ctx)) in
        match r with Ok ?b => exact b end).

Lemma first_builtins (depth : nat) :
  run (ctx ← new_ctx; Builtins.init (S depth) ctx) = Ok BUILTINS.
Proof. vm_compute. reflexivity. Qed.

Definition INT32 : CLITypeInstance := Builtins.SYSTEM_INT32 BUILTINS.
Definition INT64 : CLITypeInstance := Builtins.SYSTEM_INT64 BUILTINS.
Definition BOOLEAN : CLITypeInstance := Builtins.SYSTEM_BOOLEAN BUILTINS.

(** C5 (code defect): the boolean deserializer accepts ["true"], ["1"]
    and ["false"] in any letter case and nothing else.  The lexical form
    ["0"] is refused with the invalid-boolean error: the branch for the
    false values compares with ["false"] twice. *)
Theorem boolean_zero_is_refused (cli_type : CLITypeInstance) :
  BooleanSerializer_deserialize cli_type "0" = Raise (ValueError "0")
  /\ BooleanSerializer_deserialize cli_type "1"
     = Ok (CLIBasicValue cli_type (PyBool true))
  /\ BooleanSerializer_deserialize cli_type "False"
     = Ok (CLIBasicValue cli_type (PyBool false))
  /\ forall value : string,
       BooleanSerializer_deserialize cli_type value =
         if String.eqb (lower value) "true" || String.eqb (lower value) "1"
         then Ok (CLIBasicValue cli_type (PyBool true))
         else if String.eqb (lower value) "false"
         then Ok (CLIBasicValue cli_type (PyBool false))
         else Raise (ValueError (lower value)).
Proof.
  repeat split; try reflexivity.
  intros value. unfold BooleanSerializer_deserialize.
  rewrite orb_diag. reflexivity.
Qed.





(** ** The Data Contract handler stack *)

Import DataContract.

Section DataContractExamples.

(** The parsers for lexical forms the package takes from elsewhere;
    none of the examples reaches them. *)
Variable parse_date : string -> result Binary.DateTime.t.
Variable b64decode : string -> result (list Z).
Variable float_of_str : string -> result Z.
Variable decimal_of_str : string -> result string.

Definition xs (b : Builtins.t) : string -> string -> result CLIValue :=
  XSDataSerializer_deserialize parse_date b64decode float_of_str decimal_of_str b.

Definition FOO_BAR := "http://schemas.datacontract.org/2004/07/Foo.Bar".

(** A root element [X] described as a basic value of type [Int32]. *)
Definition basic_root (b : Builtins.t) : MemberDescriptor :=
  mkMemberDescriptor "X" (Some FOO_BAR)
    (BasicTypeDescriptor (Some (Builtins.SYSTEM_INT32 b))) None.

(** [<X>1<inner/>2</X>] *)
Definition nested_in_basic : list sax_event :=
  [StartElementNS (Some FOO_BAR, "X") None [];
   Characters "1";
   StartElementNS (Some FOO_BAR, "inner") None [];
   EndElementNS (Some FOO_BAR, "inner") None;
   Characters "2";
   EndElementNS (Some FOO_BAR, "X") None].

Definition decode_nested_in_basic : result (option CLIValue) :=
  run (ctx ← new_ctx;
       b ← Builtins.init 2 ctx;
       Deserializer 2 b (xs b) nested_in_basic (basic_root b)).

(** A composite [Foo.Bar.X] with one [Int32] member [y]. *)
Definition composite_root (b : Builtins.t) : St MemberDescriptor :=
  t ← CLIType_init "X"
        (Namespace "Bar" (Some (Namespace "Foo" (Some ROOT_NAMESPACE))))
        (ParamSeq []) (DefaultSeq []) None false
        [Member "y" (OfInstance (Builtins.SYSTEM_INT32 b))] None None;
  ti ← CLIType_instantiate 2 t (BySeq []);
  mret (mkMemberDescriptor "X" (Some FOO_BAR)
          (CompositeTypeDescriptor (Some ti)
             [mkMemberDescriptor "y" (Some FOO_BAR) (BasicTypeDescriptor None)
                (Some "y")])
          None).

Definition decode_composite (events : list sax_event) : result (option CLIValue) :=
  run (ctx ← new_ctx;
       b ← Builtins.init 2 ctx;
       d ← composite_root b;
       Deserializer 2 b (xs b) events d).

(** [<X><y i:nil="false"/></X>] and [<X><y i:nil="false">1</y></X>] *)
Definition nil_false : attributes :=
  [((Some XMLSCHEMA_INSTANCE_NAMESPACE, "nil"), "false")].

Definition y_nil_false_empty : list sax_event :=
  [StartElementNS (Some FOO_BAR, "X") None [];
   StartElementNS (Some FOO_BAR, "y") None nil_false;
   EndElementNS (Some FOO_BAR, "y") None;
   EndElementNS (Some FOO_BAR, "X") None].

Definition y_nil_false_with_text : list sax_event :=
  [StartElementNS (Some FOO_BAR, "X") None [];
   StartElementNS (Some FOO_BAR, "y") None nil_false;
   Characters "1";
   EndElementNS (Some FOO_BAR, "y") None;
   EndElementNS (Some FOO_BAR, "X") None].

End DataContractExamples.

(** C8 (code defect): a [BasicObjectHandler] does not reject nested
    elements.  The method that raises [InvalidDataContractPayload] is
    named [startElemenNS]; the parser calls [startElementNS], which the
    class inherits from the SAX base handler and which does nothing.  So a
    start-element event leaves the handler as it was, for every handler
    state and every element; and [<X>1<inner/>2</X>], read against a
    basic [Int32] descriptor, decodes to the value 1 without an error. *)
Theorem basic_handler_lets_nested_elements_through :
  (forall depth builtins xs_deserialize outer _xmlns type_ _chunks name qname attrs w,
     startElementNS depth builtins xs_deserialize
       (BasicObjectHandler outer _xmlns type_ _chunks) name qname attrs w
     = Ok (BasicObjectHandler outer _xmlns type_ _chunks, w))
  /\ (forall parse_date b64decode float_of_str decimal_of_str,
        decode_nested_in_basic parse_date b64decode float_of_str decimal_of_str
        = Ok (Some (CLIBasicValue INT32 (PyInt 1)))).
Proof.
  split.
  - reflexivity.
  - intros. vm_compute. reflexivity.
Qed.

(** The handler a composite [X] is read with once its member [y] has
    started: the outer handler of the member's own handler. *)
Definition X_DESCRIPTOR : MemberDescriptor :=
  ltac:(let r := eval vm_compute in
                 (run (ctx ← new_ctx; b ← Builtins.init 1 ctx; composite_root b)) in
        match r with Ok ?d => exact d end).

Definition Y_DESCRIPTOR : MemberDescriptor :=
  mkMemberDescriptor "y" (Some FOO_BAR)
    (BasicTypeDescriptor (Some INT32)) (Some "y").

Definition X_HANDLER : Handler :=
  CompositeObjectHandler (SentinelHandler ∅ None) ∅
    (MemberDescriptor_.type_descriptor X_DESCRIPTOR) (Some Y_DESCRIPTOR) [].

(** The external parsers, for closed examples: not available. *)
Definition unavailable {A} (s : string) : result A := Raise NotImplementedError.

Definition XS : string -> string -> result CLIValue :=
  xs unavailable unavailable unavailable unavailable BUILTINS.

(** C9, as the code has it: whenever the element carries an [xsi:nil]
    attribute whose value the bool deserializer accepts, be it "true",
    "1" or "false", [MemberHandler.startElementNS] installs a
    [NilObjectHandler] in place of the member handler (the condition is
    the truth value of the returned value object, which is always true).
    From there the member decodes to a nil value, a basic value holding
    [None] typed with the enclosing descriptor's CLI type, when the
    element ends under a composite, array or singleton handler whose
    descriptor has a CLI type; character data inside the element raises
    [InvalidDataContractPayload] instead. *)
Theorem nil_attribute_installs_nil_handler
    depth builtins xs_deserialize outer _xmlns descriptor name qname attrs
    (xsin : string) (v : CLIValue) (w : World.t) :
  dict_get (Some XMLSCHEMA_INSTANCE_NAMESPACE, "nil") attrs = Some xsin ->
  xs_deserialize "bool" xsin = Ok v ->
  MemberHandler_startElementNS depth builtins xs_deserialize outer _xmlns descriptor
    name qname attrs w
  = Ok (NilObjectHandler outer (xmlns_of outer), w)
  /\ (forall cli_type name' qname' w',
        container_cli_type outer = Some (Some cli_type) ->
        endElementNS depth xs_deserialize
          (NilObjectHandler outer (xmlns_of outer)) name' qname' w'
        = push_value depth outer (Some (CLIBasicValue cli_type PyNone)) w')
  /\ (forall content w',
        characters (NilObjectHandler outer (xmlns_of outer)) content w'
        = Raise (InvalidDataContractPayload "a nil object cannot have a content")).
Proof.
  intros Hnil Hbool. repeat split.
  - unfold MemberHandler_startElementNS. rewrite Hnil, Hbool. reflexivity.
  - intros cli_type name' qname' w' Hc. unfold endElementNS. rewrite Hc. reflexivity.
Qed.

Lemma nil_attribute_installs_nil_handler_witness :
  XS "bool" "false" = Ok (CLIBasicValue BOOLEAN (PyBool false))
  /\ MemberHandler_startElementNS 2 BUILTINS XS X_HANDLER ∅ Y_DESCRIPTOR
       (Some FOO_BAR, "y") None nil_false initial_world
     = Ok (NilObjectHandler X_HANDLER ∅, initial_world)
  /\ forall parse_date b64decode float_of_str decimal_of_str,
       decode_composite parse_date b64decode float_of_str decimal_of_str
         y_nil_false_empty
       = Ok (Some (CLICompositeObject
                     (default INT32
                        (TypeDescriptor_.cli_type
                           (MemberDescriptor_.type_descriptor X_DESCRIPTOR)))
                     [Some (CLIBasicValue
                              (default INT32
                                 (TypeDescriptor_.cli_type
                                    (MemberDescriptor_.type_descriptor X_DESCRIPTOR)))
                              PyNone)])).
Proof.
  split; [reflexivity|]. split.
  - apply (nil_attribute_installs_nil_handler 2 BUILTINS XS X_HANDLER ∅ Y_DESCRIPTOR
             (Some FOO_BAR, "y") None nil_false "false"
             (CLIBasicValue BOOLEAN (PyBool false)) initial_world);
      reflexivity.
  - intros. vm_compute. reflexivity.
Defined.

(** C9, as stated, fails on an element that has content: the member [y]
    of [<X><y i:nil="false">1</y></X>] carries an [xsi:nil] value the bool
    deserializer accepts, the nil handler is installed, and the decode
    ends with [InvalidDataContractPayload]; no nil value is produced. *)
Lemma nil_false_with_content_is_an_error :
  XS "bool" "false" = Ok (CLIBasicValue BOOLEAN (PyBool false))
  /\ decode_composite unavailable unavailable unavailable unavailable
       y_nil_false_with_text
     = Raise (InvalidDataContractPayload "a nil object cannot have a content").
Proof. split; vm_compute; reflexivity. Qed.

(** ** Records that reuse a class: [ClassWithId] *)

Import Binary.

(** A length-prefixed string of fewer than 128 bytes, as it stands in a
    stream. *)
Definition lps (s : string) : list Z :=
  Z.of_nat (String.length s) :: bytes_of_string s.

Definition header_1_0 (root_id : Z) : list Z :=
  [0] ++ pack_l root_id ++ pack_l (-1) ++ pack_l 1 ++ pack_l 0.

(** A [Some.Point] with one [Int32] member [x = 10] as object 1, then a
    [ClassWithId] record: object 2, of the class of object 1, [x = 20]. *)
Definition two_points : list Z :=
  header_1_0 1
  ++ [4] ++ pack_l 1 ++ lps "Some.Point" ++ pack_l 1 ++ lps "x"
         ++ [0] ++ [8] ++ pack_l 10
  ++ [1] ++ pack_l 2 ++ pack_l 1 ++ pack_l 20
  ++ [11].

Definition POINT : ClassInfo.t :=
  ClassInfo.mk 1 "Some.Point"
    [MemberInfo.mk "x" (TypeInfo.mk BinaryType.PRIMITIVE (APrimitive PrimitiveType.INT32))]
    None.

(** C3 (code defect): [ClassWithIdHandler] reads [object_id] and
    [metadata_id], reuses the class of the referenced instance and reads
    one value per member into a new [Instance]; but what it registers
    under [object_id] is the referenced instance, not the new one.  On
    [two_points] the table ends with the ids 1 and 2 both naming the
    object that holds [x = 10]; the clone that holds the freshly read
    [x = 20] is in no slot.  In general, whenever the handler returns,
    the slot [object_id] holds what the slot [metadata_id] held. *)
Theorem class_with_id_registers_the_original :
  (forall timezone_localizer,
     exists ctx,
       Deserializer utf8_decode timezone_localizer 2 two_points = Ok ctx
       /\ DeserializationContext.objects ctx !! 1 = Some (VObj 0%nat)
       /\ DeserializationContext.objects ctx !! 2 = Some (VObj 0%nat)
       /\ DeserializationContext.heap ctx
          = [Instance POINT (Some [VInt 10]); Instance POINT (Some [VInt 20])])
  /\ (forall decode timezone_localizer member_record_handlers ctx f b f0 out,
        read f 8 = Ok (b, f0) ->
        ClassWithIdHandler decode timezone_localizer member_record_handlers ctx f
        = Ok out ->
        let '(i, continue_, ctx', f') := out in
        continue_ = true
        /\ DeserializationContext.objects ctx' !! unpack_l b
           = DeserializationContext.objects ctx !! unpack_l (drop 4 b)
        /\ exists value class_info values,
             i = Some [VObj value]
             /\ DeserializationContext.heap ctx' !! value
                = Some (Instance class_info (Some values))).
Proof.
  split.
  - intros tz. eexists. split; [vm_compute; reflexivity|].
    repeat split; vm_compute; reflexivity.
  - intros decode tz mrh ctx f b f0 out Hread H.
    unfold ClassWithIdHandler in H. rewrite Hread in H.
    cbn [mbind result_bind] in H.
    unfold DeserializationContext.fetch_object in H.
    destruct (DeserializationContext.objects ctx !! unpack_l (drop 4 b))
      as [that_object|] eqn:Hthat; [|discriminate].
    cbn [mbind result_bind] in H.
    destruct that_object as [| | | | | | |that_addr]; try discriminate.
    destruct (DeserializationContext.heap ctx !! that_addr) as [[ci vs|]|] eqn:Hheap;
      try discriminate.
    destruct (element_value_reader decode tz mrh ctx (member_elements ci) f0)
      as [[[values ctx1] f1]|e] eqn:Hread2; [|discriminate].
    cbn in H. injection H as <-.
    split; [reflexivity|]. split.
    + cbn. rewrite lookup_insert_eq. reflexivity.
    + exists (length (DeserializationContext.heap ctx1)), ci, values.
      split; [reflexivity|]. cbn.
      rewrite lookup_app_r by lia. rewrite Nat.sub_diag. reflexivity.
Qed.

(** ** Booleans through the bridge *)

Import Bridge.

(** [Bridge(deserializer(stream))()], the state of the bridge dropped. *)
Definition decode_and_bridge (timezone_localizer : DateTime.t -> DateTime.t)
    (depth : nat) (f : stream) : result CLIValue :=
  ctx ← Deserializer utf8_decode timezone_localizer depth f;
  r ← bridge depth ctx;
  Ok (fst r).

(** A [Some.Node] with a [Boolean] member [flag = true] and an [Int32]
    member [n = 7]. *)
Definition node_with_flag : list Z :=
  header_1_0 1
  ++ [4] ++ pack_l 1 ++ lps "Some.Node" ++ pack_l 2 ++ lps "flag" ++ lps "n"
         ++ [0; 0] ++ [1; 8] ++ [1] ++ pack_l 7
  ++ [11].

(** An [ArraySinglePrimitive] of two [Boolean]s, [true] and [false]. *)
Definition boolean_array : list Z :=
  header_1_0 1
  ++ [15] ++ pack_l 1 ++ pack_l 2 ++ [1] ++ [1; 0]
  ++ [11].

Lemma builtins_int32 depth ctx w0 builtins w1 :
  Builtins.init depth ctx w0 = Ok (builtins, w1) ->
  CLITypeInstance_.derived_from (Builtins.SYSTEM_INT32 builtins) = SYSTEM_INT32
  /\ CLITypeInstance_.derived_from (Builtins.SYSTEM_BOOLEAN builtins) = SYSTEM_BOOLEAN
  /\ same_instance (Builtins.SYSTEM_INT32 builtins) (Builtins.SYSTEM_BOOLEAN builtins)
     = false.
Proof.
  intros H. unfold Builtins.init in H.
  unfold CLITypeInstance_init, fresh in H.
  cbv beta iota delta [mbind M_bind mret M_ret] in H. cbn [World.next_id World.ctxs] in H.
  match type of H with
  | context [array_of ?d ?x ?w] => destruct (array_of d x w) as [[a w']|e]
  end; [|discriminate].
  injection H as <- _.
  split; [reflexivity|]. split; [reflexivity|].
  unfold same_instance.
  cbn [Builtins.SYSTEM_INT32 Builtins.SYSTEM_BOOLEAN CLITypeInstance_.id].
  apply Nat.eqb_neq. lia.
Qed.

(** Coercing a [bool] with built-ins made by [Builtins.__init__]. *)
Lemma from_python_bool depth ctx w0 builtins w1 :
  Builtins.init depth ctx w0 = Ok (builtins, w1) ->
  forall d (b : bool) (w : World.t),
    Builtins.from_python_value d builtins (PyBool b) w
    = Ok (CLIBasicValue (Builtins.SYSTEM_INT32 builtins) (PyBool b), w).
Proof.
  intros H d b w. destruct (builtins_int32 _ _ _ _ _ H) as (Hd & _ & _).
  unfold Builtins.from_python_value, CLITypeInstance_instantiate.
  rewrite Hd. reflexivity.
Qed.

(** C10: a Python [bool] is coerced to a basic value typed [Int32], not
    [Boolean]: [from_python_value] tests [isinstance(v, int)] first and
    [bool] is a subclass of [int].  The NRBF reader yields a [bool] for a
    [Boolean] primitive, the bridge coerces every slot that is neither an
    instance, an array nor a reference with [from_python_value], and so a
    [Boolean] member of an instance and the [Boolean] elements of an
    [ArraySinglePrimitive] come out of the bridge as [Int32]-typed basic
    values (while the member is declared, and the array typed, with
    [Boolean]). *)
Theorem bool_is_coerced_to_int32 depth ctx w0 builtins w1 :
  Builtins.init depth ctx w0 = Ok (builtins, w1) ->
  (forall d (b : bool) (w : World.t),
     Builtins.from_python_value d builtins (PyBool b) w
     = Ok (CLIBasicValue (Builtins.SYSTEM_INT32 builtins) (PyBool b), w))
  /\ CLITypeInstance_.derived_from (Builtins.SYSTEM_INT32 builtins) = SYSTEM_INT32
  /\ same_instance (Builtins.SYSTEM_INT32 builtins) (Builtins.SYSTEM_BOOLEAN builtins)
     = false
  /\ (forall decode timezone_localizer (x : Z) (f : stream),
        _UntypedPrimitiveValueReader decode timezone_localizer PrimitiveType.BOOLEAN
          (x :: f)
        = Ok ([VBool (negb (x =? 0))], f))
  /\ (forall d (b : bool) (st : State.t),
        State._builtins st = builtins ->
        _convert_value (S d) (VBool b) st
        = Ok (CLIBasicValue (Builtins.SYSTEM_INT32 builtins) (PyBool b), st))
  /\ (forall timezone_localizer,
        exists ti,
          decode_and_bridge timezone_localizer 4 node_with_flag
          = Ok (CLICompositeObject ti
                  [Some (CLIBasicValue INT32 (PyBool true));
                   Some (CLIBasicValue INT32 (PyInt 7))])
          /\ CLIType_.members (CLITypeInstance_.derived_from ti)
             = [Member "flag" (OfInstance BOOLEAN); Member "n" (OfInstance INT32)])
  /\ (forall timezone_localizer,
        exists ti,
          decode_and_bridge timezone_localizer 4 boolean_array
          = Ok (CLIBasicValue ti
                  (PyList [PyValue (CLIBasicValue INT32 (PyBool true));
                           PyValue (CLIBasicValue INT32 (PyBool false))]))
          /\ CLIType_.resolved_parameters (CLITypeInstance_.derived_from ti)
             = [Some (OfInstance BOOLEAN)]
          /\ same_type (CLIType_.origin (CLITypeInstance_.derived_from ti)) ARRAY_TYPE
             = true).
Proof.
  intros H. destruct (builtins_int32 _ _ _ _ _ H) as (Hd & Hb & Hne).
  split; [exact (from_python_bool _ _ _ _ _ H)|].
  split; [exact Hd|]. split; [exact Hne|]. split.
  { intros decode tz x f. cbn [_UntypedPrimitiveValueReader].
    rewrite read_cons. reflexivity. }
  split.
  { intros d b st Hst. cbn [_convert_value]. unfold convert_body.
    cbv beta iota delta [mbind M_bind mret M_ret get].
    cbn [to_any]. unfold cli. rewrite Hst.
    rewrite (from_python_bool _ _ _ _ _ H). destruct st; cbn in *. subst. reflexivity. }
  split.
  - intros tz. eexists. split; vm_compute; reflexivity.
  - intros tz. eexists. split; [vm_compute; reflexivity|].
    split; vm_compute; reflexivity.
Qed.

Lemma bool_is_coerced_to_int32_witness :
  Builtins.from_python_value 1 BUILTINS (PyBool true) initial_world
  = Ok (CLIBasicValue INT32 (PyBool true), initial_world).
Proof.
  refine (proj1 (bool_is_coerced_to_int32 1 32%nat
                   (World.mk 33 (<[32%nat := CLITypeResolutionContext.empty]> ∅))
                   BUILTINS _ _) 1%nat true initial_world).
  vm_compute. reflexivity.
Defined.

(** ** A self-referential instance *)

(** A [Some.Node] whose only member, [next], refers to the node itself:
    record 4 (a system class with members and types), object id 1, one
    member of binary type [Object], its value a [MemberReference] to
    object 1. *)
Definition self_referential : list Z :=
  header_1_0 1
  ++ [4] ++ pack_l 1 ++ lps "Some.Node" ++ pack_l 1 ++ lps "next"
         ++ [2] ++ [9] ++ pack_l 1
  ++ [11].

Definition NODE : ClassInfo.t :=
  ClassInfo.mk 1 "Some.Node"
    [MemberInfo.mk "next" (TypeInfo.mk BinaryType.OBJECT ANone)] None.

(** What the decoder makes of the stream. *)
Definition SELF_CTX : DeserializationContext.t :=
  ltac:(let r := eval vm_compute in
                 (Binary.Deserializer utf8_decode (fun d => d) 2 self_referential) in
        match r with Ok ?c => exact c end).

Lemma self_referential_decodes timezone_localizer :
  Binary.Deserializer utf8_decode timezone_localizer 2 self_referential = Ok SELF_CTX.
Proof. vm_compute. reflexivity. Qed.

(** The bridge over that context when it is created, and once the type
    of [Some.Node] has been resolved and cached. *)
Definition SELF_ST0 : State.t :=
  ltac:(let r := eval vm_compute in (init 1 SELF_CTX) in
        match r with Ok ?s => exact s end).

Definition SELF_ST1 : State.t :=
  ltac:(let r := eval vm_compute in
                 (_get_cli_type_instance_for_class_info 2 NODE SELF_ST0) in
        match r with Ok (_, ?s) => exact s end).

Definition NODE_TYPE : CLITypeInstance :=
  ltac:(let r := eval vm_compute in
                 (_get_cli_type_instance_for_class_info 2 NODE SELF_ST0) in
        match r with Ok (?t, _) => exact t end).

Lemma self_init (d : nat) : init (S d) SELF_CTX = Ok SELF_ST0.
Proof. vm_compute. reflexivity. Qed.

Lemma node_type_first (d : nat) :
  _get_cli_type_instance_for_class_info (S (S d)) NODE SELF_ST0
  = Ok (NODE_TYPE, SELF_ST1).
Proof. vm_compute. reflexivity. Qed.

Lemma node_type_cached (d : nat) :
  _get_cli_type_instance_for_class_info (S d) NODE SELF_ST1
  = Ok (NODE_TYPE, SELF_ST1).
Proof. vm_compute. reflexivity. Qed.

Lemma node_type_no_depth (st : State.t) :
  _get_cli_type_instance_for_class_info 0 NODE st = Raise RecursionError.
Proof. reflexivity. Qed.

Lemma node_type_depth_one :
  _get_cli_type_instance_for_class_info 1 NODE SELF_ST0 = Raise RecursionError.
Proof. vm_compute. reflexivity. Qed.

(** A reference to object 1 is not in the bridge's cache while object 1
    is being converted, so it is converted again. *)
Lemma reference_converts_the_referent (d : nat) (rec : value -> B CLIValue) :
  convert_body d rec (VObjectReference 1) SELF_ST1 = rec (VObj 0%nat) SELF_ST1.
Proof. vm_compute. reflexivity. Qed.

Lemma self_heap :
  DeserializationContext.heap (State.result_ SELF_ST1) !! 0%nat
  = Some (Instance NODE (Some [VObjectReference 1])).
Proof. reflexivity. Qed.

Lemma self_heap0 :
  DeserializationContext.heap (State.result_ SELF_ST0) !! 0%nat
  = Some (Instance NODE (Some [VObjectReference 1])).
Proof. reflexivity. Qed.

Lemma node_type_is_composite :
  CLIType_.intrinsic (CLITypeInstance_.derived_from NODE_TYPE) = false.
Proof. reflexivity. Qed.

Ltac msimpl :=
  cbv beta iota delta [mbind M_bind mret M_ret get put modify raise lift].

(** Converting the node converts its member first: while that fails, the
    node's conversion fails the same way, and nothing is cached. *)
Lemma member_failure_propagates (d : nat) (rec : value -> B CLIValue)
    (st st' : State.t) (e : exn) :
  DeserializationContext.heap (State.result_ st) !! 0%nat
  = Some (Instance NODE (Some [VObjectReference 1])) ->
  _get_cli_type_instance_for_class_info d NODE st = Ok (NODE_TYPE, st') ->
  rec (VObjectReference 1) st' = Raise e ->
  convert_body d rec (VObj 0%nat) st = Raise e.
Proof.
  intros Hheap Hty H. unfold convert_body. msimpl. unfold addr. rewrite Hheap.
  unfold convert_instance. msimpl. rewrite Hty.
  rewrite node_type_is_composite.
  cbn [ClassInfo.members NODE zip zip_with mapM snd]. msimpl.
  rewrite H. reflexivity.
Qed.

Lemma type_failure_propagates (d : nat) (rec : value -> B CLIValue)
    (st : State.t) (e : exn) :
  DeserializationContext.heap (State.result_ st) !! 0%nat
  = Some (Instance NODE (Some [VObjectReference 1])) ->
  _get_cli_type_instance_for_class_info d NODE st = Raise e ->
  convert_body d rec (VObj 0%nat) st = Raise e.
Proof.
  intros Hheap Hty. unfold convert_body. msimpl. unfold addr. rewrite Hheap.
  unfold convert_instance. msimpl. rewrite Hty. reflexivity.
Qed.

(** Once the type is cached the conversion of the node only ever calls
    itself: whatever call depth is left, all of it is used up. *)
Lemma node_conversion_never_returns (depth : nat) :
  _convert_value depth (VObj 0%nat) SELF_ST1 = Raise RecursionError
  /\ _convert_value (S depth) (VObj 0%nat) SELF_ST1 = Raise RecursionError.
Proof.
  induction depth as [|depth [IH0 IH1]].
  - split; [reflexivity|].
    cbn [_convert_value]. apply type_failure_propagates; [exact self_heap|].
    apply node_type_no_depth.
  - split; [exact IH1|].
    change (_convert_value (S (S depth)) (VObj 0%nat) SELF_ST1)
      with (convert_body (S depth) (_convert_value (S depth)) (VObj 0%nat) SELF_ST1).
    apply member_failure_propagates with (st' := SELF_ST1).
    + exact self_heap.
    + apply node_type_cached.
    + change (_convert_value (S depth) (VObjectReference 1) SELF_ST1)
        with (convert_body depth (_convert_value depth) (VObjectReference 1) SELF_ST1).
      rewrite reference_converts_the_referent. exact IH0.
Qed.

Lemma self_root :
  DeserializationContext.root_id SELF_CTX = Some 1
  /\ DeserializationContext.objects SELF_CTX !! 1 = Some (VObj 0%nat)
  /\ DeserializationContext.heap SELF_CTX
     = [Instance NODE (Some [VObjectReference 1])]
  /\ ClassInfo.object_id NODE = 1.
Proof. repeat split. Qed.

Lemma self_call (depth : nat) (st : State.t) :
  State.result_ st = SELF_CTX ->
  call depth st = _convert_value depth (VObj 0%nat) st.
Proof.
  intros H. unfold call. msimpl. rewrite H. reflexivity.
Qed.

(** C1 (code defect): the bridge does not terminate on a self-referential
    instance.  [_convert_value] records an instance under its object id
    only after all its members are converted; the member that refers
    back to the instance finds nothing in the cache and converts the
    instance again, without end.  The stream [self_referential] decodes
    to one [Some.Node] whose member is a reference to the node's own id,
    and whatever call depth the bridge is given, converting from the root
    uses all of it and ends in [RecursionError]: no value is ever
    produced. *)
Theorem self_reference_exhausts_the_bridge :
  forall timezone_localizer,
    Binary.Deserializer utf8_decode timezone_localizer 2 self_referential
    = Ok SELF_CTX
    /\ DeserializationContext.root_id SELF_CTX = Some 1
    /\ DeserializationContext.objects SELF_CTX !! 1 = Some (VObj 0%nat)
    /\ DeserializationContext.heap SELF_CTX
       = [Instance NODE (Some [VObjectReference 1])]
    /\ ClassInfo.object_id NODE = 1
    /\ forall depth, bridge depth SELF_CTX = Raise RecursionError.
Proof.
  intros tz. split; [apply self_referential_decodes|].
  destruct self_root as (H1 & H2 & H3 & H4).
  repeat (split; [assumption|]).
  intros depth. unfold bridge.
  destruct depth as [|depth]; [reflexivity|].
  rewrite self_init. cbn [mbind result_bind].
  rewrite self_call by reflexivity.
  cbn [_convert_value].
  destruct depth as [|[|depth]].
  - apply type_failure_propagates; [exact self_heap0 | apply node_type_no_depth].
  - apply type_failure_propagates; [exact self_heap0 | apply node_type_depth_one].
  - apply member_failure_propagates with (st' := SELF_ST1).
    + exact self_heap0.
    + apply node_type_first.
    + change (_convert_value (S (S depth)) (VObjectReference 1) SELF_ST1)
        with (convert_body (S depth) (_convert_value (S depth))
                (VObjectReference 1) SELF_ST1).
      rewrite reference_converts_the_referent.
      apply node_conversion_never_returns.
Qed.

(** ** [CLIType.stringify] *)

(** The text the specification gives for a type: the namespace and a dot
    (no dot when the namespace prints as the empty string), the name,
    and, when the type has parameters, the slots between angle brackets,
    separated by a comma and a space: a slot that holds nothing is [?], a
    slot that holds a type or an instance of a type is the text of that
    type. *)
Fixpoint spec_stringify (t : CLIType) : string :=
  match t with
  | mkCLIType _ name namespace parameters resolved_parameters _ _ _ _ _ =>
      let dotted := CLINamespace_str namespace in
      (if nonempty dotted then dotted +:+ "." else "")
      +:+ name
      +:+ match parameters with
          | [] => ""
          | _ :: _ =>
              "<" +:+ join ", "
                        (map (fun p =>
                                match p with
                                | None => "?"
                                | Some (OfType t') => spec_stringify t'
                                | Some (OfInstance (mkCLITypeInstance _ _ d _ _)) =>
                                    spec_stringify d
                                | Some (Binding _) => ""
                                end) resolved_parameters)
              +:+ ">"
          end
  end.

(** What one slot prints, by the specification. *)
Definition spec_slot (p : option CLITypeResolvable) : string :=
  match p with
  | None => "?"
  | Some (OfType t') => spec_stringify t'
  | Some (OfInstance ti) => spec_stringify (CLITypeInstance_.derived_from ti)
  | Some (Binding _) => ""
  end.

(** How deep the parameters of a type nest: the calls [stringify] makes
    inside one another. *)
Fixpoint nesting (t : CLIType) : nat :=
  match t with
  | mkCLIType _ _ _ _ resolved_parameters _ _ _ _ _ =>
      S (list_max (map (fun p =>
                          match p with
                          | Some (OfType t') => nesting t'
                          | Some (OfInstance (mkCLITypeInstance _ _ d _ _)) => nesting d
                          | _ => 0%nat
                          end) resolved_parameters))
  end.

Definition slot_nesting (p : option CLITypeResolvable) : nat :=
  match p with
  | Some (OfType t') => nesting t'
  | Some (OfInstance ti) => nesting (CLITypeInstance_.derived_from ti)
  | _ => 0%nat
  end.

(** No slot, at any depth, is a [CLITypeBinding]: what the type prints
    does not depend on what a context binds. *)
Fixpoint closed (t : CLIType) : bool :=
  match t with
  | mkCLIType _ _ _ _ resolved_parameters _ _ _ _ _ =>
      forallb (fun p =>
                 match p with
                 | None => true
                 | Some (OfType t') => closed t'
                 | Some (OfInstance (mkCLITypeInstance _ _ d _ _)) => closed d
                 | Some (Binding _) => false
                 end) resolved_parameters
  end.

Definition slot_closed (p : option CLITypeResolvable) : bool :=
  match p with
  | None => true
  | Some (OfType t') => closed t'
  | Some (OfInstance ti) => closed (CLITypeInstance_.derived_from ti)
  | Some (Binding _) => false
  end.

(** The types [stringify] visits from [t] in the context [ctx], each with
    the context it is printed in: a type slot stays in the context, an
    instance slot moves to the context of the instance. *)
Fixpoint reach (t : CLIType) (ctx : nat) {struct t} : list (nat * CLIType) :=
  (ctx, t) ::
  match t with
  | mkCLIType _ _ _ _ resolved_parameters _ _ _ _ _ =>
      flat_map (fun p =>
                  match p with
                  | Some (OfType t') => reach t' ctx
                  | Some (OfInstance (mkCLITypeInstance _ c d _ _)) => reach d c
                  | _ => []
                  end) resolved_parameters
  end.

Definition slot_reach (ctx : nat) (p : option CLITypeResolvable) : list (nat * CLIType) :=
  match p with
  | Some (OfType t') => reach t' ctx
  | Some (OfInstance ti) =>
      reach (CLITypeInstance_.derived_from ti) (CLITypeInstance_.ctx ti)
  | _ => []
  end.

(** An identity names one object: among the types in [R], equal
    identities are the same type. *)
Definition ids_distinct (R : list (nat * CLIType)) : Prop :=
  forall a b, In a R -> In b R ->
    CLIType_.id (snd a) = CLIType_.id (snd b) -> snd a = snd b.

(** [ctx.reprs.get(i)] for the context [ctx] of the world [w]. *)
Definition reprs_at (w : World.t) (ctx i : nat) : option string :=
  CLITypeResolutionContext.reprs
    (default CLITypeResolutionContext.empty (World.ctxs w !! ctx)) !! i.

(** The world after [ctx.reprs[i] = s]. *)
Definition mark (ctx i : nat) (s : string) (w : World.t) : World.t :=
  let c := default CLITypeResolutionContext.empty (World.ctxs w !! ctx) in
  World.mk (World.next_id w)
    (<[ctx := CLITypeResolutionContext.mk
                (CLITypeResolutionContext.resolved c) (CLITypeResolutionContext.refs c)
                (<[i := s]> (CLITypeResolutionContext.reprs c))]> (World.ctxs w)).

(** The texts the contexts of [w] remember for the types in [R] are the
    texts of these types, except under the keys [A], the types that are
    being printed. *)
Definition sound (R : list (nat * CLIType)) (A : list (nat * nat)) (w : World.t) : Prop :=
  forall c t s, In (c, t) R -> ~ In (c, CLIType_.id t) A ->
    reprs_at w c (CLIType_.id t) = Some s -> s = spec_stringify t.

(** What [stringify] does with one slot. *)
Definition print_slot (depth ctx : nat) (p : option CLITypeResolvable) : St string :=
  match p with
  | Some p => stringify_with (CLIType_stringify depth) p ctx
  | None => mret "?"
  end.

Lemma spec_stringify_eq (t : CLIType) :
  spec_stringify t
  = (let dotted := CLINamespace_str (CLIType_.namespace t) in
     if nonempty dotted then dotted +:+ "." else "")
    +:+ CLIType_.name t
    +:+ match CLIType_.parameters t with
        | [] => ""
        | _ :: _ =>
            "<" +:+ join ", " (map spec_slot (CLIType_.resolved_parameters t)) +:+ ">"
        end.
Proof.
  destruct t as [i name ns ps rs ds intr ms df mh]. cbn [spec_stringify CLIType_.namespace
    CLIType_.name CLIType_.parameters CLIType_.resolved_parameters].
  destruct ps; [reflexivity|].
  rewrite (map_ext _ spec_slot); [reflexivity|].
  intros [[r|[]|t']|]; reflexivity.
Qed.

Lemma nesting_eq (t : CLIType) :
  nesting t = S (list_max (map slot_nesting (CLIType_.resolved_parameters t))).
Proof.
  destruct t as [i name ns ps rs ds intr ms df mh]. cbn [nesting CLIType_.resolved_parameters].
  rewrite (map_ext _ slot_nesting); [reflexivity|].
  intros [[r|[]|t']|]; reflexivity.
Qed.

Lemma closed_eq (t : CLIType) :
  closed t = forallb slot_closed (CLIType_.resolved_parameters t).
Proof.
  destruct t as [i name ns ps rs ds intr ms df mh]. cbn [closed CLIType_.resolved_parameters].
  induction rs as [|[[r|[]|t']|] rs IH]; cbn [forallb]; rewrite ?IH; reflexivity.
Qed.

Lemma reach_eq (t : CLIType) (ctx : nat) :
  reach t ctx = (ctx, t) :: flat_map (slot_reach ctx) (CLIType_.resolved_parameters t).
Proof.
  destruct t as [i name ns ps rs ds intr ms df mh]. cbn [reach CLIType_.resolved_parameters].
  f_equal. induction rs as [|[[r|[]|t']|] rs IH]; cbn [flat_map]; rewrite ?IH; reflexivity.
Qed.

Lemma slot_nesting_lt (t : CLIType) (p : option CLITypeResolvable) :
  In p (CLIType_.resolved_parameters t) -> (slot_nesting p < nesting t)%nat.
Proof.
  intros H. rewrite nesting_eq.
  assert (Forall (fun k => k <= list_max (map slot_nesting (CLIType_.resolved_parameters t)))%nat
            (map slot_nesting (CLIType_.resolved_parameters t))) as F
    by (apply list_max_le; lia).
  rewrite List.Forall_forall in F.
  specialize (F (slot_nesting p) (in_map _ _ _ H)). lia.
Qed.

Lemma slot_closed_of (t : CLIType) (p : option CLITypeResolvable) :
  closed t = true -> In p (CLIType_.resolved_parameters t) -> slot_closed p = true.
Proof.
  rewrite closed_eq, forallb_forall. auto.
Qed.

Lemma slot_reach_incl (t : CLIType) (ctx : nat) (p : option CLITypeResolvable) :
  In p (CLIType_.resolved_parameters t) -> incl (slot_reach ctx p) (reach t ctx).
Proof.
  intros H q Hq. rewrite reach_eq. right. apply in_flat_map. eauto.
Qed.

Lemma reach_self (t : CLIType) (ctx : nat) : In (ctx, t) (reach t ctx).
Proof. rewrite reach_eq. left. reflexivity. Qed.

(** What is visited from [t] nests no deeper than [t], and below [t]
    strictly less deep. *)
Lemma reach_nesting (n : nat) :
  forall t ctx q, (nesting t <= n)%nat -> In q (reach t ctx) ->
    q = (ctx, t) \/ (nesting (snd q) < nesting t)%nat.
Proof.
  induction n as [|n IH]; intros t ctx q Hn Hq.
  - rewrite nesting_eq in Hn. lia.
  - rewrite reach_eq in Hq. destruct Hq as [<-|Hq]; [left; reflexivity|right].
    apply in_flat_map in Hq. destruct Hq as (p & Hp & Hq).
    pose proof (slot_nesting_lt t p Hp) as Hlt.
    destruct p as [[r|ti|t']|]; cbn [slot_reach slot_nesting] in Hq, Hlt;
      try contradiction.
    + apply IH in Hq; [|lia]. destruct Hq as [->|H]; cbn [snd]; lia.
    + apply IH in Hq; [|lia]. destruct Hq as [->|H]; cbn [snd]; lia.
Qed.

Lemma slot_reach_nesting (ctx : nat) (p : option CLITypeResolvable) q :
  In q (slot_reach ctx p) -> (nesting (snd q) <= slot_nesting p)%nat.
Proof.
  destruct p as [[r|ti|t']|]; cbn [slot_reach slot_nesting]; try contradiction;
    intros Hq; apply (reach_nesting _ _ _ _ (le_n _)) in Hq;
    destruct Hq as [->|Hq]; cbn [snd]; lia.
Qed.

Lemma set_repr_marks (ctx i : nat) (s : string) (w : World.t) :
  set_repr ctx i s w = Ok (tt, mark ctx i s w).
Proof. reflexivity. Qed.

Lemma reprs_at_mark_same (ctx i : nat) (s : string) (w : World.t) :
  reprs_at (mark ctx i s w) ctx i = Some s.
Proof.
  unfold reprs_at, mark. cbn [World.ctxs]. rewrite lookup_insert_eq.
  cbn [default CLITypeResolutionContext.reprs]. apply lookup_insert_eq.
Qed.

Lemma reprs_at_mark_other (ctx i : nat) (s : string) (w : World.t) (c j : nat) :
  (c, j) <> (ctx, i) -> reprs_at (mark ctx i s w) c j = reprs_at w c j.
Proof.
  intros H. unfold reprs_at, mark. cbv zeta. cbn [World.ctxs].
  destruct (decide (ctx = c)) as [->|Hc].
  - rewrite lookup_insert_eq. simpl.
    rewrite lookup_insert_ne; [reflexivity|]. intros ->. apply H; reflexivity.
  - rewrite lookup_insert_ne by exact Hc. reflexivity.
Qed.

Lemma mapM_inv {S A B} (P : S -> Prop) (f : A -> M S B) (g : A -> B) (l : list A) :
  (forall x, In x l -> forall s, P s -> exists s', f x s = Ok (g x, s') /\ P s') ->
  forall s, P s -> exists s', mapM f l s = Ok (map g l, s') /\ P s'.
Proof.
  induction l as [|x l IH]; intros Hf s Hs.
  - exists s. split; [reflexivity|exact Hs].
  - destruct (Hf x (or_introl eq_refl) s Hs) as (s1 & Hx & Hs1).
    destruct (IH (fun y Hy => Hf y (or_intror Hy)) s1 Hs1) as (s2 & Hl & Hs2).
    exists s2. split; [|exact Hs2].
    cbn [mapM map]. msimpl. rewrite Hx. msimpl. rewrite Hl. reflexivity.
Qed.

(** A type whose text the context remembers prints as what is
    remembered, and nothing changes. *)
Lemma stringify_cached (depth : nat) (t : CLIType) (ctx : nat) (w : World.t) (s : string) :
  reprs_at w ctx (CLIType_.id t) = Some s ->
  CLIType_stringify (S depth) t ctx w = Ok (s, w).
Proof.
  intros H. cbn [CLIType_stringify]. unfold get_ctx. msimpl.
  unfold reprs_at in H. rewrite H. reflexivity.
Qed.

(** A type the context remembers nothing of is first marked with the
    sentinel, then its slots are printed, then the text is put together
    and remembered. *)
Lemma stringify_fresh (depth : nat) (t : CLIType) (ctx : nat) (w : World.t) :
  reprs_at w ctx (CLIType_.id t) = None ->
  CLIType_stringify (S depth) t ctx w
  = (param_list ←
       match CLIType_.parameters t with
       | _ :: _ =>
           ps ← mapM (print_slot depth ctx) (CLIType_.resolved_parameters t);
           mret ("<" +:+ join ", " ps +:+ ">")
       | [] => mret EmptyString
       end;
     let dotted := CLINamespace_str (CLIType_.namespace t) in
     let s := (if nonempty dotted then dotted +:+ "." else "")
              +:+ CLIType_.name t +:+ param_list in
     _ ← set_repr ctx (CLIType_.id t) s;
     mret s) (mark ctx (CLIType_.id t) "..." w).
Proof.
  intros H. cbn [CLIType_stringify]. unfold get_ctx at 1.
  unfold reprs_at in H.
  cbv beta iota delta [mbind M_bind] . rewrite H.
  rewrite set_repr_marks.
  destruct (CLINamespace_str (CLIType_.namespace t)); reflexivity.
Qed.

Lemma sound_mark_sentinel R A (w : World.t) (t : CLIType) (ctx : nat) (s : string) :
  sound R A w -> sound R ((ctx, CLIType_.id t) :: A) (mark ctx (CLIType_.id t) s w).
Proof.
  intros Hs c t2 s2 Hin Hnot Hr. apply (Hs c t2 s2 Hin).
  - intros X. apply Hnot. right. exact X.
  - rewrite reprs_at_mark_other in Hr; [exact Hr|].
    intros Heq. apply Hnot. left. symmetry. exact Heq.
Qed.

Lemma sound_mark_done R A (w : World.t) (t : CLIType) (ctx : nat) :
  ids_distinct R -> In (ctx, t) R ->
  sound R ((ctx, CLIType_.id t) :: A) w ->
  sound R A (mark ctx (CLIType_.id t) (spec_stringify t) w).
Proof.
  intros HR Ht Hs c t2 s2 Hin Hnot Hr.
  destruct (decide ((c, CLIType_.id t2) = (ctx, CLIType_.id t))) as [Heq|Hne].
  - injection Heq as -> Hid.
    rewrite Hid, reprs_at_mark_same in Hr. injection Hr as <-.
    f_equal. symmetry. exact (HR (ctx, t2) (ctx, t) Hin Ht Hid).
  - rewrite reprs_at_mark_other in Hr by exact Hne.
    apply (Hs c t2 s2 Hin); [|exact Hr].
    intros [X|X]; [apply Hne; symmetry; exact X|exact (Hnot X)].
Qed.

(** The refinement, with the types that are being printed ([A]) made
    explicit so that it goes through the recursion. *)
Lemma stringify_refines_gen R (HR : ids_distinct R) :
  forall depth t ctx w A,
    (nesting t <= depth)%nat -> closed t = true ->
    incl (reach t ctx) R ->
    (forall q, In q (reach t ctx) -> ~ In (fst q, CLIType_.id (snd q)) A) ->
    sound R A w ->
    exists w',
      CLIType_stringify depth t ctx w = Ok (spec_stringify t, w')
      /\ sound R A w'
      /\ reprs_at w' ctx (CLIType_.id t) = Some (spec_stringify t).
Proof.
  induction depth as [|d IH]; intros t ctx w A Hn Hc Hincl HA Hs.
  - rewrite nesting_eq in Hn. lia.
  - pose proof (Hincl _ (reach_self t ctx)) as Ht.
    destruct (reprs_at w ctx (CLIType_.id t)) as [s|] eqn:E.
    + rewrite (stringify_cached _ _ _ _ _ E).
      assert (s = spec_stringify t) as ->.
      { apply (Hs ctx t s Ht); [|exact E]. exact (HA _ (reach_self t ctx)). }
      exists w. auto.
    + rewrite (stringify_fresh _ _ _ _ E).
      pose proof (sound_mark_sentinel R A w t ctx "..." Hs) as Hs0.
      set (w0 := mark ctx (CLIType_.id t) "..." w) in *.
      assert (exists w1,
                 mapM (print_slot d ctx) (CLIType_.resolved_parameters t) w0
                 = Ok (map spec_slot (CLIType_.resolved_parameters t), w1)
                 /\ sound R ((ctx, CLIType_.id t) :: A) w1) as (w1 & Hm & Hs1).
      { apply mapM_inv with (P := sound R ((ctx, CLIType_.id t) :: A)); [|exact Hs0].
        intros p Hp w2 Hs2.
        pose proof (slot_nesting_lt t p Hp) as Hlt.
        pose proof (slot_closed_of t p Hc Hp) as Hcp.
        pose proof (slot_reach_incl t ctx p Hp) as Hrp.
        assert (forall q, In q (slot_reach ctx p) ->
                  ~ In (fst q, CLIType_.id (snd q)) ((ctx, CLIType_.id t) :: A)) as HAp.
        { intros q Hq [Heq|X]; [|exact (HA q (Hrp q Hq) X)].
          injection Heq as Hctx Hid.
          pose proof (HR q (ctx, t) (Hincl q (Hrp q Hq)) Ht (eq_sym Hid)) as Hsame.
          pose proof (slot_reach_nesting ctx p q Hq) as Hle.
          cbn [snd] in Hsame. rewrite Hsame in Hle. lia. }
        destruct p as [[r|ti|t']|]; cbn [slot_closed] in Hcp; try discriminate;
          cbn [print_slot stringify_with spec_slot slot_nesting slot_reach] in *.
        - destruct (IH (CLITypeInstance_.derived_from ti) (CLITypeInstance_.ctx ti)
                      w2 ((ctx, CLIType_.id t) :: A)) as (w3 & H3 & Hs3 & _);
            [lia|exact Hcp|exact (incl_tran Hrp Hincl)|exact HAp|exact Hs2|].
          exists w3. auto.
        - destruct (IH t' ctx w2 ((ctx, CLIType_.id t) :: A)) as (w3 & H3 & Hs3 & _);
            [lia|exact Hcp|exact (incl_tran Hrp Hincl)|exact HAp|exact Hs2|].
          exists w3. auto.
        - exists w2. auto. }
      pose proof (spec_stringify_eq t) as Hspec. cbv zeta in Hspec.
      destruct (CLIType_.parameters t) as [|param params].
      * exists (mark ctx (CLIType_.id t) (spec_stringify t) w0).
        split; [|split].
        -- cbv beta iota zeta delta [mbind M_bind mret M_ret].
           rewrite <- Hspec, set_repr_marks. reflexivity.
        -- apply sound_mark_done; assumption.
        -- apply reprs_at_mark_same.
      * exists (mark ctx (CLIType_.id t) (spec_stringify t) w1).
        split; [|split].
        -- cbv beta iota zeta delta [mbind M_bind mret M_ret]. rewrite Hm.
           rewrite <- Hspec, set_repr_marks. reflexivity.
        -- apply sound_mark_done; assumption.
        -- apply reprs_at_mark_same.
Qed.

(** A slot that leads back to [t] in [ctx]: the type itself, an instance
    of it in the same context, or a parameter that [ctx] binds to such
    an instance. *)
Definition re_enters (w : World.t) (ctx : nat) (t : CLIType) (p : CLITypeResolvable) : Prop :=
  match p with
  | OfType t' => CLIType_.id t' = CLIType_.id t
  | OfInstance ti =>
      CLITypeInstance_.ctx ti = ctx
      /\ CLIType_.id (CLITypeInstance_.derived_from ti) = CLIType_.id t
  | Binding ref =>
      exists ti,
        CLITypeResolutionContext.refs
          (default CLITypeResolutionContext.empty (World.ctxs w !! ctx))
          !! param_name ref = Some ti
        /\ CLITypeInstance_.ctx ti = ctx
        /\ CLIType_.id (CLITypeInstance_.derived_from ti) = CLIType_.id t
  end.

Lemma binding_slot (depth : nat) (ref : CLITypeParam) (ctx : nat) (w : World.t)
    (ti : CLITypeInstance) :
  CLITypeResolutionContext.refs
    (default CLITypeResolutionContext.empty (World.ctxs w !! ctx))
    !! param_name ref = Some ti ->
  print_slot depth ctx (Some (Binding ref)) w = CLITypeInstance_str depth ti w.
Proof.
  intros H. cbn [print_slot stringify_with]. unfold CLITypeBinding_resolve, get_ctx.
  msimpl. rewrite H. reflexivity.
Qed.

Lemma re_entry_prints_the_sentinel (depth : nat) (t : CLIType) (ctx : nat)
    (w : World.t) (p : CLITypeResolvable) (s : string) :
  reprs_at w ctx (CLIType_.id t) = Some s ->
  re_enters w ctx t p ->
  print_slot (S depth) ctx (Some p) w = Ok (s, w).
Proof.
  intros Hs Hp. destruct p as [ref|ti|t']; cbn [re_enters] in Hp.
  - destruct Hp as (ti & Href & Hctx & Hid).
    rewrite (binding_slot _ _ _ _ _ Href). unfold CLITypeInstance_str.
    rewrite Hctx. apply stringify_cached. rewrite Hid. exact Hs.
  - destruct Hp as (Hctx & Hid). cbn [print_slot stringify_with].
    rewrite Hctx. apply stringify_cached. rewrite Hid. exact Hs.
  - cbn [print_slot stringify_with]. apply stringify_cached. rewrite Hp. exact Hs.
Qed.

(** *** [Dictionary<String, Foo.Bar.Foo>] *)

(** The instance as the package's tests build it:
    [SYSTEM_COLLECTIONS_GENERIC_DICTIONARY.instantiate([builtins.SYSTEM_STRING,
    cli_type_foo.instantiate()])], [cli_type_foo] being a type [Foo] in
    the namespace [Foo.Bar]. *)
Definition dictionary_of_string_and_foo (depth : nat) : St CLITypeInstance :=
  ctx ← new_ctx;
  builtins ← Builtins.init depth ctx;
  cli_type_foo ←
    CLIType_init "Foo" (Namespace "Bar" (Some (Namespace "Foo" (Some ROOT_NAMESPACE))))
      (ParamSeq []) (DefaultSeq []) None false [] None None;
  foo ← CLIType_instantiate depth cli_type_foo (BySeq []);
  CLIType_instantiate depth SYSTEM_COLLECTIONS_GENERIC_DICTIONARY
    (BySeq [OfInstance (Builtins.SYSTEM_STRING builtins); OfInstance foo]).

Definition DICTIONARY_OF_STRING_AND_FOO : CLITypeInstance :=
  ltac:(let r := eval vm_compute in (dictionary_of_string_and_foo 1 initial_world) in
        match r with Ok (?ti, _) => exact ti end).

Definition DICTIONARY_WORLD : World.t :=
  ltac:(let r := eval vm_compute in (dictionary_of_string_and_foo 1 initial_world) in
        match r with Ok (_, ?w) => exact w end).

Lemma dictionary_is_built (depth : nat) :
  dictionary_of_string_and_foo (S depth) initial_world
  = Ok (DICTIONARY_OF_STRING_AND_FOO, DICTIONARY_WORLD).
Proof. vm_compute. reflexivity. Qed.

Lemma dictionary_prints (depth : nat) :
  exists w,
    CLITypeInstance_str (S (S depth)) DICTIONARY_OF_STRING_AND_FOO DICTIONARY_WORLD
    = Ok ("System.Collections.Generic.Dictionary<System.String, Foo.Bar.Foo>", w).
Proof. eexists. vm_compute. reflexivity. Qed.

(** *** A type that is its own parameter *)

(** [G<T>] whose slot is the binding of [T], printed in a context that
    binds [T] to the instance of [G] in that same context. *)
Definition T_PARAM : CLITypeParam := TypeParam (Some "T").

Definition G_TYPE : CLIType :=
  mkCLIType 100 "G" (Namespace "N" (Some ROOT_NAMESPACE))
    [T_PARAM] [Some (Binding T_PARAM)] [None] false [] None None.

Definition G_INSTANCE : CLITypeInstance := mkCLITypeInstance 101 0 G_TYPE None None.

Definition G_WORLD : World.t :=
  World.mk 102
    {[ 0%nat := CLITypeResolutionContext.mk ∅ {[ Some "T" := G_INSTANCE ]} ∅ ]}.

Lemma cyclic_type_prints (depth : nat) :
  exists w,
    CLITypeInstance_str (S (S depth)) G_INSTANCE G_WORLD = Ok ("N.G<...>", w)
    /\ re_enters G_WORLD 0 G_TYPE (Binding T_PARAM).
Proof.
  eexists. split; [vm_compute; reflexivity|].
  exists G_INSTANCE. repeat split.
Qed.

(** C6: [CLIType.stringify] writes the namespace and a dot (no dot when
    the namespace prints as the empty string), the name of the type and,
    when the type has parameters, its slots between [<] and [>],
    separated by a comma and a space, a slot that holds nothing printed
    as [?] and any other slot as what it holds prints.
    - For a type none of whose slots is a binding, printed with enough
      call depth in a world where identities name one object and where
      what the contexts remember of the types visited is their text,
      the result is exactly the text the specification describes
      ([spec_stringify]), and the context remembers it afterwards.
    - For any type of which the context remembers nothing, the type is
      first marked with the sentinel ["..."], then the slots are printed
      from left to right in the world so marked, then the text is put
      together and remembered.
    - A slot that is a binding prints as the instance the context binds
      the parameter to.
    - A type of which the context remembers a text prints as that text,
      so a slot that leads back to a type that is being printed prints
      the sentinel ["..."].
    - The instance [Dictionary<String, Foo.Bar.Foo>] prints as
      ["System.Collections.Generic.Dictionary<System.String, Foo.Bar.Foo>"],
      and a type [N.G] whose slot is bound to its own instance prints as
      ["N.G<...>"]. *)
Theorem stringify_writes_the_name_and_the_slots :
  (forall depth t ctx w,
     (nesting t <= depth)%nat ->
     closed t = true ->
     ids_distinct (reach t ctx) ->
     sound (reach t ctx) [] w ->
     exists w',
       CLIType_stringify depth t ctx w = Ok (spec_stringify t, w')
       /\ reprs_at w' ctx (CLIType_.id t) = Some (spec_stringify t))
  /\ (forall depth t ctx w,
        reprs_at w ctx (CLIType_.id t) = None ->
        CLIType_stringify (S depth) t ctx w
        = (param_list ←
             match CLIType_.parameters t with
             | _ :: _ =>
                 ps ← mapM (print_slot depth ctx) (CLIType_.resolved_parameters t);
                 mret ("<" +:+ join ", " ps +:+ ">")
             | [] => mret EmptyString
             end;
           let dotted := CLINamespace_str (CLIType_.namespace t) in
           let s := (if nonempty dotted then dotted +:+ "." else "")
                    +:+ CLIType_.name t +:+ param_list in
           _ ← set_repr ctx (CLIType_.id t) s;
           mret s) (mark ctx (CLIType_.id t) "..." w))
  /\ (forall depth ctx w,
        print_slot depth ctx None w = Ok ("?", w))
  /\ (forall depth ref ctx w ti,
        CLITypeResolutionContext.refs
          (default CLITypeResolutionContext.empty (World.ctxs w !! ctx))
          !! param_name ref = Some ti ->
        print_slot depth ctx (Some (Binding ref)) w = CLITypeInstance_str depth ti w)
  /\ (forall depth t ctx w s,
        reprs_at w ctx (CLIType_.id t) = Some s ->
        CLIType_stringify (S depth) t ctx w = Ok (s, w))
  /\ (forall depth t ctx w p,
        reprs_at w ctx (CLIType_.id t) = Some "..." ->
        re_enters w ctx t p ->
        print_slot (S depth) ctx (Some p) w = Ok ("...", w))
  /\ (forall depth,
        dictionary_of_string_and_foo (S depth) initial_world
        = Ok (DICTIONARY_OF_STRING_AND_FOO, DICTIONARY_WORLD)
        /\ exists w,
             CLITypeInstance_str (S (S depth)) DICTIONARY_OF_STRING_AND_FOO
               DICTIONARY_WORLD
             = Ok ("System.Collections.Generic.Dictionary<System.String, Foo.Bar.Foo>",
                   w))
  /\ (forall depth,
        exists w,
          CLITypeInstance_str (S (S depth)) G_INSTANCE G_WORLD = Ok ("N.G<...>", w)
          /\ re_enters G_WORLD 0 G_TYPE (Binding T_PARAM)).
Proof.
  split; [|split; [|split; [|split; [|split; [|split; [|split]]]]]].
  - intros depth t ctx w Hn Hc HR Hs.
    destruct (stringify_refines_gen (reach t ctx) HR depth t ctx w [] Hn Hc)
      as (w' & H & _ & Hr); [apply incl_refl|intros q _ []|exact Hs|].
    exists w'. split; assumption.
  - exact stringify_fresh.
  - reflexivity.
  - exact binding_slot.
  - exact stringify_cached.
  - intros depth t ctx w p. apply re_entry_prints_the_sentinel.
  - intros depth. split; [apply dictionary_is_built|apply dictionary_prints].
  - exact cyclic_type_prints.
Qed.

Lemma stringify_writes_the_name_and_the_slots_witness :
  exists w',
    CLIType_stringify 2
      (CLITypeInstance_.derived_from DICTIONARY_OF_STRING_AND_FOO)
      (CLITypeInstance_.ctx DICTIONARY_OF_STRING_AND_FOO) DICTIONARY_WORLD
    = Ok ("System.Collections.Generic.Dictionary<System.String, Foo.Bar.Foo>", w')
    /\ reprs_at w' (CLITypeInstance_.ctx DICTIONARY_OF_STRING_AND_FOO)
         (CLIType_.id (CLITypeInstance_.derived_from DICTIONARY_OF_STRING_AND_FOO))
       = Some "System.Collections.Generic.Dictionary<System.String, Foo.Bar.Foo>".
Proof.
  refine (proj1 stringify_writes_the_name_and_the_slots 2%nat
            (CLITypeInstance_.derived_from DICTIONARY_OF_STRING_AND_FOO)
            (CLITypeInstance_.ctx DICTIONARY_OF_STRING_AND_FOO)
            DICTIONARY_WORLD _ _ _ _).
  - vm_compute. lia.
  - reflexivity.
  - intros a b Ha Hb. vm_compute in Ha, Hb.
    destruct Ha as [<-|[<-|[<-|[]]]]; destruct Hb as [<-|[<-|[<-|[]]]];
      intros H; try reflexivity; vm_compute in H; discriminate.
  - intros c t s Hin _ Hr. vm_compute in Hin.
    destruct Hin as [E|[E|[E|[]]]]; injection E as <- <-;
      vm_compute in Hr; discriminate.
Defined.

(** ** Reading from the stream *)

(** X3: [read(f, n)] with a non-negative [n] returns exactly [n] bytes,
    the ones at the head of the stream, and leaves the rest; when fewer
    than [n] bytes are left it raises [UnexpectedEOF] with [n] and the
    number of bytes that were left. *)
Theorem read_takes_exactly_or_reports (f : stream) (n : Z) :
  0 <= n ->
  (forall b f', read f n = Ok (b, f') ->
     f = b ++ f' /\ Z.of_nat (length b) = n)
  /\ (forall e, read f n = Raise e ->
        e = UnexpectedEOF n (Z.of_nat (length f)) /\ Z.of_nat (length f) < n)
  /\ (n <= Z.of_nat (length f) -> exists b f', read f n = Ok (b, f'))
  /\ (Z.of_nat (length f) < n ->
        read f n = Raise (UnexpectedEOF n (Z.of_nat (length f)))).
Proof.
  intros Hn. unfold read.
  destruct (n <? 0) eqn:E0; [apply Z.ltb_lt in E0; lia|].
  destruct (Z.of_nat (length (take (Z.to_nat n) f)) <? n) eqn:E;
    [apply Z.ltb_lt in E | apply Z.ltb_ge in E];
    rewrite length_take in E.
  - assert (Hmin : (Z.to_nat n `min` length f)%nat = length f) by lia.
    rewrite length_take, Hmin.
    split; [discriminate|]. split; [|split].
    + intros e He. injection He as <-. split; [reflexivity|lia].
    + lia.
    + reflexivity.
  - split; [|split; [|split]].
    + intros b f' H. injection H as <- <-. split.
      * symmetry. apply take_drop.
      * rewrite length_take. lia.
    + discriminate.
    + eauto.
    + lia.
Qed.

Lemma read_takes_exactly_or_reports_witness :
  (forall b f', read [1; 2; 3] 2 = Ok (b, f') ->
     [1; 2; 3] = b ++ f' /\ Z.of_nat (length b) = 2)
  /\ (forall e, read [1; 2; 3] 2 = Raise e ->
        e = UnexpectedEOF 2 (Z.of_nat (length [1; 2; 3]))
        /\ Z.of_nat (length [1; 2; 3]) < 2)
  /\ (2 <= Z.of_nat (length [1; 2; 3]) -> exists b f', read [1; 2; 3] 2 = Ok (b, f'))
  /\ (Z.of_nat (length [1; 2; 3]) < 2 ->
        read [1; 2; 3] 2 = Raise (UnexpectedEOF 2 (Z.of_nat (length [1; 2; 3])))).
Proof. apply (read_takes_exactly_or_reports [1; 2; 3] 2). lia. Defined.

(** ** Dispatch on the record code *)

Ltac in_list := simpl; solve [repeat (first [left; reflexivity | right])].

Lemma toplevel_handler_unknown decode timezone_localizer mrh (code : Z) :
  ~ In code [0; 1; 2; 3; 4; 5; 6; 7; 11; 12; 15; 16; 17; 21; 22] ->
  TOPLEVEL_HANDLERS decode timezone_localizer mrh code = None.
Proof.
  intros H. unfold TOPLEVEL_HANDLERS.
  destruct code as [|p|p]; [exfalso; apply H; in_list| |reflexivity].
  do 6 (try (destruct p as [p|p|]; try reflexivity;
             try (exfalso; apply H; in_list))).
Qed.

Lemma member_handler_unknown decode timezone_localizer mrh (code : Z) :
  ~ In code [1; 2; 3; 4; 5; 6; 8; 9; 10; 13; 14] ->
  MEMBER_RECORD_HANDLERS decode timezone_localizer mrh code = None.
Proof.
  intros H. unfold MEMBER_RECORD_HANDLERS.
  destruct code as [|p|p]; [reflexivity| |reflexivity].
  do 6 (try (destruct p as [p|p|]; try reflexivity;
             try (exfalso; apply H; in_list))).
Qed.

(** X4: what the decoder does with the byte that should be a record
    code.  At the end of the stream it raises [UnexpectedEOF(1, 0)]; a
    code that is not in the top-level table raises [UnknownRecord] with
    that code, and this includes the records that may only stand in
    member position (8, 9, 10, 13 and 14); the codes 2, 3, 16, 17, 21 and
    22 are in the table and raise [NotImplementedError].  In member
    position a code outside the member table raises [UnknownRecord] as
    well, the codes of arrays (7, 15, 16, 17) among them. *)
Theorem record_code_dispatch decode timezone_localizer (depth : nat) :
  Binary.Deserializer decode timezone_localizer depth [] = Raise (UnexpectedEOF 1 0)
  /\ (forall code rest,
        ~ In code [0; 1; 2; 3; 4; 5; 6; 7; 11; 12; 15; 16; 17; 21; 22] ->
        Binary.Deserializer decode timezone_localizer depth (code :: rest)
        = Raise (UnknownRecord code))
  /\ (forall code rest,
        In code [8; 9; 10; 13; 14] ->
        Binary.Deserializer decode timezone_localizer depth (code :: rest)
        = Raise (UnknownRecord code))
  /\ (forall code rest,
        In code [2; 3; 16; 17; 21; 22] ->
        Binary.Deserializer decode timezone_localizer depth (code :: rest)
        = Raise NotImplementedError)
  /\ (forall mrh ctx code rest,
        ~ In code [1; 2; 3; 4; 5; 6; 8; 9; 10; 13; 14] ->
        read_member_reference
          (MEMBER_RECORD_HANDLERS decode timezone_localizer mrh) ctx (code :: rest)
        = Raise (UnknownRecord code))
  /\ (forall mrh ctx code rest,
        In code [7; 15; 16; 17] ->
        read_member_reference
          (MEMBER_RECORD_HANDLERS decode timezone_localizer mrh) ctx (code :: rest)
        = Raise (UnknownRecord code)).
Proof.
  assert (Hunknown : forall code rest,
             ~ In code [0; 1; 2; 3; 4; 5; 6; 7; 11; 12; 15; 16; 17; 21; 22] ->
             Binary.Deserializer decode timezone_localizer depth (code :: rest)
             = Raise (UnknownRecord code)).
  { intros code rest H. unfold Binary.Deserializer.
    cbn [length Deserializer_loop take drop Nat.ltb Nat.leb byte0 nth].
    unfold code_to_handler_map. rewrite toplevel_handler_unknown by exact H.
    reflexivity. }
  assert (Hmember : forall mrh ctx code rest,
             ~ In code [1; 2; 3; 4; 5; 6; 8; 9; 10; 13; 14] ->
             read_member_reference
               (MEMBER_RECORD_HANDLERS decode timezone_localizer mrh) ctx (code :: rest)
             = Raise (UnknownRecord code)).
  { intros mrh ctx code rest H. unfold read_member_reference.
    rewrite read_cons. cbn [mbind result_bind byte0 nth].
    rewrite member_handler_unknown by exact H. reflexivity. }
  split; [reflexivity|]. split; [exact Hunknown|]. split; [|split; [|split]].
  - intros code rest H. apply Hunknown. simpl in H. simpl. lia.
  - intros code rest H. simpl in H.
    destruct H as [<-|[<-|[<-|[<-|[<-|[<-|[]]]]]]]; reflexivity.
  - exact Hmember.
  - intros mrh ctx code rest H. apply Hmember. simpl in H. simpl. lia.
Qed.

Lemma record_code_dispatch_witness :
  Binary.Deserializer utf8_decode (fun d => d) 3 [9; 1; 0; 0; 0]
  = Raise (UnknownRecord 9).
Proof.
  apply (proj1 (proj2 (proj2 (record_code_dispatch utf8_decode (fun d => d) 3)))).
  in_list.
Defined.

(** ** Little-endian 32-bit integers *)

Definition int32 (v : Z) : Prop := -2147483648 <= v <= 2147483647.

Lemma pack_l_length (v : Z) : length (pack_l v) = 4%nat.
Proof. reflexivity. Qed.

(** [struct.unpack("<l", struct.pack("<l", v))] is [v]. *)
Lemma unpack_pack_l (v : Z) (rest : list Z) :
  int32 v -> unpack_l (pack_l v ++ rest) = v.
Proof.
  intros Hv. unfold int32 in Hv. unfold unpack_l, pack_l.
  cbn [app take]. rewrite take_0. unfold signed_le. cbn [length unsigned_le].
  set (u := v mod 4294967296).
  assert (Hu : 0 <= u < 4294967296) by (apply Z.mod_pos_bound; lia).
  assert (Hsum : u mod 256 + 256 * ((u / 256) mod 256
                   + 256 * ((u / 65536) mod 256
                   + 256 * ((u / 16777216) mod 256 + 256 * 0))) = u).
  { assert (u / 16777216 < 256) by (apply Z.div_lt_upper_bound; lia).
    assert (0 <= u / 16777216) by (apply Z.div_pos; lia).
    rewrite (Z.mod_small (u / 16777216)) by lia.
    replace (u / 65536) with (u / 256 / 256) by (rewrite Z.div_div by lia; reflexivity).
    replace (u / 16777216) with (u / 256 / 256 / 256)
      by (rewrite !Z.div_div by lia; reflexivity).
    pose proof (Z.div_mod u 256 ltac:(lia)).
    pose proof (Z.div_mod (u / 256) 256 ltac:(lia)).
    pose proof (Z.div_mod (u / 256 / 256) 256 ltac:(lia)).
    lia. }
  rewrite Hsum. change (8 * Z.of_nat 4) with 32.
  change (2 ^ (32 - 1)) with 2147483648. change (2 ^ 32) with 4294967296.
  unfold u.
  destruct (Z.lt_ge_cases v 0) as [Hneg|Hpos].
  - replace (v mod 4294967296) with (v + 4294967296).
    + destruct (v + 4294967296 <? 2147483648) eqn:E;
        [apply Z.ltb_lt in E; lia | lia].
    + apply Z.mod_unique with (q := -1); lia.
  - rewrite Z.mod_small by lia.
    destruct (v <? 2147483648) eqn:E; [reflexivity | apply Z.ltb_ge in E; lia].
Qed.

Lemma read_pack_l (v : Z) (rest : list Z) :
  read (pack_l v ++ rest) 4 = Ok (pack_l v, rest).
Proof. apply (read_app (pack_l v) rest). Qed.

(** ** The stream header *)

(** X5: a stream that consists of a header record and a [MessageEnd]
    record decodes to a context that holds the four header fields as
    they were written and nothing else, whatever follows the
    [MessageEnd] record: the decoder stops reading there.  (The version
    is any the header handler lets through.) *)
Theorem header_fields_round_trip decode timezone_localizer (depth : nat)
    (root_id header_id major_version minor_version : Z) (rest : list Z) :
  int32 root_id -> int32 header_id -> int32 major_version -> int32 minor_version ->
  major_version = 1 \/ minor_version = 0 ->
  Binary.Deserializer decode timezone_localizer depth
    ([0] ++ pack_l root_id ++ pack_l header_id
         ++ pack_l major_version ++ pack_l minor_version ++ [11] ++ rest)
  = Ok (DeserializationContext.set_header root_id header_id
          major_version minor_version DeserializationContext.init).
Proof.
  intros Hr Hh Hmaj Hmin Hv. unfold Binary.Deserializer.
  set (body := pack_l root_id ++ pack_l header_id
                 ++ pack_l major_version ++ pack_l minor_version ++ [11] ++ rest).
  change ([0] ++ body) with (0 :: body).
  assert (Hlen : exists n, length body = S n).
  { unfold body. rewrite !length_app, pack_l_length. eexists. reflexivity. }
  destruct Hlen as (n & Hlen). cbn [length]. rewrite Hlen.
  cbn [Deserializer_loop take drop length Nat.ltb Nat.leb byte0 nth].
  unfold code_to_handler_map. cbn [TOPLEVEL_HANDLERS].
  unfold SerializedStreamHandler.
  assert (Hread : read body 16
                  = Ok (pack_l root_id ++ pack_l header_id
                          ++ pack_l major_version ++ pack_l minor_version,
                        [11] ++ rest)).
  { unfold body. rewrite !(app_assoc _ _ ([11] ++ rest)).
    rewrite <- !app_assoc.
    rewrite !(app_assoc (pack_l root_id)).
    rewrite <- !app_assoc.
    pose proof (read_app (pack_l root_id ++ pack_l header_id
                            ++ pack_l major_version ++ pack_l minor_version)
                  ([11] ++ rest)) as R.
    rewrite <- !app_assoc in R. exact R. }
  rewrite drop_0, Hread. cbn [mbind result_bind].
  rewrite unpack_pack_l by exact Hr.
  replace (drop 4 (pack_l root_id ++ pack_l header_id
                     ++ pack_l major_version ++ pack_l minor_version))
    with (pack_l header_id ++ pack_l major_version ++ pack_l minor_version)
    by reflexivity.
  replace (drop 8 (pack_l root_id ++ pack_l header_id
                     ++ pack_l major_version ++ pack_l minor_version))
    with (pack_l major_version ++ pack_l minor_version) by reflexivity.
  replace (drop 12 (pack_l root_id ++ pack_l header_id
                      ++ pack_l major_version ++ pack_l minor_version))
    with (pack_l minor_version ++ []) by reflexivity.
  rewrite !unpack_pack_l by assumption.
  assert (Hok : negb (major_version =? 1) && negb (minor_version =? 0) = false).
  { destruct Hv as [->| ->]; [reflexivity|].
    rewrite Z.eqb_refl. apply andb_false_r. }
  rewrite Hok. cbn [mbind result_bind].
  cbn [Deserializer_loop app take drop length Nat.ltb Nat.leb byte0 nth
       TOPLEVEL_HANDLERS MessageEndHandler mbind result_bind].
  destruct n; reflexivity.
Qed.

Lemma header_fields_round_trip_witness :
  Binary.Deserializer utf8_decode (fun d => d) 0
    ([0] ++ pack_l 7 ++ pack_l (-1) ++ pack_l 1 ++ pack_l 0 ++ [11] ++ [42; 43])
  = Ok (DeserializationContext.set_header 7 (-1) 1 0 DeserializationContext.init).
Proof.
  apply (header_fields_round_trip utf8_decode (fun d => d) 0 7 (-1) 1 0 [42; 43]);
    unfold int32; lia.
Defined.

(** ** Arrays of 32-bit integers *)

Lemma read_primitive_loop_int32 decode timezone_localizer (vs : list Z) (rest : list Z) :
  Forall int32 vs ->
  read_primitive_loop decode timezone_localizer PrimitiveType.INT32 (length vs)
    (flat_map pack_l vs ++ rest)
  = Ok (map VInt vs, rest).
Proof.
  induction 1 as [|v vs Hv Hvs IH]; [reflexivity|].
  cbn [length read_primitive_loop flat_map _UntypedPrimitiveValueReader].
  rewrite <- app_assoc, read_pack_l. cbn [mbind result_bind].
  pose proof (unpack_pack_l v [] Hv) as Hu. rewrite app_nil_r in Hu. rewrite Hu.
  rewrite IH. reflexivity.
Qed.

(** X6: an [ArraySinglePrimitive] record of [Int32] elements is read
    back whole.  The record body (object id, length, the primitive type
    code 8, then the elements, all little-endian) yields a new [Array]
    object that holds the elements in the order they were written; the
    object is registered under its object id, the rest of the stream is
    left unread, and nothing else in the context changes. *)
Theorem int32_array_round_trip decode timezone_localizer mrh
    (ctx : DeserializationContext.t) (object_id : Z) (vs : list Z) (rest : list Z) :
  int32 object_id -> Forall int32 vs -> int32 (Z.of_nat (length vs)) ->
  let type_info := TypeInfo.mk BinaryType.PRIMITIVE (APrimitive PrimitiveType.INT32) in
  let array_info :=
    ArrayInfo.mk object_id [Z.of_nat (length vs)] [0]
      (Some BinaryArrayType.SINGLE) (Some type_info) in
  let a := length (DeserializationContext.heap ctx) in
  ArraySinglePrimitiveHandler decode timezone_localizer mrh ctx
    (pack_l object_id ++ pack_l (Z.of_nat (length vs)) ++ [8]
       ++ flat_map pack_l vs ++ rest)
  = Ok (Some [VObj a], true,
        DeserializationContext.mk
          (DeserializationContext.root_id ctx) (DeserializationContext.header_id ctx)
          (DeserializationContext.major_version ctx)
          (DeserializationContext.minor_version ctx)
          (DeserializationContext.library_id_name_mappings ctx)
          (<[object_id := VObj a]> (DeserializationContext.objects ctx))
          (DeserializationContext.heap ctx
             ++ [Array array_info (Some (map VInt vs))]),
        rest).
Proof.
  intros Hid Hvs Hn type_info array_info a.
  unfold ArraySinglePrimitiveHandler, read_array_info.
  pose proof (read_app (pack_l object_id ++ pack_l (Z.of_nat (length vs)))
                ([8] ++ flat_map pack_l vs ++ rest)) as R.
  change (Z.of_nat (length (pack_l object_id ++ pack_l (Z.of_nat (length vs)))))
    with 8 in R.
  rewrite <- app_assoc in R.
  rewrite R. cbn [mbind result_bind].
  rewrite unpack_pack_l by exact Hid.
  replace (drop 4 (pack_l object_id ++ pack_l (Z.of_nat (length vs))))
    with (pack_l (Z.of_nat (length vs)) ++ []) by reflexivity.
  rewrite unpack_pack_l by exact Hn.
  change ([8] ++ flat_map pack_l vs ++ rest) with (8 :: (flat_map pack_l vs ++ rest)).
  rewrite read_cons. cbn [mbind result_bind byte0 nth PrimitiveType.of_Z].
  cbn [ArrayInfo.object_id ArrayInfo.shape ArrayInfo.lower_bounds nth].
  unfold register_then_fill, DeserializationContext.alloc, DeserializationContext.add_object.
  cbn [DeserializationContext.heap DeserializationContext.objects
       DeserializationContext.root_id DeserializationContext.header_id
       DeserializationContext.major_version DeserializationContext.minor_version
       DeserializationContext.library_id_name_mappings].
  unfold element_value_reader. cbn [_ElementValueReader TypeInfo.binary_type].
  unfold read_primitive. cbn [TypeInfo.additional_info].
  destruct (Z.of_nat (length vs) <=? 0) eqn:E.
  - apply Z.leb_le in E. assert (vs = []) as -> by (destruct vs; [reflexivity|cbn in E; lia]).
    cbn [mbind result_bind app map flat_map length].
    unfold DeserializationContext.update.
    cbn [DeserializationContext.heap DeserializationContext.objects
         DeserializationContext.root_id DeserializationContext.header_id
         DeserializationContext.major_version DeserializationContext.minor_version
         DeserializationContext.library_id_name_mappings].
    rewrite lookup_app_r by lia. rewrite Nat.sub_diag. cbn [lookup list_lookup].
    rewrite insert_app_r_alt by lia. rewrite Nat.sub_diag. reflexivity.
  - rewrite Nat2Z.id, read_primitive_loop_int32 by exact Hvs.
    cbn [mbind result_bind]. rewrite app_nil_r.
    unfold DeserializationContext.update.
    cbn [DeserializationContext.heap DeserializationContext.objects
         DeserializationContext.root_id DeserializationContext.header_id
         DeserializationContext.major_version DeserializationContext.minor_version
         DeserializationContext.library_id_name_mappings].
    rewrite lookup_app_r by lia. rewrite Nat.sub_diag. cbn [lookup list_lookup].
    rewrite insert_app_r_alt by lia. rewrite Nat.sub_diag. reflexivity.
Qed.

Lemma int32_array_round_trip_witness :
  ArraySinglePrimitiveHandler utf8_decode (fun d => d) (fun _ => None)
    DeserializationContext.init
    (pack_l 5 ++ pack_l 3 ++ [8] ++ flat_map pack_l [10; -20; 30] ++ [11])
  = Ok (Some [VObj 0%nat], true,
        DeserializationContext.mk None None None None ∅
          (<[5 := VObj 0%nat]> ∅)
          [Array (ArrayInfo.mk 5 [3] [0] (Some BinaryArrayType.SINGLE)
                    (Some (TypeInfo.mk BinaryType.PRIMITIVE
                             (APrimitive PrimitiveType.INT32))))
             (Some [VInt 10; VInt (-20); VInt 30])],
        [11]).
Proof.
  apply (int32_array_round_trip utf8_decode (fun d => d) (fun _ => None)
           DeserializationContext.init 5 [10; -20; 30] [11]).
  - unfold int32; lia.
  - repeat constructor; unfold int32; lia.
  - unfold int32; simpl; lia.
Defined.

(** ** Date and time values *)

(** The [n] low bytes of [u], least significant first: what
    [struct.pack] writes for an unsigned little-endian field. *)
Fixpoint le_bytes (n : nat) (u : Z) : list Z :=
  match n with
  | O => []
  | S n' => u mod 256 :: le_bytes n' (u / 256)
  end.

Lemma le_bytes_length (n : nat) (u : Z) : length (le_bytes n u) = n.
Proof. revert u. induction n as [|n IH]; intros u; cbn; [reflexivity|]. rewrite IH. reflexivity. Qed.

Lemma unsigned_le_bytes (n : nat) (u : Z) :
  0 <= u -> unsigned_le (le_bytes n u) = u mod 256 ^ Z.of_nat n.
Proof.
  revert u. induction n as [|n IH]; intros u Hu.
  - cbn. rewrite Z.mod_1_r. reflexivity.
  - cbn [le_bytes unsigned_le]. rewrite IH by (apply Z.div_pos; lia).
    rewrite Nat2Z.inj_succ, Z.pow_succ_r by lia.
    assert (0 < 256 ^ Z.of_nat n) by (apply Z.pow_pos_nonneg; lia).
    rewrite Z.rem_mul_r by lia. reflexivity.
Qed.

Lemma unpack_Q_le_bytes (u : Z) :
  0 <= u < 18446744073709551616 -> unpack_Q (le_bytes 8 u) = u.
Proof.
  intros Hu. unfold unpack_Q.
  rewrite <- (le_bytes_length 8 u) at 1. rewrite firstn_all.
  rewrite unsigned_le_bytes by lia.
  change (256 ^ Z.of_nat 8) with 18446744073709551616.
  apply Z.mod_small. lia.
Qed.

(** A [DateTime] field as .NET writes it: the kind in the two high bits,
    the ticks (units of 100 ns since 0001-01-01) in the 62 low bits. *)
Definition pack_datetime (kind ticks : Z) : list Z :=
  le_bytes 8 (kind * 4611686018427387904 + ticks).

(** The date and time of day [ticks] stand for, the fraction of a second
    cut to whole microseconds: the day number counts from 1. *)
Definition datetime_of_ticks (ticks : Z) (tz : tzinfo) : DateTime.t :=
  DateTime.mk (ticks / 864000000000 + 1)
    ((ticks / 36000000000) mod 24)
    ((ticks / 600000000) mod 60)
    ((ticks / 10000000) mod 60)
    ((ticks mod 10000000) / 10)
    tz.

(** X7: decoding of a [DateTime] primitive.  For a field written with
    kind [kind] and [ticks] ticks, the reader fails with [ValueError]
    when the day is past 9999-12-31 (the last day [datetime.date] has),
    whatever the kind; otherwise the kind 0 gives the naive date and time
    of the ticks, the kind 1 the same with the UTC time zone, the kind 2
    what the time zone localizer makes of the naive value, and the kind 3
    is refused with [InvalidStreamError].  The fields are those of
    [datetime_of_ticks]: they are in range and give the ticks back up to
    the tenths of a microsecond that are dropped. *)
Theorem datetime_decoding (timezone_localizer : DateTime.t -> DateTime.t)
    (kind ticks : Z) (rest : list Z) :
  0 <= kind <= 3 -> 0 <= ticks < 4611686018427387904 ->
  read_datetime timezone_localizer (pack_datetime kind ticks ++ rest)
  = (if 3652058 <? ticks / 864000000000
     then Raise (ValueError "ordinal out of range")
     else if kind =? 0 then Ok ([VDatetime (datetime_of_ticks ticks Naive)], rest)
     else if kind =? 1 then Ok ([VDatetime (datetime_of_ticks ticks Utc)], rest)
     else if kind =? 2
     then Ok ([VDatetime (timezone_localizer (datetime_of_ticks ticks Naive))], rest)
     else Raise (InvalidStreamError "unknown datetime kind"))
  /\ (let d := datetime_of_ticks ticks Naive in
      0 <= DateTime.hour d < 24 /\ 0 <= DateTime.minute d < 60
      /\ 0 <= DateTime.second d < 60 /\ 0 <= DateTime.microsecond d < 1000000
      /\ 1 <= DateTime.ordinal d
      /\ let t := ((((DateTime.ordinal d - 1) * 24 + DateTime.hour d) * 60
                    + DateTime.minute d) * 60 + DateTime.second d) * 10000000
                  + DateTime.microsecond d * 10 in
         t <= ticks < t + 10).
Proof.
  intros Hk Ht. split.
  - unfold read_datetime, pack_datetime.
    pose proof (read_app (le_bytes 8 (kind * 4611686018427387904 + ticks)) rest) as R.
    rewrite le_bytes_length in R. change (Z.of_nat 8) with 8 in R. rewrite R.
    cbn [mbind result_bind].
    rewrite !unpack_Q_le_bytes by lia.
    rewrite !Z.shiftr_div_pow2 by lia.
    change (2 ^ 62) with 4611686018427387904.
    change 4611686018427387903 with (Z.ones 62).
    rewrite !Z.land_ones by lia. change (2 ^ 62) with 4611686018427387904.
    rewrite !(Z.add_comm (kind * 4611686018427387904)).
    rewrite !Z.div_add by lia. rewrite !Z.mod_add by lia.
    rewrite !(Z.div_small ticks 4611686018427387904) by lia.
    rewrite !(Z.mod_small ticks 4611686018427387904) by lia.
    cbn [Z.add].
    rewrite !Z.div_div by lia.
    repeat match goal with
           | |- context [Z.mul ?a ?b] =>
               let v := eval vm_compute in (Z.mul a b) in change (Z.mul a b) with v
           end.
    replace (3652059 <? ticks / 864000000000 + 1)
      with (3652058 <? ticks / 864000000000)
      by (destruct (3652058 <? ticks / 864000000000) eqn:E;
          [apply Z.ltb_lt in E; symmetry; apply Z.ltb_lt; lia
          |apply Z.ltb_ge in E; symmetry; apply Z.ltb_ge; lia]).
    unfold datetime_of_ticks. reflexivity.
  - unfold datetime_of_ticks.
    cbn [DateTime.hour DateTime.minute DateTime.second DateTime.microsecond
         DateTime.ordinal].
    pose proof (Z.mod_pos_bound (ticks / 36000000000) 24 ltac:(lia)).
    pose proof (Z.mod_pos_bound (ticks / 600000000) 60 ltac:(lia)).
    pose proof (Z.mod_pos_bound (ticks / 10000000) 60 ltac:(lia)).
    pose proof (Z.mod_pos_bound ticks 10000000 ltac:(lia)).
    assert (0 <= ticks / 864000000000) by (apply Z.div_pos; lia).
    assert (0 <= ticks mod 10000000 / 10 < 1000000).
    { split; [apply Z.div_pos; lia | apply Z.div_lt_upper_bound; lia]. }
    repeat (split; [lia|]).
    replace (ticks / 864000000000) with (ticks / 10000000 / 60 / 60 / 24)
      by (rewrite !Z.div_div by lia; reflexivity).
    replace (ticks / 36000000000) with (ticks / 10000000 / 60 / 60)
      by (rewrite !Z.div_div by lia; reflexivity).
    replace (ticks / 600000000) with (ticks / 10000000 / 60)
      by (rewrite !Z.div_div by lia; reflexivity).
    pose proof (Z.div_mod ticks 10000000 ltac:(lia)).
    pose proof (Z.div_mod (ticks / 10000000) 60 ltac:(lia)).
    pose proof (Z.div_mod (ticks / 10000000 / 60) 60 ltac:(lia)).
    pose proof (Z.div_mod (ticks / 10000000 / 60 / 60) 24 ltac:(lia)).
    pose proof (Z.div_mod (ticks mod 10000000) 10 ltac:(lia)).
    pose proof (Z.mod_pos_bound (ticks mod 10000000) 10 ltac:(lia)).
    cbv zeta. lia.
Qed.

Lemma datetime_decoding_witness :
  read_datetime (fun d => d) (pack_datetime 1 637134336000000000 ++ [11])
  = Ok ([VDatetime (DateTime.mk 737425 0 0 0 0 Utc)], [11]).
Proof.
  apply (proj1 (datetime_decoding (fun d => d) 1 637134336000000000 [11]
                  ltac:(lia) ltac:(lia))).
Defined.

(** ** Construction of types *)

Lemma shadowed_false {A B} (xs : list (option A)) (ys : list (option B)) :
  shadowed xs ys = false ->
  forall i a b, xs !! i = Some (Some a) -> ys !! i = Some (Some b) -> False.
Proof.
  revert ys. induction xs as [|x xs IH]; intros [|y ys] H i a b Hx Hy;
    try (destruct i; discriminate).
  cbn [shadowed] in H. apply orb_false_iff in H. destruct H as [H1 H2].
  destruct i as [|i].
  - cbn in Hx, Hy. injection Hx as ->. injection Hy as ->. discriminate.
  - cbn in Hx, Hy. exact (IH ys H2 i a b Hx Hy).
Qed.

(** What [CLIType.__init__] derives from its arguments when it
    succeeds. *)
Lemma CLIType_init_ok name namespace parameters default_parameters resolved_parameters
    intrinsic members derived_from member_handler (w : World.t) (t : CLIType) (w' : World.t) :
  CLIType_init name namespace parameters default_parameters resolved_parameters
    intrinsic members derived_from member_handler w = Ok (t, w') ->
  length (CLIType_.resolved_parameters t) = length (CLIType_.parameters t)
  /\ length (CLIType_.default_parameters t) = length (CLIType_.parameters t)
  /\ (forall i a b,
        CLIType_.resolved_parameters t !! i = Some (Some a) ->
        CLIType_.default_parameters t !! i = Some (Some b) -> False)
  /\ CLIType_.parameters t
     = match parameters with ParamSeq l => l | ParamMap m => map fst m end
  /\ CLIType_.resolved_parameters t
     = match parameters, resolved_parameters with
       | ParamMap m, _ => map snd m
       | ParamSeq l, Some r => r
       | ParamSeq l, None => replicate (length l) None
       end
  /\ CLIType_.default_parameters t
     = match default_parameters with
       | DefaultSeq d =>
           d ++ replicate (length (CLIType_.parameters t) - length d) None
       | DefaultMap m => map (fun p => dict_get p m) (CLIType_.parameters t)
       end
  /\ CLIType_.id t = World.next_id w
  /\ w' = World.mk (S (World.next_id w)) (World.ctxs w)
  /\ CLIType_.name t = name /\ CLIType_.namespace t = namespace
  /\ CLIType_.intrinsic t = intrinsic /\ CLIType_.members t = members
  /\ CLIType_.derived_from t = derived_from
  /\ CLIType_.member_handler t = member_handler.
Proof.
  unfold CLIType_init. intros H.
  assert (exists ps rs,
             ps = match parameters with ParamSeq l => l | ParamMap m => map fst m end
             /\ rs = match parameters, resolved_parameters with
                     | ParamMap m, _ => map snd m
                     | ParamSeq l, Some r => r
                     | ParamSeq l, None => replicate (length l) None
                     end
             /\ length rs = length ps
             /\ match parameters with
                | ParamMap m =>
                    match resolved_parameters with
                    | Some (_ :: _) =>
                        raise (ValueError
                                 "cannot specify both 'parameters' and 'resolved_parameters'")
                    | _ => mret (map fst m, map snd m)
                    end
                | ParamSeq l =>
                    match resolved_parameters with
                    | Some r =>
                        if negb (length l =? length r)%nat
                        then raise (ValueError "element counts must be the same")
                        else mret (l, r)
                    | None => mret (l, replicate (length l) None)
                    end
                end w = Ok ((ps, rs), w)) as (ps & rs & Hps & Hrs & Hlen & Hfirst).
  { destruct parameters as [l|m].
    - destruct resolved_parameters as [r|].
      + destruct (negb (length l =? length r)%nat) eqn:E.
        * cbv beta iota delta [mbind M_bind raise] in H. discriminate.
        * apply negb_false_iff, Nat.eqb_eq in E.
          exists l, r. repeat split; auto.
      + exists l, (replicate (length l) None). repeat split; auto.
        apply length_replicate.
    - exists (map fst m), (map snd m).
      split; [reflexivity|]. split; [destruct resolved_parameters; reflexivity|].
      split; [rewrite !length_map; reflexivity|].
      destruct resolved_parameters as [[|x r]|]; try reflexivity.
      cbv beta iota delta [mbind M_bind raise] in H. discriminate. }
  cbv beta iota delta [mbind M_bind] in H. rewrite Hfirst in H.
  destruct default_parameters as [d|m].
  - destruct (length ps <? length d)%nat eqn:Ed; [discriminate|].
    apply Nat.ltb_ge in Ed.
    cbv beta iota delta [mret M_ret] in H.
    destruct (shadowed (take (length ps) rs)
                (d ++ replicate (length ps - length d) None)) eqn:Es; [discriminate|].
    unfold fresh in H. injection H as <- <-.
    cbn [CLIType_.resolved_parameters CLIType_.parameters CLIType_.default_parameters
         CLIType_.id CLIType_.name CLIType_.namespace CLIType_.intrinsic
         CLIType_.members CLIType_.derived_from CLIType_.member_handler].
    assert (take (length ps) rs = rs) as Htake
      by (rewrite <- Hlen; apply firstn_all).
    rewrite Htake in Es.
    repeat split; auto.
    + rewrite length_app, length_replicate. lia.
    + exact (shadowed_false _ _ Es).
  - cbv beta iota delta [mret M_ret] in H.
    destruct (shadowed (take (length ps) rs) (map (fun p => dict_get p m) ps)) eqn:Es;
      [discriminate|].
    unfold fresh in H. injection H as <- <-.
    cbn [CLIType_.resolved_parameters CLIType_.parameters CLIType_.default_parameters
         CLIType_.id CLIType_.name CLIType_.namespace CLIType_.intrinsic
         CLIType_.members CLIType_.derived_from CLIType_.member_handler].
    assert (take (length ps) rs = rs) as Htake
      by (rewrite <- Hlen; apply firstn_all).
    rewrite Htake in Es.
    repeat split; auto.
    + apply length_map.
    + exact (shadowed_false _ _ Es).
Qed.

Lemma CLIType_init_raises name namespace parameters default_parameters resolved_parameters
    intrinsic members derived_from member_handler (w : World.t) (e : exn) :
  CLIType_init name namespace parameters default_parameters resolved_parameters
    intrinsic members derived_from member_handler w = Raise e ->
  exists message, e = ValueError message.
Proof.
  unfold CLIType_init. intros H.
  cbv beta iota delta [mbind M_bind mret M_ret raise fresh] in H.
  repeat (match type of H with
          | context [match ?x with _ => _ end] => is_var x; destruct x
          | context [if ?c then _ else _] => destruct c
          end; cbv beta iota in H);
    try discriminate; injection H as <-; eauto.
Qed.

(** X8: what [CLIType(...)] guarantees.  When the constructor returns,
    the new type has one resolved slot and one default slot per
    parameter, no slot has both a resolved value and a default, the type
    has a fresh identity and the other attributes are the arguments; when
    it does not return, the exception is a [ValueError].  With a sequence
    of parameters and nothing else it always returns, every slot
    unresolved. *)
Theorem new_type_is_well_formed name namespace intrinsic members derived_from
    member_handler (w : World.t) :
  (forall parameters default_parameters resolved_parameters t w',
     CLIType_init name namespace parameters default_parameters resolved_parameters
       intrinsic members derived_from member_handler w = Ok (t, w') ->
     length (CLIType_.resolved_parameters t) = length (CLIType_.parameters t)
     /\ length (CLIType_.default_parameters t) = length (CLIType_.parameters t)
     /\ (forall i a b,
           CLIType_.resolved_parameters t !! i = Some (Some a) ->
           CLIType_.default_parameters t !! i = Some (Some b) -> False)
     /\ CLIType_.id t = World.next_id w
     /\ World.next_id w' = S (World.next_id w)
     /\ World.ctxs w' = World.ctxs w
     /\ CLIType_.name t = name /\ CLIType_.namespace t = namespace
     /\ CLIType_.intrinsic t = intrinsic /\ CLIType_.members t = members
     /\ CLIType_.derived_from t = derived_from
     /\ CLIType_.member_handler t = member_handler)
  /\ (forall parameters default_parameters resolved_parameters e,
        CLIType_init name namespace parameters default_parameters resolved_parameters
          intrinsic members derived_from member_handler w = Raise e ->
        exists message, e = ValueError message)
  /\ (forall l,
        CLIType_init name namespace (ParamSeq l) (DefaultSeq []) None
          intrinsic members derived_from member_handler w
        = Ok (mkCLIType (World.next_id w) name namespace l
                (replicate (length l) None) (replicate (length l) None)
                intrinsic members derived_from member_handler,
              World.mk (S (World.next_id w)) (World.ctxs w))).
Proof.
  split; [|split].
  - intros parameters default_parameters resolved_parameters t w' H.
    destruct (CLIType_init_ok _ _ _ _ _ _ _ _ _ _ _ _ H)
      as (H1 & H2 & H3 & _ & _ & _ & H4 & -> & H6 & H7 & H8 & H9 & H10 & H11).
    repeat split; assumption.
  - intros parameters default_parameters resolved_parameters e.
    apply CLIType_init_raises.
  - intros l. unfold CLIType_init.
    cbv beta iota delta [mbind M_bind mret M_ret fresh].
    cbn [length Nat.ltb Nat.leb app].
    assert (shadowed (take (length l) (replicate (length l) (@None CLITypeResolvable)))
              (replicate (length l - 0) (@None CLITypeResolvable)) = false) as ->.
    { rewrite Nat.sub_0_r. rewrite take_replicate, Nat.min_id.
      induction (length l) as [|n IH]; [reflexivity|exact IH]. }
    rewrite Nat.sub_0_r. reflexivity.
Qed.

Lemma new_type_is_well_formed_witness :
  let t := mkCLIType 32 "Pair" ROOT_NAMESPACE [TKey; TValue]
             [Some (OfType SYSTEM_STRING); None] [None; None] false [] None None in
  length (CLIType_.resolved_parameters t) = length (CLIType_.parameters t).
Proof.
  refine (proj1 (proj1 (new_type_is_well_formed "Pair" ROOT_NAMESPACE false [] None None
                          initial_world)
                   (ParamMap [(TKey, Some (OfType SYSTEM_STRING)); (TValue, None)])
                   (DefaultSeq []) None _ (World.mk 33 ∅) _)).
  reflexivity.
Defined.

(** ** [CLIType.partial] *)

(** A type whose slots go with its parameters, as [CLIType(...)] makes
    them. *)
Definition well_formed (t : CLIType) : Prop :=
  length (CLIType_.resolved_parameters t) = length (CLIType_.parameters t)
  /\ length (CLIType_.default_parameters t) = length (CLIType_.parameters t).

(** What [partial] is given for the slot [i]. *)
Definition given (self : CLIType) (parameters : partial_arg) (i : nat)
    : option CLITypeResolvable :=
  match parameters with
  | BySeq l => l !! i
  | ByMap m => p ← CLIType_.parameters self !! i; dict_get p m
  end.

Lemma merge_slot_ok resolvable p x :
  merge_slot resolvable p = Ok x ->
  x = match resolvable with Some r => Some r | None => p end
  /\ (is_Some resolvable -> p = None).
Proof.
  destruct resolvable as [r|], p as [q|]; cbn; intros H; try discriminate;
    injection H as <-; split; auto; intros [? ?]; discriminate.
Qed.

Lemma merge_by_seq_ok (n : nat) :
  forall resolved l xs,
    merge_by_seq n resolved l = Ok xs ->
    length xs = n
    /\ forall i, (i < n)%nat ->
         xs !! i = Some (match mjoin (resolved !! i) with
                         | Some r => Some r
                         | None => l !! i
                         end)
         /\ (is_Some (mjoin (resolved !! i)) -> l !! i = None).
Proof.
  induction n as [|n IH]; intros resolved l xs H.
  - injection H as <-. split; [reflexivity|]. intros i Hi. lia.
  - cbn [merge_by_seq] in H.
    destruct (merge_slot (mjoin (head resolved)) (head l)) as [x|e] eqn:Hx;
      [|discriminate].
    cbn [mbind result_bind] in H.
    destruct (merge_by_seq n (tail resolved) (tail l)) as [xs'|e] eqn:Hxs;
      [|discriminate].
    injection H as <-.
    apply merge_slot_ok in Hx. destruct Hx as [-> Hnone].
    destruct (IH _ _ _ Hxs) as [Hlen Hslots].
    split; [cbn; rewrite Hlen; reflexivity|].
    intros [|i] Hi.
    + cbn [lookup list_lookup]. rewrite <- !head_lookup. auto.
    + cbn [lookup list_lookup]. rewrite <- !lookup_tail.
      apply Hslots. lia.
Qed.

Lemma merge_by_map_ok (m : list (CLITypeParam * CLITypeResolvable)) :
  forall params resolved xs,
    merge_by_map params resolved m = Ok xs ->
    length xs = min (length params) (length resolved)
    /\ forall i p, params !! i = Some p -> (i < length resolved)%nat ->
         xs !! i = Some (match mjoin (resolved !! i) with
                         | Some r => Some r
                         | None => dict_get p m
                         end)
         /\ (is_Some (mjoin (resolved !! i)) -> dict_get p m = None).
Proof.
  induction params as [|param params IH]; intros resolved xs H.
  - injection H as <-. split; [reflexivity|]. intros i p Hp. destruct i; discriminate.
  - destruct resolved as [|resolvable resolved].
    + injection H as <-. split; [reflexivity|]. intros i p _ Hi. cbn in Hi. lia.
    + cbn [merge_by_map] in H.
      destruct (merge_slot resolvable (dict_get param m)) as [x|e] eqn:Hx;
        [|discriminate].
      cbn [mbind result_bind] in H.
      destruct (merge_by_map params resolved m) as [xs'|e] eqn:Hxs; [|discriminate].
      injection H as <-.
      apply merge_slot_ok in Hx. destruct Hx as [-> Hnone].
      destruct (IH _ _ Hxs) as [Hlen Hslots].
      split; [cbn; rewrite Hlen; reflexivity|].
      intros [|i] p Hp Hi.
      * cbn in Hp. injection Hp as <-. cbn. auto.
      * cbn in Hp, Hi. cbn [lookup list_lookup]. apply Hslots; [exact Hp|lia].
Qed.

Lemma CLIType_partial_ok (self : CLIType) (parameters : partial_arg)
    (w : World.t) (t : CLIType) (w' : World.t) :
  well_formed self ->
  CLIType_partial self parameters w = Ok (t, w') ->
  CLIType_.name t = CLIType_.name self
  /\ CLIType_.namespace t = CLIType_.namespace self
  /\ CLIType_.parameters t = CLIType_.parameters self
  /\ CLIType_.default_parameters t = CLIType_.default_parameters self
  /\ CLIType_.intrinsic t = CLIType_.intrinsic self
  /\ CLIType_.members t = CLIType_.members self
  /\ CLIType_.member_handler t = CLIType_.member_handler self
  /\ CLIType_.derived_from t = Some self
  /\ CLIType_.id t = World.next_id w
  /\ w' = World.mk (S (World.next_id w)) (World.ctxs w)
  /\ well_formed t
  /\ (forall i, (i < length (CLIType_.parameters self))%nat ->
        CLIType_.resolved_parameters t !! i
        = Some (match mjoin (CLIType_.resolved_parameters self !! i) with
                | Some r => Some r
                | None => given self parameters i
                end))
  /\ (forall i r x,
        CLIType_.resolved_parameters self !! i = Some (Some r) ->
        given self parameters i = Some x -> False)
  /\ (forall i x b,
        given self parameters i = Some x ->
        CLIType_.default_parameters self !! i = Some (Some b) -> False).
Proof.
  intros [Hwr Hwd] H. unfold CLIType_partial in H.
  cbv beta iota delta [mbind M_bind] in H.
  assert (exists new,
             CLIType_replace self None None None (Some (Some new)) None
               (Some (CLIType_.members self)) (Some (Some self)) None w = Ok (t, w')
             /\ (forall i, (i < length (CLIType_.parameters self))%nat ->
                   new !! i
                   = Some (match mjoin (CLIType_.resolved_parameters self !! i) with
                           | Some r => Some r
                           | None => given self parameters i
                           end)
                   /\ (is_Some (mjoin (CLIType_.resolved_parameters self !! i)) ->
                       given self parameters i = None)))
    as (new & Hrep & Hnew).
  { destruct parameters as [l|m].
    - destruct (length (CLIType_.parameters self) <? length l)%nat eqn:El;
        [discriminate|]. apply Nat.ltb_ge in El.
      unfold lift in H.
      destruct (merge_by_seq _ (CLIType_.resolved_parameters self) l) as [new|e] eqn:Hm;
        [|discriminate].
      exists new. split; [exact H|].
      apply merge_by_seq_ok in Hm. destruct Hm as [_ Hm].
      intros i Hi. apply Hm. lia.
    - unfold lift in H.
      destruct (merge_by_map (CLIType_.parameters self)
                  (CLIType_.resolved_parameters self) m) as [new|e] eqn:Hm;
        [|discriminate].
      exists new. split; [exact H|].
      apply merge_by_map_ok in Hm. destruct Hm as [_ Hm].
      intros i Hi.
      destruct (lookup_lt_is_Some_2 (CLIType_.parameters self) i Hi) as [p Hp].
      cbn [given]. rewrite Hp. cbn [mbind option_bind].
      apply Hm; [exact Hp|lia]. }
  unfold CLIType_replace in Hrep. cbn [default] in Hrep.
  destruct (CLIType_init_ok _ _ _ _ _ _ _ _ _ _ _ _ Hrep)
    as (H1 & H2 & H3 & H4 & H5 & H5d & H6 & H7 & H8 & H9 & H10 & H11 & H12 & H13).
  assert (Hdef : CLIType_.default_parameters t = CLIType_.default_parameters self).
  { rewrite H5d, H4, Hwd, Nat.sub_diag. apply app_nil_r. }
  assert (Hslot : forall i, (i < length (CLIType_.parameters self))%nat ->
            CLIType_.resolved_parameters t !! i
            = Some (match mjoin (CLIType_.resolved_parameters self !! i) with
                    | Some r => Some r
                    | None => given self parameters i
                    end)).
  { intros i Hi. rewrite H5. apply Hnew. exact Hi. }
  repeat (split; [assumption|]).
  split; [split; [rewrite H1; reflexivity | rewrite H2; reflexivity]|].
  split; [exact Hslot|]. split.
  - intros i r x Hr Hx.
    assert (Hi : (i < length (CLIType_.parameters self))%nat).
    { rewrite <- Hwr. apply lookup_lt_is_Some. eauto. }
    destruct (Hnew i Hi) as [_ Hnone]. rewrite Hr in Hnone. cbn in Hnone.
    rewrite Hnone in Hx by eauto. discriminate.
  - intros i x b Hx Hb.
    assert (Hi : (i < length (CLIType_.parameters self))%nat).
    { rewrite <- Hwd. apply lookup_lt_is_Some. eauto. }
    specialize (Hslot i Hi). rewrite <- Hdef in Hb.
    destruct (mjoin (CLIType_.resolved_parameters self !! i)) as [r|].
    + exact (H3 i r b Hslot Hb).
    + rewrite Hx in Hslot. exact (H3 i x b Hslot Hb).
Qed.

Lemma merge_by_seq_fresh (n : nat) :
  forall k (l : list CLITypeResolvable),
    (length l <= n)%nat ->
    merge_by_seq n (replicate k None) l
    = Ok (map Some l ++ replicate (n - length l) None).
Proof.
  induction n as [|n IH]; intros k l Hl.
  - destruct l; [reflexivity|cbn in Hl; lia].
  - cbn [merge_by_seq].
    assert (Hhead : mjoin (head (replicate k (@None CLITypeResolvable))) = None)
      by (destruct k; reflexivity).
    rewrite Hhead. cbn [merge_slot mbind result_bind].
    assert (Htail : tail (replicate k (@None CLITypeResolvable)) = replicate (pred k) None)
      by (destruct k; reflexivity).
    rewrite Htail.
    destruct l as [|x l].
    + cbn [tail head]. rewrite (IH (pred k) []) by (cbn; lia).
      cbn [mbind result_bind map app length]. rewrite !Nat.sub_0_r. reflexivity.
    + cbn [tail head]. rewrite (IH (pred k) l) by (cbn in Hl; lia). reflexivity.
Qed.

Lemma shadowed_no_default {A B} (xs : list (option A)) (n : nat) :
  shadowed xs (replicate n (@None B)) = false.
Proof.
  revert n. induction xs as [|x xs IH]; intros [|n]; try reflexivity.
  cbn [replicate shadowed is_some]. rewrite andb_false_r. apply IH.
Qed.

(** X9: [CLIType.partial].  For a type whose slots go with its
    parameters, when [partial] returns, the new type is derived from the
    type it was called on (which is therefore its [origin], even when
    that type is itself derived), has a fresh identity, the same name,
    namespace, parameters, defaults and members; a slot that was resolved
    keeps its value and an unresolved slot takes what was given for it;
    no slot that was resolved was given a value, and no slot that has a
    default was given one.  More positional arguments than parameters are
    a [ValueError], and binding the slots of a type that has none resolved
    and no defaults always succeeds. *)
Theorem partial_binds_the_free_slots (self : CLIType) (w : World.t) :
  well_formed self ->
  (forall parameters t w',
     CLIType_partial self parameters w = Ok (t, w') ->
     CLIType_.derived_from t = Some self
     /\ CLIType_.origin t = self
     /\ CLIType_.id t = World.next_id w
     /\ CLIType_.name t = CLIType_.name self
     /\ CLIType_.namespace t = CLIType_.namespace self
     /\ CLIType_.parameters t = CLIType_.parameters self
     /\ CLIType_.default_parameters t = CLIType_.default_parameters self
     /\ CLIType_.members t = CLIType_.members self
     /\ CLIType_.intrinsic t = CLIType_.intrinsic self
     /\ well_formed t
     /\ (forall i, (i < length (CLIType_.parameters self))%nat ->
           CLIType_.resolved_parameters t !! i
           = Some (match mjoin (CLIType_.resolved_parameters self !! i) with
                   | Some r => Some r
                   | None => given self parameters i
                   end))
     /\ (forall i r x,
           CLIType_.resolved_parameters self !! i = Some (Some r) ->
           given self parameters i = Some x -> False)
     /\ (forall i x b,
           given self parameters i = Some x ->
           CLIType_.default_parameters self !! i = Some (Some b) -> False))
  /\ (forall l,
        (length (CLIType_.parameters self) < length l)%nat ->
        CLIType_partial self (BySeq l) w
        = Raise (ValueError "expected at most that many parameters"))
  /\ (forall l,
        (length l <= length (CLIType_.parameters self))%nat ->
        CLIType_.resolved_parameters self
        = replicate (length (CLIType_.parameters self)) None ->
        CLIType_.default_parameters self
        = replicate (length (CLIType_.parameters self)) None ->
        exists t w',
          CLIType_partial self (BySeq l) w = Ok (t, w')
          /\ CLIType_.resolved_parameters t
             = map Some l
               ++ replicate (length (CLIType_.parameters self) - length l) None).
Proof.
  intros Hwf. split; [|split].
  - intros parameters t w' H.
    destruct (CLIType_partial_ok self parameters w t w' Hwf H)
      as (H1 & H2 & H3 & H4 & H5 & H6 & H7 & H8 & H9 & H10 & H11 & H12 & H13 & H14).
    split; [exact H8|]. split; [unfold CLIType_.origin; rewrite H8; reflexivity|].
    repeat (split; [assumption|]). assumption.
  - intros l Hl. unfold CLIType_partial.
    cbv beta iota delta [mbind M_bind].
    apply Nat.ltb_lt in Hl. rewrite Hl. reflexivity.
  - intros l Hl Hres Hdef. unfold CLIType_partial.
    cbv beta iota delta [mbind M_bind].
    assert ((length (CLIType_.parameters self) <? length l)%nat = false) as ->
      by (apply Nat.ltb_ge; exact Hl).
    destruct Hwf as [Hwr Hwd].
    replace (length (CLIType_.parameters self)
               `max` (length (CLIType_.resolved_parameters self) `max` length l))%nat
      with (length (CLIType_.parameters self)) by lia.
    rewrite Hres. rewrite merge_by_seq_fresh by lia.
    unfold lift, CLIType_replace, CLIType_init. cbn [default].
    cbv beta iota delta [mbind M_bind mret M_ret fresh id].
    assert (Hlen : length (map Some l
                             ++ replicate (length (CLIType_.parameters self) - length l)
                                  (@None CLITypeResolvable))
                   = length (CLIType_.parameters self)).
    { rewrite length_app, length_map, length_replicate. lia. }
    rewrite Hlen, Nat.eqb_refl. cbn [negb].
    rewrite Hwd, Nat.ltb_irrefl, Nat.sub_diag, app_nil_r.
    rewrite Hdef. rewrite shadowed_no_default.
    eexists _, _. split; reflexivity.
Qed.

Lemma partial_binds_the_free_slots_witness :
  CLIType_partial SYSTEM_COLLECTIONS_GENERIC_DICTIONARY
    (BySeq [OfType SYSTEM_STRING; OfType SYSTEM_INT32; OfType SYSTEM_OBJECT])
    initial_world
  = Raise (ValueError "expected at most that many parameters").
Proof.
  refine (proj1 (proj2 (partial_binds_the_free_slots
                          SYSTEM_COLLECTIONS_GENERIC_DICTIONARY initial_world _))
            [OfType SYSTEM_STRING; OfType SYSTEM_INT32; OfType SYSTEM_OBJECT] _).
  - split; reflexivity.
  - simpl. lia.
Defined.

(** ** [CLIType.resolve] *)

(** [ctx.resolved.get(i)] for the context [ctx] of the world [w]. *)
Definition resolved_at (w : World.t) (ctx i : nat) : option CLITypeInstance :=
  CLITypeResolutionContext.resolved
    (default CLITypeResolutionContext.empty (World.ctxs w !! ctx)) !! i.

Lemma resolve_parameters_bound resolve_type :
  forall params resolved ctx w w',
    resolve_parameters resolve_type params resolved ctx w = Ok (tt, w') ->
    forall i p, params !! i = Some p -> resolved !! i = Some None -> False.
Proof.
  induction params as [|param params IH]; intros resolved ctx w w' H i p Hp Hr.
  - destruct i; discriminate.
  - destruct resolved as [|resolvable resolved]; [destruct i; discriminate|].
    cbn [resolve_parameters] in H.
    destruct resolvable as [resolvable|]; [|discriminate].
    cbv beta iota delta [mbind M_bind] in H.
    destruct (resolve_with resolve_type resolvable ctx w) as [[r w1]|e]; [|discriminate].
    unfold get_ctx, set_ctx, modify in H. cbv beta iota in H.
    destruct i as [|i]; [discriminate|].
    cbn in Hp, Hr. exact (IH _ _ _ _ H i p Hp Hr).
Qed.

Lemma resolve_parameters_next_id resolve_type :
  (forall t ctx w ti w',
     resolve_type t ctx w = Ok (ti, w') -> (World.next_id w <= World.next_id w')%nat) ->
  forall params resolved ctx w w',
    resolve_parameters resolve_type params resolved ctx w = Ok (tt, w') ->
    (World.next_id w <= World.next_id w')%nat.
Proof.
  intros Hf. induction params as [|param params IH]; intros resolved ctx w w' H.
  - injection H as <-. lia.
  - destruct resolved as [|resolvable resolved]; [injection H as <-; lia|].
    cbn [resolve_parameters] in H.
    destruct resolvable as [resolvable|]; [|discriminate].
    cbv beta iota delta [mbind M_bind] in H.
    destruct (resolve_with resolve_type resolvable ctx w) as [[r w1]|e] eqn:Hr;
      [|discriminate].
    assert (World.next_id w <= World.next_id w1)%nat.
    { destruct resolvable as [ref|ti|t]; cbn [resolve_with] in Hr.
      - unfold CLITypeBinding_resolve, get_ctx in Hr.
        cbv beta iota delta [mbind M_bind] in Hr.
        destruct (_ !! param_name ref); [|discriminate].
        injection Hr as _ <-. lia.
      - injection Hr as _ <-. lia.
      - exact (Hf _ _ _ _ _ Hr). }
    unfold get_ctx, set_ctx, modify in H. cbv beta iota in H.
    apply IH in H. cbn [World.next_id] in H. lia.
Qed.

Lemma resolve_next_id (depth : nat) :
  forall t ctx w ti w',
    CLIType_resolve depth t ctx w = Ok (ti, w') ->
    (World.next_id w <= World.next_id w')%nat.
Proof.
  induction depth as [|depth IH]; intros t ctx w ti w' H; [discriminate|].
  cbn [CLIType_resolve] in H. unfold get_ctx in H.
  cbv beta iota delta [mbind M_bind] in H.
  destruct (_ !! CLIType_.id t); [injection H as _ <-; lia|].
  destruct (resolve_parameters (CLIType_resolve depth) (CLIType_.parameters t)
              (CLIType_.resolved_parameters t) ctx w) as [[[] w1]|e] eqn:Hp;
    [|discriminate].
  apply (resolve_parameters_next_id _ IH) in Hp.
  unfold CLITypeInstance_init, fresh, set_ctx, modify in H.
  cbv beta iota delta [mbind M_bind mret M_ret] in H.
  injection H as _ <-. cbn [World.next_id]. lia.
Qed.

Lemma resolve_cached (t : CLIType) (ctx depth : nat) (w : World.t) (ti : CLITypeInstance) :
  resolved_at w ctx (CLIType_.id t) = Some ti ->
  CLIType_resolve (S depth) t ctx w = Ok (ti, w).
Proof.
  intros H. cbn [CLIType_resolve]. unfold get_ctx.
  cbv beta iota delta [mbind M_bind]. unfold resolved_at in H. rewrite H.
  reflexivity.
Qed.

Lemma resolve_fresh (t : CLIType) (ctx depth : nat) (w : World.t)
    (ti : CLITypeInstance) (w' : World.t) :
  resolved_at w ctx (CLIType_.id t) = None ->
  CLIType_resolve depth t ctx w = Ok (ti, w') ->
  exists w1,
    resolve_parameters (CLIType_resolve (pred depth))
      (CLIType_.parameters t) (CLIType_.resolved_parameters t) ctx w
    = Ok (tt, w1)
    /\ ti = mkCLITypeInstance (World.next_id w1) ctx t None (CLIType_.member_handler t)
    /\ resolved_at w' ctx (CLIType_.id t) = Some ti
    /\ World.next_id w' = S (World.next_id w1)
    /\ (World.next_id w <= World.next_id w1)%nat.
Proof.
  intros Hnone H. destruct depth as [|depth]; [discriminate|].
  cbn [CLIType_resolve] in H. unfold get_ctx in H.
  cbv beta iota delta [mbind M_bind] in H.
  unfold resolved_at in Hnone. rewrite Hnone in H.
  destruct (resolve_parameters (CLIType_resolve depth) (CLIType_.parameters t)
              (CLIType_.resolved_parameters t) ctx w) as [[[] w1]|e] eqn:Hp;
    [|discriminate].
  exists w1. split; [exact Hp|].
  unfold CLITypeInstance_init, fresh, set_ctx, modify in H.
  cbv beta iota delta [mbind M_bind mret M_ret] in H.
  cbn [World.next_id World.ctxs] in H. injection H as <- <-.
  split; [reflexivity|]. split; [|split; [reflexivity|]].
  - unfold resolved_at. cbn [World.ctxs]. rewrite lookup_insert_eq.
    cbn [default CLITypeResolutionContext.resolved]. apply lookup_insert_eq.
  - exact (resolve_parameters_next_id _ (resolve_next_id depth) _ _ _ _ _ Hp).
Qed.

(** X10: [CLIType.resolve] interns.  When it returns an instance, every
    later call for the same type in the same context returns that very
    instance and changes nothing; an instance the context already holds
    for the type is returned as it is; and when the context held none,
    the instance returned is a new one, derived from the type and
    attached to the context, and every parameter of the type has its
    slot bound (an unbound one makes [resolve] raise). *)
Theorem resolve_interns (t : CLIType) (ctx : nat) :
  (forall depth w ti w',
     CLIType_resolve depth t ctx w = Ok (ti, w') ->
     (forall depth', CLIType_resolve (S depth') t ctx w' = Ok (ti, w'))
     /\ resolved_at w' ctx (CLIType_.id t) = Some ti)
  /\ (forall depth w ti,
        resolved_at w ctx (CLIType_.id t) = Some ti ->
        CLIType_resolve (S depth) t ctx w = Ok (ti, w))
  /\ (forall depth w ti w',
        resolved_at w ctx (CLIType_.id t) = None ->
        CLIType_resolve depth t ctx w = Ok (ti, w') ->
        CLITypeInstance_.derived_from ti = t
        /\ CLITypeInstance_.ctx ti = ctx
        /\ CLITypeInstance_.builtin_name ti = None
        /\ (World.next_id w <= CLITypeInstance_.id ti < World.next_id w')%nat
        /\ forall i p,
             CLIType_.parameters t !! i = Some p ->
             CLIType_.resolved_parameters t !! i = Some None -> False)
  /\ (forall depth w p params resolved,
        resolved_at w ctx (CLIType_.id t) = None ->
        CLIType_.parameters t = p :: params ->
        CLIType_.resolved_parameters t = None :: resolved ->
        CLIType_resolve (S depth) t ctx w
        = Raise (ValueError "has unresolved parameters")).
Proof.
  split; [|split; [|split]].
  - intros depth w ti w' H.
    assert (Hres : resolved_at w' ctx (CLIType_.id t) = Some ti).
    { destruct (resolved_at w ctx (CLIType_.id t)) as [ti0|] eqn:E.
      - destruct depth as [|depth]; [discriminate|].
        rewrite (resolve_cached t ctx depth w ti0 E) in H. injection H as <- <-. exact E.
      - destruct (resolve_fresh t ctx depth w ti w' E H) as (w1 & _ & _ & Hr & _).
        exact Hr. }
    split; [|exact Hres]. intros depth'. apply resolve_cached. exact Hres.
  - intros depth w ti. apply resolve_cached.
  - intros depth w ti w' Hnone H.
    destruct (resolve_fresh t ctx depth w ti w' Hnone H) as (w1 & Hp & -> & _ & Hn & Hm).
    cbn [CLITypeInstance_.derived_from CLITypeInstance_.ctx
         CLITypeInstance_.builtin_name CLITypeInstance_.id].
    repeat (split; [reflexivity|]).
    split; [lia|exact (resolve_parameters_bound _ _ _ _ _ _ Hp)].
  - intros depth w p params resolved Hnone Hps Hrs. cbn [CLIType_resolve].
    unfold get_ctx. cbv beta iota delta [mbind M_bind].
    unfold resolved_at in Hnone. rewrite Hnone, Hps, Hrs. reflexivity.
Qed.

Lemma resolve_interns_witness :
  CLIType_resolve 1 SYSTEM_COLLECTIONS_GENERIC_LIST 0 initial_world
  = Raise (ValueError "has unresolved parameters").
Proof.
  refine (proj2 (proj2 (proj2 (resolve_interns SYSTEM_COLLECTIONS_GENERIC_LIST 0)))
            0%nat initial_world _ _ _ _ _ _); reflexivity.
Defined.

(** ** [CLIType.instantiate] and the built-ins *)

Lemma well_formed_ARRAY_TYPE : well_formed ARRAY_TYPE.
Proof. split; reflexivity. Qed.

(** [instantiate] resolves a new partial type in a new context. *)
Lemma CLIType_instantiate_ok (depth : nat) (self : CLIType) (parameters : partial_arg)
    (w : World.t) (ti : CLITypeInstance) (w' : World.t) :
  well_formed self ->
  CLIType_instantiate depth self parameters w = Ok (ti, w') ->
  CLIType_partial self parameters w
  = Ok (CLITypeInstance_.derived_from ti,
        World.mk (S (World.next_id w)) (World.ctxs w))
  /\ CLITypeInstance_.ctx ti = S (World.next_id w)
  /\ (S (S (World.next_id w)) <= CLITypeInstance_.id ti < World.next_id w')%nat.
Proof.
  intros Hwf H. unfold CLIType_instantiate in H.
  cbv beta iota delta [mbind M_bind] in H.
  destruct (CLIType_partial self parameters w) as [[t w1]|e] eqn:Hp; [|discriminate].
  destruct (CLIType_partial_ok self parameters w t w1 Hwf Hp)
    as (_ & _ & _ & _ & _ & _ & _ & _ & _ & -> & _).
  unfold new_ctx, fresh, set_ctx, modify in H.
  cbv beta iota delta [mbind M_bind mret M_ret] in H.
  cbn [World.next_id World.ctxs] in H.
  match type of H with
  | CLIType_resolve _ _ _ ?w2 = _ =>
      destruct (resolve_fresh t (S (World.next_id w)) depth w2 ti w')
        as (w3 & _ & -> & _ & Hn & Hm);
        [unfold resolved_at; cbn [World.ctxs]; rewrite lookup_insert_eq; reflexivity
        |exact H|]
  end.
  cbn [World.next_id] in Hm.
  cbn [CLITypeInstance_.derived_from CLITypeInstance_.ctx CLITypeInstance_.id].
  repeat split; lia.
Qed.

Lemma instantiate_intrinsic (depth : nat) (ti : CLITypeInstance) (v : any) (w : World.t) :
  CLIType_.intrinsic (CLITypeInstance_.derived_from ti) = true ->
  CLITypeInstance_instantiate depth ti v None None w = Ok (CLIBasicValue ti v, w).
Proof.
  intros H. unfold CLITypeInstance_instantiate.
  cbv beta iota delta [mbind M_bind mret M_ret]. rewrite H.
  destruct (CLIType_.members (CLITypeInstance_.derived_from ti)); reflexivity.
Qed.

(** Every instance a [Builtins] object holds is an instance of an
    intrinsic type. *)
Lemma builtins_intrinsic depth ctx w0 builtins w1 :
  Builtins.init depth ctx w0 = Ok (builtins, w1) ->
  Forall (fun ti => CLIType_.intrinsic (CLITypeInstance_.derived_from ti) = true)
    [Builtins.SYSTEM_OBJECT builtins; Builtins.SYSTEM_INT32 builtins;
     Builtins.SYSTEM_DOUBLE builtins; Builtins.SYSTEM_STRING builtins;
     Builtins.SYSTEM_DECIMAL builtins; Builtins.SYSTEM_DATETIME builtins;
     Builtins.SYSTEM_TIMESPAN builtins; Builtins.SYSTEM_BYTE_ARRAY builtins]
  /\ CLIType_.derived_from
       (CLITypeInstance_.derived_from (Builtins.SYSTEM_BYTE_ARRAY builtins))
     = Some ARRAY_TYPE
  /\ CLIType_.resolved_parameters
       (CLITypeInstance_.derived_from (Builtins.SYSTEM_BYTE_ARRAY builtins))
     = [Some (OfInstance (Builtins.SYSTEM_BYTE builtins))].
Proof.
  intros H. unfold Builtins.init in H.
  unfold CLITypeInstance_init, fresh in H.
  cbv beta iota delta [mbind M_bind mret M_ret] in H. cbn [World.next_id World.ctxs] in H.
  match type of H with
  | context [array_of ?d ?x ?w] => destruct (array_of d x w) as [[a w']|e] eqn:Ha
  end; [|discriminate].
  injection H as <- _.
  cbn [Builtins.SYSTEM_OBJECT Builtins.SYSTEM_INT32 Builtins.SYSTEM_DOUBLE
       Builtins.SYSTEM_STRING Builtins.SYSTEM_DECIMAL Builtins.SYSTEM_DATETIME
       Builtins.SYSTEM_TIMESPAN Builtins.SYSTEM_BYTE_ARRAY Builtins.SYSTEM_BYTE].
  unfold array_of in Ha.
  destruct (CLIType_instantiate_ok _ _ _ _ _ _ well_formed_ARRAY_TYPE Ha) as (Hp & _).
  destruct (CLIType_partial_ok _ _ _ _ _ well_formed_ARRAY_TYPE Hp)
    as (_ & _ & Hps & _ & Hi & _ & _ & Hd & _ & _ & [Hw _] & Hs & _).
  split; [|split; [exact Hd|]].
  - repeat (constructor; [reflexivity|]). constructor; [exact Hi|constructor].
  - specialize (Hs 0%nat ltac:(cbn; lia)). cbn in Hs.
    rewrite Hps in Hw. cbn in Hw.
    destruct (CLIType_.resolved_parameters (CLITypeInstance_.derived_from a))
      as [|x [|y l]]; try discriminate.
    cbn in Hs. congruence.
Qed.

(** X11: the value [Builtins.from_python_value] makes of a Python
    object, for built-ins made by [Builtins.__init__].  [None] becomes a
    basic value of type [Object] that holds [None]; every [int],
    whatever its size, a basic value of type [Int32]; a [float] is typed
    [Double], a [str] [String], a [Decimal] [Decimal], a [datetime]
    [DateTime], a [timedelta] [TimeSpan] and a [bytes] the array of
    [Byte]; the value holds the object as it is and the type model is left
    as it was.  A list, a tuple or a value of the CLI model is refused
    with [TypeError]. *)
Theorem from_python_value_by_type depth ctx w0 builtins w1 :
  Builtins.init depth ctx w0 = Ok (builtins, w1) ->
  forall d w,
    Builtins.from_python_value d builtins PyNone w
    = Ok (CLIBasicValue (Builtins.SYSTEM_OBJECT builtins) PyNone, w)
    /\ (forall z,
          Builtins.from_python_value d builtins (PyInt z) w
          = Ok (CLIBasicValue (Builtins.SYSTEM_INT32 builtins) (PyInt z), w))
    /\ (forall x,
          Builtins.from_python_value d builtins (PyFloat x) w
          = Ok (CLIBasicValue (Builtins.SYSTEM_DOUBLE builtins) (PyFloat x), w))
    /\ (forall s,
          Builtins.from_python_value d builtins (PyStr s) w
          = Ok (CLIBasicValue (Builtins.SYSTEM_STRING builtins) (PyStr s), w))
    /\ (forall x,
          Builtins.from_python_value d builtins (PyDecimal x) w
          = Ok (CLIBasicValue (Builtins.SYSTEM_DECIMAL builtins) (PyDecimal x), w))
    /\ (forall x,
          Builtins.from_python_value d builtins (PyDatetime x) w
          = Ok (CLIBasicValue (Builtins.SYSTEM_DATETIME builtins) (PyDatetime x), w))
    /\ (forall x,
          Builtins.from_python_value d builtins (PyTimedelta x) w
          = Ok (CLIBasicValue (Builtins.SYSTEM_TIMESPAN builtins) (PyTimedelta x), w))
    /\ (forall x,
          Builtins.from_python_value d builtins (PyBytes x) w
          = Ok (CLIBasicValue (Builtins.SYSTEM_BYTE_ARRAY builtins) (PyBytes x), w))
    /\ (forall v,
          match v with PyList _ | PyTuple _ | PyValue _ => True | _ => False end ->
          Builtins.from_python_value d builtins v w
          = Raise (TypeError "is not a supported type")).
Proof.
  intros H d w. destruct (builtins_intrinsic _ _ _ _ _ H) as (F & _ & _).
  rewrite List.Forall_forall in F.
  assert (G : forall ti v,
             In ti [Builtins.SYSTEM_OBJECT builtins; Builtins.SYSTEM_INT32 builtins;
                    Builtins.SYSTEM_DOUBLE builtins; Builtins.SYSTEM_STRING builtins;
                    Builtins.SYSTEM_DECIMAL builtins; Builtins.SYSTEM_DATETIME builtins;
                    Builtins.SYSTEM_TIMESPAN builtins; Builtins.SYSTEM_BYTE_ARRAY builtins] ->
             CLITypeInstance_instantiate d ti v None None w = Ok (CLIBasicValue ti v, w)).
  { intros ti v Hin. apply instantiate_intrinsic. apply F. exact Hin. }
  unfold Builtins.from_python_value.
  repeat split; intros; try (apply G; in_list).
  destruct v; try contradiction; reflexivity.
Qed.

Lemma from_python_value_by_type_witness :
  Builtins.from_python_value 0 BUILTINS (PyInt 1099511627776) initial_world
  = Ok (CLIBasicValue INT32 (PyInt 1099511627776), initial_world).
Proof.
  refine (proj1 (proj2 (from_python_value_by_type 1 32%nat
                          (World.mk 33 (<[32%nat := CLITypeResolutionContext.empty]> ∅))
                          BUILTINS _ _ 0%nat initial_world)) 1099511627776).
  vm_compute. reflexivity.
Defined.

(** ** Qualified names *)

(** [c in s] *)
Fixpoint has_char (c : ascii) (s : string) : bool :=
  match s with
  | EmptyString => false
  | String c' s' => Ascii.eqb c' c || has_char c s'
  end.

Lemma rpartition_absent (sep : ascii) (s : string) :
  has_char sep s = false -> rpartition sep s = (EmptyString, EmptyString, s).
Proof.
  induction s as [|c s IH]; intros H; [reflexivity|].
  cbn [has_char] in H. apply orb_false_iff in H. destruct H as [Hc Hs].
  cbn [rpartition]. rewrite (IH Hs), Hc. reflexivity.
Qed.

Lemma rpartition_last (sep : ascii) (a b : string) :
  has_char sep b = false ->
  rpartition sep (a +:+ String sep b) = (a, String sep EmptyString, b).
Proof.
  intros Hb. induction a as [|c a IH].
  - change (rpartition sep (String sep b) = (EmptyString, String sep EmptyString, b)).
    cbn [rpartition]. rewrite (rpartition_absent sep b Hb).
    rewrite Ascii.eqb_refl. reflexivity.
  - change (rpartition sep (String c (a +:+ String sep b))
            = (String c a, String sep EmptyString, b)).
    cbn [rpartition]. rewrite IH. reflexivity.
Qed.

(** What [rpartition] returns, in general. *)
Lemma rpartition_spec (sep : ascii) (s : string) :
  (has_char sep s = false /\ rpartition sep s = (EmptyString, EmptyString, s))
  \/ exists a b,
       has_char sep b = false /\ s = a +:+ String sep b
       /\ rpartition sep s = (a, String sep EmptyString, b).
Proof.
  induction s as [|c s IH]; [left; split; reflexivity|].
  destruct IH as [[Hs Hr]|(a & b & Hb & -> & Hr)].
  - destruct (Ascii.eqb c sep) eqn:Hc.
    + right. apply Ascii.eqb_eq in Hc. subst c. exists EmptyString, s.
      split; [exact Hs|]. split; [reflexivity|].
      exact (rpartition_last sep EmptyString s Hs).
    + left. split; [cbn [has_char]; rewrite Hc, Hs; reflexivity|].
      apply rpartition_absent. cbn [has_char]. rewrite Hc, Hs. reflexivity.
  - right. exists (String c a), b. split; [exact Hb|]. split; [reflexivity|].
    exact (rpartition_last sep (String c a) b Hb).
Qed.

(** X12: [split_into_namespace_and_name] splits at the last dot.  A
    name [a.b] whose last part [b] is not empty and has no dot gives the
    namespace [a] and the name [b]; a name that ends with a dot is
    refused; and so is every name without a dot: a type that is in no
    namespace cannot be named. *)
Theorem split_at_the_last_dot :
  (forall a b,
     has_char "." b = false -> b <> EmptyString ->
     split_into_namespace_and_name (a +:+ "." +:+ b) = Ok (a, b))
  /\ (forall a,
        split_into_namespace_and_name (a +:+ ".")
        = Raise (BridgeError "invalid qualified type name"))
  /\ (forall s,
        has_char "." s = false ->
        split_into_namespace_and_name s
        = Raise (BridgeError "invalid qualified type name")).
Proof.
  split; [|split].
  - intros a b Hb Hne. unfold split_into_namespace_and_name.
    change (a +:+ "." +:+ b) with (a +:+ String "." b).
    rewrite (rpartition_last "." a b Hb). cbn [nonempty negb].
    destruct b; [contradiction|reflexivity].
  - intros a. unfold split_into_namespace_and_name.
    change (a +:+ ".") with (a +:+ String "." EmptyString).
    rewrite (rpartition_last "." a EmptyString eq_refl). reflexivity.
  - intros s Hs. unfold split_into_namespace_and_name.
    rewrite (rpartition_absent "." s Hs). reflexivity.
Qed.

Lemma split_at_the_last_dot_witness :
  split_into_namespace_and_name ("Some.Name.Space" +:+ "." +:+ "Foo")
  = Ok ("Some.Name.Space", "Foo").
Proof.
  apply (proj1 split_at_the_last_dot "Some.Name.Space" "Foo"); [reflexivity|discriminate].
Defined.

(** ** The namespace table of the bridge *)

Lemma string_app_assoc (a b c : string) : (a +:+ b) +:+ c = a +:+ (b +:+ c).
Proof.
  induction a as [|x a IH]; [reflexivity|].
  change (String x ((a +:+ b) +:+ c) = String x (a +:+ (b +:+ c))).
  rewrite IH. reflexivity.
Qed.

Lemma string_app_length (a b : string) :
  String.length (a +:+ b) = (String.length a + String.length b)%nat.
Proof.
  induction a as [|x a IH]; [reflexivity|].
  change (S (String.length (a +:+ b)) = S (String.length a + String.length b)).
  rewrite IH. reflexivity.
Qed.

(** [s.startswith(".")] *)
Definition starts_with_dot (s : string) : bool :=
  match s with
  | String c _ => Ascii.eqb c "."
  | EmptyString => false
  end.

(** Every namespace of the table prints as its key, and the root is in. *)
Definition table_ok (m : gmap string CLINamespace) : Prop :=
  is_Some (m !! EmptyString)
  /\ forall k v, m !! k = Some v -> CLINamespace_str v = k.

Lemma init_table_ok depth (r : DeserializationContext.t) st :
  init depth r = Ok st -> table_ok (State._namespaces st).
Proof.
  unfold init. intros H.
  destruct ((ctx ← new_ctx; Builtins.init depth ctx) initial_world) as [[b w]|e];
    [|discriminate].
  injection H as <-. cbn [State._namespaces]. split.
  - rewrite lookup_insert_eq. eauto.
  - intros k v H.
    repeat (apply lookup_insert_Some in H;
            destruct H as [[<- <-]|[_ H]]; [reflexivity|]).
    rewrite lookup_empty in H. discriminate.
Qed.

(** The fields of the bridge a namespace lookup leaves alone. *)
Definition same_but_namespaces (st st' : State.t) : Prop :=
  State.result_ st' = State.result_ st /\ State.world st' = State.world st
  /\ State._builtins st' = State._builtins st
  /\ State._p_class_to_cli_type_mappings st' = State._p_class_to_cli_type_mappings st
  /\ State._p_class_to_cli_type_instance_mappings st'
     = State._p_class_to_cli_type_instance_mappings st
  /\ State._array_types st' = State._array_types st /\ State._objects st' = State._objects st.

Lemma lookup_namespace_ok (depth : nat) :
  forall (ns : string) (st : State.t),
    table_ok (State._namespaces st) ->
    (String.length ns < depth)%nat ->
    starts_with_dot ns = false ->
    exists v st',
      _lookup_namespace depth ns st = Ok (v, st')
      /\ CLINamespace_str v = ns
      /\ State._namespaces st' !! ns = Some v
      /\ table_ok (State._namespaces st')
      /\ (forall k v', State._namespaces st !! k = Some v' -> State._namespaces st' !! k = Some v')
      /\ same_but_namespaces st st'.
Proof.
  induction depth as [|depth IH]; intros ns st Hok Hlen Hdot; [lia|].
  cbn [_lookup_namespace]. msimpl.
  destruct (State._namespaces st !! ns) as [retval|] eqn:Hns.
  - exists retval, st. split; [reflexivity|].
    split; [exact (proj2 Hok _ _ Hns)|].
    split; [exact Hns|]. split; [exact Hok|]. split; [auto|].
    repeat split.
  - assert (exists parent name,
               rpartition "." ns = (parent, name.1, name.2)
               /\ (String.length parent < depth)%nat
               /\ starts_with_dot parent = false
               /\ (if nonempty parent then parent +:+ "." else EmptyString) +:+ name.2 = ns)
      as (parent & [sep name] & Hr & Hplen & Hpdot & Hstr).
    { destruct (rpartition_spec "." ns) as [[_ Hr]|(a & b & _ & -> & Hr)].
      - exists EmptyString, (EmptyString, ns). split; [exact Hr|].
        split; [|split; reflexivity].
        destruct ns as [|c ns]; [|cbn [String.length] in Hlen; cbn [String.length]; lia].
        destruct Hok as [[x Hx] _]. rewrite Hx in Hns. discriminate.
      - exists a, (String "." EmptyString, b). split; [exact Hr|].
        rewrite string_app_length in Hlen. cbn [String.length] in Hlen.
        split; [lia|].
        destruct a as [|c a]; [discriminate Hdot|].
        split; [exact Hdot|].
        cbn [nonempty fst snd]. rewrite string_app_assoc. reflexivity. }
    cbn [fst snd] in Hr, Hstr. rewrite Hr.
    destruct (IH parent st Hok Hplen Hpdot)
      as (outer & st1 & Hrun & Hostr & Hin & Hok1 & Hmono & Hsame).
    rewrite Hrun. msimpl. unfold set_namespaces. msimpl. cbn [State._namespaces].
    eexists _, _. split; [reflexivity|].
    cbn [State._namespaces State.result_ State.world State._builtins
         State._p_class_to_cli_type_mappings
         State._p_class_to_cli_type_instance_mappings State._array_types
         State._objects].
    assert (CLINamespace_str (Namespace name (Some outer)) = ns) as Hthis.
    { cbn [CLINamespace_str]. rewrite Hostr. exact Hstr. }
    split; [exact Hthis|].
    split; [apply lookup_insert_eq|].
    split.
    { split.
      - destruct (decide (ns = EmptyString)) as [->|Hne].
        + rewrite lookup_insert_eq. eauto.
        + rewrite lookup_insert_ne by exact Hne. exact (proj1 Hok1).
      - intros k v H. apply lookup_insert_Some in H.
        destruct H as [[<- <-]|[_ H]]; [exact Hthis|exact (proj2 Hok1 _ _ H)]. }
    split.
    { intros k v' H. rewrite lookup_insert_ne; [exact (Hmono _ _ H)|].
      intros <-. rewrite Hns in H. discriminate. }
    destruct Hsame as (? & ? & ? & ? & ? & ? & ?). repeat split; assumption.
Qed.

(** X13: the bridge keeps its namespaces in a table in which every
    namespace prints as the key it is stored under; the table of a new
    bridge is such a table.  Looking up a dotted name that does not start
    with a dot then always succeeds (the call depth it needs is at most
    the length of the name), returns a namespace that prints as that very
    name, stores it under the name, keeps every older entry and keeps the
    table's property, and touches nothing else of the bridge. *)
Theorem lookup_namespace_prints_as_asked :
  (forall depth r st, init depth r = Ok st -> table_ok (State._namespaces st))
  /\ forall (ns : string) (st : State.t),
       table_ok (State._namespaces st) ->
       starts_with_dot ns = false ->
       exists v st',
         _lookup_namespace (S (String.length ns)) ns st = Ok (v, st')
         /\ CLINamespace_str v = ns
         /\ State._namespaces st' !! ns = Some v
         /\ table_ok (State._namespaces st')
         /\ (forall k v', State._namespaces st !! k = Some v' ->
                          State._namespaces st' !! k = Some v')
         /\ same_but_namespaces st st'.
Proof.
  split; [exact init_table_ok|].
  intros ns st Hok Hdot. apply lookup_namespace_ok; [exact Hok|lia|exact Hdot].
Qed.

(** A new bridge over an empty decoding result. *)
Definition NEW_BRIDGE : State.t :=
  ltac:(let r := eval vm_compute in (init 1 DeserializationContext.init) in
        match r with Ok ?s => exact s end).

Lemma lookup_namespace_prints_as_asked_witness :
  exists v st',
    _lookup_namespace 13 "Acme.Billing" NEW_BRIDGE = Ok (v, st')
    /\ CLINamespace_str v = "Acme.Billing".
Proof.
  destruct (proj2 lookup_namespace_prints_as_asked "Acme.Billing" NEW_BRIDGE
              (proj1 lookup_namespace_prints_as_asked 1%nat
                 DeserializationContext.init NEW_BRIDGE eq_refl) eq_refl)
    as (v & st' & H1 & H2 & _).
  exists v, st'. split; assumption.
Defined.

(** ** Class names without type arguments *)









(** ** Writing XML Schema values *)

Module XsdSerialize.

(** The classes the serializers test an object against. *)
Inductive pyclass := Cbytes | Cint | Cfloat | CDecimal | Cbool | Cstr | Cdatetime.

(** [isinstance(x, cls)]; a [bool] is an [int] as well. *)
Definition isinstance (x : any) (cls : pyclass) : bool :=
  match cls, x with
  | Cbytes, PyBytes _ => true
  | Cint, PyInt _ | Cint, PyBool _ => true
  | Cfloat, PyFloat _ => true
  | CDecimal, PyDecimal _ => true
  | Cbool, PyBool _ => true
  | Cstr, PyStr _ => true
  | Cdatetime, PyDatetime _ => true
  | _, _ => false
  end.

(** [str(type(x))] *)
Definition type_repr (x : any) : string :=
  match x with
  | PyNone => "<class 'NoneType'>"
  | PyBool _ => "<class 'bool'>"
  | PyInt _ => "<class 'int'>"
  | PyFloat _ => "<class 'float'>"
  | PyStr _ => "<class 'str'>"
  | PyDecimal _ => "<class 'decimal.Decimal'>"
  | PyDatetime _ => "<class 'datetime.datetime'>"
  | PyTimedelta _ => "<class 'datetime.timedelta'>"
  | PyBytes _ => "<class 'bytes'>"
  | PyList _ => "<class 'list'>"
  | PyTuple _ => "<class 'tuple'>"
  | PyValue (CLIBasicValue _ _) => "<class 'dotnetserde.cli.models.CLIBasicValue'>"
  | PyValue (CLINullValue _) => "<class 'dotnetserde.cli.models.CLINullValue'>"
  | PyValue (CLICompositeObject _ _) =>
      "<class 'dotnetserde.cli.models.CLICompositeObject'>"
  end.

(** [value.value] of a [CLIBasicValue]. *)
Definition basic_value (value : CLIValue) : St any :=
  match value with
  | CLIBasicValue _ v => mret v
  | _ => raise AttributeError
  end.

Section Serializers.

(** What the package takes from elsewhere:
    [d.astimezone(datetime.timezone.utc).isoformat()],
    [base64.b64encode(b).decode("ascii")], [str] of a [float]. *)
Variable isoformat_utc : Binary.DateTime.t -> result string.
Variable b64encode : list Z -> string.
Variable float_str : Z -> string.

(** The call depth that is left for printing a type. *)
Variable depth : nat.
Variable builtins : Builtins.t.

(** [DateTimeSerializer.serialize] *)
Definition DateTimeSerializer_serialize (value : CLIValue) : St string :=
  let cli_type := Builtins.SYSTEM_DATETIME builtins in
  if negb (same_instance (CLIValue_type_instance value) cli_type) then
    e ← CLITypeInstance_str depth cli_type;
    g ← CLITypeInstance_str depth (CLIValue_type_instance value);
    raise (ValueError ("expected " +:+ e +:+ ".datetime, got " +:+ g))
  else
    v ← basic_value value;
    if negb (isinstance v Cdatetime) then
      raise (TypeError ("expected datetime.datetime, got " +:+ type_repr v))
    else
      match v with
      | PyDatetime d => lift (isoformat_utc d)
      | _ => raise AttributeError
      end.

(** The check every other serializer starts with. *)
Definition check_type (cli_type : CLITypeInstance) (value : CLIValue) : St unit :=
  if negb (same_instance (CLIValue_type_instance value) cli_type) then
    e ← CLITypeInstance_str depth cli_type;
    g ← CLITypeInstance_str depth (CLIValue_type_instance value);
    raise (ValueError ("expected " +:+ e +:+ ", got " +:+ g))
  else mret tt.

(** [Base64BinarySerializer.serialize]: the object tested and encoded is
    [value] itself. *)
Definition Base64BinarySerializer_serialize (value : CLIValue) : St string :=
  _ ← check_type (Builtins.SYSTEM_BYTE_ARRAY builtins) value;
  let x := PyValue value in
  if negb (isinstance x Cbytes) then
    raise (TypeError ("expected bytes, got " +:+ type_repr x))
  else
    match x with
    | PyBytes b => mret (b64encode b)
    | _ => raise (TypeError "a bytes-like object is required")
    end.

(** [LongSerializer.serialize] *)
Definition LongSerializer_serialize (value : CLIValue) : St string :=
  let cli_type_int32 := Builtins.SYSTEM_INT32 builtins in
  let cli_type_int64 := Builtins.SYSTEM_INT64 builtins in
  let ti := CLIValue_type_instance value in
  if negb (same_instance ti cli_type_int32 || same_instance ti cli_type_int64) then
    a ← CLITypeInstance_str depth cli_type_int32;
    b ← CLITypeInstance_str depth cli_type_int64;
    g ← CLITypeInstance_str depth ti;
    raise (ValueError ("expected " +:+ a +:+ " or " +:+ b +:+ ", got " +:+ g))
  else
    let x := PyValue value in
    if negb (isinstance x Cint) then
      raise (TypeError ("expected int, got " +:+ type_repr x))
    else
      match x with
      | PyInt z => mret (pretty z)
      | PyBool b => mret (if b then "True" else "False")
      | _ => raise AttributeError
      end.

(** [DoubleSerializer.serialize] *)
Definition DoubleSerializer_serialize (value : CLIValue) : St string :=
  _ ← check_type (Builtins.SYSTEM_DOUBLE builtins) value;
  let x := PyValue value in
  if negb (isinstance x Cfloat) then
    raise (TypeError ("expected float, got " +:+ type_repr x))
  else
    match x with
    | PyFloat f => mret (float_str f)
    | _ => raise AttributeError
    end.

(** [DecimalSerializer.serialize] *)
Definition DecimalSerializer_serialize (value : CLIValue) : St string :=
  _ ← check_type (Builtins.SYSTEM_DECIMAL builtins) value;
  let x := PyValue value in
  if negb (isinstance x CDecimal) then
    raise (TypeError ("expected decimal.Decimal, got " +:+ type_repr x))
  else
    match x with
    | PyDecimal d => mret d
    | _ => raise AttributeError
    end.

(** [BooleanSerializer.serialize] *)
Definition BooleanSerializer_serialize (value : CLIValue) : St string :=
  _ ← check_type (Builtins.SYSTEM_BOOLEAN builtins) value;
  let x := PyValue value in
  if negb (isinstance x Cbool) then
    raise (TypeError ("expected bool, got " +:+ type_repr x))
  else
    match x with
    | PyBool b => mret (if b then "true" else "false")
    | _ => raise AttributeError
    end.

(** [StringSerializer.serialize] *)
Definition StringSerializer_serialize (value : CLIValue) : St string :=
  _ ← check_type (Builtins.SYSTEM_STRING builtins) value;
  let x := PyValue value in
  if negb (isinstance x Cstr) then
    raise (TypeError ("expected str, got " +:+ type_repr x))
  else
    match x with
    | PyStr s => mret s
    | _ => raise AttributeError
    end.

(** [XSDataSerializer.serialize] over [SERIALIZERS].  (The message of
    the first error is not an f-string.) *)
Definition XSDataSerializer_serialize (type_ : string) (value : CLIValue) : St string :=
  match value with
  | CLIBasicValue _ _ =>
      if String.eqb type_ "dateTime" then DateTimeSerializer_serialize value
      else if String.eqb type_ "base64Binary" then Base64BinarySerializer_serialize value
      else if String.eqb type_ "long" then LongSerializer_serialize value
      else if String.eqb type_ "double" then DoubleSerializer_serialize value
      else if String.eqb type_ "decimal" then DecimalSerializer_serialize value
      else if String.eqb type_ "bool" then BooleanSerializer_serialize value
      else if String.eqb type_ "string" then StringSerializer_serialize value
      else raise (KeyError type_)
  | _ => raise (ValueError "value must be a CLIBasicValue, got {value}")
  end.

End Serializers.

End XsdSerialize.

Import XsdSerialize.

Lemma check_type_same depth cli_type ti v w :
  same_instance ti cli_type = true ->
  check_type depth cli_type (CLIBasicValue ti v) w = Ok (tt, w).
Proof.
  intros H. unfold check_type. cbn [CLIValue_type_instance]. rewrite H. reflexivity.
Qed.

Lemma check_type_not_ok depth cli_type value w :
  (exists e, check_type depth cli_type value w = Raise e)
  \/ check_type depth cli_type value w = Ok (tt, w).
Proof.
  unfold check_type.
  destruct (negb (same_instance (CLIValue_type_instance value) cli_type));
    [|right; reflexivity].
  left. msimpl.
  destruct (CLITypeInstance_str depth cli_type w) as [[e w1]|e]; [|eauto].
  destruct (CLITypeInstance_str depth (CLIValue_type_instance value) w1)
    as [[g w2]|g]; eauto.
Qed.

Lemma same_instance_refl ti : same_instance ti ti = true.
Proof. unfold same_instance. apply Nat.eqb_refl. Qed.

Section SerializeProperties.

Variable parse_date : string -> result Binary.DateTime.t.
Variable b64decode : string -> result (list Z).
Variable float_of_str : string -> result Z.
Variable decimal_of_str : string -> result string.
Variable isoformat_utc : Binary.DateTime.t -> result string.
Variable b64encode : list Z -> string.
Variable float_str : Z -> string.
Variable depth : nat.
Variable builtins : Builtins.t.

Local Abbreviation serialize :=
  (XSDataSerializer_serialize isoformat_utc b64encode float_str depth builtins).
Local Abbreviation deserialize :=
  (XSDataSerializer_deserialize parse_date b64decode float_of_str decimal_of_str
     builtins).

(** X15: of the seven XML Schema types only [dateTime] can be written.
    For every other type name, [XSDataSerializer.serialize] never
    returns: an unknown name is a [KeyError], a value that is not a
    [CLIBasicValue] a [ValueError], and a basic value of a known type is
    refused at the latest by the [isinstance] test, which is made on the
    [CLIBasicValue] object and not on what it carries.  In particular
    what [deserialize] has read for a type other than [dateTime] is
    always refused with a [TypeError] when it is given back to
    [serialize] for the same type, while a date that was read is handed
    to [isoformat]. *)
Theorem serialize_writes_only_dates :
  (forall type_ value w s w',
     type_ <> "dateTime" -> serialize type_ value w <> Ok (s, w'))
  /\ (forall type_ text v w,
        type_ <> "dateTime" ->
        deserialize type_ text = Ok v ->
        exists message, serialize type_ v w = Raise (TypeError message))
  /\ (forall text d w,
        parse_date text = Ok d ->
        exists v,
          deserialize "dateTime" text = Ok v
          /\ serialize "dateTime" v w
             = match isoformat_utc d with
               | Ok s => Ok (s, w)
               | Raise e => Raise e
               end)
  /\ (forall type_ ti w,
        serialize type_ (CLINullValue ti) w
        = Raise (ValueError "value must be a CLIBasicValue, got {value}"))
  /\ (forall type_ ti v w,
        ~ In type_ ["dateTime"; "base64Binary"; "long"; "double"; "decimal";
                    "bool"; "string"] ->
        serialize type_ (CLIBasicValue ti v) w = Raise (KeyError type_)).
Proof.
  split; [|split; [|split; [|split]]].
  - intros type_ value w s w' Hne.
    unfold XSDataSerializer_serialize.
    destruct value as [ti v|ti|ti ms]; try discriminate.
    destruct (String.eqb_spec type_ "dateTime") as [->|_]; [contradiction|].
    repeat match goal with
           | |- (if String.eqb ?a ?b then _ else _) _ <> _ => destruct (String.eqb a b)
           end; try discriminate;
    unfold Base64BinarySerializer_serialize, DoubleSerializer_serialize,
      DecimalSerializer_serialize, BooleanSerializer_serialize,
      StringSerializer_serialize; msimpl;
    try (match goal with
         | |- context [check_type ?d ?c ?x ?w] =>
             destruct (check_type_not_ok d c x w) as [[e ->]| ->]
         end; discriminate).
    unfold LongSerializer_serialize. cbv zeta.
    destruct (negb _); [|discriminate]. msimpl.
    repeat match goal with
           | |- context [CLITypeInstance_str ?d ?c ?w] =>
               destruct (CLITypeInstance_str d c w) as [[? ?]|?]; try discriminate
           end.
  - intros type_ text v w Hne Hd.
    unfold XSDataSerializer_deserialize in Hd.
    unfold XSDataSerializer_serialize.
    destruct (String.eqb_spec type_ "dateTime") as [->|_]; [contradiction|].
    destruct (String.eqb type_ "base64Binary").
    { destruct (b64decode text); [|discriminate]. injection Hd as <-.
      unfold Base64BinarySerializer_serialize. msimpl.
      rewrite check_type_same by apply same_instance_refl. eexists. reflexivity. }
    destruct (String.eqb type_ "long").
    { unfold LongSerializer_deserialize in Hd.
      destruct (int_of_str text); [|discriminate]. cbn [mbind result_bind] in Hd.
      injection Hd as <-.
      unfold LongSerializer_serialize. cbv zeta. cbn [CLIValue_type_instance].
      destruct (_ <=? 32); rewrite same_instance_refl, ?orb_true_r;
        eexists; reflexivity. }
    destruct (String.eqb type_ "double").
    { destruct (float_of_str text); [|discriminate]. injection Hd as <-.
      unfold DoubleSerializer_serialize. msimpl.
      rewrite check_type_same by apply same_instance_refl. eexists. reflexivity. }
    destruct (String.eqb type_ "decimal").
    { destruct (decimal_of_str text); [|discriminate]. injection Hd as <-.
      unfold DecimalSerializer_serialize. msimpl.
      rewrite check_type_same by apply same_instance_refl. eexists. reflexivity. }
    destruct (String.eqb type_ "bool").
    { unfold BooleanSerializer_deserialize in Hd.
      assert (exists b, v = CLIBasicValue (Builtins.SYSTEM_BOOLEAN builtins) (PyBool b))
        as [b ->].
      { destruct (_ || _) in Hd; [injection Hd as <-; eauto|].
        destruct (_ || _) in Hd; [injection Hd as <-; eauto|discriminate]. }
      unfold BooleanSerializer_serialize. msimpl.
      rewrite check_type_same by apply same_instance_refl. eexists. reflexivity. }
    destruct (String.eqb type_ "string"); [|discriminate].
    unfold StringSerializer_deserialize in Hd. injection Hd as <-.
    unfold StringSerializer_serialize. msimpl.
    rewrite check_type_same by apply same_instance_refl. eexists. reflexivity.
  - intros text d w Hp. eexists. split.
    + unfold XSDataSerializer_deserialize. cbn [String.eqb Ascii.eqb Bool.eqb].
      rewrite Hp. reflexivity.
    + unfold XSDataSerializer_serialize. cbn [String.eqb Ascii.eqb Bool.eqb].
      unfold DateTimeSerializer_serialize. cbv zeta. cbn [CLIValue_type_instance].
      rewrite same_instance_refl. cbn [negb basic_value isinstance]. msimpl.
      destruct (isoformat_utc d); reflexivity.
  - reflexivity.
  - intros type_ ti v w Hn. unfold XSDataSerializer_serialize.
    repeat match goal with
           | |- (if String.eqb ?a ?b then _ else _) _ = _ =>
               destruct (String.eqb_spec a b) as [->|_];
               [exfalso; apply Hn; simpl; tauto|]
           end.
    reflexivity.
Qed.

End SerializeProperties.

Lemma serialize_writes_only_dates_witness :
  XSDataSerializer_deserialize (fun _ => Raise (ValueError "")) (fun _ => Ok [])
    (fun _ => Ok 0) (fun s => Ok s) BUILTINS "long" "42"
  = Ok (CLIBasicValue INT32 (PyInt 42))
  /\ exists message,
       XSDataSerializer_serialize (fun _ => Ok "") (fun _ => "") (fun _ => "")
         1 BUILTINS "long" (CLIBasicValue INT32 (PyInt 42)) initial_world
       = Raise (TypeError message).
Proof.
  split; [reflexivity|].
  apply (proj1 (proj2 (serialize_writes_only_dates
                         (fun _ => Raise (ValueError "")) (fun _ => Ok [])
                         (fun _ => Ok 0) (fun s => Ok s)
                         (fun _ => Ok "") (fun _ => "") (fun _ => "")
                         1%nat BUILTINS)) "long" "42");
    [discriminate|reflexivity].
Defined.

(** ** Arrays of basic items in a data contract document *)

Section ArrayOfBasicItems.

Variable depth : nat.
Variable builtins : Builtins.t.
Variable xs_deserialize : string -> string -> result CLIValue.

(** An element that carries neither [xsi:nil] nor [xsi:type]. *)
Definition plain_attrs (attrs : attributes) : Prop :=
  dict_get (Some XMLSCHEMA_INSTANCE_NAMESPACE, "nil") attrs = None
  /\ dict_get (Some XMLSCHEMA_INSTANCE_NAMESPACE, "type") attrs = None.

(** An item element: its name, its attributes, and its text in the
    pieces the parser delivers it in. *)
Record item := Item {
  item_name : qualified_name;
  item_qname : option string;
  item_attrs : attributes;
  item_chunks : list string }.

Definition item_events (i : item) : list sax_event :=
  StartElementNS (item_name i) (item_qname i) (item_attrs i)
  :: map Characters (item_chunks i)
  ++ [EndElementNS (item_name i) (item_qname i)].

(** What an item is read as: nothing when no text was delivered, the
    whole text as a value of the XML Schema type otherwise. *)
Definition item_value (type_ : string) (i : item) : result (option CLIValue) :=
  match item_chunks i with
  | [] => Ok None
  | _ :: _ => v ← xs_deserialize type_ (join "" (item_chunks i)); Ok (Some v)
  end.

Lemma parse_app (h : Handler) (es1 es2 : list sax_event) (w : World.t) :
  parse depth builtins xs_deserialize h (es1 ++ es2) w
  = match parse depth builtins xs_deserialize h es1 w with
    | Ok (h', w') => parse depth builtins xs_deserialize h' es2 w'
    | Raise e => Raise e
    end.
Proof.
  revert h w. induction es1 as [|e es1 IH]; intros h w; [reflexivity|].
  cbn [parse app]. msimpl.
  destruct (deliver depth builtins xs_deserialize h e w) as [[h1 w1]|x];
    [apply IH|reflexivity].
Qed.

Lemma parse_chunks (o : Handler) (x : xmlns_map) (type_ : string)
    (chunks0 chunks : list string) (w : World.t) :
  parse depth builtins xs_deserialize (BasicObjectHandler o x type_ chunks0)
    (map Characters chunks) w
  = Ok (BasicObjectHandler o x type_ (chunks0 ++ chunks), w).
Proof.
  revert chunks0. induction chunks as [|c chunks IH]; intros chunks0.
  - rewrite app_nil_r. reflexivity.
  - cbn [map parse deliver characters]. msimpl. rewrite IH.
    rewrite <- app_assoc. reflexivity.
Qed.

Variable outer : Handler.
Variable xmlns : xmlns_map.
Variable cli_type item_cli_type : CLITypeInstance.
Variable type_ : string.

Local Abbreviation array_descriptor :=
  (ArrayTypeDescriptor (Some cli_type) (Some item_cli_type)
     (Some (BasicTypeDescriptor None))).

(** The handler of the array while its items are read. *)
Definition array_handler (items : list (option CLIValue)) : Handler :=
  ArrayObjectHandler outer xmlns array_descriptor
    (mkMemberDescriptor "*" None (BasicTypeDescriptor (Some item_cli_type)) None)
    items.

Hypothesis item_type : xs_type_from_cli_type item_cli_type = Ok type_.

Lemma parse_item (i : item) (v : option CLIValue) (items : list (option CLIValue))
    (w : World.t) :
  plain_attrs (item_attrs i) ->
  item_value type_ i = Ok v ->
  parse depth builtins xs_deserialize (array_handler items) (item_events i) w
  = Ok (array_handler (items ++ [v]), w).
Proof.
  intros [Hnil Htype] Hv. unfold item_events.
  cbn [parse deliver startElementNS array_handler]. msimpl.
  unfold MemberHandler_startElementNS. msimpl. rewrite Hnil. msimpl.
  rewrite Htype. cbn [MemberDescriptor_.type_descriptor]. rewrite item_type. msimpl.
  unfold BasicObjectHandler_init. rewrite parse_app, parse_chunks.
  cbn [app parse deliver endElementNS container_cli_type TypeDescriptor_.cli_type].
  msimpl. unfold item_value in Hv.
  destruct (item_chunks i) as [|c cs].
  - injection Hv as <-. reflexivity.
  - destruct (xs_deserialize type_ (join "" (c :: cs))) as [v'|e]; [|discriminate].
    injection Hv as <-. reflexivity.
Qed.

Lemma parse_items (its : list item) (vs : list (option CLIValue)) :
  Forall (fun i => plain_attrs (item_attrs i)) its ->
  Forall2 (fun i v => item_value type_ i = Ok v) its vs ->
  forall items w,
    parse depth builtins xs_deserialize (array_handler items)
      (flat_map item_events its) w
    = Ok (array_handler (items ++ vs), w).
Proof.
  intros Hp Hv. induction Hv as [|i v its vs Hi _ IH]; intros items w.
  - rewrite app_nil_r. reflexivity.
  - cbn [flat_map]. rewrite parse_app.
    rewrite (parse_item i v items w); [|exact (Forall_inv Hp)|exact Hi].
    rewrite IH by exact (Forall_inv_tail Hp).
    rewrite <- app_assoc. reflexivity.
Qed.

Lemma parse_item_fails (i : item) (e : exn) (items : list (option CLIValue))
    (w : World.t) :
  plain_attrs (item_attrs i) ->
  item_value type_ i = Raise e ->
  forall rest,
    parse depth builtins xs_deserialize (array_handler items) (item_events i ++ rest) w
    = Raise e.
Proof.
  intros [Hnil Htype] Hv rest. unfold item_events.
  cbn [app parse deliver startElementNS array_handler]. msimpl.
  unfold MemberHandler_startElementNS. msimpl. rewrite Hnil. msimpl.
  rewrite Htype. cbn [MemberDescriptor_.type_descriptor]. rewrite item_type. msimpl.
  unfold BasicObjectHandler_init. rewrite <- app_assoc, parse_app, parse_chunks.
  cbn [app parse deliver endElementNS container_cli_type TypeDescriptor_.cli_type].
  msimpl. unfold item_value in Hv.
  destruct (item_chunks i) as [|c cs]; [discriminate|].
  destruct (xs_deserialize type_ (join "" (c :: cs))) as [v'|e']; [discriminate|].
  injection Hv as <-. reflexivity.
Qed.

End ArrayOfBasicItems.

(** X16: an array element whose items are basic values is read in
    document order.  With a descriptor that gives the array type (an
    intrinsic type, as the list types are) and the item type, the
    element's own name and the names of the item elements are not
    looked at; every item is read with the XML Schema type of the item
    type from the whole of its text, in however many pieces the parser
    delivers it, and an item without text is read as [None].  The result
    is a basic value of the array type that carries the list of the
    items in the order of the document; when an item cannot be read, its
    error is the result. *)
Theorem array_items_in_document_order
    (depth : nat) (builtins : Builtins.t)
    (xs_deserialize : string -> string -> result CLIValue)
    (cli_type item_cli_type : CLITypeInstance) (type_ : string)
    (descriptor_name : string) (descriptor_namespace member_name : option string)
    (name : qualified_name) (qname : option string) (attrs : attributes)
    (w : World.t) :
  CLIType_.intrinsic (CLITypeInstance_.derived_from cli_type) = true ->
  xs_type_from_cli_type item_cli_type = Ok type_ ->
  plain_attrs attrs ->
  (forall its vs,
     Forall (fun i => plain_attrs (item_attrs i)) its ->
     Forall2 (fun i v => item_value xs_deserialize type_ i = Ok v) its vs ->
     DataContract.Deserializer depth builtins xs_deserialize
       (StartElementNS name qname attrs
        :: flat_map item_events its ++ [EndElementNS name qname])
       (mkMemberDescriptor descriptor_name descriptor_namespace
          (ArrayTypeDescriptor (Some cli_type) (Some item_cli_type)
             (Some (BasicTypeDescriptor None)))
          member_name) w
     = Ok (Some (CLIBasicValue cli_type (PyList (map slot_any vs))), w))
  /\ (forall its vs i e rest,
        Forall (fun i => plain_attrs (item_attrs i)) its ->
        Forall2 (fun i v => item_value xs_deserialize type_ i = Ok v) its vs ->
        plain_attrs (item_attrs i) ->
        item_value xs_deserialize type_ i = Raise e ->
        DataContract.Deserializer depth builtins xs_deserialize
          (StartElementNS name qname attrs
           :: flat_map item_events its ++ item_events i ++ rest)
          (mkMemberDescriptor descriptor_name descriptor_namespace
             (ArrayTypeDescriptor (Some cli_type) (Some item_cli_type)
                (Some (BasicTypeDescriptor None)))
             member_name) w
        = Raise e).
Proof.
  intros Hint Hty [Hnil Htype].
  assert (forall events,
            DataContract.Deserializer depth builtins xs_deserialize
              (StartElementNS name qname attrs :: events)
              (mkMemberDescriptor descriptor_name descriptor_namespace
                 (ArrayTypeDescriptor (Some cli_type) (Some item_cli_type)
                    (Some (BasicTypeDescriptor None)))
                 member_name) w
            = match parse depth builtins xs_deserialize
                      (array_handler (SentinelHandler ∅ None) ∅ cli_type item_cli_type [])
                      events w with
              | Ok (h, w') => Ok (sentinel_result h, w')
              | Raise e => Raise e
              end) as Hstart.
  { intros events. unfold DataContract.Deserializer, MemberHandler_init, inherited_xmlns.
    cbn [parse deliver startElementNS xmlns_of]. msimpl.
    unfold MemberHandler_startElementNS. msimpl. rewrite Hnil. msimpl.
    rewrite Htype. cbn [MemberDescriptor_.type_descriptor].
    unfold ArrayObjectHandler_init. msimpl.
    cbn [TypeDescriptor_.cli_type TypeDescriptor_.replace_cli_type]. msimpl.
    unfold inherited_xmlns. cbn [xmlns_of]. reflexivity. }
  split.
  - intros its vs Hp Hv. rewrite Hstart, parse_app.
    rewrite (parse_items depth builtins xs_deserialize _ _ cli_type item_cli_type
               type_ Hty its vs Hp Hv).
    cbn [app parse deliver endElementNS array_handler TypeDescriptor_.cli_type]. msimpl.
    rewrite (instantiate_intrinsic depth cli_type _ w Hint).
    reflexivity.
  - intros its vs i e rest Hp Hv Hpi Hi. rewrite Hstart, parse_app.
    rewrite (parse_items depth builtins xs_deserialize _ _ cli_type item_cli_type
               type_ Hty its vs Hp Hv).
    rewrite (parse_item_fails depth builtins xs_deserialize _ _ cli_type item_cli_type
               type_ Hty i e _ w Hpi Hi rest).
    reflexivity.
Qed.

Lemma array_items_in_document_order_witness :
  DataContract.Deserializer 1 BUILTINS
    (XSDataSerializer_deserialize (fun _ => Raise (ValueError "")) (fun _ => Ok [])
       (fun _ => Ok 0) (fun s => Ok s) BUILTINS)
    (StartElementNS (None, "ArrayOfint") None []
     :: flat_map item_events
          [Item (None, "int") None [] ["4"; "2"]; Item (None, "int") None [] []]
     ++ [EndElementNS (None, "ArrayOfint") None])
    (mkMemberDescriptor "*" None
       (ArrayTypeDescriptor (Some (Builtins.SYSTEM_COLLECTIONS_ARRAYLIST BUILTINS))
          (Some INT32) (Some (BasicTypeDescriptor None)))
       None)
    initial_world
  = Ok (Some (CLIBasicValue (Builtins.SYSTEM_COLLECTIONS_ARRAYLIST BUILTINS)
                (PyList [PyValue (CLIBasicValue INT32 (PyInt 42)); PyNone])),
        initial_world).
Proof.
  apply (proj1 (array_items_in_document_order 1 BUILTINS _
                  (Builtins.SYSTEM_COLLECTIONS_ARRAYLIST BUILTINS) INT32 "long"
                  "*" None None (None, "ArrayOfint") None [] initial_world
                  eq_refl eq_refl (conj eq_refl eq_refl))
           [Item (None, "int") None [] ["4"; "2"]; Item (None, "int") None [] []]
           [Some (CLIBasicValue INT32 (PyInt 42)); None]).
  - repeat constructor.
  - repeat constructor.
Defined.

(** ** Dictionaries filled pair by pair, and their values sorted by key *)

Section DictFacts.

Context {V : Type}.
Implicit Types (d : list (nat * V)) (k : nat) (v : V).

Lemma dict_get_set d k v k' :
  dict_get k' (dict_set k v d) = if decide (k = k') then Some v else dict_get k' d.
Proof.
  induction d as [|[k0 v0] d IH]; cbn [dict_set dict_get].
  - destruct (decide (k = k')); reflexivity.
  - destruct (decide (k0 = k)) as [->|Hne]; cbn [dict_get].
    + destruct (decide (k = k')); reflexivity.
    + destruct (decide (k0 = k')) as [->|Hne'].
      * destruct (decide (k = k')); [congruence|reflexivity].
      * exact IH.
Qed.

Lemma dict_set_keys d k v k' :
  k' ∈ map fst (dict_set k v d) <-> k' = k \/ k' ∈ map fst d.
Proof.
  induction d as [|[k0 v0] d IH]; cbn [dict_set map fst].
  - rewrite list_elem_of_singleton. rewrite elem_of_nil. tauto.
  - destruct (decide (k0 = k)) as [->|Hne]; cbn [map fst].
    + rewrite elem_of_cons. tauto.
    + rewrite !elem_of_cons, IH. tauto.
Qed.

Lemma dict_set_NoDup d k v :
  NoDup (map fst d) -> NoDup (map fst (dict_set k v d)).
Proof.
  induction d as [|[k0 v0] d IH]; cbn [dict_set map fst]; intros H.
  - apply NoDup_singleton.
  - destruct (decide (k0 = k)) as [->|Hne]; [exact H|].
    cbn [map fst]. apply NoDup_cons in H. destruct H as [Hin Hd].
    apply NoDup_cons. split; [|exact (IH Hd)].
    rewrite dict_set_keys. intros [->|?]; [congruence|contradiction].
Qed.

Lemma dict_set_length_le d k v : (length d <= length (dict_set k v d))%nat.
Proof.
  induction d as [|[k0 v0] d IH]; cbn [dict_set length]; [lia|].
  destruct (decide (k0 = k)); cbn [length]; lia.
Qed.

Definition fill (l : list (nat * V)) d : list (nat * V) :=
  fold_left (fun d kv => dict_set (fst kv) (snd kv) d) l d.

Lemma fill_NoDup l d : NoDup (map fst d) -> NoDup (map fst (fill l d)).
Proof.
  revert d. induction l as [|[k v] l IH]; intros d H; [exact H|].
  apply IH, dict_set_NoDup, H.
Qed.

Lemma fill_keys l d k :
  k ∈ map fst (fill l d) <-> k ∈ map fst l \/ k ∈ map fst d.
Proof.
  revert d. induction l as [|[k0 v0] l IH]; intros d; cbn [fill fold_left map fst].
  - rewrite elem_of_nil. tauto.
  - fold (fill l (dict_set k0 v0 d)). rewrite IH, dict_set_keys, elem_of_cons. tauto.
Qed.

Lemma fill_get_absent l d k :
  k ∉ map fst l -> dict_get k (fill l d) = dict_get k d.
Proof.
  revert d. induction l as [|[k0 v0] l IH]; intros d H; [reflexivity|].
  cbn [map fst] in H. rewrite not_elem_of_cons in H. destruct H as [Hne H].
  cbn [fill fold_left fst snd]. fold (fill l (dict_set k0 v0 d)).
  rewrite (IH _ H), dict_get_set. destruct (decide (k0 = k)); congruence.
Qed.

(** The value of a key is the one of the last pair that names it. *)
Lemma fill_get_last l d i k v :
  l !! i = Some (k, v) ->
  (forall j v', (i < j)%nat -> l !! j <> Some (k, v')) ->
  dict_get k (fill l d) = Some v.
Proof.
  revert d i. induction l as [|[k0 v0] l IH]; intros d i Hi Hlast; [discriminate|].
  cbn [fill fold_left fst snd]. fold (fill l (dict_set k0 v0 d)).
  destruct i as [|i].
  - injection Hi as -> ->. rewrite fill_get_absent.
    + rewrite dict_get_set. destruct (decide (k = k)); congruence.
    + intros Hin. apply list_elem_of_fmap in Hin. destruct Hin as ([k' v'] & -> & Hin).
      apply list_elem_of_lookup in Hin. destruct Hin as [j Hj].
      exact (Hlast (S j) v' ltac:(lia) Hj).
  - apply (IH _ i Hi). intros j v' Hj. exact (Hlast (S j) v' ltac:(lia)).
Qed.

Lemma dict_get_elem d k v :
  NoDup (map fst d) -> (k, v) ∈ d -> dict_get k d = Some v.
Proof.
  induction d as [|[k0 v0] d IH]; intros Hnd Hin; [inversion Hin|].
  cbn [map fst] in Hnd. apply NoDup_cons in Hnd. destruct Hnd as [Hk0 Hnd].
  cbn [dict_get]. apply elem_of_cons in Hin. destruct Hin as [Heq|Hin].
  - injection Heq as -> ->. destruct (decide (k0 = k0)); congruence.
  - destruct (decide (k0 = k)) as [->|_]; [|exact (IH Hnd Hin)].
    exfalso. apply Hk0. apply list_elem_of_fmap. exists (k, v). split; [reflexivity|exact Hin].
Qed.

(** *** Sorting *)

Lemma insert_by_key_perm k v d : insert_by_key k v d ≡ₚ (k, v) :: d.
Proof.
  induction d as [|[k0 v0] d IH]; cbn [insert_by_key]; [reflexivity|].
  destruct (k <? k0)%nat; [reflexivity|].
  rewrite IH. apply Permutation_swap.
Qed.

Lemma insert_by_key_sorted k v d :
  StronglySorted le (map fst d) ->
  StronglySorted le (map fst (insert_by_key k v d)).
Proof.
  induction d as [|[k0 v0] d IH]; cbn [insert_by_key map fst]; intros H.
  - repeat constructor.
  - apply StronglySorted_inv in H. destruct H as [Hd Hall].
    destruct (k <? k0)%nat eqn:Hlt.
    + apply Nat.ltb_lt in Hlt. cbn [map fst]. constructor.
      * constructor; assumption.
      * constructor; [lia|]. eapply Forall_impl; [exact Hall|]. cbn. intros; lia.
    + apply Nat.ltb_ge in Hlt. cbn [map fst]. constructor; [exact (IH Hd)|].
      rewrite (insert_by_key_perm k v d). cbn [map fst]. constructor; assumption.
Qed.

Definition sort_pairs d : list (nat * V) :=
  fold_left (fun acc kx => insert_by_key (fst kx) (snd kx) acc) d [].

Lemma sort_pairs_spec d :
  sort_pairs d ≡ₚ d /\ StronglySorted le (map fst (sort_pairs d)).
Proof.
  unfold sort_pairs.
  assert (forall acc,
            StronglySorted le (map fst acc) ->
            fold_left (fun acc kx => insert_by_key (fst kx) (snd kx) acc) d acc
            ≡ₚ d ++ acc
            /\ StronglySorted le
                 (map fst (fold_left (fun acc kx => insert_by_key (fst kx) (snd kx) acc)
                             d acc))) as H.
  { induction d as [|[k v] d IH]; intros acc Hacc; [split; [reflexivity|exact Hacc]|].
    cbn [fold_left fst snd].
    destruct (IH (insert_by_key k v acc) (insert_by_key_sorted k v acc Hacc)) as [Hp Hs].
    split; [|exact Hs].
    rewrite Hp, insert_by_key_perm. cbn [app].
    symmetry. apply Permutation_middle. }
  destruct (H [] ltac:(constructor)) as [Hp Hs].
  rewrite app_nil_r in Hp. split; assumption.
Qed.

Lemma seq_sorted a n : StronglySorted le (seq a n).
Proof.
  revert a. induction n as [|n IH]; intros a; cbn [seq]; constructor; [apply IH|].
  apply List.Forall_forall. intros x Hx. apply in_seq in Hx. lia.
Qed.

Lemma sorted_by_key_length d : length (sorted_by_key d) = length d.
Proof.
  unfold sorted_by_key. fold (sort_pairs d). rewrite length_map.
  apply Permutation_length. exact (proj1 (sort_pairs_spec d)).
Qed.

(** When the keys are exactly the numbers below [n], each once, the
    sorted values are the values of [0], [1], ... in this order. *)
Lemma sorted_by_key_full d n :
  NoDup (map fst d) ->
  (forall k, k ∈ map fst d <-> (k < n)%nat) ->
  length (sorted_by_key d) = n
  /\ forall k, (k < n)%nat -> sorted_by_key d !! k = dict_get k d.
Proof.
  intros Hnd Hkeys.
  destruct (sort_pairs_spec d) as [Hp Hs].
  assert (map fst (sort_pairs d) = seq 0 n) as Hseq.
  { apply (StronglySorted_unique le); [exact Hs|apply seq_sorted|].
    rewrite Hp. apply NoDup_Permutation; [exact Hnd|apply NoDup_seq|].
    intros k. rewrite Hkeys, elem_of_seq. lia. }
  unfold sorted_by_key. fold (sort_pairs d). split.
  - rewrite length_map, <- (length_map fst), Hseq. apply length_seq.
  - intros k Hk.
    assert (map fst (sort_pairs d) !! k = Some k) as Hfst
      by (rewrite Hseq; apply lookup_seq; lia).
    change (map fst (sort_pairs d)) with (fst <$> sort_pairs d) in Hfst.
    change (map snd (sort_pairs d)) with (snd <$> sort_pairs d).
    rewrite list_lookup_fmap in Hfst. rewrite list_lookup_fmap.
    destruct (sort_pairs d !! k) as [[k' v]|] eqn:Hl; [|discriminate].
    cbn in Hfst. injection Hfst as ->. cbn.
    symmetry. apply dict_get_elem; [exact Hnd|].
    rewrite <- Hp. eapply list_elem_of_lookup_2. exact Hl.
Qed.

End DictFacts.

(** ** Objects with basic members in a data contract document *)

(** A member of the object's type: its name, its type, and the XML
    Schema type its text is read with. *)
Record field := Field {
  field_name : string;
  field_type : CLITypeInstance;
  field_xs_type : string }.

(** The members of the type and the members of its descriptor. *)
Definition field_members (fields : list field) : list CLITypeMember :=
  map (fun f => Member (field_name f) (OfInstance (field_type f))) fields.

Definition field_descriptors (fields : list field) : list MemberDescriptor :=
  map (fun f => mkMemberDescriptor (field_name f) None (BasicTypeDescriptor None) None)
      fields.

Lemma find_member_field (fields : list field) :
  NoDup (map field_name fields) ->
  forall k f n0,
    fields !! k = Some f ->
    find_member (field_name f) n0 (field_members fields)
    = Some ((n0 + k)%nat, Member (field_name f) (OfInstance (field_type f))).
Proof.
  induction fields as [|f0 fields IH]; intros Hnd k f n0 Hk; [discriminate|].
  cbn [map] in Hnd. apply NoDup_cons in Hnd. destruct Hnd as [Hf0 Hnd].
  cbn [field_members map find_member CLITypeMember_.name].
  destruct k as [|k].
  - injection Hk as ->. rewrite String.eqb_refl, Nat.add_0_r. reflexivity.
  - cbn in Hk. destruct (String.eqb_spec (field_name f0) (field_name f)) as [Heq|_].
    + exfalso. apply Hf0. rewrite Heq. apply list_elem_of_fmap.
      exists f. split; [reflexivity|]. eapply list_elem_of_lookup_2. exact Hk.
    + fold (field_members fields). rewrite (IH Hnd k f (S n0) Hk).
      rewrite Nat.add_succ_r. reflexivity.
Qed.

Lemma name_to_member_map_shape (fields : list field) (key : string) (m : MemberDescriptor) :
  name_to_member_map (field_descriptors fields) key = Some m ->
  m = mkMemberDescriptor key None (BasicTypeDescriptor None) None.
Proof.
  induction fields as [|f0 fields IH]; [discriminate|].
  cbn [field_descriptors map name_to_member_map]. fold (field_descriptors fields).
  destruct (name_to_member_map (field_descriptors fields) key) as [m'|].
  - intros H. injection H as <-. apply IH. reflexivity.
  - cbn [MemberDescriptor_.name].
    destruct (String.eqb_spec (field_name f0) key) as [->|_]; [|discriminate].
    intros H. injection H as <-. reflexivity.
Qed.

Lemma name_to_member_map_field (fields : list field) (key : string) :
  key ∈ map field_name fields ->
  name_to_member_map (field_descriptors fields) key
  = Some (mkMemberDescriptor key None (BasicTypeDescriptor None) None).
Proof.
  induction fields as [|f0 fields IH]; intros Hin; [inversion Hin|].
  cbn [field_descriptors map name_to_member_map]. fold (field_descriptors fields).
  destruct (name_to_member_map (field_descriptors fields) key) as [m'|] eqn:Hm.
  - rewrite (name_to_member_map_shape _ _ _ Hm). reflexivity.
  - cbn [map] in Hin. apply elem_of_cons in Hin. destruct Hin as [->|Hin].
    + cbn [MemberDescriptor_.name]. rewrite String.eqb_refl. reflexivity.
    + specialize (IH Hin). congruence.
Qed.

Lemma name_to_member_map_unknown (fields : list field) (key : string) :
  key ∉ map field_name fields ->
  name_to_member_map (field_descriptors fields) key = None.
Proof.
  induction fields as [|f0 fields IH]; intros Hin; [reflexivity|].
  cbn [map] in Hin. apply not_elem_of_cons in Hin. destruct Hin as [Hne Hin].
  cbn [field_descriptors map name_to_member_map]. fold (field_descriptors fields).
  rewrite (IH Hin). cbn [MemberDescriptor_.name].
  destruct (String.eqb_spec (field_name f0) key); congruence.
Qed.

Section CompositeOfBasicMembers.

Variable depth : nat.
Variable builtins : Builtins.t.
Variable xs_deserialize : string -> string -> result CLIValue.

Variable cli_type : CLITypeInstance.
Variable fields : list field.

Hypothesis type_members :
  CLIType_.members (CLITypeInstance_.derived_from cli_type) = field_members fields.
Hypothesis distinct_names : NoDup (map field_name fields).
Hypothesis xs_types :
  Forall (fun f => xs_type_from_cli_type (field_type f) = Ok (field_xs_type f)) fields.

Lemma getitem_index_field (k : nat) (f : field) (w : World.t) :
  fields !! k = Some f ->
  CLITypeInstance_getitem_index depth cli_type k w = Ok ((k, field_type f), w).
Proof.
  intros Hk. unfold CLITypeInstance_getitem_index. rewrite type_members.
  unfold field_members.
  change (map ?g fields) with (g <$> fields).
  rewrite list_lookup_fmap, Hk. reflexivity.
Qed.

Lemma getitem_name_field (k : nat) (f : field) (w : World.t) :
  fields !! k = Some f ->
  CLITypeInstance_getitem_name depth cli_type (field_name f) w
  = Ok ((k, field_type f), w).
Proof.
  intros Hk. unfold CLITypeInstance_getitem_name. rewrite type_members.
  rewrite (find_member_field fields distinct_names k f 0%nat Hk).
  apply getitem_index_field. exact Hk.
Qed.

(** A child element of the object: the element, the ordinal of the
    member it is named after, and the value its text is read as. *)
Record child := Child {
  child_item : item;
  child_ordinal : nat;
  child_value : option CLIValue }.

Definition child_ok (c : child) : Prop :=
  exists f,
    fields !! child_ordinal c = Some f
    /\ snd (item_name (child_item c)) = field_name f
    /\ plain_attrs (item_attrs (child_item c))
    /\ item_value xs_deserialize (field_xs_type f) (child_item c) = Ok (child_value c).

Definition child_events (c : child) : list sax_event := item_events (child_item c).

Definition child_pair (c : child) : nat * option CLIValue :=
  (child_ordinal c, child_value c).

Variable outer : Handler.
Variable xmlns : xmlns_map.

Definition composite_handler (member : option MemberDescriptor)
    (values : list (nat * option CLIValue)) : Handler :=
  CompositeObjectHandler outer xmlns
    (CompositeTypeDescriptor (Some cli_type) (field_descriptors fields)) member values.

Lemma parse_child (c : child) (member : option MemberDescriptor)
    (values : list (nat * option CLIValue)) (w : World.t) :
  child_ok c ->
  exists member',
    parse depth builtins xs_deserialize (composite_handler member values)
      (child_events c) w
    = Ok (composite_handler (Some member')
            (dict_set (child_ordinal c) (child_value c) values), w).
Proof.
  intros (f & Hk & Hname & [Hnil Htype] & Hv).
  assert (xs_type_from_cli_type (field_type f) = Ok (field_xs_type f)) as Hxs.
  { rewrite List.Forall_forall in xs_types. apply xs_types.
    apply list_elem_of_In. eapply list_elem_of_lookup_2. exact Hk. }
  eexists. unfold child_events, item_events.
  cbn [parse deliver startElementNS composite_handler]. msimpl.
  unfold CompositeObjectHandler_startElementNS.
  rewrite Hname, name_to_member_map_field
    by (apply list_elem_of_fmap; exists f; split;
        [reflexivity|eapply list_elem_of_lookup_2; exact Hk]).
  cbn [MemberDescriptor_.effective_name MemberDescriptor_.member_name
       MemberDescriptor_.name MemberDescriptor_.type_descriptor
       MemberDescriptor_.namespace TypeDescriptor_.cli_type
       TypeDescriptor_.replace_cli_type].
  msimpl. rewrite (getitem_name_field _ _ w Hk). cbn [snd].
  unfold MemberHandler_startElementNS. msimpl. rewrite Hnil. msimpl.
  rewrite Htype. cbn [MemberDescriptor_.type_descriptor]. rewrite Hxs. msimpl.
  unfold BasicObjectHandler_init. rewrite parse_app, parse_chunks.
  cbn [app parse deliver endElementNS container_cli_type TypeDescriptor_.cli_type].
  msimpl. unfold item_value in Hv.
  assert (forall v : option CLIValue,
            push_value depth
              (CompositeObjectHandler outer xmlns
                 (CompositeTypeDescriptor (Some cli_type) (field_descriptors fields))
                 (Some (mkMemberDescriptor (field_name f) None
                          (BasicTypeDescriptor (Some (field_type f))) None))
                 values) v w
            = Ok (CompositeObjectHandler outer xmlns
                    (CompositeTypeDescriptor (Some cli_type) (field_descriptors fields))
                    (Some (mkMemberDescriptor (field_name f) None
                             (BasicTypeDescriptor (Some (field_type f))) None))
                    (dict_set (child_ordinal c) v values), w)) as Hpush.
  { intros v. cbn [push_value TypeDescriptor_.cli_type MemberDescriptor_.effective_name
                   MemberDescriptor_.member_name MemberDescriptor_.name].
    msimpl. rewrite (getitem_name_field _ _ w Hk). reflexivity. }
  destruct (item_chunks (child_item c)) as [|ch chs].
  - injection Hv as <-. msimpl. rewrite Hpush. reflexivity.
  - destruct (xs_deserialize (field_xs_type f) (Py.join "" (ch :: chs))) as [v'|e];
      [|discriminate].
    injection Hv as <-. msimpl. rewrite Hpush. reflexivity.
Qed.

Lemma parse_children (cs : list child) :
  Forall child_ok cs ->
  forall member values w,
    cs <> [] ->
    exists member',
      parse depth builtins xs_deserialize (composite_handler member values)
        (flat_map child_events cs) w
      = Ok (composite_handler (Some member') (fill (map child_pair cs) values), w).
Proof.
  induction 1 as [|c cs Hc _ IH]; intros member values w Hne; [contradiction|].
  cbn [flat_map]. rewrite parse_app.
  destruct (parse_child c member values w Hc) as [m1 ->].
  destruct cs as [|c' cs'].
  - exists m1. reflexivity.
  - destruct (IH (Some m1) (dict_set (child_ordinal c) (child_value c) values) w
                ltac:(discriminate)) as [m2 ->].
    exists m2. reflexivity.
Qed.

Lemma parse_children_any (cs : list child) :
  Forall child_ok cs ->
  forall values w,
    exists member',
      parse depth builtins xs_deserialize (composite_handler None values)
        (flat_map child_events cs) w
      = Ok (composite_handler member' (fill (map child_pair cs) values), w).
Proof.
  intros Hcs values w. destruct cs as [|c cs].
  - exists None. reflexivity.
  - destruct (parse_children (c :: cs) Hcs None values w ltac:(discriminate)) as [m ->].
    exists (Some m). reflexivity.
Qed.

Lemma fill_keys_are_fields (cs : list child) :
  Forall child_ok cs ->
  Forall (fun p : nat * option CLIValue => is_Some (fields !! fst p))
    (fill (map child_pair cs) []).
Proof.
  intros Hcs. apply List.Forall_forall. intros [k v] Hin.
  assert (k ∈ map fst (fill (map child_pair cs) [])) as Hk.
  { apply list_elem_of_fmap. exists (k, v). split; [reflexivity|].
    apply list_elem_of_In. exact Hin. }
  apply fill_keys in Hk. destruct Hk as [Hk|Hk]; [|inversion Hk].
  apply list_elem_of_fmap in Hk. destruct Hk as ([k' v'] & Heq & Hk). cbn in Heq. subst k'.
  apply list_elem_of_fmap in Hk. destruct Hk as (c & Heq & Hc).
  injection Heq as -> _.
  rewrite List.Forall_forall in Hcs.
  destruct (Hcs c ltac:(apply list_elem_of_In; exact Hc)) as (f & Hf & _).
  cbn [fst]. eauto.
Qed.

Lemma sorted_member_values_fields (values : list (nat * option CLIValue)) (w : World.t) :
  Forall (fun p : nat * option CLIValue => is_Some (fields !! fst p)) values ->
  sorted_member_values depth cli_type values w = Ok (sorted_by_key values, w).
Proof.
  intros H.
  assert (Py.mapM (fun pair : nat * option CLIValue =>
                  m ← CLITypeInstance_getitem_index depth cli_type (fst pair);
                  mret (fst m, snd pair)) values w
          = Ok (values, w)) as Hm.
  { induction H as [|[k v] values [f Hf] _ IH]; [reflexivity|].
    cbn [Py.mapM]. unfold mbind at 1. unfold M_bind at 1.
    unfold mbind at 1. unfold M_bind at 1. cbn [fst snd] in Hf |- *.
    rewrite (getitem_index_field k f w Hf). cbn [fst mret M_ret].
    unfold mbind at 1. unfold M_bind at 1. rewrite IH. reflexivity. }
  unfold sorted_member_values. unfold mbind at 1. unfold M_bind at 1.
  rewrite Hm. reflexivity.
Qed.

End CompositeOfBasicMembers.

Section CompositeDocument.

Variable depth : nat.
Variable builtins : Builtins.t.
Variable xs_deserialize : string -> string -> result CLIValue.
Variable cli_type : CLITypeInstance.
Variable fields : list field.
Variable descriptor_name : string.
Variable descriptor_namespace member_name : option string.
Variable name : qualified_name.
Variable qname : option string.
Variable attrs : attributes.

Hypothesis type_members :
  CLIType_.members (CLITypeInstance_.derived_from cli_type) = field_members fields.
Hypothesis not_intrinsic :
  CLIType_.intrinsic (CLITypeInstance_.derived_from cli_type) = false.
Hypothesis distinct_names : NoDup (map field_name fields).
Hypothesis xs_types :
  Forall (fun f => xs_type_from_cli_type (field_type f) = Ok (field_xs_type f)) fields.
Hypothesis no_xsi : plain_attrs attrs.
Hypothesis namespace_ok :
  descriptor_namespace = None \/ fst name = descriptor_namespace.
Hypothesis name_ok : descriptor_name = "*" \/ snd name = descriptor_name.

Local Abbreviation descriptor :=
  (mkMemberDescriptor descriptor_name descriptor_namespace
     (CompositeTypeDescriptor (Some cli_type) (field_descriptors fields))
     member_name).

Lemma composite_start (events : list sax_event) (w : World.t) :
  DataContract.Deserializer depth builtins xs_deserialize
    (StartElementNS name qname attrs :: events) descriptor w
  = match parse depth builtins xs_deserialize
            (composite_handler cli_type fields (SentinelHandler ∅ None) ∅ None [])
            events w with
    | Ok (h, w') => Ok (sentinel_result h, w')
    | Raise e => Raise e
    end.
Proof.
  destruct no_xsi as [Hnil Htype].
  unfold DataContract.Deserializer, MemberHandler_init, inherited_xmlns.
  cbn [parse deliver startElementNS xmlns_of]. msimpl.
  unfold MemberHandler_startElementNS. msimpl. rewrite Hnil. msimpl.
  rewrite Htype. cbn [MemberDescriptor_.type_descriptor _namespace
                      MemberDescriptor_.namespace MemberDescriptor_.name].
  assert (negb (String.eqb descriptor_name "*")
          && negb (String.eqb (snd name) descriptor_name) = false) as Hn.
  { destruct name_ok as [->| ->]; [reflexivity|].
    rewrite String.eqb_refl. apply andb_false_r. }
  destruct descriptor_namespace as [ns|].
  - destruct namespace_ok as [Hns|Hns]; [discriminate|].
    rewrite bool_decide_true by exact Hns. cbn [negb]. msimpl. rewrite Hn. msimpl.
    reflexivity.
  - msimpl. rewrite Hn. msimpl. reflexivity.
Qed.

Lemma composite_children (cs : list child) (w : World.t) :
  Forall (child_ok xs_deserialize fields) cs ->
  exists m,
    parse depth builtins xs_deserialize
      (composite_handler cli_type fields (SentinelHandler ∅ None) ∅ None [])
      (flat_map child_events cs) w
    = Ok (composite_handler cli_type fields (SentinelHandler ∅ None) ∅ m
            (fill (map child_pair cs) []), w).
Proof.
  intros Hcs.
  apply (parse_children_any depth builtins xs_deserialize cli_type fields
           type_members distinct_names xs_types _ _ cs Hcs).
Qed.

Lemma composite_end (cs : list child) (w : World.t) :
  Forall (child_ok xs_deserialize fields) cs ->
  DataContract.Deserializer depth builtins xs_deserialize
    (StartElementNS name qname attrs
     :: flat_map child_events cs ++ [EndElementNS name qname])
    descriptor w
  = match CLICompositeObject_init cli_type
            (sorted_by_key (fill (map child_pair cs) [])) with
    | Ok v => Ok (Some v, w)
    | Raise e => Raise e
    end.
Proof.
  intros Hcs. destruct (composite_children cs w Hcs) as [m Hchildren].
  rewrite composite_start, parse_app, Hchildren.
  cbn [parse deliver endElementNS composite_handler TypeDescriptor_.cli_type]. msimpl.
  rewrite (sorted_member_values_fields depth cli_type fields type_members _ w
             (fill_keys_are_fields xs_deserialize fields cs Hcs)).
  unfold CLITypeInstance_instantiate. msimpl. rewrite not_intrinsic.
  cbn [default]. unfold lift.
  destruct (CLICompositeObject_init cli_type _) as [v|e]; reflexivity.
Qed.

Lemma composite_unknown_child (cs : list child) (name' : qualified_name)
    (qname' : option string) (attrs' : attributes) (rest : list sax_event)
    (w : World.t) :
  Forall (child_ok xs_deserialize fields) cs ->
  snd name' ∉ map field_name fields ->
  DataContract.Deserializer depth builtins xs_deserialize
    (StartElementNS name qname attrs
     :: flat_map child_events cs ++ StartElementNS name' qname' attrs' :: rest)
    descriptor w
  = Raise (KeyError (snd name')).
Proof.
  intros Hcs Hin. destruct (composite_children cs w Hcs) as [m Hchildren].
  rewrite composite_start, parse_app, Hchildren.
  cbn [parse deliver startElementNS composite_handler]. msimpl.
  unfold CompositeObjectHandler_startElementNS.
  rewrite (name_to_member_map_unknown fields _ Hin). reflexivity.
Qed.

End CompositeDocument.

(** X17: an element whose descriptor is a composite type with basic
    members is read member by member.  The type is not intrinsic, its
    members have distinct names and basic types, and the descriptor names
    them all; the element carries no [xsi] attribute, its namespace is
    the descriptor's when the descriptor has one, and its tag name is the
    descriptor's unless that is ["*"].  Every child element is then taken
    for the member its local name names, whatever its namespace, and its
    text is read with the XML Schema type of that member.  When every
    member has a child, in whatever order and however often, the result
    is a composite object of the type whose members stand in the order
    of the type, each with the value of the last child that names it.
    When a member has no child at all, the object is refused for its
    member count.  A child with a name that is no member's is a
    [KeyError]. *)
Theorem composite_members_by_ordinal
    (depth : nat) (builtins : Builtins.t)
    (xs_deserialize : string -> string -> result CLIValue)
    (cli_type : CLITypeInstance) (fields : list field)
    (descriptor_name : string) (descriptor_namespace member_name : option string)
    (name : qualified_name) (qname : option string) (attrs : attributes)
    (w : World.t) :
  CLIType_.members (CLITypeInstance_.derived_from cli_type) = field_members fields ->
  CLIType_.intrinsic (CLITypeInstance_.derived_from cli_type) = false ->
  NoDup (map field_name fields) ->
  Forall (fun f => xs_type_from_cli_type (field_type f) = Ok (field_xs_type f)) fields ->
  plain_attrs attrs ->
  (descriptor_namespace = None \/ fst name = descriptor_namespace) ->
  (descriptor_name = "*" \/ snd name = descriptor_name) ->
  (forall cs,
     Forall (child_ok xs_deserialize fields) cs ->
     (forall k, (k < length fields)%nat -> k ∈ map child_ordinal cs) ->
     exists out,
       DataContract.Deserializer depth builtins xs_deserialize
         (StartElementNS name qname attrs
          :: flat_map child_events cs ++ [EndElementNS name qname])
         (mkMemberDescriptor descriptor_name descriptor_namespace
            (CompositeTypeDescriptor (Some cli_type) (field_descriptors fields))
            member_name) w
       = Ok (Some (CLICompositeObject cli_type out), w)
       /\ length out = length fields
       /\ forall i c,
            cs !! i = Some c ->
            (forall j c', (i < j)%nat -> cs !! j = Some c' ->
                          child_ordinal c' <> child_ordinal c) ->
            out !! child_ordinal c = Some (child_value c))
  /\ (forall cs k,
        Forall (child_ok xs_deserialize fields) cs ->
        (k < length fields)%nat -> k ∉ map child_ordinal cs ->
        DataContract.Deserializer depth builtins xs_deserialize
          (StartElementNS name qname attrs
           :: flat_map child_events cs ++ [EndElementNS name qname])
          (mkMemberDescriptor descriptor_name descriptor_namespace
             (CompositeTypeDescriptor (Some cli_type) (field_descriptors fields))
             member_name) w
        = Raise (ValueError "given values does not match to the member count"))
  /\ (forall cs name' qname' attrs' rest,
        Forall (child_ok xs_deserialize fields) cs ->
        snd name' ∉ map field_name fields ->
        DataContract.Deserializer depth builtins xs_deserialize
          (StartElementNS name qname attrs
           :: flat_map child_events cs ++ StartElementNS name' qname' attrs' :: rest)
          (mkMemberDescriptor descriptor_name descriptor_namespace
             (CompositeTypeDescriptor (Some cli_type) (field_descriptors fields))
             member_name) w
        = Raise (KeyError (snd name'))).
Proof.
  intros Hms Hint Hnd Hxs Hattrs Hns Hname.
  assert (forall cs,
            Forall (child_ok xs_deserialize fields) cs ->
            NoDup (map fst (fill (map child_pair cs) []))
            /\ forall k, k ∈ map fst (fill (map child_pair cs) [])
                         <-> k ∈ map child_ordinal cs) as Hkeys.
  { intros cs Hcs. split; [apply fill_NoDup; constructor|].
    intros k. rewrite fill_keys. rewrite map_map. cbn [child_pair fst map].
    rewrite elem_of_nil. tauto. }
  assert (forall cs k,
            Forall (child_ok xs_deserialize fields) cs ->
            k ∈ map child_ordinal cs -> (k < length fields)%nat) as Hbound.
  { intros cs k Hcs Hk. apply list_elem_of_fmap in Hk. destruct Hk as (c & -> & Hc).
    rewrite List.Forall_forall in Hcs.
    destruct (Hcs c ltac:(apply list_elem_of_In; exact Hc)) as (f & Hf & _).
    eapply lookup_lt_Some. exact Hf. }
  assert (length (CLIType_.members (CLITypeInstance_.derived_from cli_type))
          = length fields) as Hlen
    by (rewrite Hms; apply length_map).
  split; [|split].
  - intros cs Hcs Hall.
    destruct (Hkeys cs Hcs) as [Hnodup Hiff].
    destruct (sorted_by_key_full (fill (map child_pair cs) []) (length fields) Hnodup)
      as [Hl Hget].
    { intros k. rewrite Hiff. split; [apply Hbound; exact Hcs|apply Hall]. }
    exists (sorted_by_key (fill (map child_pair cs) [])).
    split; [|split; [exact Hl|]].
    + rewrite (composite_end depth builtins xs_deserialize cli_type fields
                 descriptor_name descriptor_namespace member_name name qname attrs
                 Hms Hint Hnd Hxs Hattrs Hns Hname cs w Hcs).
      unfold CLICompositeObject_init. rewrite Hl, Hlen, Nat.eqb_refl. reflexivity.
    + intros i c Hi Hlast.
      assert (child_ordinal c < length fields)%nat as Hk.
      { apply (Hbound cs); [exact Hcs|]. apply list_elem_of_fmap. exists c.
        split; [reflexivity|]. eapply list_elem_of_lookup_2. exact Hi. }
      rewrite (Hget _ Hk).
      apply (fill_get_last (map child_pair cs) [] i).
      * change (map child_pair cs) with (child_pair <$> cs).
        rewrite list_lookup_fmap, Hi. reflexivity.
      * intros j v' Hj Hl'.
        change (map child_pair cs) with (child_pair <$> cs) in Hl'.
        rewrite list_lookup_fmap in Hl'.
        destruct (cs !! j) as [c'|] eqn:Hc'; [|discriminate].
        cbn in Hl'. injection Hl' as Ho _.
        exact (Hlast j c' Hj Hc' Ho).
  - intros cs k Hcs Hk Hmissing.
    destruct (Hkeys cs Hcs) as [Hnodup Hiff].
    rewrite (composite_end depth builtins xs_deserialize cli_type fields
               descriptor_name descriptor_namespace member_name name qname attrs
               Hms Hint Hnd Hxs Hattrs Hns Hname cs w Hcs).
    unfold CLICompositeObject_init.
    rewrite sorted_by_key_length, Hlen.
    assert (length (fill (map child_pair cs) []) < length fields)%nat as Hlt.
    { rewrite <- (length_map fst).
      assert (k :: map fst (fill (map child_pair cs) []) ⊆+ seq 0 (length fields)) as Hsub.
      { apply NoDup_submseteq.
        - apply NoDup_cons. split; [rewrite Hiff; exact Hmissing|exact Hnodup].
        - intros x Hx. apply elem_of_seq. apply elem_of_cons in Hx.
          destruct Hx as [->|Hx]; [lia|].
          apply Hiff in Hx. pose proof (Hbound cs x Hcs Hx). lia. }
      apply submseteq_length in Hsub. cbn [length] in Hsub.
      rewrite length_seq in Hsub. lia. }
    destruct (Nat.eqb_spec (length (fill (map child_pair cs) [])) (length fields));
      [lia|reflexivity].
  - intros cs name' qname' attrs' rest Hcs Hin.
    apply (composite_unknown_child depth builtins xs_deserialize cli_type fields
             descriptor_name descriptor_namespace member_name name qname attrs
             Hms Hnd Hxs Hattrs Hns Hname cs name' qname' attrs' rest w Hcs Hin).
Qed.

(** A type [Geo.Point] with an [Int32] member [X] and a [String] member
    [Label], instantiated. *)
Definition GEO_POINT : CLITypeInstance :=
  ltac:(let r := eval vm_compute in
                 (run (t ← CLIType_init "Point" (Namespace "Geo" (Some ROOT_NAMESPACE))
                             (ParamMap []) (DefaultSeq []) None false
                             [Member "X" (OfInstance INT32);
                              Member "Label" (OfInstance (Builtins.SYSTEM_STRING BUILTINS))]
                             None None;
                       CLIType_instantiate 2 t (BySeq []))) in
        match r with Ok ?t => exact t end).

Definition GEO_POINT_FIELDS : list field :=
  [Field "X" INT32 "long"; Field "Label" (Builtins.SYSTEM_STRING BUILTINS) "string"].

Definition GEO_POINT_CHILDREN : list child :=
  [Child (Item (None, "Label") None [] ["An"; "n"]) 1
     (Some (CLIBasicValue (Builtins.SYSTEM_STRING BUILTINS) (PyStr "Ann")));
   Child (Item (None, "X") None [] ["42"]) 0
     (Some (CLIBasicValue INT32 (PyInt 42)))].

Lemma composite_members_by_ordinal_witness :
  exists out,
    DataContract.Deserializer 1 BUILTINS
      (XSDataSerializer_deserialize (fun _ => Raise (ValueError "")) (fun _ => Ok [])
         (fun _ => Ok 0) (fun s => Ok s) BUILTINS)
      (StartElementNS (None, "Point") None []
       :: flat_map child_events GEO_POINT_CHILDREN ++ [EndElementNS (None, "Point") None])
      (mkMemberDescriptor "Point" None
         (CompositeTypeDescriptor (Some GEO_POINT) (field_descriptors GEO_POINT_FIELDS)) None)
      initial_world
    = Ok (Some (CLICompositeObject GEO_POINT out), initial_world)
    /\ out !! 0%nat = Some (Some (CLIBasicValue INT32 (PyInt 42)))
    /\ out !! 1%nat
       = Some (Some (CLIBasicValue (Builtins.SYSTEM_STRING BUILTINS) (PyStr "Ann"))).
Proof.
  assert (Forall (child_ok
                    (XSDataSerializer_deserialize (fun _ => Raise (ValueError ""))
                       (fun _ => Ok []) (fun _ => Ok 0) (fun s => Ok s) BUILTINS)
                    GEO_POINT_FIELDS) GEO_POINT_CHILDREN) as Hcs.
  { repeat constructor.
    - exists (Field "Label" (Builtins.SYSTEM_STRING BUILTINS) "string").
      repeat split; reflexivity.
    - exists (Field "X" INT32 "long"). repeat split; reflexivity. }
  destruct (proj1 (composite_members_by_ordinal 1 BUILTINS _ GEO_POINT GEO_POINT_FIELDS
                     "Point" None None (None, "Point") None [] initial_world
                     eq_refl eq_refl
                     ltac:(repeat constructor; rewrite ?elem_of_cons, ?elem_of_nil;
                           intuition discriminate)
                     ltac:(repeat constructor)
                     (conj eq_refl eq_refl) (or_introl eq_refl) (or_intror eq_refl))
              GEO_POINT_CHILDREN Hcs)
    as (out & Hrun & _ & Hout).
  { intros k Hk. cbn in Hk.
    destruct k as [|[|k]]; [| |lia]; cbn; rewrite !elem_of_cons; tauto. }
  exists out. split; [exact Hrun|]. split.
  - apply (Hout 1%nat _ eq_refl). intros [|[|j]] c' Hj Hc'; try lia; discriminate.
  - apply (Hout 0%nat _ eq_refl). intros [|[|j]] c' Hj Hc'; try lia.
    + injection Hc' as <-. discriminate.
    + discriminate.
Defined.

(** ** Built-in types as member types of a data contract *)

(** A member of this type is read as a basic value, from text of the
    XML Schema type [xs]. *)
Definition read_as_basic (builtins : Builtins.t) (ti : CLITypeInstance) (xs : string)
    : Prop :=
  (forall w, type_descriptor_from_cli_type builtins ti w
             = Ok (BasicTypeDescriptor (Some ti), w))
  /\ xs_type_from_cli_type ti = Ok xs.

(** A member of this type is taken for an object with members of its
    own, of which the descriptor names none. *)
Definition taken_for_composite (builtins : Builtins.t) (ti : CLITypeInstance) : Prop :=
  forall w, type_descriptor_from_cli_type builtins ti w
            = Ok (CompositeTypeDescriptor (Some ti) [], w).

(** X18: what the data contract reader makes of the built-in types of a
    [Builtins] object when it has to find the descriptor and the XML
    Schema type of a member by itself.  [SByte], [Int16], [Int32],
    [Int64] and [Byte] are read as [long], [String] as [string],
    [DateTime] as [dateTime], [Single] and [Double] as [double].
    [Boolean] has the XML Schema type [bool] but no basic descriptor: it
    is taken for a composite object.  The unsigned types [UInt16],
    [UInt32] and [UInt64] are looked up as [Uint16], [Uint32] and
    [Uint64]: they, and [Char], [Decimal] and [Object], are taken for
    composite objects and have no XML Schema type.  [TimeSpan] has a
    basic descriptor but no XML Schema type.  [IntPtr] and [UIntPtr] are
    singletons of [Int64] and [UInt64]. *)
Theorem builtin_types_as_members depth ctx w0 builtins w1 :
  Builtins.init depth ctx w0 = Ok (builtins, w1) ->
  Forall (fun ti => read_as_basic builtins ti "long")
    [Builtins.SYSTEM_SBYTE builtins; Builtins.SYSTEM_INT16 builtins;
     Builtins.SYSTEM_INT32 builtins; Builtins.SYSTEM_INT64 builtins;
     Builtins.SYSTEM_BYTE builtins]
  /\ read_as_basic builtins (Builtins.SYSTEM_STRING builtins) "string"
  /\ read_as_basic builtins (Builtins.SYSTEM_DATETIME builtins) "dateTime"
  /\ Forall (fun ti => read_as_basic builtins ti "double")
       [Builtins.SYSTEM_SINGLE builtins; Builtins.SYSTEM_DOUBLE builtins]
  /\ (taken_for_composite builtins (Builtins.SYSTEM_BOOLEAN builtins)
      /\ xs_type_from_cli_type (Builtins.SYSTEM_BOOLEAN builtins) = Ok "bool")
  /\ Forall (fun ti => taken_for_composite builtins ti
                       /\ xs_type_from_cli_type ti = Raise NotImplementedError)
       [Builtins.SYSTEM_UINT16 builtins; Builtins.SYSTEM_UINT32 builtins;
        Builtins.SYSTEM_UINT64 builtins; Builtins.SYSTEM_CHAR builtins;
        Builtins.SYSTEM_DECIMAL builtins; Builtins.SYSTEM_OBJECT builtins]
  /\ ((forall w, type_descriptor_from_cli_type builtins
                   (Builtins.SYSTEM_TIMESPAN builtins) w
                 = Ok (BasicTypeDescriptor (Some (Builtins.SYSTEM_TIMESPAN builtins)), w))
      /\ xs_type_from_cli_type (Builtins.SYSTEM_TIMESPAN builtins)
         = Raise NotImplementedError)
  /\ (forall w, type_descriptor_from_cli_type builtins
                  (Builtins.SYSTEM_INTPTR builtins) w
                = Ok (SingletonTypeDescriptor (Some (Builtins.SYSTEM_INT64 builtins)), w))
  /\ (forall w, type_descriptor_from_cli_type builtins
                  (Builtins.SYSTEM_UINTPTR builtins) w
                = Ok (SingletonTypeDescriptor (Some (Builtins.SYSTEM_UINT64 builtins)), w)).
Proof.
  intros H. unfold Builtins.init in H.
  unfold CLITypeInstance_init, fresh in H.
  cbv beta iota delta [mbind M_bind mret M_ret] in H. cbn [World.next_id World.ctxs] in H.
  match type of H with
  | context [array_of ?d ?x ?w] => destruct (array_of d x w) as [[a w']|e]
  end; [|discriminate].
  injection H as <- _.
  unfold read_as_basic, taken_for_composite.
  repeat match goal with
         | |- _ /\ _ => split
         | |- Forall _ _ => constructor
         end; intros; reflexivity.
Qed.

Lemma builtin_types_as_members_witness :
  xs_type_from_cli_type (Builtins.SYSTEM_TIMESPAN BUILTINS) = Raise NotImplementedError.
Proof.
  edestruct (builtin_types_as_members 1 32%nat
               (World.mk 33 (<[32%nat := CLITypeResolutionContext.empty]> ∅)) BUILTINS)
    as (_ & _ & _ & _ & _ & _ & [_ H] & _); [vm_compute; reflexivity|exact H].
Defined.

(** ** Class records with 32-bit integer members *)

(** A string as it is written when it has fewer than 128 bytes: the
    length in one byte, then the bytes. *)
Definition short_string (b : list Z) : list Z := Z.of_nat (length b) :: b.

Lemma read_short_string decode (b : list Z) (s : string) (rest : list Z) :
  (length b < 128)%nat -> decode b = Ok s ->
  _LengthPrefixedStringReader decode (short_string b ++ rest) = Ok (s, rest).
Proof.
  intros Hlen Hdec. unfold _LengthPrefixedStringReader, short_string.
  cbn [app]. rewrite read_cons. cbn [mbind result_bind byte0 nth].
  destruct (Z.of_nat (length b) <=? 127) eqn:E; [|apply Z.leb_gt in E; lia].
  unfold read_and_decode. rewrite read_app. cbn [mbind result_bind].
  rewrite Hdec. reflexivity.
Qed.

(** A string with its bytes: short, and decoded by the reader's codec. *)
Definition written_as (decode : list Z -> result string) (m : list Z * string) : Prop :=
  (length (fst m) < 128)%nat /\ decode (fst m) = Ok (snd m).

Lemma read_strings_short decode (names : list (list Z * string)) (rest : list Z) :
  Forall (written_as decode) names ->
  read_strings decode (length names)
    (flat_map (fun m => short_string (fst m)) names ++ rest)
  = Ok (map snd names, rest).
Proof.
  induction 1 as [|[b s] names [Hlen Hdec] _ IH]; [reflexivity|].
  cbn [length read_strings flat_map map fst snd].
  unfold length_prefixed_string_reader. rewrite <- app_assoc.
  rewrite (read_short_string decode b s _ Hlen Hdec). cbn [mbind result_bind].
  rewrite IH. reflexivity.
Qed.

(** The type information of an [Int32] member. *)
Definition int32_type : TypeInfo.t :=
  TypeInfo.mk BinaryType.PRIMITIVE (APrimitive PrimitiveType.INT32).

Lemma read_member_infos_int32 decode (ctx : DeserializationContext.t)
    (names : list string) (rest : list Z) :
  read_member_infos decode ctx names (replicate (length names) 0)
    (replicate (length names) 8 ++ rest)
  = Ok (map (fun name => MemberInfo.mk name int32_type) names, rest).
Proof.
  induction names as [|name names IH]; [reflexivity|].
  cbn [length replicate read_member_infos BinaryType.of_Z read_additional_info app].
  unfold read_primitive_type. rewrite read_cons.
  cbn [mbind result_bind byte0 nth PrimitiveType.of_Z].
  rewrite IH. reflexivity.
Qed.

Lemma element_values_int32 decode timezone_localizer mrh
    (ctx : DeserializationContext.t) (names : list string) (vs : list Z)
    (rest : list Z) :
  Forall int32 vs -> length vs = length names ->
  _ElementValueReader decode timezone_localizer mrh ctx
    (map (fun member => (MemberInfo.type_info member, 1))
         (map (fun name => MemberInfo.mk name int32_type) names))
    (flat_map pack_l vs ++ rest)
  = Ok (map VInt vs, ctx, rest).
Proof.
  intros Hvs. revert names.
  induction Hvs as [|v vs Hv _ IH]; intros [|name names] Hlen; try discriminate;
    [reflexivity|].
  cbn [map _ElementValueReader MemberInfo.type_info flat_map].
  change (TypeInfo.binary_type int32_type) with BinaryType.PRIMITIVE. cbv iota.
  unfold read_primitive.
  change (TypeInfo.additional_info int32_type) with (APrimitive PrimitiveType.INT32).
  change (1 <=? 0) with false. change (Z.to_nat 1) with 1%nat. cbv iota.
  cbn [read_primitive_loop _UntypedPrimitiveValueReader].
  rewrite <- app_assoc, read_pack_l. cbn [mbind result_bind].
  pose proof (unpack_pack_l v [] Hv) as Hu. rewrite app_nil_r in Hu. rewrite Hu.
  rewrite (IH names) by (cbn in Hlen; lia).
  reflexivity.
Qed.

(** What the class records have in common on the wire: the object id,
    the class name, the member count, the member names, then one byte
    of binary type (0, primitive) and one byte of primitive type (8,
    [Int32]) for every member. *)
Definition class_record_head (object_id : Z) (name : list Z)
    (members : list (list Z * string)) : list Z :=
  pack_l object_id ++ short_string name
  ++ pack_l (Z.of_nat (length members))
  ++ flat_map (fun m => short_string (fst m)) members
  ++ replicate (length members) 0 ++ replicate (length members) 8.

(** The context once an object with these values is registered. *)
Definition with_instance (ctx : DeserializationContext.t) (class_info : ClassInfo.t)
    (vs : list Z) : DeserializationContext.t :=
  DeserializationContext.mk
    (DeserializationContext.root_id ctx) (DeserializationContext.header_id ctx)
    (DeserializationContext.major_version ctx)
    (DeserializationContext.minor_version ctx)
    (DeserializationContext.library_id_name_mappings ctx)
    (<[ClassInfo.object_id class_info
       := VObj (length (DeserializationContext.heap ctx))]>
       (DeserializationContext.objects ctx))
    (DeserializationContext.heap ctx ++ [Instance class_info (Some (map VInt vs))]).

(** The two readers every class record starts with, one after the
    other. *)
Definition class_head_result decode (ctx : DeserializationContext.t) (f : stream)
    : result (Z * string * list MemberInfo.t * stream) :=
  '(object_id, name, member_names, f) ← _ClassInfoReader decode f;
  '(members, f) ← _MemberTypeInfoReader decode ctx member_names f;
  Ok (object_id, name, members, f).

Lemma class_head_read decode (ctx : DeserializationContext.t) (object_id : Z)
    (name_bytes : list Z) (name : string) (members : list (list Z * string))
    (rest : list Z) :
  int32 object_id -> int32 (Z.of_nat (length members)) ->
  written_as decode (name_bytes, name) ->
  Forall (written_as decode) members ->
  class_head_result decode ctx
    (class_record_head object_id name_bytes members ++ rest)
  = Ok (object_id, name,
        map (fun name => MemberInfo.mk name int32_type) (map snd members), rest).
Proof.
  intros Hid Hn [Hlen Hdec] Hms.
  unfold class_head_result, class_record_head, _ClassInfoReader.
  rewrite <- !app_assoc, read_pack_l. cbn [mbind result_bind].
  pose proof (unpack_pack_l object_id [] Hid) as Hu. rewrite app_nil_r in Hu. rewrite Hu.
  unfold length_prefixed_string_reader.
  rewrite (read_short_string decode name_bytes name _ Hlen Hdec).
  cbn [mbind result_bind fst snd] in *.
  rewrite read_pack_l. cbn [mbind result_bind].
  pose proof (unpack_pack_l (Z.of_nat (length members)) [] Hn) as Hu'.
  rewrite app_nil_r in Hu'. rewrite Hu', Nat2Z.id.
  rewrite (read_strings_short decode members _ Hms). cbn [mbind result_bind].
  unfold _MemberTypeInfoReader. rewrite length_map.
  pose proof (read_app (replicate (length members) 0)
                (replicate (length members) 8 ++ rest)) as R.
  rewrite length_replicate in R. rewrite R. cbn [mbind result_bind].
  rewrite <- (length_map snd members).
  rewrite read_member_infos_int32. reflexivity.
Qed.

Lemma register_then_fill_int32 decode timezone_localizer mrh
    (ctx : DeserializationContext.t) (class_info : ClassInfo.t)
    (names : list string) (vs : list Z) (rest : list Z) :
  ClassInfo.members class_info = map (fun name => MemberInfo.mk name int32_type) names ->
  Forall int32 vs -> length vs = length names ->
  register_then_fill decode timezone_localizer mrh
    (ClassInfo.object_id class_info) (Instance class_info None)
    (member_elements class_info) ctx (flat_map pack_l vs ++ rest)
  = Ok (Some [VObj (length (DeserializationContext.heap ctx))], true,
        with_instance ctx class_info vs, rest).
Proof.
  intros Hms Hvs Hlen.
  unfold register_then_fill, DeserializationContext.alloc,
    DeserializationContext.add_object, element_value_reader, member_elements.
  rewrite Hms.
  rewrite (element_values_int32 decode timezone_localizer mrh _ names vs rest Hvs Hlen).
  cbn [mbind result_bind]. unfold DeserializationContext.update, with_instance.
  cbn [DeserializationContext.heap DeserializationContext.objects
       DeserializationContext.root_id DeserializationContext.header_id
       DeserializationContext.major_version DeserializationContext.minor_version
       DeserializationContext.library_id_name_mappings].
  rewrite lookup_app_r by lia. rewrite Nat.sub_diag. cbn [lookup list_lookup].
  rewrite insert_app_r_alt by lia. rewrite Nat.sub_diag. reflexivity.
Qed.

(** X19: class records whose members are all [Int32] are read back
    whole.  The record body written as above and followed by the member
    values, little-endian, yields a new [Instance] whose class
    information holds the object id, the class name and the members by
    name in the order written, and whose values are the integers in that
    order; the instance is registered under the object id, the rest of
    the stream is left unread and nothing else in the context changes.
    This holds for the system class record (code 4), and for the class
    record (code 5) when the library id that follows the member types
    was registered by a library record; when it was not, the class
    record is refused with [UnresolvableLibraryId] before any value is
    read. *)
Theorem class_record_round_trip decode timezone_localizer mrh
    (ctx : DeserializationContext.t) (object_id library_id : Z)
    (name_bytes : list Z) (name : string) (members : list (list Z * string))
    (vs : list Z) (rest : list Z) :
  int32 object_id -> int32 library_id -> int32 (Z.of_nat (length members)) ->
  written_as decode (name_bytes, name) ->
  Forall (written_as decode) members ->
  Forall int32 vs -> length vs = length members ->
  SystemClassWithMembersAndTypesHandler decode timezone_localizer mrh ctx
    (class_record_head object_id name_bytes members ++ flat_map pack_l vs ++ rest)
  = Ok (Some [VObj (length (DeserializationContext.heap ctx))], true,
        with_instance ctx
          (ClassInfo.mk object_id name
             (map (fun m => MemberInfo.mk (snd m) int32_type) members) None) vs,
        rest)
  /\ (is_Some (DeserializationContext.library_id_name_mappings ctx !! library_id) ->
      ClassWithMembersAndTypesHandler decode timezone_localizer mrh ctx
        (class_record_head object_id name_bytes members ++ pack_l library_id
         ++ flat_map pack_l vs ++ rest)
      = Ok (Some [VObj (length (DeserializationContext.heap ctx))], true,
            with_instance ctx
              (ClassInfo.mk object_id name
                 (map (fun m => MemberInfo.mk (snd m) int32_type) members)
                 (Some library_id)) vs,
            rest))
  /\ (DeserializationContext.library_id_name_mappings ctx !! library_id = None ->
      ClassWithMembersAndTypesHandler decode timezone_localizer mrh ctx
        (class_record_head object_id name_bytes members ++ pack_l library_id ++ rest)
      = Raise (UnresolvableLibraryId library_id)).
Proof.
  intros Hid Hlib Hn Hname Hms Hvs Hlen.
  assert (forall rest',
            class_head_result decode ctx
              (class_record_head object_id name_bytes members ++ rest')
            = Ok (object_id, name,
                  map (fun name => MemberInfo.mk name int32_type) (map snd members),
                  rest')) as Hhead.
  { intros rest'. apply class_head_read; assumption. }
  assert (map (fun name => MemberInfo.mk name int32_type) (map snd members)
          = map (fun m => MemberInfo.mk (snd m) int32_type) members) as Hmap
    by apply map_map.
  split; [|split].
  - unfold SystemClassWithMembersAndTypesHandler.
    specialize (Hhead (flat_map pack_l vs ++ rest)). unfold class_head_result in Hhead.
    destruct (_ClassInfoReader decode _) as [[[[o n] mn] f]|e]; [|discriminate].
    cbn [mbind result_bind] in Hhead |- *.
    destruct (_MemberTypeInfoReader decode ctx mn f) as [[ms f']|e]; [|discriminate].
    cbn [mbind result_bind] in Hhead |- *. injection Hhead as -> -> -> ->.
    rewrite Hmap.
    apply (register_then_fill_int32 decode timezone_localizer mrh ctx
             (ClassInfo.mk object_id name _ None) (map snd members) vs rest).
    + cbn [ClassInfo.members]. symmetry. exact Hmap.
    + exact Hvs.
    + rewrite length_map. exact Hlen.
  - intros Hreg. unfold ClassWithMembersAndTypesHandler.
    specialize (Hhead (pack_l library_id ++ flat_map pack_l vs ++ rest)).
    unfold class_head_result in Hhead.
    destruct (_ClassInfoReader decode _) as [[[[o n] mn] f]|e]; [|discriminate].
    cbn [mbind result_bind] in Hhead |- *.
    destruct (_MemberTypeInfoReader decode ctx mn f) as [[ms f']|e]; [|discriminate].
    cbn [mbind result_bind] in Hhead |- *. injection Hhead as -> -> -> ->.
    match goal with
    | |- context [read (?x :: ?y :: ?z :: ?t :: ?r) 4] =>
        change (x :: y :: z :: t :: r) with (pack_l library_id ++ r)
    end.
    rewrite read_pack_l. cbn [mbind result_bind].
    pose proof (unpack_pack_l library_id [] Hlib) as Hu. rewrite app_nil_r in Hu.
    rewrite Hu. unfold DeserializationContext.library_id_resolvable.
    rewrite bool_decide_true by exact Hreg. cbn [negb]. rewrite Hmap.
    apply (register_then_fill_int32 decode timezone_localizer mrh ctx
             (ClassInfo.mk object_id name _ (Some library_id)) (map snd members) vs rest).
    + cbn [ClassInfo.members]. symmetry. exact Hmap.
    + exact Hvs.
    + rewrite length_map. exact Hlen.
  - intros Hreg. unfold ClassWithMembersAndTypesHandler.
    specialize (Hhead (pack_l library_id ++ rest)).
    unfold class_head_result in Hhead.
    destruct (_ClassInfoReader decode _) as [[[[o n] mn] f]|e]; [|discriminate].
    cbn [mbind result_bind] in Hhead |- *.
    destruct (_MemberTypeInfoReader decode ctx mn f) as [[ms f']|e]; [|discriminate].
    cbn [mbind result_bind] in Hhead |- *. injection Hhead as -> -> -> ->.
    match goal with
    | |- context [read (?x :: ?y :: ?z :: ?t :: ?r) 4] =>
        change (x :: y :: z :: t :: r) with (pack_l library_id ++ r)
    end.
    rewrite read_pack_l. cbn [mbind result_bind].
    pose proof (unpack_pack_l library_id [] Hlib) as Hu. rewrite app_nil_r in Hu.
    rewrite Hu. unfold DeserializationContext.library_id_resolvable.
    rewrite bool_decide_false by (rewrite Hreg; intros [x Hx]; discriminate).
    reflexivity.
Qed.

(** A context in which the library 2 is registered. *)
Definition LIB_CTX : DeserializationContext.t :=
  DeserializationContext.add_library_id_name_mapping 2 "Lib" DeserializationContext.init.

Lemma class_record_round_trip_witness :
  ClassWithMembersAndTypesHandler utf8_decode (fun d => d) (fun _ => None) LIB_CTX
    (class_record_head 1 [80] [([88], "X"); ([89], "Y")] ++ pack_l 2
     ++ flat_map pack_l [3; -4] ++ [11])
  = Ok (Some [VObj 0%nat], true,
        with_instance LIB_CTX
          (ClassInfo.mk 1 "P"
             [MemberInfo.mk "X" int32_type; MemberInfo.mk "Y" int32_type] (Some 2))
          [3; -4],
        [11]).
Proof.
  apply (proj1 (proj2 (class_record_round_trip utf8_decode (fun d => d) (fun _ => None)
                         LIB_CTX 1 2 [80] "P" [([88], "X"); ([89], "Y")] [3; -4] [11]
                         ltac:(unfold int32; lia) ltac:(unfold int32; lia)
                         ltac:(unfold int32; cbn; lia)
                         ltac:(split; [cbn; lia|reflexivity])
                         ltac:(repeat constructor; cbn; lia)
                         ltac:(repeat constructor; unfold int32; lia)
                         eq_refl))).
  exists "Lib". reflexivity.
Defined.

(** ** Bridging an array of 32-bit integers *)

(** The bridge [Bridge(result)] right after its creation: only the
    decoding result depends on the argument. *)
Definition bridge_over (r : DeserializationContext.t) : State.t :=
  State.mk r (State.world NEW_BRIDGE) (State._builtins NEW_BRIDGE)
    (State._p_class_to_cli_type_mappings NEW_BRIDGE)
    (State._p_class_to_cli_type_instance_mappings NEW_BRIDGE)
    (State._array_types NEW_BRIDGE) (State._namespaces NEW_BRIDGE)
    (State._objects NEW_BRIDGE).

Lemma init_bridge_over (d : nat) (r : DeserializationContext.t) :
  init (S d) r = Ok (bridge_over r).
Proof. vm_compute. reflexivity. Qed.

(** The array type of [Int32] elements this bridge makes, and the
    bridge once it has made it. *)
Definition INT32_ARRAY : CLITypeInstance :=
  ltac:(let r := eval vm_compute in
                 (_get_array_type 1 INT32 0 (bridge_over DeserializationContext.init)) in
        match r with Ok (?t, _) => exact t end).

Definition with_int32_array (r : DeserializationContext.t) : State.t :=
  ltac:(let t := eval vm_compute in (_get_array_type 1 INT32 0 (bridge_over r)) in
        match t with Ok (_, ?s) => exact s end).

Lemma int32_array_type (d : nat) (r : DeserializationContext.t) (object_id n : Z) :
  _get_cli_type_instance_for_array_info (S d)
    (ArrayInfo.mk object_id [n] [0] (Some BinaryArrayType.SINGLE) (Some int32_type))
    (bridge_over r)
  = Ok (INT32_ARRAY, with_int32_array r).
Proof. vm_compute. reflexivity. Qed.

Lemma convert_value_S (n : nat) (v : value) :
  _convert_value (S n) v = convert_body n (_convert_value n) v.
Proof. reflexivity. Qed.

Lemma convert_int32 (d : nat) (r : DeserializationContext.t) (z : Z) :
  _convert_value (S d) (VInt z) (with_int32_array r)
  = Ok (CLIBasicValue INT32 (PyInt z), with_int32_array r).
Proof.
  cbn [_convert_value]. unfold convert_body. msimpl. unfold cli.
  cbn [to_any State._builtins with_int32_array State.world].
  unfold Builtins.from_python_value.
  rewrite instantiate_intrinsic by reflexivity. reflexivity.
Qed.

Lemma convert_int32s (d : nat) (r : DeserializationContext.t) (vs : list Z) :
  Py.mapM (_convert_value (S d)) (map VInt vs) (with_int32_array r)
  = Ok (map (fun z => CLIBasicValue INT32 (PyInt z)) vs, with_int32_array r).
Proof.
  induction vs as [|z vs IH]; [reflexivity|].
  cbn [map Py.mapM]. unfold mbind at 1. unfold M_bind at 1.
  rewrite convert_int32. unfold mbind at 1. unfold M_bind at 1.
  rewrite IH. reflexivity.
Qed.

(** X20: [Bridge(result)()] on a decoding result whose root object is a
    one-dimensional array of [Int32], as the decoder makes it of an
    [ArraySinglePrimitive] record.  With a call depth of two or more
    the bridge returns a basic value of the array type of [Int32] (an
    intrinsic type derived from the array type, bound to the [Int32] of
    the bridge's built-ins) that carries the elements in order, each as
    a basic value of type [Int32]; the value is recorded under the
    array's object id.  Without a root id the bridge raises
    [BridgeError], and with a root id that names no object a
    [KeyError]. *)
Theorem int32_array_is_bridged (d : nat) (r : DeserializationContext.t) :
  (forall root_id a object_id vs,
     DeserializationContext.root_id r = Some root_id ->
     DeserializationContext.objects r !! root_id = Some (VObj a) ->
     DeserializationContext.heap r !! a
     = Some (Array (ArrayInfo.mk object_id [Z.of_nat (length vs)] [0]
                      (Some BinaryArrayType.SINGLE) (Some int32_type))
               (Some (map VInt vs))) ->
     exists st,
       bridge (S (S d)) r
       = Ok (CLIBasicValue INT32_ARRAY
               (PyList (map (fun z => PyValue (CLIBasicValue INT32 (PyInt z))) vs)),
             st)
       /\ State._objects st !! object_id
          = Some (CLIBasicValue INT32_ARRAY
                    (PyList (map (fun z => PyValue (CLIBasicValue INT32 (PyInt z))) vs)))
       /\ State.result_ st = r)
  /\ (CLIType_.intrinsic (CLITypeInstance_.derived_from INT32_ARRAY) = true
      /\ CLIType_.origin (CLITypeInstance_.derived_from INT32_ARRAY) = ARRAY_TYPE
      /\ CLIType_.resolved_parameters (CLITypeInstance_.derived_from INT32_ARRAY)
         = [Some (OfInstance INT32)])
  /\ (DeserializationContext.root_id r = None ->
      bridge (S d) r
      = Raise (BridgeError "root_id is not specified by DeserializationContext"))
  /\ (forall root_id,
        DeserializationContext.root_id r = Some root_id ->
        DeserializationContext.objects r !! root_id = None ->
        bridge (S d) r = Raise (KeyError "object id")).
Proof.
  split; [|split; [repeat split|split]].
  - intros root_id a object_id vs Hroot Hobj Hheap.
    unfold bridge. rewrite init_bridge_over. cbn [mbind result_bind].
    unfold call. msimpl. cbn [State.result_ bridge_over].
    rewrite Hroot, Hobj. rewrite convert_value_S. unfold convert_body. msimpl.
    cbn [State.result_ bridge_over]. rewrite Hheap.
    unfold convert_array. msimpl.
    fold (bridge_over r). rewrite int32_array_type.
    cbn [ArrayInfo.shape nth length]. rewrite length_map, Z.eqb_refl. cbn [negb].
    rewrite convert_int32s.
    unfold cli. cbn [State.world with_int32_array].
    rewrite instantiate_intrinsic by reflexivity.
    unfold set_objects, modify.
    cbn [State._objects State.result_ with_int32_array ArrayInfo.object_id].
    rewrite map_map.
    eexists. split; [reflexivity|]. cbn [State._objects State.result_].
    split; [apply lookup_insert_eq|reflexivity].
  - intros Hroot. unfold bridge. rewrite init_bridge_over. cbn [mbind result_bind].
    unfold call. msimpl. cbn [State.result_ bridge_over]. rewrite Hroot. reflexivity.
  - intros root_id Hroot Hobj. unfold bridge. rewrite init_bridge_over.
    cbn [mbind result_bind]. unfold call. msimpl. cbn [State.result_ bridge_over].
    rewrite Hroot, Hobj. reflexivity.
Qed.

(** A stream that holds the array [10, -20, 30] as its root object, and
    what the decoder makes of it. *)
Definition INT32_ARRAY_STREAM : list Z :=
  [0] ++ pack_l 1 ++ pack_l (-1) ++ pack_l 1 ++ pack_l 0
  ++ [15] ++ pack_l 1 ++ pack_l 3 ++ [8] ++ flat_map pack_l [10; -20; 30] ++ [11].

Definition INT32_ARRAY_RESULT : DeserializationContext.t :=
  ltac:(let r := eval vm_compute in
                 (Binary.Deserializer utf8_decode (fun d => d) 1 INT32_ARRAY_STREAM) in
        match r with Ok ?c => exact c end).

Lemma int32_array_is_bridged_witness :
  Binary.Deserializer utf8_decode (fun d => d) 1 INT32_ARRAY_STREAM
  = Ok INT32_ARRAY_RESULT
  /\ exists st,
       bridge 2 INT32_ARRAY_RESULT
       = Ok (CLIBasicValue INT32_ARRAY
               (PyList [PyValue (CLIBasicValue INT32 (PyInt 10));
                        PyValue (CLIBasicValue INT32 (PyInt (-20)));
                        PyValue (CLIBasicValue INT32 (PyInt 30))]),
             st).
Proof.
  split; [vm_compute; reflexivity|].
  destruct (proj1 (int32_array_is_bridged 0 INT32_ARRAY_RESULT) 1 0%nat 1 [10; -20; 30]
              eq_refl eq_refl eq_refl) as (st & H & _).
  exists st. exact H.
Defined.

(** ** The prefix of an [xsi:type] attribute *)

(** The prefix mappings a handler holds once the parser has announced
    these, starting from [x]. *)
Definition xmlns_after (x : xmlns_map) (prefixes : list (option string * string))
    : xmlns_map :=
  fold_left (fun x p => <[fst p := snd p]> x) prefixes x.

Definition prefix_events (prefixes : list (option string * string)) : list sax_event :=
  map (fun p => StartPrefixMapping (fst p) (snd p)) prefixes.

Section XsiType.

Variable depth : nat.
Variable builtins : Builtins.t.
Variable xs_deserialize : string -> string -> result CLIValue.

Lemma parse_prefixes (outer : Handler) (x : xmlns_map) (descriptor : MemberDescriptor)
    (prefixes : list (option string * string)) (events : list sax_event) (w : World.t) :
  parse depth builtins xs_deserialize (MemberHandler outer x descriptor)
    (prefix_events prefixes ++ events) w
  = parse depth builtins xs_deserialize
      (MemberHandler outer (xmlns_after x prefixes) descriptor) events w.
Proof.
  revert x. induction prefixes as [|[p uri] prefixes IH]; intros x; [reflexivity|].
  cbn [prefix_events map app parse deliver startPrefixMapping xmlns_of fst snd]. msimpl.
  apply IH.
Qed.

Lemma parse_prefixes_composite (outer : Handler) (x : xmlns_map)
    (descriptor : TypeDescriptorBase) (member : option MemberDescriptor)
    (values : list (nat * option CLIValue))
    (prefixes : list (option string * string)) (events : list sax_event) (w : World.t) :
  parse depth builtins xs_deserialize
    (CompositeObjectHandler outer x descriptor member values)
    (prefix_events prefixes ++ events) w
  = parse depth builtins xs_deserialize
      (CompositeObjectHandler outer (xmlns_after x prefixes) descriptor member values)
      events w.
Proof.
  revert x. induction prefixes as [|[p uri] prefixes IH]; intros x; [reflexivity|].
  cbn [prefix_events map app parse deliver startPrefixMapping xmlns_of fst snd]. msimpl.
  apply IH.
Qed.

(** What a member handler does with an element that carries an
    [xsi:type] attribute and no [xsi:nil]. *)
Lemma typed_element (outer : Handler) (x : xmlns_map) (descriptor : MemberDescriptor)
    (name : qualified_name) (qname : option string) (attrs : attributes)
    (xsit : string) (w : World.t) :
  dict_get (Some XMLSCHEMA_INSTANCE_NAMESPACE, "nil") attrs = None ->
  dict_get (Some XMLSCHEMA_INSTANCE_NAMESPACE, "type") attrs = Some xsit ->
  MemberHandler_startElementNS depth builtins xs_deserialize outer x descriptor
    name qname attrs w
  = match x !! Some (fst (fst (partition ":" xsit))) with
    | None => Raise (KeyError (fst (fst (partition ":" xsit))))
    | Some ns =>
        if String.eqb ns XMLSCHEMA_NAMESPACE
        then Ok (BasicObjectHandler outer (xmlns_of outer)
                   (snd (partition ":" xsit)) [], w)
        else Raise (InvalidDataContractPayload
                      "XMLSchema instance attribute refers to unexpected namespace")
    end.
Proof.
  intros Hnil Htype. unfold MemberHandler_startElementNS. msimpl. rewrite Hnil. msimpl.
  rewrite Htype. destruct (partition ":" xsit) as [[p sep] t]. cbn [fst snd].
  destruct (x !! Some p) as [ns|]; [|reflexivity].
  destruct (String.eqb ns XMLSCHEMA_NAMESPACE); reflexivity.
Qed.

End XsiType.

(** X21: how far a namespace prefix reaches when an [xsi:type]
    attribute uses it.  On the root element the attribute overrides the
    descriptor, whatever it is: with the prefixes announced before the
    element, a prefix bound to the XML Schema namespace makes the
    element a basic value of the type named after the colon, read from
    its text; a prefix bound to another namespace is refused, and an
    unbound prefix is a [KeyError].  A child element of a composite
    object does not see the prefixes of the root element: unless the
    prefix is announced again after the root's start tag, the child's
    attribute is a [KeyError] with the prefix, even when the root bound
    it to the XML Schema namespace. *)
Theorem xsi_type_prefix_scope
    (depth : nat) (builtins : Builtins.t)
    (xs_deserialize : string -> string -> result CLIValue)
    (prefixes : list (option string * string)) (xsit : string) (w : World.t) :
  (forall descriptor name qname attrs chunks,
     dict_get (Some XMLSCHEMA_INSTANCE_NAMESPACE, "nil") attrs = None ->
     dict_get (Some XMLSCHEMA_INSTANCE_NAMESPACE, "type") attrs = Some xsit ->
     DataContract.Deserializer depth builtins xs_deserialize
       (prefix_events prefixes
        ++ StartElementNS name qname attrs
        :: map Characters chunks ++ [EndElementNS name qname])
       descriptor w
     = match xmlns_after ∅ prefixes !! Some (fst (fst (partition ":" xsit))) with
       | None => Raise (KeyError (fst (fst (partition ":" xsit))))
       | Some ns =>
           if String.eqb ns XMLSCHEMA_NAMESPACE
           then match item_value xs_deserialize (snd (partition ":" xsit))
                        (Item name qname attrs chunks) with
                | Ok v => Ok (v, w)
                | Raise e => Raise e
                end
           else Raise (InvalidDataContractPayload
                         "XMLSchema instance attribute refers to unexpected namespace")
       end)
  /\ (forall cli_type fields descriptor_name descriptor_namespace member_name
             name qname attrs cs name' qname' attrs' rest,
        CLIType_.members (CLITypeInstance_.derived_from cli_type) = field_members fields ->
        NoDup (map field_name fields) ->
        Forall (fun f => xs_type_from_cli_type (field_type f) = Ok (field_xs_type f))
          fields ->
        plain_attrs attrs ->
        (descriptor_namespace = None \/ fst name = descriptor_namespace) ->
        (descriptor_name = "*" \/ snd name = descriptor_name) ->
        Forall (child_ok xs_deserialize fields) cs ->
        snd name' ∈ map field_name fields ->
        dict_get (Some XMLSCHEMA_INSTANCE_NAMESPACE, "nil") attrs' = None ->
        dict_get (Some XMLSCHEMA_INSTANCE_NAMESPACE, "type") attrs' = Some xsit ->
        DataContract.Deserializer depth builtins xs_deserialize
          (prefix_events prefixes
           ++ StartElementNS name qname attrs
           :: flat_map child_events cs ++ StartElementNS name' qname' attrs' :: rest)
          (mkMemberDescriptor descriptor_name descriptor_namespace
             (CompositeTypeDescriptor (Some cli_type) (field_descriptors fields))
             member_name) w
        = Raise (KeyError (fst (fst (partition ":" xsit))))).
Proof.
  split.
  - intros descriptor name qname attrs chunks Hnil Htype.
    unfold DataContract.Deserializer, MemberHandler_init, inherited_xmlns.
    cbn [xmlns_of]. unfold mbind at 1. unfold M_bind at 1.
    rewrite parse_prefixes. cbn [parse deliver startElementNS].
    unfold mbind at 1. unfold M_bind at 1.
    rewrite (typed_element depth builtins xs_deserialize _ _ _ _ _ _ xsit w Hnil Htype).
    destruct (xmlns_after ∅ prefixes !! Some (fst (fst (partition ":" xsit)))) as [ns|];
      [|reflexivity].
    destruct (String.eqb ns XMLSCHEMA_NAMESPACE); [|reflexivity].
    cbn [xmlns_of]. rewrite parse_app, parse_chunks.
    cbn [app parse deliver endElementNS container_cli_type]. msimpl.
    unfold item_value. cbn [item_chunks].
    destruct chunks as [|c chunks]; [reflexivity|].
    destruct (xs_deserialize (snd (partition ":" xsit)) (Py.join "" (c :: chunks)));
      reflexivity.
  - intros cli_type fields descriptor_name descriptor_namespace member_name
      name qname attrs cs name' qname' attrs' rest
      Hms Hnd Hxs [Hnil0 Htype0] Hns Hname Hcs Hin Hnil Htype.
    unfold DataContract.Deserializer, MemberHandler_init, inherited_xmlns.
    cbn [xmlns_of]. unfold mbind at 1. unfold M_bind at 1.
    rewrite parse_prefixes. cbn [parse deliver startElementNS].
    unfold mbind at 1. unfold M_bind at 1.
    assert (MemberHandler_startElementNS depth builtins xs_deserialize
              (SentinelHandler ∅ None) (xmlns_after ∅ prefixes)
              (mkMemberDescriptor descriptor_name descriptor_namespace
                 (CompositeTypeDescriptor (Some cli_type) (field_descriptors fields))
                 member_name) name qname attrs w
            = Ok (composite_handler cli_type fields (SentinelHandler ∅ None) ∅ None [],
                  w)) as ->.
    { unfold MemberHandler_startElementNS. msimpl. rewrite Hnil0. msimpl.
      rewrite Htype0. cbn [MemberDescriptor_.type_descriptor _namespace
                           MemberDescriptor_.namespace MemberDescriptor_.name].
      assert (negb (String.eqb descriptor_name "*")
              && negb (String.eqb (snd name) descriptor_name) = false) as Hn.
      { destruct Hname as [->| ->]; [reflexivity|].
        rewrite String.eqb_refl. apply andb_false_r. }
      destruct descriptor_namespace as [ns|].
      - destruct Hns as [Hns|Hns]; [discriminate|].
        rewrite bool_decide_true by exact Hns. cbn [negb]. msimpl. rewrite Hn. msimpl.
        reflexivity.
      - msimpl. rewrite Hn. msimpl. reflexivity. }
    rewrite parse_app.
    destruct (parse_children_any depth builtins xs_deserialize cli_type fields
                Hms Hnd Hxs (SentinelHandler ∅ None) ∅ cs Hcs [] w) as [m ->].
    cbn [parse deliver startElementNS composite_handler].
    unfold mbind at 1. unfold M_bind at 1.
    unfold CompositeObjectHandler_startElementNS.
    rewrite (name_to_member_map_field fields _ Hin).
    cbn [MemberDescriptor_.effective_name MemberDescriptor_.member_name
         MemberDescriptor_.name MemberDescriptor_.type_descriptor
         MemberDescriptor_.namespace TypeDescriptor_.cli_type
         TypeDescriptor_.replace_cli_type].
    apply list_elem_of_fmap in Hin. destruct Hin as (f & Hf & Hin).
    apply list_elem_of_lookup in Hin. destruct Hin as [k Hk].
    rewrite Hf. msimpl.
    rewrite (getitem_name_field depth cli_type fields Hms Hnd k f w Hk).
    unfold inherited_xmlns. cbn [xmlns_of snd].
    rewrite (typed_element depth builtins xs_deserialize _ _ _ _ _ _ xsit w Hnil Htype).
    cbn [xmlns_of].
    assert ((∅ : xmlns_map) !! Some (fst (fst (partition ":" xsit))) = None) as ->
      by apply lookup_empty.
    reflexivity.
Qed.

Lemma xsi_type_prefix_scope_witness :
  DataContract.Deserializer 1 BUILTINS
    (XSDataSerializer_deserialize (fun _ => Raise (ValueError "")) (fun _ => Ok [])
       (fun _ => Ok 0) (fun s => Ok s) BUILTINS)
    (prefix_events [(Some "x", XMLSCHEMA_NAMESPACE)]
     ++ StartElementNS (None, "Point") None []
     :: flat_map child_events []
     ++ StartElementNS (None, "X") None
          [((Some XMLSCHEMA_INSTANCE_NAMESPACE, "type"), "x:long")]
     :: [Characters "42"; EndElementNS (None, "X") None;
         EndElementNS (None, "Point") None])
    (mkMemberDescriptor "Point" None
       (CompositeTypeDescriptor (Some GEO_POINT) (field_descriptors GEO_POINT_FIELDS))
       None)
    initial_world
  = Raise (KeyError "x").
Proof.
  apply (proj2 (xsi_type_prefix_scope 1 BUILTINS _ [(Some "x", XMLSCHEMA_NAMESPACE)]
                  "x:long" initial_world)
           GEO_POINT GEO_POINT_FIELDS "Point" None None (None, "Point") None [] []
           (None, "X") None [((Some XMLSCHEMA_INSTANCE_NAMESPACE, "type"), "x:long")]).
  - reflexivity.
  - repeat constructor; rewrite ?elem_of_cons, ?elem_of_nil; intuition discriminate.
  - repeat constructor.
  - split; reflexivity.
  - left. reflexivity.
  - right. reflexivity.
  - constructor.
  - cbn. rewrite !elem_of_cons. tauto.
  - reflexivity.
  - reflexivity.
Defined.

(** ** Library names *)


















(** ** Runs of nulls among the members of an object *)

(** The type information of a member declared as [Object]. *)
Definition object_type : TypeInfo.t := TypeInfo.mk BinaryType.OBJECT ANone.

(** A system class record up to the member values, for members that are
    all declared as [Object] (binary type 2, no additional
    information). *)
Definition object_class_head (object_id : Z) (name : list Z)
    (members : list (list Z * string)) : list Z :=
  pack_l object_id ++ short_string name
  ++ pack_l (Z.of_nat (length members))
  ++ flat_map (fun m => short_string (fst m)) members
  ++ replicate (length members) 2.

Lemma read_member_infos_object decode (ctx : DeserializationContext.t)
    (names : list string) (rest : list Z) :
  read_member_infos decode ctx names (replicate (length names) 2) rest
  = Ok (map (fun name => MemberInfo.mk name object_type) names, rest).
Proof.
  induction names as [|name names IH]; [reflexivity|].
  cbn [length replicate read_member_infos BinaryType.of_Z read_additional_info].
  cbn [mbind result_bind]. rewrite IH. reflexivity.
Qed.

Lemma object_head_read decode (ctx : DeserializationContext.t) (object_id : Z)
    (name_bytes : list Z) (name : string) (members : list (list Z * string))
    (rest : list Z) :
  int32 object_id -> int32 (Z.of_nat (length members)) ->
  written_as decode (name_bytes, name) ->
  Forall (written_as decode) members ->
  class_head_result decode ctx
    (object_class_head object_id name_bytes members ++ rest)
  = Ok (object_id, name,
        map (fun name => MemberInfo.mk name object_type) (map snd members), rest).
Proof.
  intros Hid Hn [Hlen Hdec] Hms.
  unfold class_head_result, object_class_head, _ClassInfoReader.
  rewrite <- !app_assoc, read_pack_l. cbn [mbind result_bind].
  pose proof (unpack_pack_l object_id [] Hid) as Hu. rewrite app_nil_r in Hu. rewrite Hu.
  unfold length_prefixed_string_reader.
  rewrite (read_short_string decode name_bytes name _ Hlen Hdec).
  cbn [mbind result_bind fst snd] in *.
  rewrite read_pack_l. cbn [mbind result_bind].
  pose proof (unpack_pack_l (Z.of_nat (length members)) [] Hn) as Hu'.
  rewrite app_nil_r in Hu'. rewrite Hu', Nat2Z.id.
  rewrite (read_strings_short decode members _ Hms). cbn [mbind result_bind].
  unfold _MemberTypeInfoReader. rewrite length_map.
  pose proof (read_app (replicate (length members) 2) rest) as R.
  rewrite length_replicate in R. rewrite R. cbn [mbind result_bind].
  rewrite <- (length_map snd members).
  rewrite read_member_infos_object. reflexivity.
Qed.

Section NullRuns.

Variable decode : list Z -> result string.
Variable timezone_localizer : DateTime.t -> DateTime.t.
Variable depth : nat.

(** The member records the decoder knows, one level of nesting or more
    being left. *)
Local Abbreviation handlers :=
  (Binary.member_record_handlers decode timezone_localizer (S depth)).

Lemma object_members_of_nulls (ctx : DeserializationContext.t) (names : list string)
    (rest : list Z) :
  _ElementValueReader decode timezone_localizer handlers ctx
    (map (fun member => (MemberInfo.type_info member, 1))
         (map (fun name => MemberInfo.mk name object_type) names))
    (replicate (length names) 10 ++ rest)
  = Ok (replicate (length names) VNone, ctx, rest).
Proof.
  induction names as [|name names IH]; [reflexivity|].
  cbn [map _ElementValueReader MemberInfo.type_info length replicate app].
  change (TypeInfo.binary_type object_type) with BinaryType.OBJECT. cbv iota.
  unfold read_member_reference. rewrite read_cons.
  cbn [mbind result_bind byte0 nth].
  change (handlers 10) with (Some ObjectNullHandler).
  unfold ObjectNullHandler. cbn [mbind result_bind negb].
  rewrite IH. reflexivity.
Qed.

Lemma object_member_of_a_run (ctx : DeserializationContext.t) (name : string)
    (names : list string) (k : Z) (rest : list Z) :
  _ElementValueReader decode timezone_localizer handlers ctx
    (map (fun member => (MemberInfo.type_info member, 1))
         (map (fun name => MemberInfo.mk name object_type) (name :: names)))
    (13 :: k :: rest)
  = match _ElementValueReader decode timezone_localizer handlers ctx
            (map (fun member => (MemberInfo.type_info member, 1))
                 (map (fun name => MemberInfo.mk name object_type) names))
            rest with
    | Ok (vs, ctx', f) => Ok (replicate (Z.to_nat k) VNone ++ vs, ctx', f)
    | Raise e => Raise e
    end.
Proof.
  cbn [map _ElementValueReader MemberInfo.type_info].
  change (TypeInfo.binary_type object_type) with BinaryType.OBJECT. cbv iota.
  unfold read_member_reference. rewrite read_cons.
  cbn [mbind result_bind byte0 nth].
  change (handlers 13) with (Some ObjectNullMultiple256Handler).
  unfold ObjectNullMultiple256Handler.
  rewrite read_cons. cbn [mbind result_bind byte0 nth negb].
  destruct (_ElementValueReader decode timezone_localizer handlers ctx _ rest)
    as [[[vs ctx'] f]|e]; reflexivity.
Qed.

(** X23: a run of nulls ([ObjectNullMultiple256]) among the member
    values of an object stands for one member only.  In a system class
    record whose members are all declared as [Object], a run of [k]
    nulls is taken as the values of the first member, all [k] of them,
    and every further member is read from a record of its own: with one
    [ObjectNull] record for each of them the object is registered with
    [k] nulls and one more null for every further member, which are as
    many values as members only when [k] is one; and when the run was
    meant to cover the further members as well, and the end of the
    message follows, the record that is read for the second member is
    the [MessageEnd] record, which is refused with [UnknownRecord]. *)
Theorem null_run_fills_one_member
    (ctx : DeserializationContext.t) (object_id : Z)
    (name_bytes : list Z) (name : string)
    (first : list Z * string) (others : list (list Z * string))
    (k : Z) (rest : list Z) :
  int32 object_id -> int32 (Z.of_nat (length (first :: others))) ->
  written_as decode (name_bytes, name) ->
  Forall (written_as decode) (first :: others) ->
  0 <= k <= 255 ->
  SystemClassWithMembersAndTypesHandler decode timezone_localizer handlers ctx
    (object_class_head object_id name_bytes (first :: others)
     ++ [13; k] ++ replicate (length others) 10 ++ rest)
  = Ok (Some [VObj (length (DeserializationContext.heap ctx))], true,
        DeserializationContext.mk
          (DeserializationContext.root_id ctx) (DeserializationContext.header_id ctx)
          (DeserializationContext.major_version ctx)
          (DeserializationContext.minor_version ctx)
          (DeserializationContext.library_id_name_mappings ctx)
          (<[object_id := VObj (length (DeserializationContext.heap ctx))]>
             (DeserializationContext.objects ctx))
          (DeserializationContext.heap ctx
           ++ [Instance
                 (ClassInfo.mk object_id name
                    (map (fun m => MemberInfo.mk (snd m) object_type) (first :: others))
                    None)
                 (Some (replicate (Z.to_nat k + length others) VNone))]),
        rest)
  /\ (others <> [] ->
      SystemClassWithMembersAndTypesHandler decode timezone_localizer handlers ctx
        (object_class_head object_id name_bytes (first :: others)
         ++ [13; k] ++ [11] ++ rest)
      = Raise (UnknownRecord 11)).
Proof.
  intros Hid Hn Hname Hms Hk.
  assert (forall rest',
            class_head_result decode ctx
              (object_class_head object_id name_bytes (first :: others) ++ rest')
            = Ok (object_id, name,
                  map (fun name => MemberInfo.mk name object_type)
                      (map snd (first :: others)),
                  rest')) as Hhead.
  { intros rest'. apply object_head_read; assumption. }
  assert (map (fun name => MemberInfo.mk name object_type) (map snd (first :: others))
          = map (fun m => MemberInfo.mk (snd m) object_type) (first :: others)) as Hmap
    by apply map_map.
  split.
  - unfold SystemClassWithMembersAndTypesHandler.
    specialize (Hhead ([13; k] ++ replicate (length others) 10 ++ rest)).
    unfold class_head_result in Hhead.
    destruct (_ClassInfoReader decode _) as [[[[o n] mn] f]|e]; [|discriminate].
    cbn [mbind result_bind] in Hhead |- *.
    destruct (_MemberTypeInfoReader decode ctx mn f) as [[ms f']|e]; [|discriminate].
    cbn [mbind result_bind] in Hhead |- *. injection Hhead as -> -> -> ->.
    unfold register_then_fill, DeserializationContext.alloc,
      DeserializationContext.add_object, element_value_reader, member_elements.
    cbn [ClassInfo.members map snd].
    change ([13; k] ++ replicate (length others) 10 ++ rest)
      with (13 :: k :: (replicate (length others) 10 ++ rest)).
    rewrite (object_member_of_a_run _ (snd first) (map snd others) k).
    rewrite <- (length_map snd others) at 1.
    rewrite object_members_of_nulls. cbn [mbind result_bind].
    unfold DeserializationContext.update.
    cbn [DeserializationContext.heap DeserializationContext.objects
         DeserializationContext.root_id DeserializationContext.header_id
         DeserializationContext.major_version DeserializationContext.minor_version
         DeserializationContext.library_id_name_mappings].
    rewrite lookup_app_r by lia. rewrite Nat.sub_diag. cbn [lookup list_lookup].
    rewrite insert_app_r_alt by lia. rewrite Nat.sub_diag.
    cbn [set_values list_insert map]. rewrite length_map, <- replicate_add.
    rewrite map_map. reflexivity.
  - intros Hothers. unfold SystemClassWithMembersAndTypesHandler.
    specialize (Hhead ([13; k] ++ [11] ++ rest)).
    unfold class_head_result in Hhead.
    destruct (_ClassInfoReader decode _) as [[[[o n] mn] f]|e]; [|discriminate].
    cbn [mbind result_bind] in Hhead |- *.
    destruct (_MemberTypeInfoReader decode ctx mn f) as [[ms f']|e]; [|discriminate].
    cbn [mbind result_bind] in Hhead |- *. injection Hhead as -> -> -> ->.
    unfold register_then_fill, DeserializationContext.alloc,
      DeserializationContext.add_object, element_value_reader, member_elements.
    cbn [ClassInfo.members map snd].
    change ([13; k] ++ [11] ++ rest) with (13 :: k :: 11 :: rest).
    rewrite (object_member_of_a_run _ (snd first) (map snd others) k).
    destruct others as [|second others]; [contradiction|].
    cbn [map _ElementValueReader MemberInfo.type_info].
    change (TypeInfo.binary_type object_type) with BinaryType.OBJECT. cbv iota.
    unfold read_member_reference. rewrite read_cons.
    cbn [mbind result_bind byte0 nth].
    change (handlers 11) with (@None handler).
    reflexivity.
Qed.

End NullRuns.

Lemma null_run_fills_one_member_witness :
  SystemClassWithMembersAndTypesHandler utf8_decode (fun d => d)
    (Binary.member_record_handlers utf8_decode (fun d => d) 1)
    DeserializationContext.init
    (object_class_head 1 [80] [([88], "X"); ([89], "Y")] ++ [13; 2] ++ [11] ++ [])
  = Raise (UnknownRecord 11).
Proof.
  apply (proj2 (null_run_fills_one_member utf8_decode (fun d => d) 0
                  DeserializationContext.init 1 [80] "P" ([88], "X") [([89], "Y")] 2 []
                  ltac:(unfold int32; lia) ltac:(unfold int32; cbn; lia)
                  ltac:(split; [cbn; lia|reflexivity])
                  ltac:(repeat constructor; cbn; lia)
                  ltac:(lia))).
  discriminate.
Defined.

(** ** Arrays with a rank *)

Lemma flat_map_pack_l_length (ls : list Z) :
  Z.of_nat (length (flat_map pack_l ls)) = 4 * Z.of_nat (length ls).
Proof.
  induction ls as [|x ls IH]; [reflexivity|].
  cbn [flat_map]. rewrite length_app, pack_l_length. cbn [length]. lia.
Qed.

Lemma unpack_ls_pack (ls : list Z) (rest : list Z) :
  Forall int32 ls ->
  unpack_ls (length ls) (flat_map pack_l ls ++ rest) = ls.
Proof.
  induction 1 as [|x ls Hx _ IH]; [reflexivity|].
  cbn [length unpack_ls flat_map]. rewrite <- app_assoc.
  rewrite (unpack_pack_l x _ Hx).
  replace (drop 4 (pack_l x ++ flat_map pack_l ls ++ rest))
    with (flat_map pack_l ls ++ rest) by reflexivity.
  rewrite IH. reflexivity.
Qed.

Lemma read_primitive_int32 decode timezone_localizer
    (ctx : DeserializationContext.t) (vs : list Z) (rest : list Z) :
  Forall int32 vs ->
  read_primitive decode timezone_localizer ctx int32_type (Z.of_nat (length vs))
    (flat_map pack_l vs ++ rest)
  = Ok (map VInt vs, ctx, rest).
Proof.
  intros Hvs. unfold read_primitive.
  destruct (Z.of_nat (length vs) <=? 0) eqn:E.
  - apply Z.leb_le in E.
    assert (vs = []) as -> by (destruct vs; [reflexivity|cbn in E; lia]).
    reflexivity.
  - change (TypeInfo.additional_info int32_type) with (APrimitive PrimitiveType.INT32).
    cbv iota. rewrite Nat2Z.id, read_primitive_loop_int32 by exact Hvs. reflexivity.
Qed.

(** The lower bounds as they are written: only for the array types with
    offsets. *)
Definition written_lower_bounds (type : BinaryArrayType.t) (lower_bounds : list Z)
    : list Z :=
  if BinaryArrayType.is_offset type then lower_bounds else [].

(** The lower bounds the decoder reports. *)
Definition read_lower_bounds (type : BinaryArrayType.t) (rank : nat)
    (lower_bounds : list Z) : list Z :=
  if BinaryArrayType.is_offset type then lower_bounds else replicate rank 0.

(** A [BinaryArray] record of [Int32] elements up to the elements. *)
Definition binary_array_head (object_id type_code : Z) (type : BinaryArrayType.t)
    (lengths lower_bounds : list Z) : list Z :=
  pack_l object_id ++ [type_code] ++ pack_l (Z.of_nat (length lengths))
  ++ flat_map pack_l (lengths ++ written_lower_bounds type lower_bounds)
  ++ [0; 8].

Lemma read_nine (object_id type_code rank : Z) (rest : list Z) :
  read (pack_l object_id ++ [type_code] ++ pack_l rank ++ rest) 9
  = Ok (pack_l object_id ++ [type_code] ++ pack_l rank, rest).
Proof.
  pose proof (read_app (pack_l object_id ++ [type_code] ++ pack_l rank) rest) as R.
  rewrite <- !app_assoc in R. exact R.
Qed.

(** X24: a [BinaryArray] record of [Int32] elements is read back whole.
    The record holds the object id, the code of the array type, the
    rank, the lengths of the dimensions, the lower bounds when the array
    type has offsets, the element type and then as many elements as the
    product of the lengths.  It yields a new [Array] with these lengths
    as its shape, the lower bounds written (all zero when none are
    written), and the elements in the order written, registered under
    the object id; the rest of the stream is left unread and nothing
    else in the context changes.  A rank of zero is a [TypeError], the
    product of no lengths; a negative rank and an unknown array type are
    refused with [InvalidStreamError]. *)
Theorem binary_array_round_trip decode timezone_localizer mrh
    (ctx : DeserializationContext.t) (object_id type_code : Z)
    (type : BinaryArrayType.t) (rest : list Z) :
  int32 object_id ->
  (BinaryArrayType.of_Z type_code = Some type ->
   forall length0 lengths lower_bounds vs,
     int32 (Z.of_nat (length (length0 :: lengths))) ->
     Forall int32 (length0 :: lengths) -> Forall int32 lower_bounds ->
     length lower_bounds = length (length0 :: lengths) ->
     Forall int32 vs ->
     fold_left Z.mul lengths length0 = Z.of_nat (length vs) ->
     BinaryArrayHandler decode timezone_localizer mrh ctx
       (binary_array_head object_id type_code type (length0 :: lengths) lower_bounds
        ++ flat_map pack_l vs ++ rest)
     = Ok (Some [VObj (length (DeserializationContext.heap ctx))], true,
           DeserializationContext.mk
             (DeserializationContext.root_id ctx) (DeserializationContext.header_id ctx)
             (DeserializationContext.major_version ctx)
             (DeserializationContext.minor_version ctx)
             (DeserializationContext.library_id_name_mappings ctx)
             (<[object_id := VObj (length (DeserializationContext.heap ctx))]>
                (DeserializationContext.objects ctx))
             (DeserializationContext.heap ctx
              ++ [Array
                    (ArrayInfo.mk object_id (length0 :: lengths)
                       (read_lower_bounds type (length (length0 :: lengths))
                          lower_bounds)
                       (Some type) (Some int32_type))
                    (Some (map VInt vs))]),
           rest))
  /\ (BinaryArrayType.of_Z type_code = Some type ->
      BinaryArrayHandler decode timezone_localizer mrh ctx
        (pack_l object_id ++ [type_code] ++ pack_l 0 ++ [0; 8] ++ rest)
      = Raise (TypeError "reduce() of empty iterable with no initial value"))
  /\ (BinaryArrayType.of_Z type_code = Some type ->
      forall rank, int32 rank -> rank < 0 ->
        BinaryArrayHandler decode timezone_localizer mrh ctx
          (pack_l object_id ++ [type_code] ++ pack_l rank ++ rest)
        = Raise (InvalidStreamError "rank must be a non-negative integer"))
  /\ (BinaryArrayType.of_Z type_code = None ->
      forall rank,
        BinaryArrayHandler decode timezone_localizer mrh ctx
          (pack_l object_id ++ [type_code] ++ pack_l rank ++ rest)
        = Raise (InvalidStreamError "unknown binary array type")).
Proof.
  intros Hid.
  assert (forall rank,
            nth 4 (pack_l object_id ++ [type_code] ++ pack_l rank) 0 = type_code
            /\ drop 5 (pack_l object_id ++ [type_code] ++ pack_l rank)
               = pack_l rank ++ []) as Hshape
    by (intros; split; reflexivity).
  split; [|split; [|split]].
  - intros Hty length0 lengths lower_bounds vs Hrank Hls Hlbs Hlen Hvs Hprod.
    set (ls := length0 :: lengths) in *.
    unfold BinaryArrayHandler, binary_array_head.
    rewrite <- !app_assoc, read_nine. cbn [mbind result_bind].
    destruct (Hshape (Z.of_nat (length ls))) as [-> ->].
    rewrite (unpack_pack_l object_id _ Hid), (unpack_pack_l _ _ Hrank), Hty.
    destruct (Z.of_nat (length ls) <? 0) eqn:E; [apply Z.ltb_lt in E; lia|].
    unfold written_lower_bounds.
    assert ((if BinaryArrayType.is_offset type
             then
               '(b, f) ← read (flat_map pack_l
                                (ls ++ (if BinaryArrayType.is_offset type
                                        then lower_bounds else [])) ++ [0; 8]
                                 ++ flat_map pack_l vs ++ rest)
                              (4 * Z.of_nat (length ls) * 2);
               let lengths_and_lower_bounds :=
                 unpack_ls (Z.to_nat (Z.of_nat (length ls) * 2)) b in
               Ok (take (Z.to_nat (Z.of_nat (length ls))) lengths_and_lower_bounds,
                   drop (Z.to_nat (Z.of_nat (length ls))) lengths_and_lower_bounds, f)
             else
               '(b, f) ← read (flat_map pack_l
                                (ls ++ (if BinaryArrayType.is_offset type
                                        then lower_bounds else [])) ++ [0; 8]
                                 ++ flat_map pack_l vs ++ rest)
                              (4 * Z.of_nat (length ls));
               let lengths_and_lower_bounds :=
                 unpack_ls (Z.to_nat (Z.of_nat (length ls))) b in
               Ok (take (Z.to_nat (Z.of_nat (length ls))) lengths_and_lower_bounds,
                   replicate (Z.to_nat (Z.of_nat (length ls))) 0, f))
            = Ok (ls, read_lower_bounds type (length ls) lower_bounds,
                  [0; 8] ++ flat_map pack_l vs ++ rest)) as Hdims.
    { unfold read_lower_bounds.
      destruct (BinaryArrayType.is_offset type).
      - pose proof (read_app (flat_map pack_l (ls ++ lower_bounds))
                      ([0; 8] ++ flat_map pack_l vs ++ rest)) as R.
        rewrite flat_map_pack_l_length, length_app, Hlen in R.
        replace (4 * Z.of_nat (length ls + length ls)) with (4 * Z.of_nat (length ls) * 2)
          in R by lia.
        rewrite R. cbn [mbind result_bind].
        replace (Z.to_nat (Z.of_nat (length ls) * 2)) with (length (ls ++ lower_bounds))
          by (rewrite length_app, Hlen; lia).
        pose proof (unpack_ls_pack (ls ++ lower_bounds) []) as U.
        rewrite app_nil_r in U. rewrite U by (apply Forall_app; split; assumption).
        rewrite Nat2Z.id, take_app_length, drop_app_length. reflexivity.
      - rewrite app_nil_r.
        pose proof (read_app (flat_map pack_l ls)
                      ([0; 8] ++ flat_map pack_l vs ++ rest)) as R.
        rewrite flat_map_pack_l_length in R. rewrite R. cbn [mbind result_bind].
        rewrite Nat2Z.id.
        pose proof (unpack_ls_pack ls []) as U. rewrite app_nil_r in U.
        rewrite U by assumption. rewrite firstn_all. reflexivity. }
    cbv zeta in Hdims. rewrite Hdims. cbn [mbind result_bind].
    change ([0; 8] ++ flat_map pack_l vs ++ rest)
      with (0 :: 8 :: (flat_map pack_l vs ++ rest)).
    rewrite read_cons.
    cbn [mbind result_bind byte0 nth BinaryType.of_Z read_additional_info].
    unfold read_primitive_type. rewrite read_cons.
    cbn [mbind result_bind byte0 nth PrimitiveType.of_Z].
    unfold DeserializationContext.alloc, DeserializationContext.add_object.
    subst ls. cbn [reduce_mul mbind result_bind]. rewrite Hprod.
    unfold element_value_reader. cbn [_ElementValueReader TypeInfo.binary_type].
    change (TypeInfo.mk BinaryType.PRIMITIVE (APrimitive PrimitiveType.INT32))
      with int32_type.
    rewrite read_primitive_int32 by exact Hvs.
    cbn [mbind result_bind]. rewrite app_nil_r.
    unfold DeserializationContext.update.
    cbn [DeserializationContext.heap DeserializationContext.objects
         DeserializationContext.root_id DeserializationContext.header_id
         DeserializationContext.major_version DeserializationContext.minor_version
         DeserializationContext.library_id_name_mappings].
    rewrite lookup_app_r by lia. rewrite Nat.sub_diag. cbn [lookup list_lookup].
    rewrite insert_app_r_alt by lia. rewrite Nat.sub_diag. reflexivity.
  - intros Hty. unfold BinaryArrayHandler.
    rewrite read_nine. cbn [mbind result_bind].
    destruct (Hshape 0) as [-> ->].
    rewrite (unpack_pack_l object_id _ Hid), Hty.
    rewrite (unpack_pack_l 0 []) by (unfold int32; lia).
    cbn [Z.ltb Z.compare Z.mul Z.to_nat].
    destruct (BinaryArrayType.is_offset type); reflexivity.
  - intros Hty rank Hrank Hneg. unfold BinaryArrayHandler.
    rewrite read_nine. cbn [mbind result_bind].
    destruct (Hshape rank) as [-> ->].
    rewrite Hty, (unpack_pack_l rank _ Hrank).
    destruct (rank <? 0) eqn:E; [reflexivity|apply Z.ltb_ge in E; lia].
  - intros Hty rank. unfold BinaryArrayHandler.
    rewrite read_nine. cbn [mbind result_bind].
    destruct (Hshape rank) as [-> _]. rewrite Hty. reflexivity.
Qed.

Lemma binary_array_round_trip_witness :
  BinaryArrayHandler utf8_decode (fun d => d) (fun _ => None) DeserializationContext.init
    (binary_array_head 7 2 BinaryArrayType.RECTANGULAR [2; 3] [0; 0]
     ++ flat_map pack_l [1; 2; 3; 4; 5; 6] ++ [11])
  = Ok (Some [VObj 0%nat], true,
        DeserializationContext.mk None None None None ∅ (<[7 := VObj 0%nat]> ∅)
          [Array (ArrayInfo.mk 7 [2; 3] [0; 0] (Some BinaryArrayType.RECTANGULAR)
                    (Some int32_type))
             (Some (map VInt [1; 2; 3; 4; 5; 6]))],
        [11]).
Proof.
  apply (proj1 (binary_array_round_trip utf8_decode (fun d => d) (fun _ => None)
                  DeserializationContext.init 7 2 BinaryArrayType.RECTANGULAR [11]
                  ltac:(unfold int32; lia))
           eq_refl 2 [3] [0; 0] [1; 2; 3; 4; 5; 6]);
    try reflexivity; try (repeat constructor; unfold int32; lia).
  unfold int32. cbn. lia.
Defined.
